(** * OBD2 kiosk: the CAN diagnostic scan engine of [src/main.cpp]

    A shallow embedding of the scan engine (baud detection, traffic
    sniffing, ECU discovery, DTC collection and decoding, and the
    orchestrating [performDiagnosticScan]) together with the properties
    its specification states about it, followed by the engine's other
    entry points and by the kiosk state machine that runs the engine
    ([setup], [loop] and what they call), with further properties.

    Integers of the firmware are [Z]; every place where the C code
    truncates or wraps is written out.  The bus controller, the
    millisecond clock, the serial console and the display are one
    explicit [World] value threaded through every function. *)

From Stdlib Require Import ZArith List String Ascii Bool Lia Sorted.
Import ListNotations.
Open Scope Z_scope.

(** ** Arduino [String] helpers used by the decoder *)

Module WString.

(** One digit of [itoa]: [0-9] then lower-case [a-z]. *)
Definition digit_char (d : Z) : ascii :=
  if d <? 10 then ascii_of_N (Z.to_N (48 + d)) else ascii_of_N (Z.to_N (87 + d)).

(** The digit loop of [utoa]: digits are produced least significant first
    and the buffer is reversed, which the accumulator does here.  A 32-bit
    value has at most 32 digits in any base >= 2. *)
Fixpoint utoa_digits (fuel : nat) (n base : Z) (acc : string) : string :=
  match fuel with
  | O => acc
  | S fuel' =>
      let acc' := String (digit_char (n mod base)) acc in
      if n / base =? 0 then acc' else utoa_digits fuel' (n / base) base acc'
  end.

Definition utoa (n base : Z) : string := utoa_digits 32 n base "".

(** [String(int value, base)], that is [itoa]: a sign only in base 10, any
    other base prints the 32-bit two's complement pattern. *)
Definition itoa (value base : Z) : string :=
  if (value <? 0) && (base =? 10)
  then String "-" (utoa (- value) base)
  else utoa (value mod 2 ^ 32) base.

Definition HEX : Z := 16.
Definition DEC : Z := 10.

Definition upper_char (c : ascii) : ascii :=
  let n := N_of_ascii c in
  if ((97 <=? n) && (n <=? 122))%N then ascii_of_N (n - 32) else c.

(** [String::toUpperCase]. *)
Fixpoint toUpperCase (s : string) : string :=
  match s with
  | EmptyString => EmptyString
  | String c s' => String (upper_char c) (toUpperCase s')
  end.

(** [String::substring(left, right)] and [String::substring(left)]. *)
Definition substring2 (s : string) (left right : nat) : string :=
  substring left (right - left) s.

Definition substring1 (s : string) (left : nat) : string :=
  substring left (String.length s - left) s.

End WString.

Import WString.

(** ** Data model *)

(** [twai_message_t]: the fields the engine reads or writes.  [data] is the
    8-byte payload array; only the first [data_length_code] bytes are
    meaningful. *)
Record twai_message := mk_msg {
  identifier : Z;
  data_length_code : Z;
  data : list Z
}.

(** [struct FaultCode]. *)
Record FaultCode := mk_fault {
  code : string;
  system : string;
  isPending : bool;
  ecuId : Z
}.

(** Lines written to the serial console, kept as structured events with
    the values the line prints.  The lines that tell what the engine did
    are kept; the banner printed on entry to a function and the dumps of
    received frames are dropped. *)
Inductive serial_event :=
| SerTrying (baudRate : Z)
| SerActivity (baudRate frameCount : Z)
| SerNoActivity (baudRate : Z)
| SerNoCANActivity
| SerScanTimeout
| SerListening
| SerTrafficSummary (frameCount uniqueIDs : Z)
| SerProbingStart
| SerProbing (ecuAddr n : Z)
| SerActiveECU (ecuAddr id : Z)
| SerProbeTimeout (i : Z)
| SerFoundECUs (n : Z)
| SerScanningDTCs
| SerNoActiveECUs
| SerScanningECU (ecu : Z)
| SerDTCResponse (ecu : Z)
| SerDTCFound (dtcCode : string) (ecu : Z)
| SerScanComplete (ecus codes scanDuration : Z).

(** The state the firmware runs in.

    - [clock] is the free-running millisecond counter behind [millis()].
    - [rx_script] is what the bus will deliver: each [twai_receive] call
      takes the next entry, either a frame with the time in milliseconds
      after which it is there, or a timeout.  The driver returns by the
      time-out of the call: a frame is delivered after the time of its
      entry or after the time-out of the call, whichever is less, and a
      call that times out takes its whole wait (the time of such an entry
      is not used).  Once the script is exhausted the bus is silent and a
      receive call times out.
    - [tx_script] holds the outcomes of the coming [twai_transmit] calls
      ([true] = [ESP_OK]), each with the time the call blocks, cut to its
      time-out of 100 ms in the same way; [drv_script] holds the outcomes
      of the coming driver install/start calls.  An exhausted script
      answers [ESP_OK] at once.
    - [driver] is the bit rate the controller runs at, if it is running.
    - [tx_log], [serial] and [progress] record the frames handed to the
      controller (each with the clock value at the call), the console lines
      and the [updateScanProgress] calls, oldest first.
    - [traffic_drawn] records the frame and identifier counts that
      [listenForCANTraffic] prints on the display at (10, 200), over the
      progress bar, oldest first.
    - Time passes in the calls of the driver and in [delay] only.
    - [detectedCodes], [activeECUs], [vehicleDetected] are the firmware's
      globals of the same names. *)
Record World := mk_world {
  clock : Z;
  rx_script : list (N * option twai_message);
  tx_script : list (N * bool);
  drv_script : list bool;
  driver : option Z;
  tx_log : list (Z * twai_message);
  serial : list serial_event;
  progress : list (string * Z);
  detectedCodes : list FaultCode;
  activeECUs : list Z;
  vehicleDetected : bool;
  traffic_drawn : list (Z * Z)
}.

Definition set_clock (c : Z) (w : World) : World :=
  mk_world c (rx_script w) (tx_script w) (drv_script w) (driver w) (tx_log w)
           (serial w) (progress w) (detectedCodes w) (activeECUs w) (vehicleDetected w)
           (traffic_drawn w).

Definition set_rx_script (s : list (N * option twai_message)) (w : World) : World :=
  mk_world (clock w) s (tx_script w) (drv_script w) (driver w) (tx_log w)
           (serial w) (progress w) (detectedCodes w) (activeECUs w) (vehicleDetected w)
           (traffic_drawn w).

Definition set_tx_script (s : list (N * bool)) (w : World) : World :=
  mk_world (clock w) (rx_script w) s (drv_script w) (driver w) (tx_log w)
           (serial w) (progress w) (detectedCodes w) (activeECUs w) (vehicleDetected w)
           (traffic_drawn w).

Definition set_drv_script (s : list bool) (w : World) : World :=
  mk_world (clock w) (rx_script w) (tx_script w) s (driver w) (tx_log w)
           (serial w) (progress w) (detectedCodes w) (activeECUs w) (vehicleDetected w)
           (traffic_drawn w).

Definition set_driver (d : option Z) (w : World) : World :=
  mk_world (clock w) (rx_script w) (tx_script w) (drv_script w) d (tx_log w)
           (serial w) (progress w) (detectedCodes w) (activeECUs w) (vehicleDetected w)
           (traffic_drawn w).

Definition set_tx_log (l : list (Z * twai_message)) (w : World) : World :=
  mk_world (clock w) (rx_script w) (tx_script w) (drv_script w) (driver w) l
           (serial w) (progress w) (detectedCodes w) (activeECUs w) (vehicleDetected w)
           (traffic_drawn w).

Definition set_serial (l : list serial_event) (w : World) : World :=
  mk_world (clock w) (rx_script w) (tx_script w) (drv_script w) (driver w) (tx_log w)
           l (progress w) (detectedCodes w) (activeECUs w) (vehicleDetected w)
           (traffic_drawn w).

Definition set_progress (l : list (string * Z)) (w : World) : World :=
  mk_world (clock w) (rx_script w) (tx_script w) (drv_script w) (driver w) (tx_log w)
           (serial w) l (detectedCodes w) (activeECUs w) (vehicleDetected w)
           (traffic_drawn w).

Definition set_detectedCodes (l : list FaultCode) (w : World) : World :=
  mk_world (clock w) (rx_script w) (tx_script w) (drv_script w) (driver w) (tx_log w)
           (serial w) (progress w) l (activeECUs w) (vehicleDetected w)
           (traffic_drawn w).

Definition set_activeECUs (l : list Z) (w : World) : World :=
  mk_world (clock w) (rx_script w) (tx_script w) (drv_script w) (driver w) (tx_log w)
           (serial w) (progress w) (detectedCodes w) l (vehicleDetected w)
           (traffic_drawn w).

Definition set_vehicleDetected (b : bool) (w : World) : World :=
  mk_world (clock w) (rx_script w) (tx_script w) (drv_script w) (driver w) (tx_log w)
           (serial w) (progress w) (detectedCodes w) (activeECUs w) b
           (traffic_drawn w).

Definition set_traffic_drawn (l : list (Z * Z)) (w : World) : World :=
  mk_world (clock w) (rx_script w) (tx_script w) (drv_script w) (driver w) (tx_log w)
           (serial w) (progress w) (detectedCodes w) (activeECUs w) (vehicleDetected w) l.

(** [Serial.printf] / [Serial.println]. *)
Definition Serial_print (e : serial_event) (w : World) : World :=
  set_serial (serial w ++ [e]) w.

(** ** The fault-code decoder: [parseAndStoreDTC] *)

(** [data[i]] on the payload array.  The firmware does not check the
    index: a read past the array is undefined in C, and what it finds there
    is not part of this model.  [byte_at] answers 0 for such a read; the
    statements about the bytes that are decoded are made for reads inside
    the array only ([in_bounds] below). *)
Definition byte_at (data : list Z) (i : Z) : Z := nth (Z.to_nat i) data 0.

(** The category chain: ['P'] unless the two top bits say otherwise. *)
Definition dtc_category (byte1 : Z) : ascii :=
  if Z.land byte1 0xC0 =? 0x40 then "C"%char
  else if Z.land byte1 0xC0 =? 0x80 then "B"%char
  else if Z.land byte1 0xC0 =? 0xC0 then "U"%char
  else "P"%char.

(** [((byte1 & 0x3F) << 8) | byte2]. *)
Definition dtc_codeNumber (byte1 byte2 : Z) : Z :=
  Z.lor (Z.shiftl (Z.land byte1 0x3F) 8) byte2.

(** [String(category) + String(codeNumber, HEX)], then [toUpperCase]. *)
Definition dtc_unpadded (byte1 byte2 : Z) : string :=
  toUpperCase (String (dtc_category byte1) (itoa (dtc_codeNumber byte1 byte2) HEX)).

(** The padding loop
    [while (dtcCode.length() < 5) dtcCode = dtcCode.substring(0, 1) + "0" + dtcCode.substring(1);].
    Every round makes the string one character longer, so five rounds
    always reach the exit test ([pad_zeros_exits] below). *)
Fixpoint pad_zeros_loop (fuel : nat) (dtcCode : string) : string :=
  match fuel with
  | O => dtcCode
  | S fuel' =>
      if (String.length dtcCode <? 5)%nat
      then pad_zeros_loop fuel' (substring2 dtcCode 0 1 ++ "0" ++ substring1 dtcCode 1)
      else dtcCode
  end.

Definition pad_zeros (dtcCode : string) : string := pad_zeros_loop 5 dtcCode.

Definition dtc_string (byte1 byte2 : Z) : string := pad_zeros (dtc_unpadded byte1 byte2).

(** The record pushed for one byte pair. *)
Definition make_fault (byte1 byte2 ecu : Z) : FaultCode :=
  {| code := dtc_string byte1 byte2;
     system := "ECU 0x" ++ itoa ecu HEX;
     isPending := false;
     ecuId := ecu |}.

(** One round of the [for] loop body: [None] is the [continue] taken when
    both bytes are zero. *)
Definition decode_pair (byte1 byte2 ecu : Z) : option FaultCode :=
  if (byte1 =? 0) && (byte2 =? 0) then None else Some (make_fault byte1 byte2 ecu).

(** [for (int i = 2; i < len - 1; i += 2)].  [fuel] bounds the number of
    rounds; [parseAndStoreDTC] passes [len], which is never reached. *)
Fixpoint parse_loop (fuel : nat) (data : list Z) (len ecu i : Z) (w : World) : World :=
  match fuel with
  | O => w
  | S fuel' =>
      if i <? len - 1 then
        let byte1 := byte_at data i in
        let byte2 := byte_at data (i + 1) in
        match decode_pair byte1 byte2 ecu with
        | None => parse_loop fuel' data len ecu (i + 2) w
        | Some fault =>
            let w1 := set_detectedCodes (detectedCodes w ++ [fault]) w in
            let w2 := Serial_print (SerDTCFound (code fault) ecu) w1 in
            parse_loop fuel' data len ecu (i + 2) w2
        end
      else w
  end.

Definition parseAndStoreDTC (data : list Z) (len ecu : Z) (w : World) : World :=
  parse_loop (Z.to_nat len) data len ecu 2 w.

(** ** The bus controller, the clock and the display *)

(** [millis()]: an [unsigned long], 32 bits on this target. *)
Definition millis (w : World) : Z := clock w mod 2 ^ 32.

(** [millis() - start], computed on [unsigned long]. *)
Definition since (start : Z) (w : World) : Z := (millis w - start) mod 2 ^ 32.

(** [delay(ms)]. *)
Definition delay (ms : Z) (w : World) : World := set_clock (clock w + ms) w.

(** The time a receive call with the time-out [ms] takes on a script
    entry: the driver returns with the frame once it is there and by the
    time-out at the latest, and with a timeout after the whole wait. *)
Definition call_time (ms : Z) (e : N * option twai_message) : Z :=
  match snd e with
  | Some _ => Z.min (Z.of_N (fst e)) ms
  | None => ms
  end.

(** [twai_receive(&message, pdMS_TO_TICKS(ms))]: [Some] frame is [ESP_OK]. *)
Definition twai_receive (ms : Z) (w : World) : option twai_message * World :=
  match rx_script w with
  | [] => (None, delay ms w)
  | (dt, r) :: rest => (r, set_rx_script rest (delay (call_time ms (dt, r)) w))
  end.

(** The time-out every [twai_transmit] call of the firmware passes. *)
Definition TX_TIMEOUT_MS : Z := 100.

(** The time the next [twai_transmit] call blocks. *)
Definition tx_time (w : World) : Z :=
  match tx_script w with
  | [] => 0
  | (dt, _) :: _ => Z.min (Z.of_N dt) TX_TIMEOUT_MS
  end.

(** [twai_transmit(&msg, pdMS_TO_TICKS(100))]: the frame is logged, with
    the time of the call, whether or not the controller accepts it. *)
Definition twai_transmit (msg : twai_message) (w : World) : bool * World :=
  let w1 := set_tx_log (tx_log w ++ [(clock w, msg)]) w in
  match tx_script w with
  | [] => (true, w1)
  | (dt, ok) :: rest => (ok, set_tx_script rest (delay (tx_time w) w1))
  end.

(** One call into the driver that can fail ([twai_driver_install],
    [twai_start]). *)
Definition driver_call (w : World) : bool * World :=
  match drv_script w with
  | [] => (true, w)
  | ok :: rest => (ok, set_drv_script rest w)
  end.

(** [reinitializeCAN]: stop and uninstall, pick the timing for the rate,
    install, start. *)
Definition reinitializeCAN (baudRate : Z) (w : World) : bool * World :=
  let w0 := set_driver None w in
  if (baudRate =? 1000000) || (baudRate =? 500000) ||
     (baudRate =? 250000) || (baudRate =? 125000)
  then
    let (installed, w1) := driver_call w0 in
    if installed then
      let (started, w2) := driver_call w1 in
      if started then (true, set_driver (Some baudRate) w2) else (false, w2)
    else (false, w1)
  else (false, w0).

(** [updateScanProgress(message, percentage)]: the progress sink.  What it
    draws is a function of its two arguments only, so the call itself is
    recorded. *)
Definition updateScanProgress (message : string) (percentage : Z) (w : World) : World :=
  set_progress (progress w ++ [(message, percentage)]) w.

Definition TOTAL_SCAN_TIMEOUT_MS : Z := 45 * 1000.
Definition BAUD_DETECT_TIMEOUT_MS : Z := 2000.
Definition TRAFFIC_LISTEN_TIMEOUT_MS : Z := 5000.
Definition ECU_PROBE_TIMEOUT_MS : Z := 15000.

Definition OBD2_ADDRESSES : list Z :=
  [0x7E0; 0x7E1; 0x7E2; 0x7E3; 0x7E4; 0x7E5; 0x7E6; 0x7E7;
   0x7E8; 0x7E9; 0x7EA; 0x7EB; 0x7EC; 0x7ED; 0x7EE; 0x7EF].

Definition NUM_ECUS : Z := Z.of_nat (List.length OBD2_ADDRESSES).

(** The request frame both active phases build: 8 bytes,
    [length, mode, pid, 0, 0, 0, 0, 0]. *)
Definition obd_request (id len mode pid : Z) : twai_message :=
  {| identifier := id; data_length_code := 8;
     data := [len; mode; pid; 0; 0; 0; 0; 0] |}.

(** ** The polling loop

    All four receive loops of the engine have the shape
    [[
      while (millis() - start < window) {
        if (twai_receive(&message, pdMS_TO_TICKS(ms)) == ESP_OK) { body }
      }
    ]]
    where [body] may update loop variables (the state [S]) and may leave
    the loop ([inr], a [break] or [return]).  [fuel] bounds the number of
    rounds; [None] means the bound was hit before the loop ended. *)
Fixpoint receive_while {S R : Type} (fuel : nat) (window ms start : Z)
    (body : twai_message -> S -> World -> (S + R) * World)
    (s : S) (w : World) : option ((S + R) * World) :=
  match fuel with
  | O => None
  | Datatypes.S fuel' =>
      if since start w <? window then
        match twai_receive ms w with
        | (Some message, w1) =>
            match body message s w1 with
            | (inl s', w2) => receive_while fuel' window ms start body s' w2
            | (inr r, w2) => Some (inr r, w2)
            end
        | (None, w1) => receive_while fuel' window ms start body s w1
        end
      else Some (inl s, w)
  end.

(** ** Baud detection: [autoDetectCANBaudRate] *)

Definition baudRates : list Z := [500000; 250000; 125000; 1000000].

(** Body of the listening loop: count the frame, return the rate at the
    third one. *)
Definition count_frame (baudRate : Z) (message : twai_message) (frameCount : Z)
    (w : World) : (Z + Z) * World :=
  let frameCount' := frameCount + 1 in
  if frameCount' >=? 3
  then (inr baudRate, Serial_print (SerActivity baudRate frameCount') w)
  else (inl frameCount', w).

(** The [for] loop over the candidate rates. *)
Fixpoint try_baudRates (fuel : nat) (rates : list Z) (w : World) : option (Z * World) :=
  match rates with
  | [] => Some (0, w)
  | baudRate :: rest =>
      let w0 := Serial_print (SerTrying baudRate) w in
      match reinitializeCAN baudRate w0 with
      | (true, w1) =>
          let startTime := millis w1 in
          match receive_while fuel BAUD_DETECT_TIMEOUT_MS 100 startTime
                              (count_frame baudRate) 0 w1 with
          | None => None
          | Some (inr detected, w2) => Some (detected, w2)
          | Some (inl _, w2) =>
              try_baudRates fuel rest (Serial_print (SerNoActivity baudRate) w2)
          end
      | (false, w1) => try_baudRates fuel rest w1
      end
  end.

Definition autoDetectCANBaudRate (fuel : nat) (w : World) : option (Z * World) :=
  try_baudRates fuel baudRates w.

(** ** Traffic sniffing: [listenForCANTraffic] *)

(** The drawing of every tenth frame:
    [tft.fillRect(0, 200, SCREEN_WIDTH, 20, TFT_BLACK)] and
    [tft.printf("Frames: %d IDs: %d", ...)] at (10, 200), which paint over
    the progress bar of [updateScanProgress] and its percentage. *)
Definition draw_traffic (frameCount uniqueIDs : Z) (w : World) : World :=
  set_traffic_drawn (traffic_drawn w ++ [(frameCount, uniqueIDs)]) w.

(** Body of the sniffing loop: count the frame, note its identifier if it
    is new, and draw the counts at every tenth frame. *)
Definition tally_frame (message : twai_message) (st : Z * list Z) (w : World)
    : (Z * list Z + Empty_set) * World :=
  let (frameCount, uniqueIDs) := st in
  let frameCount' := frameCount + 1 in
  let found := existsb (Z.eqb (identifier message)) uniqueIDs in
  let uniqueIDs' := if found then uniqueIDs else uniqueIDs ++ [identifier message] in
  (inl (frameCount', uniqueIDs'),
   if Z.rem frameCount' 10 =? 0
   then draw_traffic frameCount' (Z.of_nat (List.length uniqueIDs')) w
   else w).

Definition listenForCANTraffic (fuel : nat) (duration_ms : Z) (w : World) : option World :=
  let startTime := millis w in
  match receive_while fuel duration_ms 50 startTime tally_frame (0, []) w with
  | None => None
  | Some (inl (frameCount, uniqueIDs), w1) =>
      Some (Serial_print (SerTrafficSummary frameCount (Z.of_nat (List.length uniqueIDs))) w1)
  | Some (inr e, _) => match e with end
  end.

(** ** ECU discovery: [probeOBD2ECUsWithTimeout] *)

(** The test on a received frame while waiting for an answer to [ecuAddr]. *)
Definition qualifies (ecuAddr id : Z) : bool :=
  (id =? ecuAddr + 8) || ((0x7E8 <=? id) && (id <=? 0x7EF)).

(** Body of the wait loop: a qualifying frame is pushed on [activeECUs]
    (a vector of [uint16_t]) and ends the wait. *)
Definition probe_response (ecuAddr : Z) (response : twai_message) (_ : unit)
    (w : World) : (unit + unit) * World :=
  if qualifies ecuAddr (identifier response) then
    let w1 := set_activeECUs (activeECUs w ++ [identifier response mod 2 ^ 16]) w in
    (inr tt, Serial_print (SerActiveECU ecuAddr (identifier response)) w1)
  else (inl tt, w).

(** One round of the [for] loop, after its timeout test. *)
Definition probe_address (fuel : nat) (ecuAddr i : Z) (w : World) : option World :=
  let w0 := Serial_print (SerProbing ecuAddr (i + 1)) w in
  let w1 :=
    if Z.rem i 4 =? 0
    then updateScanProgress
           ("Checking ECU " ++ itoa (i + 1) DEC ++ "/" ++ itoa NUM_ECUS DEC)
           (50 + Z.quot (i * 25) NUM_ECUS) w0
    else w0 in
  let (sent, w2) := twai_transmit (obd_request ecuAddr 0x02 0x01 0x00) w1 in
  let waited :=
    if sent then
      match receive_while fuel 800 50 (millis w2) (probe_response ecuAddr) tt w2 with
      | None => None
      | Some (_, w3) => Some w3
      end
    else Some w2 in
  match waited with
  | None => None
  | Some w3 => Some (delay 50 w3)
  end.

(** [for (int i = 0; i < NUM_ECUS; i++)], on the addresses still to probe. *)
Fixpoint probe_loop (fuel : nat) (timeout_ms startTime : Z) (addrs : list Z) (i : Z)
    (w : World) : option World :=
  match addrs with
  | [] => Some w
  | ecuAddr :: rest =>
      if since startTime w >? timeout_ms
      then Some (Serial_print (SerProbeTimeout i) w)
      else
        match probe_address fuel ecuAddr i w with
        | None => None
        | Some w1 => probe_loop fuel timeout_ms startTime rest (i + 1) w1
        end
  end.

Definition probeOBD2ECUsWithTimeout (fuel : nat) (timeout_ms : Z) (w : World) : option World :=
  let startTime := millis w in
  match probe_loop fuel timeout_ms startTime OBD2_ADDRESSES 0 w with
  | None => None
  | Some w1 => Some (Serial_print (SerFoundECUs (Z.of_nat (List.length (activeECUs w1)))) w1)
  end.

(** ** DTC collection: [scanAllDTCs] *)

(** Body of the wait loop: the first frame carrying the ECU's identifier
    is decoded if it is longer than two bytes, and ends the wait. *)
Definition dtc_response (ecu : Z) (response : twai_message) (_ : unit)
    (w : World) : (unit + unit) * World :=
  if identifier response =? ecu then
    let w1 := Serial_print (SerDTCResponse ecu) w in
    (inr tt,
     if data_length_code response >? 2
     then parseAndStoreDTC (data response) (data_length_code response) ecu w1
     else w1)
  else (inl tt, w).

(** The request identifier computed from a response identifier. *)
Definition request_id (ecu : Z) : Z :=
  if (0x7E8 <=? ecu) && (ecu <=? 0x7EF) then (ecu - 8) mod 2 ^ 16 else ecu.

(** One round of the range-[for] over [activeECUs]. *)
Definition scan_ecu (fuel : nat) (ecu : Z) (w : World) : option World :=
  let w0 := Serial_print (SerScanningECU ecu) w in
  let (sent, w1) := twai_transmit (obd_request (request_id ecu) 0x01 0x03 0x00) w0 in
  let waited :=
    if sent then
      match receive_while fuel 1000 50 (millis w1) (dtc_response ecu) tt w1 with
      | None => None
      | Some (_, w2) => Some w2
      end
    else Some w1 in
  match waited with
  | None => None
  | Some w2 => Some (delay 100 w2)
  end.

Fixpoint scan_ecus (fuel : nat) (ecus : list Z) (w : World) : option World :=
  match ecus with
  | [] => Some w
  | ecu :: rest =>
      match scan_ecu fuel ecu w with
      | None => None
      | Some w1 => scan_ecus fuel rest w1
      end
  end.

Definition scanAllDTCs (fuel : nat) (w : World) : option World :=
  if (List.length (activeECUs w) =? 0)%nat
  then Some (Serial_print SerNoActiveECUs w)
  else scan_ecus fuel (activeECUs w) w.

(** ** The orchestrator: [performDiagnosticScan] *)

(** The scan from its second deadline test on, after sniffing and the
    report at 50: discovery, collection and the closing report. *)
Definition scan_after_sniffing (fuel : nat) (scanStartTime : Z) (w6 : World) : option World :=
  if since scanStartTime w6 >? TOTAL_SCAN_TIMEOUT_MS then
    Some (delay 2000
           (updateScanProgress "Scan timeout" 100 (Serial_print SerScanTimeout w6)))
  else
    match probeOBD2ECUsWithTimeout fuel ECU_PROBE_TIMEOUT_MS
            (Serial_print SerProbingStart w6) with
    | None => None
    | Some w7 =>
        let w8 := updateScanProgress "Checking systems..." 75 w7 in
        match scanAllDTCs fuel (Serial_print SerScanningDTCs w8) with
        | None => None
        | Some w9 =>
            let w10 := updateScanProgress "Scan complete!" 100 w9 in
            let scanDuration := since scanStartTime w10 in
            Some (Serial_print
                    (SerScanComplete (Z.of_nat (List.length (activeECUs w10)))
                                     (Z.of_nat (List.length (detectedCodes w10)))
                                     scanDuration)
                    w10)
        end
    end.

(** The scan from its first deadline test on, after a rate was detected:
    sniffing, the report at 50 and the rest. *)
Definition scan_after_detection (fuel : nat) (scanStartTime : Z) (w2 : World) : option World :=
  if since scanStartTime w2 >? TOTAL_SCAN_TIMEOUT_MS then
    Some (delay 2000
           (updateScanProgress "Scan timeout" 100 (Serial_print SerScanTimeout w2)))
  else
    let w3 := set_vehicleDetected true w2 in
    let w4 := updateScanProgress "Vehicle found! Analyzing..." 25 w3 in
    match listenForCANTraffic fuel TRAFFIC_LISTEN_TIMEOUT_MS (Serial_print SerListening w4) with
    | None => None
    | Some w5 =>
        scan_after_sniffing fuel scanStartTime
          (updateScanProgress "Reading vehicle data..." 50 w5)
    end.

Definition performDiagnosticScan (fuel : nat) (w : World) : option World :=
  let scanStartTime := millis w in
  let w0 := set_vehicleDetected false (set_activeECUs [] (set_detectedCodes [] w)) in
  let w1 := updateScanProgress "Detecting vehicle..." 0 w0 in
  match autoDetectCANBaudRate fuel w1 with
  | None => None
  | Some (detectedBaudRate, w2) =>
      if detectedBaudRate =? 0 then
        Some (delay 3000
               (updateScanProgress "No vehicle detected" 100
                 (Serial_print SerNoCANActivity w2)))
      else scan_after_detection fuel scanStartTime w2
  end.

(** A world with a silent bus and nothing logged, to build test worlds from. *)
Definition quiet_world : World :=
  {| clock := 0; rx_script := []; tx_script := []; drv_script := [];
     driver := None; tx_log := []; serial := []; progress := [];
     detectedCodes := []; activeECUs := []; vehicleDetected := false;
     traffic_drawn := [] |}.

(** Rounds that are always enough for a world: each round of a receive
    loop either takes a script entry or waits its full 50 or 100 ms, and
    no window is longer than 5 s. *)
Definition enough_fuel (w : World) : nat := List.length (rx_script w) + 102.

(** ** Vocabulary of the statements

    The definitions below are not taken from the firmware: they say what
    the properties talk about (what a byte is, which byte pairs a payload
    holds, how a rendered code reads back, what conventional padding is). *)

Definition is_byte (b : Z) : Prop := 0 <= b < 256.

Definition all_bytes : list Z := map Z.of_nat (seq 0 256).

(** The byte pairs of a payload: [n] pairs from offset [i] on. *)
Fixpoint pairs_from (n : nat) (data : list Z) (i : Z) : list (Z * Z) :=
  match n with
  | O => []
  | S n' => (byte_at data i, byte_at data (i + 1)) :: pairs_from n' data (i + 2)
  end.

(** The complete pairs of a payload of [len] bytes, from offset 2. *)
Definition pairs_of (data : list Z) (len : Z) : list (Z * Z) :=
  pairs_from (Z.to_nat ((len - 2) / 2)) data 2.

Definition nonzero_pair (p : Z * Z) : bool := negb ((fst p =? 0) && (snd p =? 0)).

(** Category letter for the value of the two top bits. *)
Definition category_of_bits (top : Z) : ascii :=
  match top with
  | 0 => "P"%char
  | 1 => "C"%char
  | 2 => "B"%char
  | _ => "U"%char
  end.

(** Reading upper-case hexadecimal. *)
Definition hex_digit_value (c : ascii) : option Z :=
  let n := Z.of_N (N_of_ascii c) in
  if (48 <=? n) && (n <=? 57) then Some (n - 48)
  else if (65 <=? n) && (n <=? 70) then Some (n - 55)
  else None.

Fixpoint hex_value_acc (s : string) (acc : Z) : option Z :=
  match s with
  | EmptyString => Some acc
  | String c s' =>
      match hex_digit_value c with
      | Some d => hex_value_acc s' (16 * acc + d)
      | None => None
      end
  end.

Definition hex_value (s : string) : option Z :=
  match s with
  | EmptyString => None
  | _ => hex_value_acc s 0
  end.

(** [s] is the category letter of [b1] followed by upper-case hexadecimal
    digits that denote [((b1 & 0x3F) << 8) | b2]. *)
Definition renders (b1 b2 : Z) (s : string) : Prop :=
  exists digits,
    s = String (category_of_bits (Z.shiftr b1 6)) digits /\
    hex_value digits = Some (Z.lor (Z.shiftl (Z.land b1 0x3F) 8) b2).

Definition renders_b (b1 b2 : Z) (s : string) : bool :=
  match s with
  | EmptyString => false
  | String c digits =>
      Ascii.eqb c (category_of_bits (Z.shiftr b1 6)) &&
      match hex_value digits with
      | Some n => n =? Z.lor (Z.shiftl (Z.land b1 0x3F) 8) b2
      | None => false
      end
  end.

(** Conventional rendering: the letter, then the value as exactly four
    upper-case hexadecimal digits, zero-padded on the left. *)
Definition upper_hex_digit (d : Z) : ascii :=
  if d <? 10 then ascii_of_N (Z.to_N (48 + d)) else ascii_of_N (Z.to_N (55 + d)).

Definition hex4 (n : Z) : string :=
  String (upper_hex_digit (n / 4096 mod 16))
    (String (upper_hex_digit (n / 256 mod 16))
      (String (upper_hex_digit (n / 16 mod 16))
        (String (upper_hex_digit (n mod 16)) EmptyString))).

Definition conventional_code (b1 b2 : Z) : string :=
  String (category_of_bits (Z.shiftr b1 6)) (hex4 (b1 mod 64 * 256 + b2)).

(** [w'] differs from [w] in the clock and the receive script at most. *)
Definition same_state (w w' : World) : Prop :=
  set_clock 0 (set_rx_script [] w) = set_clock 0 (set_rx_script [] w').

(** Frames among script entries, and the time the entries take when they
    are received by calls with the time-out [ms]. *)
Definition is_frame (e : N * option twai_message) : bool :=
  match snd e with
  | Some _ => true
  | None => false
  end.

Definition frames_in (l : list (N * option twai_message)) : nat :=
  List.length (filter is_frame l).

Definition duration (ms : Z) (l : list (N * option twai_message)) : Z :=
  fold_right (fun e acc => call_time ms e + acc) 0 l.

(** From [w1] the bus delivered a third frame, after which the world is
    [w2]: the script entries up to that frame are used up, nothing after
    it; the receive call that took the frame began less than 2000 ms after
    [w1]; and no time passed beyond what the receive calls took. *)
Definition heard_three (w1 w2 : World) : Prop :=
  exists pre dt m,
    rx_script w1 = (pre ++ (dt, Some m) :: rx_script w2)%list /\
    frames_in pre = 2%nat /\
    duration 100 pre < 2000 /\
    clock w2 = clock w1 + duration 100 pre + call_time 100 (dt, Some m) /\
    same_state w1 w2.

(** From [w1] the listening window ran out in [w2] with fewer than three
    frames delivered. *)
Definition window_silent (w1 w2 : World) : Prop :=
  exists pre,
    rx_script w1 = (pre ++ rx_script w2)%list /\
    (frames_in pre < 3)%nat /\
    2000 <= since (millis w1) w2 /\
    same_state w1 w2.

(** The answers the driver gives next to [twai_driver_install] and to the
    [twai_start] that follows it; a script that has run out answers
    [ESP_OK]. *)
Definition install_answer (w : World) : bool := hd true (drv_script w).
Definition start_answer (w : World) : bool := hd true (tl (drv_script w)).

(** [w1] differs from [w] in the controller and in the driver answers still
    to come at most: clock, receive script, logs and results are the same. *)
Definition same_bus (w w1 : World) : Prop :=
  set_driver None (set_drv_script [] w1) = set_driver None (set_drv_script [] w).

(** The bus has been reconfigured for the rate [b]: the driver accepted
    the installation and the start, and the controller now runs at [b]. *)
Definition reconfigured (b : Z) (w w1 : World) : Prop :=
  install_answer w = true /\ start_answer w = true /\
  driver w1 = Some b /\
  drv_script w1 = tl (tl (drv_script w)) /\
  same_bus w w1.

(** Reconfiguring has failed: the driver refused the installation, or
    accepted it and refused the start; the controller is not running. *)
Definition reconfigure_failed (w w1 : World) : Prop :=
  (install_answer w = false /\ drv_script w1 = tl (drv_script w) \/
   install_answer w = true /\ start_answer w = false /\
   drv_script w1 = tl (tl (drv_script w))) /\
  driver w1 = None /\
  same_bus w w1.

(** A run of baud detection over the candidates [rates] from [w], with
    result [r] in world [w']: the first candidate is announced and the bus
    reconfigured for it; if that fails the run goes on with the next
    candidate, nothing received and no time spent; if a third frame is
    heard the candidate is the result, at once; if the window runs out the
    run goes on with the next candidate; with no candidate left the result
    is 0. *)
Fixpoint detect_run (rates : list Z) (w : World) (r : Z) (w' : World) : Prop :=
  match rates with
  | [] => r = 0 /\ w' = w
  | b :: rest =>
      let w0 := Serial_print (SerTrying b) w in
      (exists w1, reconfigure_failed w0 w1 /\ detect_run rest w1 r w') \/
      (exists w1, reconfigured b w0 w1 /\
         ((exists w2, heard_three w1 w2 /\ r = b /\
                      w' = Serial_print (SerActivity b 3) w2) \/
          (exists w2, window_silent w1 w2 /\
                      detect_run rest (Serial_print (SerNoActivity b) w2) r w')))
  end.

(** What a discovery log says: the identifiers found, the addresses they
    were found at, and the shape of the log of probing [addrs] in order
    from index [i], each address once with at most one answer. *)
Definition found_ids (evs : list serial_event) : list Z :=
  flat_map (fun e => match e with SerActiveECU _ id => [id] | _ => [] end) evs.

Definition found_addrs (evs : list serial_event) : list Z :=
  flat_map (fun e => match e with SerActiveECU a _ => [a] | _ => [] end) evs.

Inductive probe_trace : list Z -> Z -> list serial_event -> Prop :=
| pt_done i : probe_trace [] i []
| pt_silent a rest i evs :
    probe_trace rest (i + 1) evs ->
    probe_trace (a :: rest) i (SerProbing a (i + 1) :: evs)
| pt_found a id rest i evs :
    qualifies a id = true ->
    probe_trace rest (i + 1) evs ->
    probe_trace (a :: rest) i (SerProbing a (i + 1) :: SerActiveECU a id :: evs).

(** The request frame of a discovery probe. *)
Definition probe_request (ecuAddr : Z) : twai_message := obd_request ecuAddr 0x02 0x01 0x00.

(** A console line other than the "active ECU found" line. *)
Definition not_found (e : serial_event) : Prop :=
  match e with
  | SerActiveECU _ _ => False
  | _ => True
  end.

(** [w'] comes after [w] by steps that leave the progress sink and the
    list of active ECUs alone, add console lines other than "active ECU
    found", and may use up receive script. *)
Definition backstage (w w' : World) : Prop :=
  progress w' = progress w /\ activeECUs w' = activeECUs w /\
  (exists evs, serial w' = (serial w ++ evs)%list /\ Forall not_found evs) /\
  (List.length (rx_script w') <= List.length (rx_script w))%nat.

(** An address whose answer identifier [a + 8] fits the 16 bits of an
    [activeECUs] cell. *)
Definition small_addr (a : Z) : Prop := 0 <= a /\ a + 8 < 2 ^ 16.

(** Script entries that hold no frame of the ECU [ecu]. *)
Definition no_answer (ecu : Z) (pre : list (N * option twai_message)) : Prop :=
  Forall (fun e => match snd e with
                   | Some m => identifier m <> ecu
                   | None => True
                   end) pre.

(** Between [w] and [w'] the bus delivered no frame of [ecu]. *)
Definition unanswered (ecu : Z) (w w' : World) : Prop :=
  exists pre, rx_script w = (pre ++ rx_script w')%list /\ no_answer ecu pre.

(** Between [w] and [w'] the bus delivered [m] as the first frame of [ecu],
    and it was the last entry taken: what follows it in the script is still
    there in [w']. *)
Definition first_answer (ecu : Z) (w w' : World) (m : twai_message) : Prop :=
  exists pre dt,
    rx_script w = (pre ++ (dt, Some m) :: rx_script w')%list /\
    no_answer ecu pre /\ identifier m = ecu.

(** The codes held by a payload of [len] bytes. *)
Definition payload_codes (data : list Z) (len ecu : Z) : list FaultCode :=
  flat_map (fun p => match decode_pair (fst p) (snd p) ecu with
                     | Some f => [f]
                     | None => []
                     end) (pairs_of data len).

(** A script whose frames carry at most 8 payload bytes. *)
Definition wf_script (l : list (N * option twai_message)) : Prop :=
  Forall (fun e => match snd e with
                   | Some m => data_length_code m <= 8
                   | None => True
                   end) l.

(** The world after the wait loop has handled the answer [m] in [w]. *)
Definition answered_world (ecu : Z) (m : twai_message) (w : World) : World :=
  if data_length_code m >? 2
  then parseAndStoreDTC (data m) (data_length_code m) ecu (Serial_print (SerDTCResponse ecu) w)
  else Serial_print (SerDTCResponse ecu) w.

(** ** Sample buses

    Worlds to run the engine on.  Every frame carries 8 payload bytes. *)

Definition frame (id : Z) (payload : list Z) : twai_message :=
  {| identifier := id; data_length_code := 8; data := payload |}.

(** [n] receive calls that time out after [ms] milliseconds each. *)
Definition silence (n : nat) (ms : N) : list (N * option twai_message) :=
  repeat (ms, None) n.

(** A vehicle at 500 kbit/s: three frames 10 ms apart let baud detection
    succeed, then the bus stays silent for the 5 s of sniffing. *)
Definition vehicle_prelude : list (N * option twai_message) :=
  ([(10%N, Some (frame 0x100 [1; 2; 3; 4; 5; 6; 7; 8]));
    (10%N, Some (frame 0x100 [1; 2; 3; 4; 5; 6; 7; 8]));
    (10%N, Some (frame 0x100 [1; 2; 3; 4; 5; 6; 7; 8]))] ++ silence 100 50)%list.

(** The answer of an ECU to the supported-PID query, and its answer to the
    stored-codes query with three codes. *)
Definition pid_answer (id : Z) : twai_message :=
  frame id [0x06; 0x41; 0x00; 0xBE; 0x1F; 0xA8; 0x13; 0x00].

Definition dtc_answer (id : Z) : twai_message :=
  frame id [0x06; 0x43; 0x01; 0x23; 0x02; 0x34; 0x03; 0x45].

(** The ECU [0x7E8] answers the probe of [0x7E0]; a second frame of it
    arrives while [0x7E1] is probed; the other 14 probes get no answer;
    then the ECU answers each stored-codes query. *)
Definition repeated_ecu_world : World :=
  set_rx_script
    (vehicle_prelude ++
     [(20%N, Some (pid_answer 0x7E8)); (20%N, Some (pid_answer 0x7E8))] ++
     silence (14 * 16) 50 ++
     [(20%N, Some (dtc_answer 0x7E8)); (20%N, Some (dtc_answer 0x7E8))])%list
    quiet_world.

(** While [0x7E0] is probed the frame that arrives is one of [0x7E9]. *)
Definition cross_answer_world : World :=
  set_rx_script [(20%N, Some (pid_answer 0x7E9))] quiet_world.

(** A vehicle on which no ECU answers. *)
Definition silent_vehicle_world : World :=
  set_rx_script vehicle_prelude quiet_world.

(** A vehicle at 125 kbit/s behind a driver that refuses its first
    installation: nothing is heard in the 2 s at 250 kbit/s, then three
    frames arrive. *)
Definition slow_vehicle_world : World :=
  set_drv_script [false] (set_rx_script (silence 20 100 ++ vehicle_prelude)%list quiet_world).

(** A bus with one answer to a stored-codes query of [0x7E8]. *)
Definition dtc_world : World :=
  set_rx_script [(20%N, Some (dtc_answer 0x7E8))] quiet_world.

(** A vehicle whose ECU [0x7E8] answers the probe of [0x7E0]; the other 15
    probes get no answer; the ECU then reports the one code P0123. *)
Definition one_code_world : World :=
  set_rx_script
    (vehicle_prelude ++
     [(20%N, Some (pid_answer 0x7E8))] ++ silence (15 * 16) 50 ++
     [(20%N, Some (frame 0x7E8 [0x05; 0x43; 0x01; 0x23; 0x00; 0x00; 0x00; 0x00]))])%list
    quiet_world.

(** ** The engine's other entry points

    [probeOBD2ECUs], [testECUCommunication] and [scanForDTCs] are the
    single-shot relatives of the scan phases.  The two query functions
    leave [msg.flags] unset; frames are modelled without their flags. *)

(** One round of [probeOBD2ECUs]: no deadline test, no progress report, a
    1 s wait and a 100 ms pause.  The body of the wait loop is that of the
    deadline version. *)
Definition probe_address_plain (fuel : nat) (ecuAddr i : Z) (w : World) : option World :=
  let w0 := Serial_print (SerProbing ecuAddr (i + 1)) w in
  let (sent, w1) := twai_transmit (obd_request ecuAddr 0x02 0x01 0x00) w0 in
  let waited :=
    if sent then
      match receive_while fuel 1000 50 (millis w1) (probe_response ecuAddr) tt w1 with
      | None => None
      | Some (_, w2) => Some w2
      end
    else Some w1 in
  match waited with
  | None => None
  | Some w2 => Some (delay 100 w2)
  end.

Fixpoint probe_loop_plain (fuel : nat) (addrs : list Z) (i : Z) (w : World) : option World :=
  match addrs with
  | [] => Some w
  | ecuAddr :: rest =>
      match probe_address_plain fuel ecuAddr i w with
      | None => None
      | Some w1 => probe_loop_plain fuel rest (i + 1) w1
      end
  end.

Definition probeOBD2ECUs (fuel : nat) (w : World) : option World :=
  match probe_loop_plain fuel OBD2_ADDRESSES 0 w with
  | None => None
  | Some w1 => Some (Serial_print (SerFoundECUs (Z.of_nat (List.length (activeECUs w1)))) w1)
  end.

(** [testECUCommunication]: one query, one receive call of 500 ms. *)
Definition testECUCommunication (ecu : Z) (w : World) : bool * World :=
  let (sent, w1) := twai_transmit (obd_request ecu 0x02 0x01 0x00) w in
  if sent then
    match twai_receive 500 w1 with
    | (Some response, w2) => (identifier response =? ecu + 8, w2)
    | (None, w2) => (false, w2)
    end
  else (false, w1).

(** [scanForDTCs]: one stored-codes query, one receive call of 500 ms; the
    frame received is decoded whatever its identifier. *)
Definition scanForDTCs (ecu : Z) (w : World) : World :=
  let (sent, w1) := twai_transmit (obd_request ecu 0x01 0x03 0x00) w in
  if sent then
    match twai_receive 500 w1 with
    | (Some response, w2) =>
        if data_length_code response >? 2
        then parseAndStoreDTC (data response) (data_length_code response) ecu w2
        else w2
    | (None, w2) => w2
    end
  else w1.

(** The progress bar of [updateScanProgress]: the width filled for a
    percentage, in a bar of [SCREEN_WIDTH - 40] pixels. *)
Definition SCREEN_WIDTH : Z := 240.
Definition SCREEN_HEIGHT : Z := 320.

Definition progress_barWidth : Z := SCREEN_WIDTH - 40.

Definition progress_fillWidth (percentage : Z) : Z :=
  Z.quot (progress_barWidth * percentage) 100.

(** ** More vocabulary *)

(** The identifiers of the frames among script entries, in order. *)
Definition frame_ids (l : list (N * option twai_message)) : list Z :=
  flat_map (fun e => match snd e with
                     | Some m => [identifier m]
                     | None => []
                     end) l.

(** A frame whose length code stays within its payload array, so that
    the bytes the firmware reads for it are bytes of the array; and a
    script of such frames. *)
Definition in_bounds (m : twai_message) : Prop :=
  data_length_code m <= Z.of_nat (List.length (data m)).

Definition payload_in_bounds (l : list (N * option twai_message)) : Prop :=
  Forall (fun e => match snd e with
                   | Some m => in_bounds m
                   | None => True
                   end) l.

(** The number of distinct identifiers in a list. *)
Definition distinct (ids : list Z) : nat := List.length (nodup Z.eq_dec ids).

(** What sniffing draws over the progress bar while it takes frames with
    the identifiers [ids]: at every tenth frame, the number of frames so
    far and the number of distinct identifiers among them. *)
Definition traffic_draws (ids : list Z) : list (Z * Z) :=
  map (fun k => (Z.of_nat k, Z.of_nat (distinct (firstn k ids))))
      (filter (fun k => (k mod 10 =? 0)%nat) (seq 1 (List.length ids))).

(** The controller accepts the next frame handed to it. *)
Definition tx_ready (w : World) : bool := hd true (map snd (tx_script w)).

(** Reading a stored code back into the two bytes it was made from: the
    letter gives the two top bits of the first byte, the digits the other
    fourteen bits. *)
Definition bits_of_category (c : ascii) : option Z :=
  if Ascii.eqb c "P" then Some 0
  else if Ascii.eqb c "C" then Some 1
  else if Ascii.eqb c "B" then Some 2
  else if Ascii.eqb c "U" then Some 3
  else None.

Definition dtc_bytes (s : string) : option (Z * Z) :=
  match s with
  | EmptyString => None
  | String c digits =>
      match bits_of_category c, hex_value digits with
      | Some top, Some n => Some (top * 64 + n / 256, n mod 256)
      | _, _ => None
      end
  end.

(** The timing tables [reinitializeCAN] knows. *)
Definition supported_rates : list Z := [1000000; 500000; 250000; 125000].


(** The results of a scan other than the list of active ECUs are kept from
    [w] to [w']. *)
Definition results_kept (w w' : World) : Prop :=
  detectedCodes w' = detectedCodes w /\ vehicleDetected w' = vehicleDetected w.

(** The progress report of the discovery round of index [i], made when
    [i % 4 == 0]. *)
Definition probe_report (i : Z) : string * Z :=
  (("Checking ECU " ++ itoa (i + 1) DEC ++ "/" ++ itoa NUM_ECUS DEC)%string,
   50 + Z.quot (i * 25) NUM_ECUS).

(** The reports of [k] rounds from index [i] on. *)
Fixpoint probe_reports (i : Z) (k : nat) : list (string * Z) :=
  match k with
  | O => []
  | S k' =>
      ((if Z.rem i 4 =? 0 then [probe_report i] else []) ++ probe_reports (i + 1) k')%list
  end.

(** Nothing was shown or sent from [w] to [w']. *)
Definition display_kept (w w' : World) : Prop :=
  progress w' = progress w /\ tx_log w' = tx_log w.

(** The clock does not run backwards from [w] to [w']. *)
Definition no_earlier (w w' : World) : Prop := clock w <= clock w'.

(** The longest a scan can take: four baud windows of 2000 ms, the
    sniffing window of 5000 ms, sixteen probes with their wait of 800 ms
    and pause of 50 ms, and sixteen stored-codes queries with their wait of
    1000 ms and pause of 100 ms; each window with the receive call that
    straddles its end (100 ms in baud detection, 50 ms elsewhere) and each
    request with the 100 ms its transmit call can block. *)
Definition scan_bound : Z := 4 * 2099 + 5049 + 16 * 999 + 16 * 1249.

(** * The kiosk

    The state machine around the engine: [setup], [loop] and the functions
    they call.  The globals and the function-local [static] variables are
    the fields of [Kiosk]; the engine's globals, the clock and the bus stay
    in [World].  The globals [vehicleDetectionAttempt], [message] and
    [myELM327] are never used and are left out.

    What the libraries do is input or output here.  Input: the level of
    the button pin at each [digitalRead], the answer of each
    [WiFi.status()], and for each HTTP request the time it took, its
    status code and the two fields the code reads from the JSON body
    (scripts, one entry per call; when a script has run out the pin reads
    HIGH, WiFi is not connected and a request fails at once with code -1).
    Output: one [screen_event] per screen drawn, carrying the data shown,
    and each request with the time it was made.  Console lines of the
    kiosk are not kept.  As in the engine, time passes in the calls that wait only. *)

Inductive KioskState :=
| READY_SCREEN
| DISPLAY_QR
| PAYMENT_LOADING
| WAITING_PAYMENT
| READY_TO_SCAN
| SCANNING
| DISPLAY_RESULTS
| ERROR_STATE
| VEHICLE_SETUP
| VEHICLE_DETECTING
| TROUBLESHOOTING.

(** The three endings of the results screen. *)
Inductive results_verdict := IssuesFound | NoVehicleDetected | AllSystemsOK.

Inductive screen_event :=
| ScrStarting
| ScrReady (wifiConnected : bool)
| ScrQRCode (qrData : string)
| ScrPaymentLoading (dots : Z)
| ScrWaitingPayment
| ScrReadyToScan
| ScrScanning
| ScrResults (activeCount codeCount : Z) (lines : list string) (verdict : results_verdict)
| ScrCountdown (remaining : Z)
| ScrError (message : string).

(** The two requests: [POST /kiosk/create-session] and
    [GET /kiosk/check-payment/<transactionId>], both below [API_BASE_URL]. *)
Inductive http_call :=
| CreateSession
| CheckPayment (id : string).

(** What the code reads from the reply to one HTTP request. *)
Record http_reply := mk_reply {
  reply_ms : N;
  httpCode : Z;
  reply_sessionId : string;
  reply_paid : bool
}.

Record Kiosk := mk_kiosk {
  world : World;  (* the engine's globals, the clock and the bus *)
  currentState : KioskState;
  transactionId : string;
  stateStartTime : Z;
  sessionStartTime : Z;
  lastPaymentCheck : Z;
  screenDrawFlags : list bool;  (* written by [resetToReady], never read *)
  forceRedraw : bool;
  ready_displayed : bool;  (* [displayed] of [displayReadyScreen] *)
  qr_displayed : bool;  (* [displayed] of [displayQRCode] *)
  loading_dots : Z;  (* [dots] of [displayPaymentLoading] *)
  waiting_displayed : bool;  (* [displayed] of [displayWaitingPayment] *)
  readyToScan_displayed : bool;  (* [displayed] of [displayReadyToScan] *)
  scanning_displayed : bool;  (* [displayed] of [displayScanning] *)
  results_displayed : bool;  (* [displayed] of [displayScanResults] *)
  results_lastUpdate : Z;  (* [lastUpdate] of [displayScanResults] *)
  lastPress : Z;  (* [lastPress] of [handleButtonPress] *)
  buttonPressed : bool;  (* [buttonPressed] of [handleButtonPress] *)
  wifi_script : list bool;  (* answers of [WiFi.status()]: connected or not *)
  http_script : list http_reply;  (* replies to the HTTP requests *)
  pin_script : list bool;  (* levels read from the button pin, [true] is HIGH *)
  screen : list screen_event;  (* the screens drawn *)
  http_log : list (Z * http_call)  (* the requests made, with the clock *)
}.

Definition set_world (v : World) (k : Kiosk) : Kiosk :=
  {| world := v; currentState := currentState k; transactionId := transactionId k;
     stateStartTime := stateStartTime k; sessionStartTime := sessionStartTime k;
     lastPaymentCheck := lastPaymentCheck k; screenDrawFlags := screenDrawFlags k;
     forceRedraw := forceRedraw k; ready_displayed := ready_displayed k; qr_displayed :=
     qr_displayed k; loading_dots := loading_dots k; waiting_displayed := waiting_displayed
     k; readyToScan_displayed := readyToScan_displayed k; scanning_displayed :=
     scanning_displayed k; results_displayed := results_displayed k; results_lastUpdate :=
     results_lastUpdate k; lastPress := lastPress k; buttonPressed := buttonPressed k;
     wifi_script := wifi_script k; http_script := http_script k; pin_script := pin_script k;
     screen := screen k; http_log := http_log k |}.

Definition set_currentState (v : KioskState) (k : Kiosk) : Kiosk :=
  {| world := world k; currentState := v; transactionId := transactionId k; stateStartTime
     := stateStartTime k; sessionStartTime := sessionStartTime k; lastPaymentCheck :=
     lastPaymentCheck k; screenDrawFlags := screenDrawFlags k; forceRedraw := forceRedraw k;
     ready_displayed := ready_displayed k; qr_displayed := qr_displayed k; loading_dots :=
     loading_dots k; waiting_displayed := waiting_displayed k; readyToScan_displayed :=
     readyToScan_displayed k; scanning_displayed := scanning_displayed k; results_displayed
     := results_displayed k; results_lastUpdate := results_lastUpdate k; lastPress :=
     lastPress k; buttonPressed := buttonPressed k; wifi_script := wifi_script k;
     http_script := http_script k; pin_script := pin_script k; screen := screen k; http_log
     := http_log k |}.

Definition set_transactionId (v : string) (k : Kiosk) : Kiosk :=
  {| world := world k; currentState := currentState k; transactionId := v; stateStartTime :=
     stateStartTime k; sessionStartTime := sessionStartTime k; lastPaymentCheck :=
     lastPaymentCheck k; screenDrawFlags := screenDrawFlags k; forceRedraw := forceRedraw k;
     ready_displayed := ready_displayed k; qr_displayed := qr_displayed k; loading_dots :=
     loading_dots k; waiting_displayed := waiting_displayed k; readyToScan_displayed :=
     readyToScan_displayed k; scanning_displayed := scanning_displayed k; results_displayed
     := results_displayed k; results_lastUpdate := results_lastUpdate k; lastPress :=
     lastPress k; buttonPressed := buttonPressed k; wifi_script := wifi_script k;
     http_script := http_script k; pin_script := pin_script k; screen := screen k; http_log
     := http_log k |}.

Definition set_stateStartTime (v : Z) (k : Kiosk) : Kiosk :=
  {| world := world k; currentState := currentState k; transactionId := transactionId k;
     stateStartTime := v; sessionStartTime := sessionStartTime k; lastPaymentCheck :=
     lastPaymentCheck k; screenDrawFlags := screenDrawFlags k; forceRedraw := forceRedraw k;
     ready_displayed := ready_displayed k; qr_displayed := qr_displayed k; loading_dots :=
     loading_dots k; waiting_displayed := waiting_displayed k; readyToScan_displayed :=
     readyToScan_displayed k; scanning_displayed := scanning_displayed k; results_displayed
     := results_displayed k; results_lastUpdate := results_lastUpdate k; lastPress :=
     lastPress k; buttonPressed := buttonPressed k; wifi_script := wifi_script k;
     http_script := http_script k; pin_script := pin_script k; screen := screen k; http_log
     := http_log k |}.

Definition set_sessionStartTime (v : Z) (k : Kiosk) : Kiosk :=
  {| world := world k; currentState := currentState k; transactionId := transactionId k;
     stateStartTime := stateStartTime k; sessionStartTime := v; lastPaymentCheck :=
     lastPaymentCheck k; screenDrawFlags := screenDrawFlags k; forceRedraw := forceRedraw k;
     ready_displayed := ready_displayed k; qr_displayed := qr_displayed k; loading_dots :=
     loading_dots k; waiting_displayed := waiting_displayed k; readyToScan_displayed :=
     readyToScan_displayed k; scanning_displayed := scanning_displayed k; results_displayed
     := results_displayed k; results_lastUpdate := results_lastUpdate k; lastPress :=
     lastPress k; buttonPressed := buttonPressed k; wifi_script := wifi_script k;
     http_script := http_script k; pin_script := pin_script k; screen := screen k; http_log
     := http_log k |}.

Definition set_lastPaymentCheck (v : Z) (k : Kiosk) : Kiosk :=
  {| world := world k; currentState := currentState k; transactionId := transactionId k;
     stateStartTime := stateStartTime k; sessionStartTime := sessionStartTime k;
     lastPaymentCheck := v; screenDrawFlags := screenDrawFlags k; forceRedraw := forceRedraw
     k; ready_displayed := ready_displayed k; qr_displayed := qr_displayed k; loading_dots
     := loading_dots k; waiting_displayed := waiting_displayed k; readyToScan_displayed :=
     readyToScan_displayed k; scanning_displayed := scanning_displayed k; results_displayed
     := results_displayed k; results_lastUpdate := results_lastUpdate k; lastPress :=
     lastPress k; buttonPressed := buttonPressed k; wifi_script := wifi_script k;
     http_script := http_script k; pin_script := pin_script k; screen := screen k; http_log
     := http_log k |}.

Definition set_screenDrawFlags (v : list bool) (k : Kiosk) : Kiosk :=
  {| world := world k; currentState := currentState k; transactionId := transactionId k;
     stateStartTime := stateStartTime k; sessionStartTime := sessionStartTime k;
     lastPaymentCheck := lastPaymentCheck k; screenDrawFlags := v; forceRedraw :=
     forceRedraw k; ready_displayed := ready_displayed k; qr_displayed := qr_displayed k;
     loading_dots := loading_dots k; waiting_displayed := waiting_displayed k;
     readyToScan_displayed := readyToScan_displayed k; scanning_displayed :=
     scanning_displayed k; results_displayed := results_displayed k; results_lastUpdate :=
     results_lastUpdate k; lastPress := lastPress k; buttonPressed := buttonPressed k;
     wifi_script := wifi_script k; http_script := http_script k; pin_script := pin_script k;
     screen := screen k; http_log := http_log k |}.

Definition set_forceRedraw (v : bool) (k : Kiosk) : Kiosk :=
  {| world := world k; currentState := currentState k; transactionId := transactionId k;
     stateStartTime := stateStartTime k; sessionStartTime := sessionStartTime k;
     lastPaymentCheck := lastPaymentCheck k; screenDrawFlags := screenDrawFlags k;
     forceRedraw := v; ready_displayed := ready_displayed k; qr_displayed := qr_displayed k;
     loading_dots := loading_dots k; waiting_displayed := waiting_displayed k;
     readyToScan_displayed := readyToScan_displayed k; scanning_displayed :=
     scanning_displayed k; results_displayed := results_displayed k; results_lastUpdate :=
     results_lastUpdate k; lastPress := lastPress k; buttonPressed := buttonPressed k;
     wifi_script := wifi_script k; http_script := http_script k; pin_script := pin_script k;
     screen := screen k; http_log := http_log k |}.

Definition set_ready_displayed (v : bool) (k : Kiosk) : Kiosk :=
  {| world := world k; currentState := currentState k; transactionId := transactionId k;
     stateStartTime := stateStartTime k; sessionStartTime := sessionStartTime k;
     lastPaymentCheck := lastPaymentCheck k; screenDrawFlags := screenDrawFlags k;
     forceRedraw := forceRedraw k; ready_displayed := v; qr_displayed := qr_displayed k;
     loading_dots := loading_dots k; waiting_displayed := waiting_displayed k;
     readyToScan_displayed := readyToScan_displayed k; scanning_displayed :=
     scanning_displayed k; results_displayed := results_displayed k; results_lastUpdate :=
     results_lastUpdate k; lastPress := lastPress k; buttonPressed := buttonPressed k;
     wifi_script := wifi_script k; http_script := http_script k; pin_script := pin_script k;
     screen := screen k; http_log := http_log k |}.

Definition set_qr_displayed (v : bool) (k : Kiosk) : Kiosk :=
  {| world := world k; currentState := currentState k; transactionId := transactionId k;
     stateStartTime := stateStartTime k; sessionStartTime := sessionStartTime k;
     lastPaymentCheck := lastPaymentCheck k; screenDrawFlags := screenDrawFlags k;
     forceRedraw := forceRedraw k; ready_displayed := ready_displayed k; qr_displayed := v;
     loading_dots := loading_dots k; waiting_displayed := waiting_displayed k;
     readyToScan_displayed := readyToScan_displayed k; scanning_displayed :=
     scanning_displayed k; results_displayed := results_displayed k; results_lastUpdate :=
     results_lastUpdate k; lastPress := lastPress k; buttonPressed := buttonPressed k;
     wifi_script := wifi_script k; http_script := http_script k; pin_script := pin_script k;
     screen := screen k; http_log := http_log k |}.

Definition set_loading_dots (v : Z) (k : Kiosk) : Kiosk :=
  {| world := world k; currentState := currentState k; transactionId := transactionId k;
     stateStartTime := stateStartTime k; sessionStartTime := sessionStartTime k;
     lastPaymentCheck := lastPaymentCheck k; screenDrawFlags := screenDrawFlags k;
     forceRedraw := forceRedraw k; ready_displayed := ready_displayed k; qr_displayed :=
     qr_displayed k; loading_dots := v; waiting_displayed := waiting_displayed k;
     readyToScan_displayed := readyToScan_displayed k; scanning_displayed :=
     scanning_displayed k; results_displayed := results_displayed k; results_lastUpdate :=
     results_lastUpdate k; lastPress := lastPress k; buttonPressed := buttonPressed k;
     wifi_script := wifi_script k; http_script := http_script k; pin_script := pin_script k;
     screen := screen k; http_log := http_log k |}.

Definition set_waiting_displayed (v : bool) (k : Kiosk) : Kiosk :=
  {| world := world k; currentState := currentState k; transactionId := transactionId k;
     stateStartTime := stateStartTime k; sessionStartTime := sessionStartTime k;
     lastPaymentCheck := lastPaymentCheck k; screenDrawFlags := screenDrawFlags k;
     forceRedraw := forceRedraw k; ready_displayed := ready_displayed k; qr_displayed :=
     qr_displayed k; loading_dots := loading_dots k; waiting_displayed := v;
     readyToScan_displayed := readyToScan_displayed k; scanning_displayed :=
     scanning_displayed k; results_displayed := results_displayed k; results_lastUpdate :=
     results_lastUpdate k; lastPress := lastPress k; buttonPressed := buttonPressed k;
     wifi_script := wifi_script k; http_script := http_script k; pin_script := pin_script k;
     screen := screen k; http_log := http_log k |}.

Definition set_readyToScan_displayed (v : bool) (k : Kiosk) : Kiosk :=
  {| world := world k; currentState := currentState k; transactionId := transactionId k;
     stateStartTime := stateStartTime k; sessionStartTime := sessionStartTime k;
     lastPaymentCheck := lastPaymentCheck k; screenDrawFlags := screenDrawFlags k;
     forceRedraw := forceRedraw k; ready_displayed := ready_displayed k; qr_displayed :=
     qr_displayed k; loading_dots := loading_dots k; waiting_displayed := waiting_displayed
     k; readyToScan_displayed := v; scanning_displayed := scanning_displayed k;
     results_displayed := results_displayed k; results_lastUpdate := results_lastUpdate k;
     lastPress := lastPress k; buttonPressed := buttonPressed k; wifi_script := wifi_script
     k; http_script := http_script k; pin_script := pin_script k; screen := screen k;
     http_log := http_log k |}.

Definition set_scanning_displayed (v : bool) (k : Kiosk) : Kiosk :=
  {| world := world k; currentState := currentState k; transactionId := transactionId k;
     stateStartTime := stateStartTime k; sessionStartTime := sessionStartTime k;
     lastPaymentCheck := lastPaymentCheck k; screenDrawFlags := screenDrawFlags k;
     forceRedraw := forceRedraw k; ready_displayed := ready_displayed k; qr_displayed :=
     qr_displayed k; loading_dots := loading_dots k; waiting_displayed := waiting_displayed
     k; readyToScan_displayed := readyToScan_displayed k; scanning_displayed := v;
     results_displayed := results_displayed k; results_lastUpdate := results_lastUpdate k;
     lastPress := lastPress k; buttonPressed := buttonPressed k; wifi_script := wifi_script
     k; http_script := http_script k; pin_script := pin_script k; screen := screen k;
     http_log := http_log k |}.

Definition set_results_displayed (v : bool) (k : Kiosk) : Kiosk :=
  {| world := world k; currentState := currentState k; transactionId := transactionId k;
     stateStartTime := stateStartTime k; sessionStartTime := sessionStartTime k;
     lastPaymentCheck := lastPaymentCheck k; screenDrawFlags := screenDrawFlags k;
     forceRedraw := forceRedraw k; ready_displayed := ready_displayed k; qr_displayed :=
     qr_displayed k; loading_dots := loading_dots k; waiting_displayed := waiting_displayed
     k; readyToScan_displayed := readyToScan_displayed k; scanning_displayed :=
     scanning_displayed k; results_displayed := v; results_lastUpdate := results_lastUpdate
     k; lastPress := lastPress k; buttonPressed := buttonPressed k; wifi_script :=
     wifi_script k; http_script := http_script k; pin_script := pin_script k; screen :=
     screen k; http_log := http_log k |}.

Definition set_results_lastUpdate (v : Z) (k : Kiosk) : Kiosk :=
  {| world := world k; currentState := currentState k; transactionId := transactionId k;
     stateStartTime := stateStartTime k; sessionStartTime := sessionStartTime k;
     lastPaymentCheck := lastPaymentCheck k; screenDrawFlags := screenDrawFlags k;
     forceRedraw := forceRedraw k; ready_displayed := ready_displayed k; qr_displayed :=
     qr_displayed k; loading_dots := loading_dots k; waiting_displayed := waiting_displayed
     k; readyToScan_displayed := readyToScan_displayed k; scanning_displayed :=
     scanning_displayed k; results_displayed := results_displayed k; results_lastUpdate :=
     v; lastPress := lastPress k; buttonPressed := buttonPressed k; wifi_script :=
     wifi_script k; http_script := http_script k; pin_script := pin_script k; screen :=
     screen k; http_log := http_log k |}.

Definition set_lastPress (v : Z) (k : Kiosk) : Kiosk :=
  {| world := world k; currentState := currentState k; transactionId := transactionId k;
     stateStartTime := stateStartTime k; sessionStartTime := sessionStartTime k;
     lastPaymentCheck := lastPaymentCheck k; screenDrawFlags := screenDrawFlags k;
     forceRedraw := forceRedraw k; ready_displayed := ready_displayed k; qr_displayed :=
     qr_displayed k; loading_dots := loading_dots k; waiting_displayed := waiting_displayed
     k; readyToScan_displayed := readyToScan_displayed k; scanning_displayed :=
     scanning_displayed k; results_displayed := results_displayed k; results_lastUpdate :=
     results_lastUpdate k; lastPress := v; buttonPressed := buttonPressed k; wifi_script :=
     wifi_script k; http_script := http_script k; pin_script := pin_script k; screen :=
     screen k; http_log := http_log k |}.

Definition set_buttonPressed (v : bool) (k : Kiosk) : Kiosk :=
  {| world := world k; currentState := currentState k; transactionId := transactionId k;
     stateStartTime := stateStartTime k; sessionStartTime := sessionStartTime k;
     lastPaymentCheck := lastPaymentCheck k; screenDrawFlags := screenDrawFlags k;
     forceRedraw := forceRedraw k; ready_displayed := ready_displayed k; qr_displayed :=
     qr_displayed k; loading_dots := loading_dots k; waiting_displayed := waiting_displayed
     k; readyToScan_displayed := readyToScan_displayed k; scanning_displayed :=
     scanning_displayed k; results_displayed := results_displayed k; results_lastUpdate :=
     results_lastUpdate k; lastPress := lastPress k; buttonPressed := v; wifi_script :=
     wifi_script k; http_script := http_script k; pin_script := pin_script k; screen :=
     screen k; http_log := http_log k |}.

Definition set_wifi_script (v : list bool) (k : Kiosk) : Kiosk :=
  {| world := world k; currentState := currentState k; transactionId := transactionId k;
     stateStartTime := stateStartTime k; sessionStartTime := sessionStartTime k;
     lastPaymentCheck := lastPaymentCheck k; screenDrawFlags := screenDrawFlags k;
     forceRedraw := forceRedraw k; ready_displayed := ready_displayed k; qr_displayed :=
     qr_displayed k; loading_dots := loading_dots k; waiting_displayed := waiting_displayed
     k; readyToScan_displayed := readyToScan_displayed k; scanning_displayed :=
     scanning_displayed k; results_displayed := results_displayed k; results_lastUpdate :=
     results_lastUpdate k; lastPress := lastPress k; buttonPressed := buttonPressed k;
     wifi_script := v; http_script := http_script k; pin_script := pin_script k; screen :=
     screen k; http_log := http_log k |}.

Definition set_http_script (v : list http_reply) (k : Kiosk) : Kiosk :=
  {| world := world k; currentState := currentState k; transactionId := transactionId k;
     stateStartTime := stateStartTime k; sessionStartTime := sessionStartTime k;
     lastPaymentCheck := lastPaymentCheck k; screenDrawFlags := screenDrawFlags k;
     forceRedraw := forceRedraw k; ready_displayed := ready_displayed k; qr_displayed :=
     qr_displayed k; loading_dots := loading_dots k; waiting_displayed := waiting_displayed
     k; readyToScan_displayed := readyToScan_displayed k; scanning_displayed :=
     scanning_displayed k; results_displayed := results_displayed k; results_lastUpdate :=
     results_lastUpdate k; lastPress := lastPress k; buttonPressed := buttonPressed k;
     wifi_script := wifi_script k; http_script := v; pin_script := pin_script k; screen :=
     screen k; http_log := http_log k |}.

Definition set_pin_script (v : list bool) (k : Kiosk) : Kiosk :=
  {| world := world k; currentState := currentState k; transactionId := transactionId k;
     stateStartTime := stateStartTime k; sessionStartTime := sessionStartTime k;
     lastPaymentCheck := lastPaymentCheck k; screenDrawFlags := screenDrawFlags k;
     forceRedraw := forceRedraw k; ready_displayed := ready_displayed k; qr_displayed :=
     qr_displayed k; loading_dots := loading_dots k; waiting_displayed := waiting_displayed
     k; readyToScan_displayed := readyToScan_displayed k; scanning_displayed :=
     scanning_displayed k; results_displayed := results_displayed k; results_lastUpdate :=
     results_lastUpdate k; lastPress := lastPress k; buttonPressed := buttonPressed k;
     wifi_script := wifi_script k; http_script := http_script k; pin_script := v; screen :=
     screen k; http_log := http_log k |}.

Definition set_screen (v : list screen_event) (k : Kiosk) : Kiosk :=
  {| world := world k; currentState := currentState k; transactionId := transactionId k;
     stateStartTime := stateStartTime k; sessionStartTime := sessionStartTime k;
     lastPaymentCheck := lastPaymentCheck k; screenDrawFlags := screenDrawFlags k;
     forceRedraw := forceRedraw k; ready_displayed := ready_displayed k; qr_displayed :=
     qr_displayed k; loading_dots := loading_dots k; waiting_displayed := waiting_displayed
     k; readyToScan_displayed := readyToScan_displayed k; scanning_displayed :=
     scanning_displayed k; results_displayed := results_displayed k; results_lastUpdate :=
     results_lastUpdate k; lastPress := lastPress k; buttonPressed := buttonPressed k;
     wifi_script := wifi_script k; http_script := http_script k; pin_script := pin_script k;
     screen := v; http_log := http_log k |}.

Definition set_http_log (v : list (Z * http_call)) (k : Kiosk) : Kiosk :=
  {| world := world k; currentState := currentState k; transactionId := transactionId k;
     stateStartTime := stateStartTime k; sessionStartTime := sessionStartTime k;
     lastPaymentCheck := lastPaymentCheck k; screenDrawFlags := screenDrawFlags k;
     forceRedraw := forceRedraw k; ready_displayed := ready_displayed k; qr_displayed :=
     qr_displayed k; loading_dots := loading_dots k; waiting_displayed := waiting_displayed
     k; readyToScan_displayed := readyToScan_displayed k; scanning_displayed :=
     scanning_displayed k; results_displayed := results_displayed k; results_lastUpdate :=
     results_lastUpdate k; lastPress := lastPress k; buttonPressed := buttonPressed k;
     wifi_script := wifi_script k; http_script := http_script k; pin_script := pin_script k;
     screen := screen k; http_log := v |}.

(** ** Constants *)

Definition SESSION_TIMEOUT_MS : Z := 5 * 60 * 1000.
Definition PAYMENT_POLL_INTERVAL : Z := 3000.
Definition API_BASE_URL : string := "https://obd2ai-server-1afd74c5766a.herokuapp.com".
Definition WEBAPP_URL : string := "https://obd2ai-webapp-805f8e39122c.herokuapp.com".

(** ** Clock, inputs and outputs *)

Definition kmillis (k : Kiosk) : Z := millis (world k).

Definition ksince (start : Z) (k : Kiosk) : Z := since start (world k).

Definition kdelay (ms : Z) (k : Kiosk) : Kiosk := set_world (delay ms (world k)) k.

(** [WiFi.status() == WL_CONNECTED]. *)
Definition WiFi_connected (k : Kiosk) : bool * Kiosk :=
  match wifi_script k with
  | [] => (false, k)
  | connected :: rest => (connected, set_wifi_script rest k)
  end.

(** [digitalRead(SCAN_BUTTON)]; the pin is pulled up. *)
Definition digitalRead (k : Kiosk) : bool * Kiosk :=
  match pin_script k with
  | [] => (true, k)
  | level :: rest => (level, set_pin_script rest k)
  end.

Definition failed_reply : http_reply :=
  {| reply_ms := 0; httpCode := -1; reply_sessionId := ""; reply_paid := false |}.

(** The URL of a request. *)
Definition request_url (call : http_call) : string :=
  match call with
  | CreateSession => API_BASE_URL ++ "/kiosk/create-session"
  | CheckPayment id => API_BASE_URL ++ "/kiosk/check-payment/" ++ id
  end.

(** One request: [http.begin(url)], [POST] or [GET], [getString], [end]. *)
Definition http_request (call : http_call) (k : Kiosk) : http_reply * Kiosk :=
  let k1 := set_http_log (http_log k ++ [(clock (world k), call)]) k in
  match http_script k with
  | [] => (failed_reply, k1)
  | reply :: rest => (reply, kdelay (Z.of_N (reply_ms reply)) (set_http_script rest k1))
  end.

Definition draw (e : screen_event) (k : Kiosk) : Kiosk := set_screen (screen k ++ [e]) k.

(** ** Session management *)

Definition createNewSession (k : Kiosk) : string * Kiosk :=
  let (connected, k1) := WiFi_connected k in
  if negb connected then (""%string, k1)
  else
    let (reply, k2) := http_request CreateSession k1 in
    if httpCode reply =? 200 then (reply_sessionId reply, k2) else (""%string, k2).

Definition checkPaymentStatus (k : Kiosk) : bool * Kiosk :=
  if (String.length (transactionId k) =? 0)%nat then (false, k)
  else
    let (reply, k1) := http_request (CheckPayment (transactionId k)) k in
    if httpCode reply =? 200
    then (if reply_paid reply then (true, k1) else (false, k1))
    else (false, k1).

(** ** Display functions *)

Definition displayReadyScreen (k : Kiosk) : Kiosk :=
  if ready_displayed k && negb (forceRedraw k) then k
  else
    let k1 := set_forceRedraw false (set_ready_displayed true k) in
    let (connected, k2) := WiFi_connected k1 in
    draw (ScrReady connected) k2.

Definition displayQRCode (k : Kiosk) : Kiosk :=
  if qr_displayed k then k
  else draw (ScrQRCode (WEBAPP_URL ++ "/" ++ transactionId k)) (set_qr_displayed true k).

(** [dots] is an [int] that only grows; its overflow is not modelled. *)
Definition displayPaymentLoading (k : Kiosk) : Kiosk :=
  set_loading_dots (loading_dots k + 1) (draw (ScrPaymentLoading (Z.rem (loading_dots k) 4)) k).

Definition displayWaitingPayment (k : Kiosk) : Kiosk :=
  if waiting_displayed k then k
  else draw ScrWaitingPayment (set_waiting_displayed true k).

Definition displayReadyToScan (fullRedraw : bool) (k : Kiosk) : Kiosk :=
  if readyToScan_displayed k && negb fullRedraw then k
  else draw ScrReadyToScan (set_readyToScan_displayed true k).

Definition displayScanning (fullRedraw : bool) (k : Kiosk) : Kiosk :=
  if scanning_displayed k && negb fullRedraw then k
  else draw ScrScanning (set_scanning_displayed true k).

(** The results screen: the two counts, the first five codes when there
    are codes, and the ending. *)
Definition results_screen (w : World) : screen_event :=
  let codes := detectedCodes w in
  ScrResults (Z.of_nat (List.length (activeECUs w))) (Z.of_nat (List.length codes))
    (if (0 <? List.length codes)%nat
     then map (fun f => (code f ++ " - " ++ system f)%string) (firstn 5 codes)
     else [])
    (if (0 <? List.length codes)%nat then IssuesFound
     else if negb (vehicleDetected w) then NoVehicleDetected
     else AllSystemsOK).

Definition displayScanResults (k : Kiosk) : Kiosk :=
  let k1 :=
    if results_displayed k then k
    else draw (results_screen (world k)) (set_results_displayed true k) in
  if negb (vehicleDetected (world k1)) && (ksince (results_lastUpdate k1) k1 >? 1000) then
    let k2 := set_results_lastUpdate (kmillis k1) k1 in
    let elapsed := ksince (stateStartTime k2) k2 in
    let remaining := if 60000 >? elapsed then (60000 - elapsed) / 1000 else 0 in
    draw (ScrCountdown remaining) k2
  else k1.

Definition displayError (message : string) (k : Kiosk) : Kiosk :=
  let k1 := set_currentState ERROR_STATE (draw (ScrError message) k) in
  set_stateStartTime (kmillis k1) k1.

(** ** Utility functions *)

Definition resetDisplayFlags (k : Kiosk) : Kiosk := set_forceRedraw true k.

Definition resetToReady (k : Kiosk) : Kiosk :=
  let k1 := set_sessionStartTime 0 (set_transactionId "" k) in
  let w1 := set_vehicleDetected false (set_activeECUs [] (set_detectedCodes [] (world k1))) in
  let k2 := set_forceRedraw true (set_screenDrawFlags (repeat false 10) (set_world w1 k1)) in
  let (sessionId, k3) := createNewSession k2 in
  let k4 := set_transactionId sessionId k3 in
  let k5 :=
    if (0 <? String.length sessionId)%nat
    then set_currentState DISPLAY_QR k4
    else set_currentState READY_SCREEN k4 in
  set_stateStartTime (kmillis k5) k5.

(** ** The state machine *)

(** [updateKioskState]; the scan of the [SCANNING] case takes the engine's
    bound on rounds. *)
Definition updateKioskState (fuel : nat) (k : Kiosk) : option Kiosk :=
  match currentState k with
  | READY_SCREEN => Some (displayReadyScreen k)
  | DISPLAY_QR =>
      let k1 := displayQRCode k in
      if ksince (stateStartTime k1) k1 >? 5000 then
        let k2 := set_currentState WAITING_PAYMENT k1 in
        let k3 := set_lastPaymentCheck (kmillis k2) k2 in
        Some (set_stateStartTime (kmillis k3) k3)
      else Some k1
  | PAYMENT_LOADING =>
      let k1 := displayPaymentLoading k in
      let k2 := set_currentState WAITING_PAYMENT k1 in
      Some (set_stateStartTime (kmillis k2) k2)
  | WAITING_PAYMENT =>
      let k1 := displayWaitingPayment k in
      if ksince (lastPaymentCheck k1) k1 >? PAYMENT_POLL_INTERVAL then
        let k2 := set_lastPaymentCheck (kmillis k1) k1 in
        let (paid, k3) := checkPaymentStatus k2 in
        if paid then
          let k4 := set_currentState SCANNING k3 in
          let k5 := set_sessionStartTime (kmillis k4) k4 in
          Some (set_stateStartTime (kmillis k5) k5)
        else Some k3
      else Some k1
  | READY_TO_SCAN => Some (displayReadyToScan false k)
  | SCANNING =>
      let k1 := displayScanning false k in
      match performDiagnosticScan fuel (world k1) with
      | None => None
      | Some w' =>
          let k2 := set_currentState DISPLAY_RESULTS (set_world w' k1) in
          Some (set_stateStartTime (kmillis k2) k2)
      end
  | DISPLAY_RESULTS =>
      let k1 := displayScanResults k in
      let displayTimeout :=
        if negb (vehicleDetected (world k1)) &&
           (List.length (detectedCodes (world k1)) =? 0)%nat
        then 60000 else 10000 in
      if ksince (stateStartTime k1) k1 >? displayTimeout
      then Some (resetToReady k1)
      else Some k1
  | ERROR_STATE =>
      if ksince (stateStartTime k) k >? 5000 then Some (resetToReady k) else Some k
  | VEHICLE_SETUP | VEHICLE_DETECTING | TROUBLESHOOTING => Some k
  end.

Definition handleSessionTimeout (k : Kiosk) : Kiosk :=
  let paid_state :=
    match currentState k with
    | WAITING_PAYMENT | READY_TO_SCAN | SCANNING => true
    | _ => false
    end in
  if paid_state && (sessionStartTime k >? 0) then
    if ksince (sessionStartTime k) k >? SESSION_TIMEOUT_MS then
      resetToReady (kdelay 2000 (displayError "Session timeout - returning to home" k))
    else k
  else k.

Definition handleButtonPress (k : Kiosk) : Kiosk :=
  let (level, k0) := digitalRead k in
  let currentButtonState := negb level in
  if currentButtonState && negb (buttonPressed k0) && (ksince (lastPress k0) k0 >? 300) then
    let k1 := set_lastPress (kmillis k0) (set_buttonPressed true k0) in
    match currentState k1 with
    | READY_SCREEN =>
        let (sessionId, k2) := createNewSession k1 in
        let k3 := set_transactionId sessionId k2 in
        if (0 <? String.length sessionId)%nat then
          let k4 := set_currentState DISPLAY_QR k3 in
          set_stateStartTime (kmillis k4) k4
        else
          let k4 := set_transactionId ("OFFLINE_" ++ utoa (kmillis k3) DEC) k3 in
          let k5 := set_currentState READY_TO_SCAN k4 in
          set_stateStartTime (kmillis k5) k5
    | READY_TO_SCAN =>
        let k2 := set_currentState SCANNING k1 in
        set_stateStartTime (kmillis k2) k2
    | _ => k1
    end
  else if negb currentButtonState then set_buttonPressed false k0
  else k0.

(** [loop]. *)
Definition loop (fuel : nat) (k : Kiosk) : option Kiosk :=
  match updateKioskState fuel (handleButtonPress k) with
  | None => None
  | Some k1 => Some (kdelay 50 (handleSessionTimeout k1))
  end.

(** [n] rounds of [loop]. *)
Fixpoint loops (fuel : nat) (n : nat) (k : Kiosk) : option Kiosk :=
  match n with
  | O => Some k
  | S n' =>
      match loop fuel k with
      | None => None
      | Some k1 => loops fuel n' k1
      end
  end.

(** ** Start-up *)

Definition initializeDisplay (k : Kiosk) : Kiosk := kdelay 2000 (draw ScrStarting k).

(** [while (WiFi.status() != WL_CONNECTED && millis() < 10000) delay(500);]
    with a bound on the rounds. *)
Fixpoint wifi_wait (fuel : nat) (k : Kiosk) : Kiosk :=
  match fuel with
  | O => k
  | S fuel' =>
      let (connected, k1) := WiFi_connected k in
      if negb connected && (kmillis k1 <? 10000)
      then wifi_wait fuel' (kdelay 500 k1)
      else k1
  end.

(** The wait makes at most 20 pauses, so 21 rounds are never used up; the
    status is read once more for the console. *)
Definition initializeWiFi (k : Kiosk) : Kiosk := snd (WiFi_connected (wifi_wait 21 k)).

Definition initializeCAN (k : Kiosk) : Kiosk :=
  let (installed, w1) := driver_call (world k) in
  if installed then
    let (started, w2) := driver_call w1 in
    set_world (if started then set_driver (Some 500000) w2 else w2) k
  else set_world w1 k.

Definition setup (k : Kiosk) : Kiosk :=
  let k1 := initializeCAN (initializeWiFi (initializeDisplay (kdelay 1000 k))) in
  let (sessionId, k2) := createNewSession k1 in
  let k3 := set_transactionId sessionId k2 in
  let k4 :=
    if (0 <? String.length sessionId)%nat
    then set_sessionStartTime (kmillis k3) (set_currentState DISPLAY_QR k3)
    else set_currentState READY_SCREEN k3 in
  set_stateStartTime (kmillis k4) k4.

(** The globals at power-on, for the given bus and inputs; [millis()]
    counts from here. *)
Definition power_on (w : World) (wifi : list bool) (http : list http_reply)
    (pins : list bool) : Kiosk :=
  {| world := set_clock 0
                (set_vehicleDetected false (set_activeECUs [] (set_detectedCodes [] w)));
     currentState := DISPLAY_QR; transactionId := ""; stateStartTime := 0;
     sessionStartTime := 0; lastPaymentCheck := 0; screenDrawFlags := repeat false 10;
     forceRedraw := false; ready_displayed := false; qr_displayed := false;
     loading_dots := 0; waiting_displayed := false; readyToScan_displayed := false;
     scanning_displayed := false; results_displayed := false; results_lastUpdate := 0;
     lastPress := 0; buttonPressed := false; wifi_script := wifi; http_script := http;
     pin_script := pins; screen := []; http_log := [] |}.

(** ** Vocabulary of the properties *)

(** The states the kiosk is found in between two rounds of [loop]. *)
Definition resting_state (s : KioskState) : bool :=
  match s with
  | READY_SCREEN | DISPLAY_QR | WAITING_PAYMENT | READY_TO_SCAN | SCANNING
  | DISPLAY_RESULTS => true
  | _ => false
  end.

(** The results of the engine fit together: every code belongs to an
    active ECU, and without a vehicle there is neither code nor ECU. *)
Definition results_consistent (w : World) : Prop :=
  Forall (fun f => In (ecuId f) (activeECUs w) /\ isPending f = false) (detectedCodes w) /\
  (vehicleDetected w = false -> activeECUs w = [] /\ detectedCodes w = []).

Definition kiosk_inv (k : Kiosk) : Prop :=
  resting_state (currentState k) = true /\
  (currentState k = READY_SCREEN <-> transactionId k = ""%string) /\
  results_consistent (world k) /\
  screenDrawFlags k = repeat false 10.

(** Screens by kind. *)
Definition is_qr (e : screen_event) : bool :=
  match e with ScrQRCode _ => true | _ => false end.

Definition is_waiting (e : screen_event) : bool :=
  match e with ScrWaitingPayment => true | _ => false end.

Definition is_readyToScan (e : screen_event) : bool :=
  match e with ScrReadyToScan => true | _ => false end.

Definition is_scanning (e : screen_event) : bool :=
  match e with ScrScanning => true | _ => false end.

Definition is_results (e : screen_event) : bool :=
  match e with ScrResults _ _ _ _ => true | _ => false end.

(** A screen guarded by [flag] was drawn at most once, and not at all
    while the flag is clear. *)
Definition drawn_once (flag : bool) (kind : screen_event -> bool)
    (l : list screen_event) : Prop :=
  (List.length (filter kind l) <= if flag then 1 else 0)%nat.

Definition draw_flags_inv (k : Kiosk) : Prop :=
  drawn_once (qr_displayed k) is_qr (screen k) /\
  drawn_once (waiting_displayed k) is_waiting (screen k) /\
  drawn_once (readyToScan_displayed k) is_readyToScan (screen k) /\
  drawn_once (scanning_displayed k) is_scanning (screen k) /\
  drawn_once (results_displayed k) is_results (screen k).

(** The payment-status requests in a log, and their times. *)
Definition is_poll (e : Z * http_call) : bool :=
  match snd e with CheckPayment _ => true | CreateSession => false end.

Definition payment_polls (l : list (Z * http_call)) : list (Z * http_call) :=
  filter is_poll l.

Definition payment_checks (l : list (Z * http_call)) : list Z :=
  map fst (payment_polls l).

(** Times that are more than [PAYMENT_POLL_INTERVAL] apart, in order. *)
Fixpoint spaced (l : list Z) : Prop :=
  match l with
  | a :: (b :: _) as rest => a + PAYMENT_POLL_INTERVAL < b /\ spaced rest
  | _ => True
  end.

(** The pauses the wait for WiFi can still make. *)
Definition wifi_rounds (k : Kiosk) : Z :=
  if kmillis k <? 10000 then (10499 - kmillis k) / 500 else 0.

(** What the session invariant reads of a kiosk, and what the screens read. *)
Definition session_view (k : Kiosk) :=
  (currentState k, transactionId k, screenDrawFlags k,
   detectedCodes (world k), activeECUs (world k), vehicleDetected (world k),
   rx_script (world k), sessionStartTime k).

Definition display_view (k : Kiosk) :=
  (qr_displayed k, waiting_displayed k, readyToScan_displayed k, scanning_displayed k,
   results_displayed k, screen k).

(** ** A sample run

    A kiosk with WiFi, a server that opens the session "T1" and confirms
    the payment at the second poll, nobody at the button, and the vehicle
    of [one_code_world] on the bus. *)
Definition session_reply : http_reply :=
  {| reply_ms := 300; httpCode := 200; reply_sessionId := "T1"; reply_paid := false |}.

Definition paid_reply : http_reply :=
  {| reply_ms := 200; httpCode := 200; reply_sessionId := ""; reply_paid := true |}.

Definition unpaid_reply : http_reply :=
  {| reply_ms := 200; httpCode := 200; reply_sessionId := ""; reply_paid := false |}.

Definition customer_http : list http_reply := [session_reply; unpaid_reply; paid_reply].

Definition customer_kiosk : Kiosk :=
  power_on one_code_world (repeat true 8) customer_http [].

(** What the polling of the payment reads, and a step that leaves it
    alone while time passes. *)
Definition pay_view (k : Kiosk) := (lastPaymentCheck k, payment_polls (http_log k)).

Definition later (k k' : Kiosk) : Prop :=
  pay_view k' = pay_view k /\ clock (world k) <= clock (world k').

(** [lastPaymentCheck] holds a time [t] not in the future, and the polls
    made so far were made by then, are spaced, and name a transaction. *)
Definition pay_inv (k : Kiosk) : Prop :=
  exists t,
    t <= clock (world k) /\
    lastPaymentCheck k = t mod 2 ^ 32 /\
    Forall (fun c => c <= t) (payment_checks (http_log k)) /\
    spaced (payment_checks (http_log k)) /\
    Forall (fun e => snd e <> CheckPayment "") (payment_polls (http_log k)).

(** The error screen, and a kiosk whose session clock is not running in
    the states that wait for the customer. *)
Definition is_error (e : screen_event) : bool :=
  match e with ScrError _ => true | _ => false end.

Definition session_untimed (k : Kiosk) : Prop :=
  match currentState k with
  | READY_SCREEN | DISPLAY_QR | WAITING_PAYMENT | READY_TO_SCAN => sessionStartTime k = 0
  | _ => True
  end.

Definition timeout_inv (k : Kiosk) : Prop :=
  (List.length (filter is_error (screen k)) <= 1)%nat /\
  (List.length (filter is_error (screen k)) = 1%nat -> session_untimed k).

(** A kiosk whose first customer never pays: 96 polls are answered
    "unpaid" before the session times out; the server then opens the
    session "T2", whose polls fail. *)
Definition second_session_reply : http_reply :=
  {| reply_ms := 300; httpCode := 200; reply_sessionId := "T2"; reply_paid := false |}.

Definition abandoned_http : list http_reply :=
  ([session_reply] ++ repeat unpaid_reply 96 ++ [second_session_reply])%list.

Definition abandoned_kiosk : Kiosk :=
  power_on quiet_world (repeat true 8) abandoned_http [].

(** What the examples look at. *)
Definition kiosk_summary (k : Kiosk) :=
  (currentState k, transactionId k, sessionStartTime k,
   filter is_qr (screen k), filter is_error (screen k)).

(** ** Payments and scans *)

(** The n-th request takes the n-th reply of the server, while there is
    one.  A payment is confirmed by a reply 200 with [paid] to a status
    request. *)
Definition confirms (e : (Z * http_call) * http_reply) : bool :=
  match snd (fst e) with
  | CheckPayment _ => (httpCode (snd e) =? 200) && reply_paid (snd e)
  | CreateSession => false
  end.

Definition confirmed_payments (log : list (Z * http_call)) (http : list http_reply) : nat :=
  List.length (filter confirms (combine log http)).

(** Every scan starts with the report "Detecting vehicle..." at 0. *)
Definition is_scan_start (p : string * Z) : bool :=
  (fst p =? "Detecting vehicle...")%string && (snd p =? 0).

Definition scans_started (w : World) : nat :=
  List.length (filter is_scan_start (progress w)).

Definition scan_pending (k : Kiosk) : nat :=
  match currentState k with SCANNING => 1 | _ => 0 end.

(** Nobody at the button: the pin reads high whenever it is read. *)
Definition button_idle (pins : list bool) : Prop := Forall (fun level => level = true) pins.

(** The replies of [http] not yet taken are those left in the script. *)
Definition served (http : list http_reply) (k : Kiosk) : Prop :=
  http = (firstn (List.length (http_log k)) http ++ http_script k)%list.

(** What the count of payments and scans reads of a kiosk. *)
Definition ledger_view (k : Kiosk) :=
  (http_log k, http_script k, pin_script k, progress (world k)).

Definition paid_inv (http : list http_reply) (base : nat) (k : Kiosk) : Prop :=
  served http k /\
  button_idle (pin_script k) /\
  currentState k <> READY_TO_SCAN /\
  (scans_started (world k) + scan_pending k = base + confirmed_payments (http_log k) http)%nat.

(** A kiosk without WiFi whose button is pressed twice, half a second
    apart. *)
Definition offline_pins : list bool :=
  (repeat true 3 ++ [false] ++ repeat true 10 ++ [false])%list.

Definition offline_kiosk : Kiosk := power_on one_code_world [] [] offline_pins.
(** ** What arrives within a wait

    A wait loop receives with calls of [ms] milliseconds while less than
    [window] milliseconds have passed since the wait began.  The entries of
    a script that arrive within the wait are those whose receive call
    begins inside the window, [elapsed] milliseconds of which have passed
    before the first entry: once a call begins at or past the end of the
    window, that entry and all after it are too late. *)
Fixpoint in_window (window ms elapsed : Z) (l : list (N * option twai_message))
    : list (N * option twai_message) :=
  match l with
  | [] => []
  | e :: rest =>
      if elapsed <? window
      then e :: in_window window ms (elapsed + call_time ms e) rest
      else []
  end.

(** ** What discovery finds on the bus *)

(** The identifier [id] answers the probe of the address [a]: it is the
    address plus 8, or lies in the range of the response identifiers. *)
Definition answers_probe (a id : Z) : Prop := id = a + 8 \/ 0x7E8 <= id <= 0x7EF.

(** Script entries that hold no answer to the probe of [a]. *)
Definition no_qualifying (a : Z) (l : list (N * option twai_message)) : Prop :=
  Forall (fun e => match snd e with
                   | Some m => ~ answers_probe a (identifier m)
                   | None => True
                   end) l.

(** [probe_rounds addrs txs l ids l']: probing the addresses [addrs] in
    order, one request each, with the controller's answers [txs] to the
    requests and the bus script [l], finds the identifiers [ids] and leaves
    the script [l'].  A request the controller refuses is not waited for.
    Otherwise the wait is 800 ms of receive calls of 50 ms: when nothing
    that arrives within it answers the probe, the round finds nothing and
    has read all that arrived within the wait; else the first answer among
    what arrives within the wait is found, recorded as the 16-bit value
    the list holds, and what follows it is left unread. *)
Inductive probe_rounds :
    list Z -> list (N * bool) -> list (N * option twai_message) -> list Z ->
    list (N * option twai_message) -> Prop :=
| pr_done txs l : probe_rounds [] txs l [] l
| pr_unsent a addrs txs l ids l' :
    hd true (map snd txs) = false ->
    probe_rounds addrs (tl txs) l ids l' ->
    probe_rounds (a :: addrs) txs l ids l'
| pr_silent a addrs txs seg rest ids l' :
    hd true (map snd txs) = true ->
    in_window 800 50 0 (seg ++ rest) = seg ->
    no_qualifying a seg ->
    probe_rounds addrs (tl txs) rest ids l' ->
    probe_rounds (a :: addrs) txs (seg ++ rest) ids l'
| pr_found a addrs txs pre dt m unread rest ids l' :
    hd true (map snd txs) = true ->
    in_window 800 50 0 (pre ++ (dt, Some m) :: rest) = (pre ++ (dt, Some m) :: unread)%list ->
    no_qualifying a pre ->
    answers_probe a (identifier m) ->
    probe_rounds addrs (tl txs) rest ids l' ->
    probe_rounds (a :: addrs) txs (pre ++ (dt, Some m) :: rest)
                 (identifier m mod 2 ^ 16 :: ids) l'.

(** The ECU [0x7E8] answers the first probe after 20 ms; nothing else is
    on the bus. *)
Definition one_ecu_world : World :=
  set_rx_script ((20%N, Some (pid_answer 0x7E8)) :: silence 48 50) quiet_world.

(** A bus on which the answer of [0x7E8] to the stored-codes query comes
    after 1 s of silence, too late for the wait. *)
Definition late_dtc_world : World :=
  set_rx_script (silence 20 50 ++ [(20%N, Some (dtc_answer 0x7E8))])%list quiet_world.

(** An answer of [0x7E8] with the length code 2: no room for a code. *)
Definition short_dtc_world : World :=
  set_rx_script [(50%N, None); (20%N, Some (mk_msg 0x7E8 2 [0x01; 0x43; 0; 0; 0; 0; 0; 0]))]
                quiet_world.

(** ** The scan's deadline *)




(** A busy bus: twelve frames 5 ms apart, from two identifiers in turn. *)
Definition busy_bus_world : World :=
  set_rx_script
    (flat_map (fun _ => [(5%N, Some (frame 0x100 [1; 2; 3; 4; 5; 6; 7; 8]));
                         (5%N, Some (frame 0x200 [1; 2; 3; 4; 5; 6; 7; 8]))])
              (seq 0 6))
    quiet_world.

(** A slow vehicle at 1 Mbit/s with a controller that takes its full
    100 ms for every frame: three silent baud windows, three frames, a
    silent sniffing window; then in every discovery round the ECU [0x7E8]
    answers in the last receive call of the wait, and in every collection
    round it answers with three codes in the last receive call of the
    wait. *)
Definition slowest_world : World :=
  let other := Some (frame 0x100 [1; 2; 3; 4; 5; 6; 7; 8]) in
  set_tx_script (repeat (100%N, true) 32)
    (set_rx_script
       (silence 60 100 ++
        repeat (100%N, other) 3 ++
        silence 100 50 ++
        flat_map (fun _ => silence 15 50 ++
                           [(49%N, other); (50%N, Some (pid_answer 0x7E8))])
                 (seq 0 16) ++
        flat_map (fun _ => silence 19 50 ++
                           [(49%N, other); (50%N, Some (dtc_answer 0x7E8))])
                 (seq 0 16))%list
       quiet_world).
(** * Properties *)

Ltac splits := repeat match goal with |- _ /\ _ => split end.

(** Reading a field of an updated world. *)
Ltac wsimpl :=
  cbn [clock rx_script tx_script drv_script driver tx_log serial progress
       detectedCodes activeECUs vehicleDetected traffic_drawn
       set_clock set_rx_script set_tx_script set_drv_script set_driver set_tx_log
       set_serial set_progress set_detectedCodes set_activeECUs set_vehicleDetected
       set_traffic_drawn
       Serial_print updateScanProgress draw_traffic delay fst snd] in *.

(** ** The decoder *)

Lemma in_all_bytes b : is_byte b -> In b all_bytes.
Proof.
  intros [Hlo Hhi]. unfold all_bytes.
  replace b with (Z.of_nat (Z.to_nat b)) by lia.
  apply in_map, in_seq. lia.
Qed.

Lemma is_byte_byte_at data i : Forall is_byte data -> is_byte (byte_at data i).
Proof.
  intros H. unfold byte_at.
  destruct (nth_in_or_default (Z.to_nat i) data 0) as [Hin | ->].
  - rewrite Forall_forall in H. auto.
  - unfold is_byte. lia.
Qed.

(** Checking a property of byte pairs on all 65536 of them. *)
Lemma all_pairs_ind (P : Z -> Z -> bool) :
  forallb (fun b1 => forallb (P b1) all_bytes) all_bytes = true ->
  forall b1 b2, is_byte b1 -> is_byte b2 -> P b1 b2 = true.
Proof.
  intros Hall b1 b2 H1 H2.
  rewrite forallb_forall in Hall.
  specialize (Hall b1 (in_all_bytes b1 H1)).
  rewrite forallb_forall in Hall.
  exact (Hall b2 (in_all_bytes b2 H2)).
Qed.

Lemma renders_b_sound b1 b2 s : renders_b b1 b2 s = true -> renders b1 b2 s.
Proof.
  destruct s as [| c digits]; simpl; [discriminate |].
  intros H. apply andb_prop in H. destruct H as [Hc Hv].
  apply Ascii.eqb_eq in Hc. subst c.
  exists digits. split; [reflexivity |].
  destruct (hex_value digits) as [n |]; [| discriminate].
  apply Z.eqb_eq in Hv. now subst n.
Qed.

Lemma dtc_string_checked :
  forallb (fun b1 => forallb (fun b2 =>
     (let s := dtc_string b1 b2 in
      renders_b b1 b2 s && String.eqb s (conventional_code b1 b2)) &&
     (dtc_codeNumber b1 b2 <? 2 ^ 14) && (0 <=? dtc_codeNumber b1 b2))
     all_bytes) all_bytes = true.
Proof. vm_cast_no_check (eq_refl true). Qed.

Lemma dtc_string_renders b1 b2 :
  is_byte b1 -> is_byte b2 -> renders b1 b2 (dtc_string b1 b2).
Proof.
  intros H1 H2.
  pose proof (all_pairs_ind _ dtc_string_checked b1 b2 H1 H2) as H.
  cbv zeta in H. repeat (apply andb_prop in H; destruct H as [H ?]).
  now apply renders_b_sound.
Qed.

Lemma dtc_string_conventional b1 b2 :
  is_byte b1 -> is_byte b2 -> dtc_string b1 b2 = conventional_code b1 b2.
Proof.
  intros H1 H2.
  pose proof (all_pairs_ind _ dtc_string_checked b1 b2 H1 H2) as H.
  cbv zeta in H. repeat (apply andb_prop in H; destruct H as [H ?]).
  now apply String.eqb_eq.
Qed.

Lemma dtc_codeNumber_range b1 b2 :
  is_byte b1 -> is_byte b2 -> 0 <= dtc_codeNumber b1 b2 < 2 ^ 14.
Proof.
  intros H1 H2.
  pose proof (all_pairs_ind _ dtc_string_checked b1 b2 H1 H2) as H.
  repeat (apply andb_prop in H; destruct H as [H ?]).
  split; [now apply Z.leb_le | now apply Z.ltb_lt].
Qed.

(** What the [for] loop adds for a list of byte pairs. *)
Lemma parse_loop_codes data len ecu :
  forall n fuel i w,
    (n <= fuel)%nat -> n = Z.to_nat ((len - i) / 2) ->
    detectedCodes (parse_loop fuel data len ecu i w) =
    (detectedCodes w ++
     flat_map (fun p => match decode_pair (fst p) (snd p) ecu with
                        | Some f => [f]
                        | None => []
                        end) (pairs_from n data i))%list.
Proof.
  induction n as [| n IH]; intros fuel i w Hfuel Hn.
  - simpl. rewrite app_nil_r.
    destruct fuel as [| fuel]; [reflexivity |]. simpl.
    destruct (Z.ltb_spec i (len - 1)) as [Hlt | Hge]; [| reflexivity].
    exfalso. assert (1 <= (len - i) / 2) by (apply Z.div_le_lower_bound; lia). lia.
  - destruct fuel as [| fuel]; [lia |].
    assert (Hi : i < len - 1).
    { destruct (Z.ltb_spec i (len - 1)) as [Hlt | Hge]; [assumption |].
      exfalso. assert ((len - i) / 2 <= 0).
      { apply Z.lt_succ_r. apply Z.div_lt_upper_bound; lia. }
      lia. }
    assert (Hn' : n = Z.to_nat ((len - (i + 2)) / 2)).
    { replace (len - (i + 2)) with (len - i + (-1) * 2) by lia.
      rewrite Z.div_add by lia. lia. }
    cbn [parse_loop pairs_from flat_map fst snd].
    apply Z.ltb_lt in Hi. rewrite Hi.
    destruct (decode_pair (byte_at data i) (byte_at data (i + 1)) ecu) as [f |].
    + rewrite (IH fuel (i + 2) _ ltac:(lia) Hn'). simpl. now rewrite <- app_assoc.
    + now rewrite (IH fuel (i + 2) _ ltac:(lia) Hn').
Qed.

Lemma pairs_from_bytes data : Forall is_byte data ->
  forall n i, Forall (fun p => is_byte (fst p) /\ is_byte (snd p)) (pairs_from n data i).
Proof.
  intros Hd. induction n as [| n IH]; intros i; simpl; constructor; auto.
  simpl. split; now apply is_byte_byte_at.
Qed.

(** C1. For a payload of length [len > 2] that lies within the array
    handed to the decoder ([len] is at most the number of bytes of [data],
    so that no byte is read past the array), the decoder reads the byte
    pairs from offset 2 on, in order; a pair of two zero bytes adds nothing;
    every other pair adds one code, owned by the queried ECU and not
    pending, whose text is the category letter given by the two top bits of
    [b1] (00 P, 01 C, 10 B, 11 U) followed by upper-case hexadecimal digits
    that denote the 14-bit value [((b1 & 0x3F) << 8) | b2].  The pair
    [(0x01, 0x23)] gives [P] with value [0x123], the pair [(0, 0)] nothing. *)
Theorem parseAndStoreDTC_decodes (data : list Z) (len ecu : Z) (w : World) :
  2 < len -> len <= Z.of_nat (List.length data) -> Forall is_byte data ->
  exists faults,
    detectedCodes (parseAndStoreDTC data len ecu w) = (detectedCodes w ++ faults)%list /\
    Forall2 (fun p f =>
               renders (fst p) (snd p) (code f) /\
               0 <= Z.lor (Z.shiftl (Z.land (fst p) 0x3F) 8) (snd p) < 2 ^ 14 /\
               ecuId f = ecu /\ isPending f = false)
            (filter nonzero_pair (pairs_of data len)) faults /\
    (exists f, decode_pair 0x01 0x23 ecu = Some f /\
               code f = String "P" "0123" /\ hex_value "0123" = Some 0x123) /\
    decode_pair 0x00 0x00 ecu = None.
Proof.
  intros Hlen _ Hdata.
  eexists. split; [| split; [| split]].
  - unfold parseAndStoreDTC.
    apply (parse_loop_codes data len ecu (Z.to_nat ((len - 2) / 2))); [| reflexivity].
    apply Z2Nat.inj_le; try lia.
    + apply Z.div_pos; lia.
    + apply Z.div_le_upper_bound; lia.
  - fold (pairs_of data len).
    pose proof (pairs_from_bytes data Hdata (Z.to_nat ((len - 2) / 2)) 2) as Hb.
    fold (pairs_of data len) in Hb.
    induction (pairs_of data len) as [| [b1 b2] ps IH]; simpl; [constructor |].
    inversion Hb as [| ? ? [H1 H2] Hb' ]; subst. simpl in H1, H2.
    unfold nonzero_pair at 1, decode_pair at 1. simpl.
    destruct ((b1 =? 0) && (b2 =? 0)); simpl; [now apply IH |].
    constructor; [| now apply IH].
    simpl. split; [now apply dtc_string_renders |].
    split; [exact (dtc_codeNumber_range b1 b2 H1 H2) | split; reflexivity].
  - eexists. split; [reflexivity | split; reflexivity].
  - reflexivity.
Qed.

Lemma parseAndStoreDTC_decodes_witness :
  exists faults,
    detectedCodes (parseAndStoreDTC [0x05; 0x43; 0x01; 0x23; 0x00; 0x00; 0x00; 0x00] 8 0x7E8
                                    quiet_world) = faults /\
    List.length faults = 1%nat.
Proof.
  destruct (parseAndStoreDTC_decodes [0x05; 0x43; 0x01; 0x23; 0x00; 0x00; 0x00; 0x00] 8 0x7E8
              quiet_world) as [faults [Heq [Hall _]]].
  - lia.
  - simpl. lia.
  - repeat constructor; unfold is_byte; lia.
  - exists faults. split; [exact Heq |].
    apply Forall2_length in Hall. simpl in Hall. now rewrite <- Hall.
Defined.

Example decode_C0310 :
  option_map code (decode_pair 0x43 0x10 0x7E8) = Some "C0310"%string.
Proof. reflexivity. Qed.

Example decode_B0001 :
  option_map code (decode_pair 0x80 0x01 0x7E8) = Some "B0001"%string.
Proof. reflexivity. Qed.

Example decode_U3FFF :
  option_map code (decode_pair 0xFF 0xFF 0x7E8) = Some "U3FFF"%string.
Proof. reflexivity. Qed.

(** The padding loop always reaches its exit test within its five rounds. *)
Lemma pad_zeros_exits s : (5 <= String.length (pad_zeros s))%nat.
Proof.
  unfold pad_zeros.
  destruct s as [| c1 [| c2 [| c3 [| c4 [| c5 s]]]]]; simpl; lia.
Qed.

(** One round of the padding loop puts a zero right after the first
    character. *)
Lemma pad_zeros_step c rest :
  (String.length (String c rest) < 5)%nat ->
  pad_zeros (String c rest) = pad_zeros (String c (String "0" rest)).
Proof.
  destruct rest as [| c2 [| c3 [| c4 [| c5 s]]]]; simpl; intros H;
    try reflexivity; lia.
Qed.

(** C8, as the code has it. The padding loop puts a zero after the first
    character in every round, and for every byte pair the stored text is
    the category letter followed by the value as four upper-case
    hexadecimal digits, zero-padded on the left: the loop is conventional
    left padding of the digits. *)
Theorem pad_zeros_is_left_padding (b1 b2 : Z) (c : ascii) (rest : string) :
  is_byte b1 -> is_byte b2 ->
  ((String.length (String c rest) < 5)%nat ->
   pad_zeros (String c rest) = pad_zeros (String c (String "0" rest))) /\
  dtc_string b1 b2 = conventional_code b1 b2.
Proof.
  intros H1 H2. split.
  - apply pad_zeros_step.
  - now apply dtc_string_conventional.
Qed.

Lemma pad_zeros_is_left_padding_witness :
  dtc_string 0x00 0x01 = conventional_code 0x00 0x01.
Proof.
  apply (pad_zeros_is_left_padding 0x00 0x01 "P" "1"); unfold is_byte; lia.
Defined.

(** C8, as stated, fails: no decodable byte pair is rendered differently
    from the conventional form. *)
Lemma padding_never_differs :
  ~ exists b1 b2, is_byte b1 /\ is_byte b2 /\ nonzero_pair (b1, b2) = true /\
                  dtc_string b1 b2 <> conventional_code b1 b2.
Proof.
  intros (b1 & b2 & H1 & H2 & _ & Hne).
  apply Hne. now apply dtc_string_conventional.
Qed.

(** ** Worlds, the clock and the receive loop *)

Lemma same_state_refl w : same_state w w.
Proof. reflexivity. Qed.

Lemma same_state_trans w1 w2 w3 :
  same_state w1 w2 -> same_state w2 w3 -> same_state w1 w3.
Proof. unfold same_state. congruence. Qed.

Lemma same_state_fields w w' :
  same_state w w' ->
  tx_script w' = tx_script w /\ drv_script w' = drv_script w /\
  driver w' = driver w /\ tx_log w' = tx_log w /\ serial w' = serial w /\
  progress w' = progress w /\ detectedCodes w' = detectedCodes w /\
  activeECUs w' = activeECUs w /\ vehicleDetected w' = vehicleDetected w.
Proof.
  unfold same_state. intros H.
  repeat split;
    [ apply (f_equal tx_script) in H | apply (f_equal drv_script) in H
    | apply (f_equal driver) in H | apply (f_equal tx_log) in H
    | apply (f_equal serial) in H | apply (f_equal progress) in H
    | apply (f_equal detectedCodes) in H | apply (f_equal activeECUs) in H
    | apply (f_equal vehicleDetected) in H ]; simpl in H; congruence.
Qed.

Lemma same_state_delay ms w : same_state w (delay ms w).
Proof. reflexivity. Qed.

Lemma same_state_receive ms w : same_state w (snd (twai_receive ms w)).
Proof.
  unfold twai_receive. destruct (rx_script w) as [| [dt r] rest]; reflexivity.
Qed.

Lemma twai_receive_some ms w m w1 :
  twai_receive ms w = (Some m, w1) ->
  exists dt, rx_script w = (dt, Some m) :: rx_script w1 /\
             clock w1 = clock w + call_time ms (dt, Some m).
Proof.
  unfold twai_receive. destruct (rx_script w) as [| [dt r] rest]; intros H.
  - discriminate.
  - inversion H; subst. exists dt. split; reflexivity.
Qed.

Lemma twai_receive_none ms w w1 :
  twai_receive ms w = (None, w1) ->
  (rx_script w = [] /\ rx_script w1 = [] /\ clock w1 = clock w + ms) \/
  (exists dt, rx_script w = (dt, None) :: rx_script w1 /\
              clock w1 = clock w + ms).
Proof.
  unfold twai_receive. destruct (rx_script w) as [| [dt r] rest] eqn:E; intros H.
  - inversion H; subst. left. simpl. auto.
  - inversion H; subst. right. exists dt. split; reflexivity.
Qed.

Lemma twai_receive_rx ms w :
  exists pre, rx_script w = (pre ++ rx_script (snd (twai_receive ms w)))%list /\
              (List.length pre <= 1)%nat.
Proof.
  unfold twai_receive. destruct (rx_script w) as [| [dt r] rest] eqn:E.
  - exists []. simpl. rewrite E. auto.
  - exists [(dt, r)]. simpl. auto.
Qed.

Lemma since_range start w : 0 <= since start w < 2 ^ 32.
Proof. unfold since. apply Z.mod_pos_bound. lia. Qed.

Lemma since_millis w : since (millis w) w = 0.
Proof. unfold since. now rewrite Z.sub_diag. Qed.

Lemma since_delay start ms w :
  since start (delay ms w) = (since start w + ms) mod 2 ^ 32.
Proof.
  unfold since, millis, delay. simpl.
  rewrite !Zminus_mod_idemp_l, Zplus_mod_idemp_l.
  f_equal. lia.
Qed.

Lemma since_offset w w' d : clock w' = clock w + d -> since (millis w) w' = d mod 2 ^ 32.
Proof.
  unfold since, millis. intros ->. rewrite <- Zminus_mod. f_equal. lia.
Qed.

Lemma since_Serial_print start e w : since start (Serial_print e w) = since start w.
Proof. reflexivity. Qed.

Lemma since_same_clock start w w' : clock w' = clock w -> since start w' = since start w.
Proof. unfold since, millis. now intros ->. Qed.

Section ReceiveLoop.

Context {S R : Type}.
Variables (window ms start : Z).
Variable body : twai_message -> S -> World -> (S + R) * World.

(** On a silent bus the loop ends after at most [k] full waits. *)
Lemma receive_while_silent :
  0 < ms -> window + ms <= 2 ^ 32 ->
  forall (k fuel : nat) (s : S) (w : World),
    rx_script w = [] ->
    window <= since start w + Z.of_nat k * ms ->
    (k < fuel)%nat ->
    exists w', receive_while fuel window ms start body s w = Some (inl s, w').
Proof.
  intros Hms Hwin. induction k as [| k IH]; intros fuel s w Hrx Hk Hfuel.
  - destruct fuel as [| fuel]; [lia |]. simpl.
    destruct (Z.ltb_spec (since start w) window); [lia |]. now exists w.
  - destruct fuel as [| fuel]; [lia |]. simpl.
    destruct (Z.ltb_spec (since start w) window) as [Hlt |]; [| now exists w].
    unfold twai_receive. rewrite Hrx.
    apply IH; [assumption | | lia].
    rewrite since_delay. pose proof (since_range start w).
    rewrite Z.mod_small by lia. lia.
Qed.

Hypothesis body_keeps_rx :
  forall m s w, rx_script (snd (body m s w)) = rx_script w.

(** With one round per script entry and the full waits of one window,
    the loop ends. *)
Lemma receive_while_total :
  0 < ms -> 0 <= window -> window + ms <= 2 ^ 32 ->
  forall (n fuel : nat) (s : S) (w : World),
    List.length (rx_script w) = n ->
    (n + Z.to_nat (window / ms) + 1 < fuel)%nat ->
    exists r, receive_while fuel window ms start body s w = Some r.
Proof.
  intros Hms Hw0 Hwin. induction n as [| n IH]; intros fuel s w Hn Hfuel.
  - destruct (receive_while_silent Hms Hwin (Z.to_nat (window / ms) + 1) fuel s w)
      as [w' Hw']; [now apply length_zero_iff_nil | | lia | eauto].
    pose proof (since_range start w).
    pose proof (Z.div_pos window ms Hw0 Hms).
    pose proof (Z.mod_pos_bound window ms Hms).
    pose proof (Z.div_mod window ms ltac:(lia)).
    rewrite Nat2Z.inj_add, Z2Nat.id by lia. nia.
  - destruct fuel as [| fuel]; [lia |]. simpl.
    destruct (since start w <? window); [| eauto].
    destruct (twai_receive_rx ms w) as [pre [Hpre Hlen]].
    destruct (rx_script w) as [| e rest] eqn:Hrx; [discriminate |].
    unfold twai_receive. rewrite Hrx. destruct e as [dt [m |]].
    + pose proof (body_keeps_rx m s (set_rx_script rest (delay (call_time ms (dt, Some m)) w))) as Hb.
      destruct (body m s (set_rx_script rest (delay (call_time ms (dt, Some m)) w))) as [[s' | r] w2].
      * apply IH; [| lia]. simpl in Hb, Hn. rewrite Hb. lia.
      * eauto.
    + apply IH; [| lia]. simpl in *. lia.
Qed.

(** The loop rule: an invariant kept by every round that stays in the
    loop holds at a normal exit, together with the closed window; when
    the loop is left from the body, the invariant held before the receive
    call that delivered the frame. *)
Lemma receive_while_rule (P : S -> World -> Prop) :
  (forall s w w1, P s w -> since start w < window ->
                  twai_receive ms w = (None, w1) -> P s w1) ->
  (forall s w m w1 s' w2, P s w -> since start w < window ->
                  twai_receive ms w = (Some m, w1) ->
                  body m s w1 = (inl s', w2) -> P s' w2) ->
  forall fuel s w res w',
    P s w ->
    receive_while fuel window ms start body s w = Some (res, w') ->
    match res with
    | inl s' => P s' w' /\ window <= since start w'
    | inr r => exists s0 w0 m w1,
                 P s0 w0 /\ since start w0 < window /\
                 twai_receive ms w0 = (Some m, w1) /\
                 body m s0 w1 = (inr r, w')
    end.
Proof.
  intros Hnone Hsome. induction fuel as [| fuel IH]; intros s w res w' HP Hrun.
  - discriminate.
  - simpl in Hrun.
    destruct (Z.ltb_spec (since start w) window) as [Hlt | Hge].
    + destruct (twai_receive ms w) as [[m |] w1] eqn:Hrcv.
      * destruct (body m s w1) as [[s' | r] w2] eqn:Hbody.
        -- apply (IH s' w2); [| assumption]. eapply Hsome; eauto.
        -- inversion Hrun; subst. exists s, w, m, w1. auto.
      * apply (IH s w1); [| assumption]. eapply Hnone; eauto.
    + inversion Hrun; subst. auto.
Qed.

End ReceiveLoop.

(** ** Baud detection *)

Lemma frames_in_app l1 l2 : frames_in (l1 ++ l2) = (frames_in l1 + frames_in l2)%nat.
Proof. unfold frames_in. now rewrite filter_app, length_app. Qed.

Lemma duration_app ms l1 l2 : duration ms (l1 ++ l2) = duration ms l1 + duration ms l2.
Proof. induction l1 as [| e l1 IH]; simpl; lia. Qed.

Lemma frames_in_one e : frames_in [e] = if is_frame e then 1%nat else 0%nat.
Proof. unfold frames_in. simpl. now destruct (is_frame e). Qed.

Lemma duration_one ms e : duration ms [e] = call_time ms e.
Proof. unfold duration. simpl. lia. Qed.

Lemma call_time_range ms e : 0 <= ms -> 0 <= call_time ms e <= ms.
Proof. intros Hms. unfold call_time. destruct (snd e); lia. Qed.

Lemma duration_nonneg ms l : 0 <= ms -> 0 <= duration ms l.
Proof.
  intros Hms. induction l as [| e l IH]; simpl; [lia |].
  pose proof (call_time_range ms e Hms). lia.
Qed.

Lemma count_frame_rx b m c w : rx_script (snd (count_frame b m c w)) = rx_script w.
Proof. unfold count_frame. destruct (c + 1 >=? 3); reflexivity. Qed.

(** The listening loop of one candidate. *)
Lemma baud_listen_spec fuel b w1 res w2 :
  receive_while fuel BAUD_DETECT_TIMEOUT_MS 100 (millis w1) (count_frame b) 0 w1
    = Some (res, w2) ->
  match res with
  | inl _ => window_silent w1 w2
  | inr r => r = b /\ exists w3, heard_three w1 w3 /\ w2 = Serial_print (SerActivity b 3) w3
  end.
Proof.
  intros Hrun.
  pose (P := fun (c : Z) (w : World) =>
     exists pre, rx_script w1 = (pre ++ rx_script w)%list /\
                 Z.of_nat (frames_in pre) = c /\ c < 3 /\ same_state w1 w /\
                 duration 100 pre <= 2100 /\
                 (rx_script w <> [] -> clock w = clock w1 + duration 100 pre)).
  assert (HP : P 0 w1).
  { exists []. simpl. splits; try reflexivity; try lia. }
  pose proof (receive_while_rule BAUD_DETECT_TIMEOUT_MS 100 (millis w1) (count_frame b) P)
    as Hrule.
  specialize (fun H1 H2 => Hrule H1 H2 fuel 0 w1 res w2 HP Hrun).
  assert (Hopen : forall (s : Z) w pre,
            since (millis w1) w < BAUD_DETECT_TIMEOUT_MS ->
            clock w = clock w1 + duration 100 pre -> duration 100 pre <= 2100 ->
            duration 100 pre < 2000).
  { intros s w pre Hlt Hclk Hle.
    pose proof (duration_nonneg 100 pre ltac:(lia)) as H0.
    rewrite (since_offset w1 w _ Hclk), Z.mod_small in Hlt by lia.
    exact Hlt. }
  assert (Hnone : forall s w w', P s w -> since (millis w1) w < BAUD_DETECT_TIMEOUT_MS ->
                    twai_receive 100 w = (None, w') -> P s w').
  { intros s w w' (pre & Hpre & Hc & Hlt & Hsame & Hle & Hclk) Hwin Hrcv.
    pose proof (same_state_receive 100 w) as Hs. rewrite Hrcv in Hs. simpl in Hs.
    destruct (twai_receive_none _ _ _ Hrcv) as [(He & He' & _) | (dt & Hscr & Hdt)].
    - exists pre. splits; auto.
      + congruence.
      + eapply same_state_trans; eauto.
      + congruence.
    - assert (Hclk' : clock w = clock w1 + duration 100 pre)
        by (apply Hclk; rewrite Hscr; discriminate).
      pose proof (Hopen s w pre Hwin Hclk' Hle) as Hd.
      exists (pre ++ [(dt, None)])%list. rewrite <- app_assoc. simpl. rewrite <- Hscr.
      rewrite duration_app, duration_one. cbn [call_time snd].
      splits; auto.
      + rewrite frames_in_app, frames_in_one. simpl. lia.
      + eapply same_state_trans; eauto.
      + lia.
      + intros _. lia. }
  assert (Hstep : forall s w m w' , P s w ->
            since (millis w1) w < BAUD_DETECT_TIMEOUT_MS ->
            twai_receive 100 w = (Some m, w') ->
            exists pre dt, rx_script w1 = (pre ++ (dt, Some m) :: rx_script w')%list /\
                           Z.of_nat (frames_in pre) = s /\ s < 3 /\ same_state w1 w' /\
                           duration 100 pre < 2000 /\
                           clock w' = clock w1 + duration 100 pre +
                                      call_time 100 (dt, Some m)).
  { intros s w m w' (pre & Hpre & Hc & Hlt & Hsame & Hle & Hclk) Hwin Hrcv.
    pose proof (same_state_receive 100 w) as Hs. rewrite Hrcv in Hs. simpl in Hs.
    destruct (twai_receive_some _ _ _ _ Hrcv) as (dt & Hscr & Hdt).
    assert (Hclk' : clock w = clock w1 + duration 100 pre)
      by (apply Hclk; rewrite Hscr; discriminate).
    exists pre, dt. rewrite <- Hscr. splits; auto.
    - eapply same_state_trans; eauto.
    - exact (Hopen s w pre Hwin Hclk' Hle).
    - lia. }
  assert (Hsome : forall s w m w' s' w'', P s w ->
                    since (millis w1) w < BAUD_DETECT_TIMEOUT_MS ->
                    twai_receive 100 w = (Some m, w') ->
                    count_frame b m s w' = (inl s', w'') -> P s' w'').
  { intros s w m w' s' w'' HPs Hwin Hrcv Hbody.
    destruct (Hstep _ _ _ _ HPs Hwin Hrcv)
      as (pre & dt & Hpre & Hc & Hlt & Hsame & Hd & Hclk).
    unfold count_frame in Hbody.
    destruct (Z.geb_spec (s + 1) 3) as [Hge | Hlt']; inversion Hbody; subst.
    exists (pre ++ [(dt, Some m)])%list. rewrite <- app_assoc. simpl.
    rewrite duration_app, duration_one.
    pose proof (call_time_range 100 (dt, Some m) ltac:(lia)).
    splits; auto.
    - rewrite frames_in_app, frames_in_one. simpl. lia.
    - lia.
    - intros _. lia. }
  specialize (Hrule Hnone Hsome).
  destruct res as [c | r].
  - destruct Hrule as [(pre & Hpre & Hc & Hlt & Hsame & _) Hwin].
    exists pre. splits; auto. lia.
  - destruct Hrule as (s0 & w0 & m & w' & HPs & Hwin & Hrcv & Hbody).
    destruct (Hstep _ _ _ _ HPs Hwin Hrcv)
      as (pre & dt & Hpre & Hc & Hlt & Hsame & Hd & Hclk).
    unfold count_frame in Hbody.
    destruct (Z.geb_spec (s0 + 1) 3) as [Hge | Hlt']; inversion Hbody; subst.
    split; [reflexivity |]. exists w'. split.
    + exists pre, dt, m. splits; auto. lia.
    + replace (Z.of_nat (frames_in pre) + 1) with 3 by lia. reflexivity.
Qed.

Lemma same_state_rx_le w w' pre :
  rx_script w = (pre ++ rx_script w')%list ->
  (List.length (rx_script w') <= List.length (rx_script w))%nat.
Proof. intros ->. rewrite length_app. lia. Qed.

Lemma backstage_refl w : backstage w w.
Proof.
  unfold backstage. splits; auto. exists []. now rewrite app_nil_r.
Qed.

Lemma backstage_trans w1 w2 w3 : backstage w1 w2 -> backstage w2 w3 -> backstage w1 w3.
Proof.
  intros (Hp & Ha & (e1 & He1 & Hf1) & Hr) (Hp' & Ha' & (e2 & He2 & Hf2) & Hr').
  unfold backstage. splits; try congruence; try lia.
  exists (e1 ++ e2)%list. split.
  - rewrite He2, He1. now rewrite app_assoc.
  - now apply Forall_app.
Qed.

Lemma backstage_print e w : not_found e -> backstage w (Serial_print e w).
Proof.
  intros He. unfold backstage. simpl. splits; auto.
  exists [e]. split; [reflexivity | now constructor].
Qed.

Lemma backstage_same_state w w' :
  same_state w w' -> (List.length (rx_script w') <= List.length (rx_script w))%nat ->
  backstage w w'.
Proof.
  intros Hs Hr. apply same_state_fields in Hs.
  destruct Hs as (? & ? & ? & ? & Hser & ? & ? & ? & ?).
  unfold backstage. splits; auto.
  exists []. rewrite app_nil_r. auto.
Qed.

Lemma backstage_delay ms w : backstage w (delay ms w).
Proof. apply backstage_same_state; [apply same_state_delay | simpl; lia]. Qed.

Lemma backstage_receive ms w : backstage w (snd (twai_receive ms w)).
Proof.
  apply backstage_same_state; [apply same_state_receive |].
  destruct (twai_receive_rx ms w) as (pre & Hpre & _).
  eapply same_state_rx_le. exact Hpre.
Qed.

Lemma backstage_reinitializeCAN b w : backstage w (snd (reinitializeCAN b w)).
Proof.
  unfold reinitializeCAN, driver_call.
  destruct ((b =? 1000000) || (b =? 500000) || (b =? 250000) || (b =? 125000));
    simpl;
    [destruct (drv_script w) as [| [|] [| [|] rest]] eqn:E; simpl; rewrite ?E; simpl |];
    unfold backstage; simpl; splits; auto; try lia.
  all: exists []; rewrite app_nil_r; auto.
Qed.

Lemma reinitializeCAN_rx b w : rx_script (snd (reinitializeCAN b w)) = rx_script w.
Proof.
  unfold reinitializeCAN, driver_call.
  destruct ((b =? 1000000) || (b =? 500000) || (b =? 250000) || (b =? 125000)); simpl;
    [| reflexivity].
  destruct (drv_script w) as [| [|] [| [|] rest]] eqn:E; simpl; rewrite ?E; reflexivity.
Qed.

(** What [reinitializeCAN] does for a candidate rate: the driver's two
    answers decide, and the controller runs at the rate only if both were
    [ESP_OK]. *)
Lemma reinitializeCAN_cases b w :
  In b baudRates ->
  match reinitializeCAN b w with
  | (true, w1) => reconfigured b w w1
  | (false, w1) => reconfigure_failed w w1
  end.
Proof.
  intros Hb. unfold reinitializeCAN, driver_call.
  assert (Hs : (b =? 1000000) || (b =? 500000) || (b =? 250000) || (b =? 125000) = true).
  { destruct Hb as [<- | [<- | [<- | [<- | []]]]]; reflexivity. }
  rewrite Hs.
  unfold reconfigured, reconfigure_failed, install_answer, start_answer, same_bus.
  destruct w as [c rx tx [| [|] [| [|] rest]] dr tl sl pr dc ae vd td]; cbn;
    splits; auto.
Qed.


(** Baud detection over the candidates ends and follows [detect_run]. *)
Lemma try_baudRates_spec fuel :
  forall rates w,
    incl rates baudRates ->
    (List.length (rx_script w) + 102 <= fuel)%nat ->
    exists r w', try_baudRates fuel rates w = Some (r, w') /\
                 detect_run rates w r w' /\
                 (r = 0 \/ In r rates) /\
                 backstage w w'.
Proof.
  induction rates as [| b rest IH]; intros w Hin Hfuel.
  - exists 0, w. simpl. splits; auto. apply backstage_refl.
  - assert (Hin' : incl rest baudRates) by (intros x Hx; apply Hin; now right).
    specialize (fun w => IH w Hin').
    cbn [try_baudRates detect_run].
    set (w0 := Serial_print (SerTrying b) w).
    assert (Hb0 : backstage w w0) by (apply backstage_print; exact I).
    pose proof (backstage_reinitializeCAN b w0) as Hb1.
    pose proof (reinitializeCAN_rx b w0) as Hrx1.
    pose proof (reinitializeCAN_cases b w0 (Hin b (or_introl eq_refl))) as Hcase.
    destruct (reinitializeCAN b w0) as [[|] w1] eqn:Hre; simpl in Hb1, Hrx1.
    + destruct (receive_while_total BAUD_DETECT_TIMEOUT_MS 100 (millis w1) (count_frame b)
                  (count_frame_rx b) ltac:(lia) ltac:(unfold BAUD_DETECT_TIMEOUT_MS; lia)
                  ltac:(unfold BAUD_DETECT_TIMEOUT_MS; lia)
                  (List.length (rx_script w1)) fuel 0 w1 eq_refl) as [[res w2] Hrun].
      { rewrite Hrx1. subst w0. simpl.
        change (Z.to_nat (BAUD_DETECT_TIMEOUT_MS / 100)) with 20%nat. lia. }
      rewrite Hrun. pose proof (baud_listen_spec _ _ _ _ _ Hrun) as Hspec.
      destruct res as [c | r].
      * destruct Hspec as (pre & Hpre & Hfr & Hwin & Hsame).
        pose proof (same_state_rx_le _ _ _ Hpre) as Hle.
        destruct (IH (Serial_print (SerNoActivity b) w2)) as (r & w' & Hrun' & Hspec' & Hr & Hb').
        { simpl. rewrite Hrx1 in Hle. subst w0. simpl in Hle. lia. }
        exists r, w'. splits; auto.
        -- right. exists w1. split; [exact Hcase |]. right. exists w2. split; auto.
           exists pre. splits; auto.
        -- destruct Hr; auto. right. now right.
        -- eapply backstage_trans; [exact Hb0 |].
           eapply backstage_trans; [exact Hb1 |].
           eapply backstage_trans; [apply (backstage_same_state _ _ Hsame Hle) |].
           eapply backstage_trans; [| exact Hb'].
           apply backstage_print. exact I.
      * destruct Hspec as (-> & w3 & Hheard & ->).
        exists b, (Serial_print (SerActivity b 3) w3). splits; auto.
        -- right. exists w1. split; [exact Hcase |]. left. exists w3. auto.
        -- right. now left.
        -- destruct Hheard as (pre & dt & m & Hpre & _ & _ & _ & Hsame).
           eapply backstage_trans; [exact Hb0 |].
           eapply backstage_trans; [exact Hb1 |].
           eapply backstage_trans; [| apply backstage_print; exact I].
           apply (backstage_same_state _ _ Hsame).
           rewrite Hpre, length_app. simpl. lia.
    + destruct (IH w1) as (r & w' & Hrun' & Hspec' & Hr & Hb').
      { rewrite Hrx1. subst w0. simpl. lia. }
      exists r, w'. splits; auto.
      * left. exists w1. auto.
      * destruct Hr; auto. right. now right.
      * eapply backstage_trans; [exact Hb0 |].
        eapply backstage_trans; [exact Hb1 | exact Hb'].
Qed.



Example detects_500k_after_three_frames :
  option_map (fun r => (fst r, clock (snd r), List.length (rx_script (snd r))))
             (autoDetectCANBaudRate 205 silent_vehicle_world) =
  Some (500000, 30, 100%nat).
Proof. vm_compute. reflexivity. Qed.

Example detects_125k_after_a_refusal :
  option_map (fun r => (fst r, clock (snd r), driver (snd r),
                        List.length (rx_script (snd r))))
             (autoDetectCANBaudRate 225 slow_vehicle_world) =
  Some (125000, 2030, Some 125000, 100%nat).
Proof. vm_compute. reflexivity. Qed.

Example no_activity_on_a_silent_bus :
  option_map (fun r => (fst r, clock (snd r))) (autoDetectCANBaudRate 102 quiet_world) =
  Some (0, 8000).
Proof. vm_compute. reflexivity. Qed.

(** ** ECU discovery *)

Lemma probe_response_rx a m s w : rx_script (snd (probe_response a m s w)) = rx_script w.
Proof. unfold probe_response. destruct (qualifies a (identifier m)); reflexivity. Qed.

(** The wait for an answer to one probe: either the window runs out with
    nothing recorded, or one qualifying identifier is recorded. *)
Lemma probe_wait_spec fuel a w1 res w2 :
  receive_while fuel 800 50 (millis w1) (probe_response a) tt w1 = Some (res, w2) ->
  exists w3,
    same_state w1 w3 /\
    (List.length (rx_script w3) <= List.length (rx_script w1))%nat /\
    match res with
    | inl _ => w2 = w3
    | inr _ => exists id,
        qualifies a id = true /\
        w2 = Serial_print (SerActiveECU a id)
               (set_activeECUs (activeECUs w3 ++ [id mod 2 ^ 16]) w3)
    end.
Proof.
  intros Hrun.
  pose (P := fun (_ : unit) (w : World) =>
     same_state w1 w /\ (List.length (rx_script w) <= List.length (rx_script w1))%nat).
  assert (Hrcv : forall w r w', P tt w -> twai_receive 50 w = (r, w') -> P tt w').
  { intros w r w' [Hs Hl] Hr.
    pose proof (same_state_receive 50 w) as Hs'.
    destruct (twai_receive_rx 50 w) as (pre & Hpre & _).
    rewrite Hr in Hs', Hpre. simpl in Hs', Hpre.
    split; [eapply same_state_trans; eauto |].
    apply same_state_rx_le in Hpre. lia. }
  pose proof (receive_while_rule 800 50 (millis w1) (probe_response a) P) as Hrule.
  assert (HP : P tt w1) by (split; [apply same_state_refl | lia]).
  specialize (fun H1 H2 => Hrule H1 H2 fuel tt w1 res w2 HP Hrun).
  destruct res as [[] | []].
  - destruct Hrule as [[Hs Hl] _].
    + intros [] w w' HPw _ Hr. eapply Hrcv; eauto.
    + intros [] w m w' s' w'' HPw _ Hr Hb.
      unfold probe_response in Hb.
      destruct (qualifies a (identifier m)); inversion Hb; subst. eapply Hrcv; eauto.
    + exists w2. auto.
  - destruct Hrule as (s0 & w0 & m & w' & HPw & _ & Hr & Hb).
    + intros [] w w' HPw _ Hr. eapply Hrcv; eauto.
    + intros [] w m w' s' w'' HPw _ Hr Hb.
      unfold probe_response in Hb.
      destruct (qualifies a (identifier m)); inversion Hb; subst. eapply Hrcv; eauto.
    + destruct s0. destruct (Hrcv _ _ _ HPw Hr) as [Hs Hl].
      exists w'. splits; auto.
      unfold probe_response in Hb.
      destruct (qualifies a (identifier m)) eqn:Hq; inversion Hb; subst.
      exists (identifier m). auto.
Qed.

Lemma tx_time_range w : 0 <= tx_time w <= TX_TIMEOUT_MS.
Proof.
  unfold tx_time, TX_TIMEOUT_MS. destruct (tx_script w) as [| [dt ok] rest]; lia.
Qed.

Lemma twai_transmit_spec msg w :
  let w' := snd (twai_transmit msg w) in
  tx_log w' = (tx_log w ++ [(clock w, msg)])%list /\ rx_script w' = rx_script w /\
  clock w' = clock w + tx_time w /\ serial w' = serial w /\ progress w' = progress w /\
  activeECUs w' = activeECUs w /\ detectedCodes w' = detectedCodes w.
Proof.
  unfold twai_transmit, tx_time.
  destruct (tx_script w) as [| [dt ok] rest]; simpl; splits; auto; lia.
Qed.

Lemma qualifies_spec a id :
  qualifies a id = true -> id - 8 = a \/ 0x7E8 <= id <= 0x7EF.
Proof.
  unfold qualifies. intros H. apply orb_prop in H. destruct H as [H | H].
  - apply Z.eqb_eq in H. lia.
  - apply andb_prop in H. destruct H as [H1 H2].
    apply Z.leb_le in H1. apply Z.leb_le in H2. lia.
Qed.

Lemma qualifies_small a id :
  0 <= a -> a + 8 < 2 ^ 16 -> qualifies a id = true -> id mod 2 ^ 16 = id.
Proof.
  intros Ha0 Ha Hq. apply qualifies_spec in Hq. apply Z.mod_small. lia.
Qed.

(** One probe: what it sends, logs, shows and records. *)
Lemma probe_address_spec fuel a i w :
  (List.length (rx_script w) + 102 <= fuel)%nat ->
  0 <= a -> a + 8 < 2 ^ 16 ->
  exists w',
    probe_address fuel a i w = Some w' /\
    map snd (tx_log w') = (map snd (tx_log w) ++ [probe_request a])%list /\
    (exists ps, progress w' = (progress w ++ ps)%list /\
                Forall (fun p => Z.rem i 4 = 0 /\ snd p = 50 + Z.quot (i * 25) NUM_ECUS) ps) /\
    detectedCodes w' = detectedCodes w /\
    (List.length (rx_script w') <= List.length (rx_script w))%nat /\
    ((activeECUs w' = activeECUs w /\
      serial w' = (serial w ++ [SerProbing a (i + 1)])%list) \/
     (exists id, qualifies a id = true /\
        activeECUs w' = (activeECUs w ++ [id])%list /\
        serial w' = (serial w ++ [SerProbing a (i + 1); SerActiveECU a id])%list)).
Proof.
  intros Hfuel Ha0 Ha. unfold probe_address, probe_request.
  set (w0 := Serial_print (SerProbing a (i + 1)) w).
  set (w1 := if Z.rem i 4 =? 0 then updateScanProgress _ _ w0 else w0).
  assert (H1 : rx_script w1 = rx_script w /\ serial w1 = (serial w ++ [SerProbing a (i + 1)])%list /\
               tx_log w1 = tx_log w /\ activeECUs w1 = activeECUs w /\
               detectedCodes w1 = detectedCodes w /\
               exists ps, progress w1 = (progress w ++ ps)%list /\
                Forall (fun p => Z.rem i 4 = 0 /\ snd p = 50 + Z.quot (i * 25) NUM_ECUS) ps).
  { subst w1 w0. destruct (Z.eqb_spec (Z.rem i 4) 0) as [Hr | Hr]; wsimpl; splits; auto.
    - eexists. split; [reflexivity |]. constructor; [| constructor]. wsimpl. auto.
    - exists []. rewrite app_nil_r. auto. }
  destruct H1 as (Hrx1 & Hser1 & Htx1 & Hact1 & Hdet1 & ps & Hps & Hpsall).
  pose proof (twai_transmit_spec (obd_request a 2 1 0) w1) as Htx.
  destruct (twai_transmit (obd_request a 2 1 0) w1) as [sent w2]. simpl in Htx.
  destruct Htx as (Htx2 & Hrx2 & Hclk2 & Hser2 & Hpr2 & Hact2 & Hdet2).
  assert (Htx2' : map snd (tx_log w2) = (map snd (tx_log w) ++ [obd_request a 2 1 0])%list)
    by (rewrite Htx2, map_app, Htx1; reflexivity).
  destruct sent.
  - destruct (receive_while_total 800 50 (millis w2) (probe_response a)
                (probe_response_rx a) ltac:(lia) ltac:(lia) ltac:(lia)
                (List.length (rx_script w2)) fuel tt w2 eq_refl) as [[res w3] Hrun].
    { rewrite Hrx2, Hrx1. change (Z.to_nat (800 / 50)) with 16%nat. lia. }
    rewrite Hrun. destruct (probe_wait_spec _ _ _ _ _ Hrun) as (w4 & Hsame & Hlen & Hres).
    rewrite Hrx2, Hrx1 in Hlen.
    apply same_state_fields in Hsame.
    destruct Hsame as (_ & _ & _ & Htx4 & Hser4 & Hpr4 & Hdet4 & Hact4 & _).
    eexists. split; [reflexivity |].
    destruct res as [[] | []].
    + subst w3. wsimpl. splits; try congruence; try lia.
      * exists ps. split; [congruence | assumption].
      * left. split; congruence.
    + destruct Hres as (id & Hq & ->). wsimpl. splits; try congruence; try lia.
      * exists ps. split; [congruence | assumption].
      * right. exists id. splits; auto.
        -- rewrite (qualifies_small a id Ha0 Ha Hq). congruence.
        -- rewrite Hser4, Hser2, Hser1, <- app_assoc. reflexivity.
  - eexists. split; [reflexivity |]. wsimpl. rewrite Hrx2, Hrx1.
    splits; try congruence; try lia.
    + exists ps. split; [congruence | assumption].
    + left. split; congruence.
Qed.

(** The probing loop over any list of addresses: it probes a prefix of the
    list, in order, and stops early only at its deadline. *)
Lemma probe_loop_spec fuel T start :
  forall addrs i w,
    (List.length (rx_script w) + 102 <= fuel)%nat ->
    Forall small_addr addrs ->
    exists w' n tr ps,
      probe_loop fuel T start addrs i w = Some w' /\
      (n <= List.length addrs)%nat /\
      probe_trace (firstn n addrs) i tr /\
      serial w' = (serial w ++ tr ++
                   (if (n <? List.length addrs)%nat
                    then [SerProbeTimeout (i + Z.of_nat n)] else []))%list /\
      map snd (tx_log w') = (map snd (tx_log w) ++ map probe_request (firstn n addrs))%list /\
      activeECUs w' = (activeECUs w ++ found_ids tr)%list /\
      progress w' = (progress w ++ ps)%list /\
      Forall (fun p => exists j, i <= j < i + Z.of_nat n /\ Z.rem j 4 = 0 /\
                                 snd p = 50 + Z.quot (j * 25) NUM_ECUS) ps /\
      detectedCodes w' = detectedCodes w /\
      (List.length (rx_script w') <= List.length (rx_script w))%nat /\
      ((n < List.length addrs)%nat -> T < since start w').
Proof.
  induction addrs as [| a rest IH]; intros i w Hfuel Hsmall.
  - exists w, 0%nat, [], []. simpl. rewrite !app_nil_r. splits; auto; try lia. constructor.
  - cbn [probe_loop].
    destruct (Z.gtb_spec (since start w) T) as [Hgt | Hle].
    + exists (Serial_print (SerProbeTimeout i) w), 0%nat, [], [].
      rewrite since_Serial_print.
      wsimpl. cbn [firstn map List.length Nat.ltb Nat.leb app Z.of_nat].
      rewrite Z.add_0_r, !app_nil_r. splits; auto; try lia. constructor.
    + inversion Hsmall as [| ? ? [Ha0 Ha] Hrest]; subst.
      destruct (probe_address_spec fuel a i w Hfuel Ha0 Ha)
        as (w1 & Hrun1 & Htx1 & (ps1 & Hps1 & Hall1) & Hdet1 & Hlen1 & Hfound).
      rewrite Hrun1.
      destruct (IH (i + 1) w1 ltac:(lia) Hrest)
        as (w' & n & tr & ps & Hrun & Hn & Htr & Hser & Htx & Hact & Hps & Hall & Hdet & Hlen
            & Hlate).
      assert (Hall' : Forall (fun p => exists j, i <= j < i + Z.of_nat (S n) /\
                         Z.rem j 4 = 0 /\ snd p = 50 + Z.quot (j * 25) NUM_ECUS)
                        (ps1 ++ ps)).
      { apply Forall_app. split.
        - eapply Forall_impl; [| exact Hall1]. intros p [Hr Hp]. exists i. splits; auto; lia.
        - eapply Forall_impl; [| exact Hall]. intros p (j & Hj & Hr & Hp). exists j.
          splits; auto; lia. }
      assert (Hidx : i + 1 + Z.of_nat n = i + Z.of_nat (S n)) by lia.
      destruct Hfound as [[Hact1 Hser1] | (id & Hq & Hact1 & Hser1)].
      * exists w', (S n), (SerProbing a (i + 1) :: tr), (ps1 ++ ps)%list.
        cbn [firstn map List.length].
        splits; auto; try lia; try (intros Hlt'; apply Hlate; lia).
        -- now constructor.
        -- rewrite Hser, Hser1, Hidx, <- !app_assoc. reflexivity.
        -- rewrite Htx, Htx1, <- app_assoc. reflexivity.
        -- rewrite Hact, Hact1. reflexivity.
        -- rewrite Hps, Hps1, app_assoc. reflexivity.
        -- congruence.
      * exists w', (S n), (SerProbing a (i + 1) :: SerActiveECU a id :: tr), (ps1 ++ ps)%list.
        cbn [firstn map List.length].
        splits; auto; try lia; try (intros Hlt'; apply Hlate; lia).
        -- now constructor.
        -- rewrite Hser, Hser1, Hidx, <- !app_assoc. reflexivity.
        -- rewrite Htx, Htx1, <- app_assoc. reflexivity.
        -- rewrite Hact, Hact1, <- app_assoc. reflexivity.
        -- rewrite Hps, Hps1, app_assoc. reflexivity.
        -- congruence.
Qed.

Lemma probe_trace_kinds addrs i tr :
  probe_trace addrs i tr ->
  Forall (fun e => match e with
                   | SerProbing _ _ | SerActiveECU _ _ => True
                   | _ => False
                   end) tr.
Proof. induction 1; repeat constructor; auto. Qed.

(** In the log of probing distinct addresses every address has at most one
    answer, and every answer qualifies for the address being probed. *)
Lemma probe_trace_found addrs i tr :
  probe_trace addrs i tr ->
  incl (found_addrs tr) addrs /\
  (NoDup addrs -> NoDup (found_addrs tr)) /\
  (forall a id, In (SerActiveECU a id) tr -> In a addrs /\ qualifies a id = true) /\
  (List.length (found_ids tr) <= List.length addrs)%nat.
Proof.
  induction 1 as [i | a rest i evs Htr (Hincl & Hnd & Hin & Hlen)
                    | a id rest i evs Hq Htr (Hincl & Hnd & Hin & Hlen)].
  - simpl. splits; auto. apply incl_nil_l.
  - simpl. splits.
    + now apply incl_tl.
    + intros Hn. inversion Hn; subst. auto.
    + intros b id [Hb | Hb]; [discriminate |].
      destruct (Hin _ _ Hb). split; auto.
    + lia.
  - simpl. splits.
    + intros b [Hb | Hb]; [now left | right; auto].
    + intros Hn. inversion Hn as [| ? ? Hnot Hn']; subst. constructor; auto.
    + intros b id' [Hb | [Hb | Hb]]; [discriminate | |].
      * inversion Hb; subst. split; auto.
      * destruct (Hin _ _ Hb). split; auto.
    + lia.
Qed.

Lemma OBD2_ADDRESSES_small : Forall small_addr OBD2_ADDRESSES.
Proof. unfold OBD2_ADDRESSES, small_addr. repeat constructor; lia. Qed.

Lemma OBD2_ADDRESSES_NoDup : NoDup OBD2_ADDRESSES.
Proof.
  unfold OBD2_ADDRESSES.
  repeat (constructor; [simpl; intros H; repeat destruct H as [H | H]; try discriminate; auto |]).
  constructor.
Qed.

Lemma NoDup_firstn {A} n (l : list A) : NoDup l -> NoDup (firstn n l).
Proof.
  intros H. rewrite <- (firstn_skipn n l) in H. now apply NoDup_app_remove_r in H.
Qed.

Lemma incl_firstn {A} n (l : list A) : incl (firstn n l) l.
Proof.
  intros x Hx. rewrite <- (firstn_skipn n l). apply in_or_app. now left.
Qed.

(** The discovery phase as a whole. *)
Lemma probe_phase_spec fuel T w :
  (List.length (rx_script w) + 102 <= fuel)%nat ->
  exists w' n tr ps,
    probeOBD2ECUsWithTimeout fuel T w = Some w' /\
    (n <= 16)%nat /\
    probe_trace (firstn n OBD2_ADDRESSES) 0 tr /\
    serial w' = (serial w ++ tr ++
                 (if (n <? 16)%nat then [SerProbeTimeout (Z.of_nat n)] else []) ++
                 [SerFoundECUs (Z.of_nat (List.length (activeECUs w')))])%list /\
    map snd (tx_log w') = (map snd (tx_log w) ++ map probe_request (firstn n OBD2_ADDRESSES))%list /\
    activeECUs w' = (activeECUs w ++ found_ids tr)%list /\
    progress w' = (progress w ++ ps)%list /\
    Forall (fun p => In (snd p) [50; 56; 62; 68]) ps /\
    detectedCodes w' = detectedCodes w /\
    (List.length (rx_script w') <= List.length (rx_script w))%nat /\
    ((n < 16)%nat -> T < since (millis w) w').
Proof.
  intros Hfuel. unfold probeOBD2ECUsWithTimeout.
  destruct (probe_loop_spec fuel T (millis w) OBD2_ADDRESSES 0 w Hfuel OBD2_ADDRESSES_small)
    as (w1 & n & tr & ps & Hrun & Hn & Htr & Hser & Htx & Hact & Hps & Hall & Hdet & Hlen
        & Hlate).
  rewrite Hrun. change (List.length OBD2_ADDRESSES) with 16%nat in *.
  eexists. exists n, tr, ps. split; [reflexivity |]. rewrite since_Serial_print. wsimpl.
  splits; auto.
  - rewrite Hser. rewrite Z.add_0_l, <- !app_assoc. reflexivity.
  - eapply Forall_impl; [| exact Hall]. intros p (j & Hj & Hr & Hp).
    rewrite Hp. change NUM_ECUS with 16.
    assert (Hcases : j = 0 \/ j = 4 \/ j = 8 \/ j = 12).
    { assert (Hq : j = 4 * Z.quot j 4 + Z.rem j 4) by (apply Z.quot_rem'; lia).
      rewrite Hr in Hq. assert (0 <= Z.quot j 4 < 4); [| lia].
      split; [apply Z.quot_pos; lia | apply Z.quot_lt_upper_bound; lia]. }
    destruct Hcases as [-> | [-> | [-> | ->]]]; vm_compute; auto.
Qed.

(** C3, as the code has it. With rounds enough for the script, discovery
    ends; [activeECUs] grows by exactly the identifiers its log reports as
    found, in that order; and an identifier found while the address [a]
    was probed is [a + 8] or lies in [0x7E8..0x7EF], with [a] one of the 16
    standard addresses. *)
Theorem discovery_entries_qualify (fuel : nat) (w : World) :
  (enough_fuel w <= fuel)%nat ->
  exists w' evs,
    probeOBD2ECUsWithTimeout fuel ECU_PROBE_TIMEOUT_MS w = Some w' /\
    serial w' = (serial w ++ evs)%list /\
    activeECUs w' = (activeECUs w ++ found_ids evs)%list /\
    forall a id, In (SerActiveECU a id) evs ->
                 In a OBD2_ADDRESSES /\ (id - 8 = a \/ 0x7E8 <= id <= 0x7EF).
Proof.
  intros Hfuel.
  destruct (probe_phase_spec fuel ECU_PROBE_TIMEOUT_MS w Hfuel)
    as (w' & n & tr & ps & Hrun & Hn & Htr & Hser & Htx & Hact & _).
  exists w'. eexists. split; [exact Hrun |]. split; [exact Hser |].
  destruct (probe_trace_found _ _ _ Htr) as (_ & _ & Hin & _).
  split.
  - rewrite Hact. f_equal. unfold found_ids. rewrite !flat_map_app.
    destruct (n <? 16)%nat; simpl; now rewrite app_nil_r.
  - intros a id Ha. apply in_app_or in Ha. destruct Ha as [Ha | Ha].
    + destruct (Hin _ _ Ha) as [Hain Hq]. split.
      * eapply incl_firstn; eauto.
      * now apply qualifies_spec.
    + exfalso. destruct (n <? 16)%nat; simpl in Ha;
        repeat destruct Ha as [Ha | Ha]; try discriminate; auto.
Qed.

(** ** DTC collection *)

Lemma parseAndStoreDTC_codes data len ecu w :
  2 < len ->
  detectedCodes (parseAndStoreDTC data len ecu w) =
  (detectedCodes w ++ payload_codes data len ecu)%list.
Proof.
  intros Hlen. unfold parseAndStoreDTC, payload_codes, pairs_of.
  apply parse_loop_codes; [| reflexivity].
  apply Z2Nat.inj_le; try lia.
  - apply Z.div_pos; lia.
  - apply Z.div_le_upper_bound; lia.
Qed.

Lemma flat_map_option_length {A B} (f : A -> option B) l :
  (List.length (flat_map (fun x => match f x with Some y => [y] | None => [] end) l)
   <= List.length l)%nat.
Proof.
  induction l as [| x l IH]; simpl; [lia |].
  destruct (f x); simpl; lia.
Qed.

Lemma pairs_from_length n data i : List.length (pairs_from n data i) = n.
Proof. revert i. induction n as [| n IH]; intros i; simpl; auto. Qed.

(** A payload of at most 8 bytes holds at most 3 codes, all owned by the
    queried ECU. *)
Lemma payload_codes_bound data len ecu :
  len <= 8 ->
  (List.length (payload_codes data len ecu) <= 3)%nat /\
  Forall (fun f => ecuId f = ecu) (payload_codes data len ecu).
Proof.
  intros Hlen. unfold payload_codes. split.
  - etransitivity; [apply (flat_map_option_length (fun p => decode_pair (fst p) (snd p) ecu)) |].
    unfold pairs_of. rewrite pairs_from_length.
    assert ((len - 2) / 2 <= 3) by (apply Z.div_le_upper_bound; lia). lia.
  - induction (pairs_of data len) as [| [b1 b2] ps IH]; simpl; [constructor |].
    apply Forall_app. split; [| exact IH].
    unfold decode_pair. destruct ((b1 =? 0) && (b2 =? 0)); repeat constructor.
Qed.

Lemma parse_loop_backstage data len ecu :
  forall fuel i w,
    backstage w (parse_loop fuel data len ecu i w) /\
    rx_script (parse_loop fuel data len ecu i w) = rx_script w /\
    tx_log (parse_loop fuel data len ecu i w) = tx_log w.
Proof.
  induction fuel as [| fuel IH]; intros i w; simpl.
  - splits; auto. apply backstage_refl.
  - destruct (i <? len - 1); [| splits; auto; apply backstage_refl].
    destruct (decode_pair (byte_at data i) (byte_at data (i + 1)) ecu) as [f |]; [| apply IH].
    match goal with |- context [parse_loop fuel data len ecu (i + 2) ?w1] =>
      destruct (IH (i + 2) w1) as (Hb & Hrx & Htx); rewrite Hrx, Htx;
      splits; auto; eapply backstage_trans; [| exact Hb] end.
    unfold backstage. wsimpl. splits; auto.
    eexists. split; [reflexivity |]. repeat constructor.
Qed.

Lemma dtc_response_rx ecu m s w : rx_script (snd (dtc_response ecu m s w)) = rx_script w.
Proof.
  unfold dtc_response. destruct (identifier m =? ecu); [| reflexivity].
  destruct (data_length_code m >? 2); [| reflexivity].
  cbn [snd]. unfold parseAndStoreDTC.
  destruct (parse_loop_backstage (data m) (data_length_code m) ecu
              (Z.to_nat (data_length_code m)) 2 (Serial_print (SerDTCResponse ecu) w))
    as (_ & Hrx & _).
  rewrite Hrx. reflexivity.
Qed.

(** The wait for the answer of one ECU: the window runs out with no frame
    of the ECU delivered, or the first frame of the ECU ends the wait. *)
Lemma dtc_wait_spec fuel ecu w1 res w2 :
  receive_while fuel 1000 50 (millis w1) (dtc_response ecu) tt w1 = Some (res, w2) ->
  exists w3,
    same_state w1 w3 /\
    match res with
    | inl _ => w2 = w3 /\ unanswered ecu w1 w3
    | inr _ => exists m, first_answer ecu w1 w3 m /\ w2 = answered_world ecu m w3
    end.
Proof.
  intros Hrun.
  pose (P := fun (_ : unit) (w : World) => same_state w1 w /\ unanswered ecu w1 w).
  assert (HP : P tt w1).
  { split; [apply same_state_refl |]. exists []. split; [reflexivity | constructor]. }
  assert (Hnone : forall s w w', P s w -> since (millis w1) w < 1000 ->
                    twai_receive 50 w = (None, w') -> P s w').
  { intros s w w' [Hs (pre & Hpre & Hno)] _ Hr.
    pose proof (same_state_receive 50 w) as Hs'. rewrite Hr in Hs'. simpl in Hs'.
    split; [eapply same_state_trans; eauto |].
    destruct (twai_receive_none _ _ _ Hr) as [(He & He' & _) | (dt & Hscr & _)].
    - exists pre. split; [congruence | assumption].
    - exists (pre ++ [(dt, None)])%list. rewrite <- app_assoc. simpl. rewrite <- Hscr.
      split; [assumption |]. apply Forall_app. split; [assumption |].
      repeat constructor. }
  assert (Hstep : forall s w m w', P s w -> twai_receive 50 w = (Some m, w') ->
            same_state w1 w' /\
            exists pre dt, rx_script w1 = (pre ++ (dt, Some m) :: rx_script w')%list /\
                           no_answer ecu pre).
  { intros s w m w' [Hs (pre & Hpre & Hno)] Hr.
    pose proof (same_state_receive 50 w) as Hs'. rewrite Hr in Hs'. simpl in Hs'.
    split; [eapply same_state_trans; eauto |].
    destruct (twai_receive_some _ _ _ _ Hr) as (dt & Hscr & _).
    exists pre, dt. rewrite <- Hscr. auto. }
  assert (Hsome : forall s w m w' s' w'', P s w -> since (millis w1) w < 1000 ->
                    twai_receive 50 w = (Some m, w') ->
                    dtc_response ecu m s w' = (inl s', w'') -> P s' w'').
  { intros s w m w' s' w'' HPw _ Hr Hb.
    destruct (Hstep _ _ _ _ HPw Hr) as (Hs & pre & dt & Hpre & Hno).
    unfold dtc_response in Hb.
    destruct (Z.eqb_spec (identifier m) ecu) as [Hid | Hid]; inversion Hb; subst.
    split; [assumption |].
    exists (pre ++ [(dt, Some m)])%list. rewrite <- app_assoc. simpl.
    split; [assumption |]. apply Forall_app. split; [assumption |].
    repeat constructor. simpl. assumption. }
  pose proof (receive_while_rule 1000 50 (millis w1) (dtc_response ecu) P Hnone Hsome
                fuel tt w1 res w2 HP Hrun) as Hrule.
  destruct res as [[] | []].
  - destruct Hrule as [[Hs Hun] _]. exists w2. auto.
  - destruct Hrule as (s0 & w0 & m & w' & HPw & _ & Hr & Hb).
    destruct (Hstep _ _ _ _ HPw Hr) as (Hs & pre & dt & Hpre & Hno).
    exists w'. split; [assumption |]. exists m.
    unfold dtc_response in Hb.
    destruct (Z.eqb_spec (identifier m) ecu) as [Hid | Hid]; inversion Hb; subst.
    split; [| reflexivity]. exists pre, dt. auto.
Qed.

Lemma answered_world_spec ecu m w :
  backstage w (answered_world ecu m w) /\
  rx_script (answered_world ecu m w) = rx_script w /\
  tx_log (answered_world ecu m w) = tx_log w /\
  detectedCodes (answered_world ecu m w) =
  (detectedCodes w ++ if data_length_code m >? 2
                      then payload_codes (data m) (data_length_code m) ecu else [])%list.
Proof.
  unfold answered_world.
  destruct (Z.gtb_spec (data_length_code m) 2) as [Hgt | Hle].
  - unfold parseAndStoreDTC at 1 2 3.
    destruct (parse_loop_backstage (data m) (data_length_code m) ecu
                (Z.to_nat (data_length_code m)) 2 (Serial_print (SerDTCResponse ecu) w))
      as (Hb & Hrx & Htx).
    rewrite Hrx, Htx. splits; auto.
    + eapply backstage_trans; [| exact Hb]. apply backstage_print. exact I.
    + rewrite parseAndStoreDTC_codes by lia. reflexivity.
  - wsimpl. rewrite app_nil_r. splits; auto. apply backstage_print. exact I.
Qed.

Lemma first_answer_unique ecu w w' m m' :
  first_answer ecu w w' m -> first_answer ecu w w' m' -> m = m'.
Proof.
  intros (pre & dt & Hpre & _ & _) (pre' & dt' & Hpre' & _ & _).
  rewrite Hpre in Hpre'.
  change (pre ++ (dt, Some m) :: rx_script w')%list
    with (pre ++ [(dt, Some m)] ++ rx_script w')%list in Hpre'.
  change (pre' ++ (dt', Some m') :: rx_script w')%list
    with (pre' ++ [(dt', Some m')] ++ rx_script w')%list in Hpre'.
  rewrite !app_assoc in Hpre'. apply app_inv_tail in Hpre'.
  apply app_inj_tail in Hpre'. destruct Hpre' as [_ Heq]. congruence.
Qed.

Lemma unanswered_no_first_answer ecu w w' m :
  unanswered ecu w w' -> first_answer ecu w w' m -> False.
Proof.
  intros (pre & Hpre & Hno) (pre' & dt' & Hpre' & _ & Hid).
  rewrite Hpre in Hpre'.
  change (pre' ++ (dt', Some m) :: rx_script w')%list
    with (pre' ++ [(dt', Some m)] ++ rx_script w')%list in Hpre'.
  rewrite app_assoc in Hpre'. apply app_inv_tail in Hpre'. subst pre.
  apply Forall_app in Hno. destruct Hno as [_ Hno].
  inversion Hno as [| ? ? Hx _]; subst. simpl in Hx. congruence.
Qed.

(** One round of the collection loop. *)
Lemma scan_ecu_spec fuel ecu w :
  (List.length (rx_script w) + 102 <= fuel)%nat ->
  exists w',
    scan_ecu fuel ecu w = Some w' /\
    backstage w w' /\
    ((unanswered ecu w w' /\ detectedCodes w' = detectedCodes w) \/
     (exists m, first_answer ecu w w' m /\
        detectedCodes w' =
        (detectedCodes w ++ if data_length_code m >? 2
                            then payload_codes (data m) (data_length_code m) ecu
                            else [])%list)).
Proof.
  intros Hfuel. unfold scan_ecu.
  set (w0 := Serial_print (SerScanningECU ecu) w).
  pose proof (twai_transmit_spec (obd_request (request_id ecu) 1 3 0) w0) as Htx.
  destruct (twai_transmit (obd_request (request_id ecu) 1 3 0) w0) as [sent w1].
  cbn [snd] in Htx. destruct Htx as (Htx1 & Hrx1 & Hclk1 & Hser1 & Hpr1 & Hact1 & Hdet1).
  subst w0. wsimpl.
  assert (Hb1 : backstage w w1).
  { unfold backstage. rewrite Hpr1, Hact1, Hser1, Hrx1. splits; auto.
    eexists. split; [reflexivity |]. repeat constructor. }
  destruct sent.
  - destruct (receive_while_total 1000 50 (millis w1) (dtc_response ecu)
                (dtc_response_rx ecu) ltac:(lia) ltac:(lia) ltac:(lia)
                (List.length (rx_script w1)) fuel tt w1 eq_refl) as [[res w2] Hrun].
    { rewrite Hrx1. change (Z.to_nat (1000 / 50)) with 20%nat. lia. }
    rewrite Hrun. destruct (dtc_wait_spec _ _ _ _ _ Hrun) as (w3 & Hsame & Hres).
    eexists. split; [reflexivity |].
    pose proof (same_state_fields _ _ Hsame) as (_ & _ & _ & _ & _ & _ & Hdet3 & _ & _).
    destruct res as [[] | []].
    + destruct Hres as [-> Hun]. wsimpl. split.
      * eapply backstage_trans; [exact Hb1 |].
        eapply backstage_trans; [| apply backstage_delay].
        apply (backstage_same_state _ _ Hsame).
        destruct Hun as (pre & Hpre & _). eapply same_state_rx_le; eauto.
      * left. split; [| congruence].
        destruct Hun as (pre & Hpre & Hno). exists pre. rewrite <- Hrx1. auto.
    + destruct Hres as (m & Hfirst & ->).
      destruct (answered_world_spec ecu m w3) as (Hb & Hrx & _ & Hdet).
      wsimpl. split.
      * eapply backstage_trans; [exact Hb1 |].
        eapply backstage_trans; [| apply backstage_delay].
        eapply backstage_trans; [| exact Hb].
        apply (backstage_same_state _ _ Hsame).
        destruct Hfirst as (pre & dt & Hpre & _). rewrite Hpre, length_app. simpl. lia.
      * right. exists m. split; [| congruence].
        destruct Hfirst as (pre & dt & Hpre & Hno & Hid).
        exists pre, dt. wsimpl. rewrite Hrx, <- Hrx1. auto.
  - eexists. split; [reflexivity |]. wsimpl. split.
    + eapply backstage_trans; [exact Hb1 | apply backstage_delay].
    + left. split; [| congruence]. exists []. wsimpl. simpl.
      split; [congruence | constructor].
Qed.

Lemma wf_script_answer ecu w w' m :
  wf_script (rx_script w) -> first_answer ecu w w' m -> data_length_code m <= 8.
Proof.
  intros Hwf (pre & dt & Hpre & _ & _). rewrite Hpre in Hwf.
  apply Forall_app in Hwf. destruct Hwf as [_ Hwf].
  inversion Hwf as [| ? ? Hm _]; subst. exact Hm.
Qed.

(** C10, as the code has it. With rounds enough for the script and frames
    of at most 8 payload bytes, the round of one entry of the active-ECU
    list ends normally and adds at most 3 codes, all owned by that entry:
    either no frame of the ECU was delivered and nothing is added, or the
    first frame of the ECU ends the wait, what follows it in the script is
    left unread by this round, and the codes added are those of that one
    frame. *)
Theorem scan_ecu_one_frame (fuel : nat) (ecu : Z) (w : World) :
  (enough_fuel w <= fuel)%nat ->
  wf_script (rx_script w) ->
  exists w' faults,
    scan_ecu fuel ecu w = Some w' /\
    detectedCodes w' = (detectedCodes w ++ faults)%list /\
    (List.length faults <= 3)%nat /\
    Forall (fun f => ecuId f = ecu) faults /\
    ((unanswered ecu w w' /\ faults = []) \/
     (exists m, first_answer ecu w w' m /\
        faults = if data_length_code m >? 2
                 then payload_codes (data m) (data_length_code m) ecu
                 else [])).
Proof.
  intros Hfuel Hwf.
  destruct (scan_ecu_spec fuel ecu w Hfuel) as (w' & Hrun & _ & Hcases).
  exists w'. destruct Hcases as [[Hun Hdet] | (m & Hfirst & Hdet)].
  - exists []. rewrite app_nil_r. splits; auto; simpl; lia.
  - eexists. split; [exact Hrun |]. split; [exact Hdet |].
    pose proof (wf_script_answer _ _ _ _ Hwf Hfirst) as Hlen.
    destruct (payload_codes_bound (data m) (data_length_code m) ecu Hlen) as [Hb Hall].
    destruct (data_length_code m >? 2) eqn:E; splits; auto; try (simpl; lia);
      (right; exists m; rewrite E; split; [assumption | reflexivity]).
Qed.

(** The collection loop over any list of ECUs. *)
Lemma scan_ecus_spec fuel :
  forall ecus w,
    (List.length (rx_script w) + 102 <= fuel)%nat ->
    exists w', scan_ecus fuel ecus w = Some w' /\ backstage w w'.
Proof.
  induction ecus as [| ecu rest IH]; intros w Hfuel.
  - exists w. split; [reflexivity | apply backstage_refl].
  - destruct (scan_ecu_spec fuel ecu w Hfuel) as (w1 & Hrun & Hb & _).
    destruct (IH w1) as (w' & Hrun' & Hb').
    { destruct Hb as (_ & _ & _ & Hlen). lia. }
    exists w'. simpl. rewrite Hrun. split; [exact Hrun' |].
    eapply backstage_trans; eauto.
Qed.

Lemma scanAllDTCs_spec fuel w :
  (List.length (rx_script w) + 102 <= fuel)%nat ->
  exists w', scanAllDTCs fuel w = Some w' /\ backstage w w'.
Proof.
  intros Hfuel. unfold scanAllDTCs.
  destruct (List.length (activeECUs w) =? 0)%nat.
  - eexists. split; [reflexivity |]. apply backstage_print. exact I.
  - now apply scan_ecus_spec.
Qed.

(** ** Traffic sniffing *)

Lemma tally_frame_cases m s w :
  snd (tally_frame m s w) = w \/
  exists frameCount uniqueIDs, snd (tally_frame m s w) = draw_traffic frameCount uniqueIDs w.
Proof.
  unfold tally_frame. destruct s as [frameCount uniqueIDs]. cbn [snd].
  destruct (Z.rem (frameCount + 1) 10 =? 0); [right; eauto | left; reflexivity].
Qed.

Lemma tally_frame_rx m s w : rx_script (snd (tally_frame m s w)) = rx_script w.
Proof. destruct (tally_frame_cases m s w) as [-> | (a & b & ->)]; reflexivity. Qed.

Lemma tally_frame_backstage m s w : backstage w (snd (tally_frame m s w)).
Proof.
  destruct (tally_frame_cases m s w) as [-> | (a & b & ->)]; [apply backstage_refl |].
  unfold backstage. wsimpl. splits; auto. exists []. rewrite app_nil_r. auto.
Qed.

Lemma listenForCANTraffic_spec fuel T w :
  0 <= T <= 5000 ->
  (List.length (rx_script w) + 102 <= fuel)%nat ->
  exists w', listenForCANTraffic fuel T w = Some w' /\ backstage w w'.
Proof.
  intros HT Hfuel. unfold listenForCANTraffic.
  destruct (receive_while_total T 50 (millis w) tally_frame tally_frame_rx
              ltac:(lia) ltac:(lia) ltac:(lia)
              (List.length (rx_script w)) fuel (0, []) w eq_refl) as [[res w1] Hrun].
  { assert (T / 50 <= 100) by (apply Z.div_le_upper_bound; lia). lia. }
  rewrite Hrun.
  pose proof (receive_while_rule T 50 (millis w) tally_frame
                (fun _ w' => backstage w w')) as Hrule.
  specialize (Hrule
    ltac:(intros s w0 w2 Hb _ Hr; eapply backstage_trans; [exact Hb |];
          pose proof (backstage_receive 50 w0) as Hb'; now rewrite Hr in Hb')
    ltac:(intros s w0 m w2 s' w3 Hb _ Hr Hbody;
          pose proof (tally_frame_backstage m s w2) as Hb2; rewrite Hbody in Hb2;
          eapply backstage_trans; [exact Hb |];
          eapply backstage_trans; [| exact Hb2];
          pose proof (backstage_receive 50 w0) as Hb'; now rewrite Hr in Hb')
    fuel (0, []) w res w1 (backstage_refl w) Hrun).
  destruct res as [[frameCount uniqueIDs] | []].
  destruct Hrule as [Hb _].
  eexists. split; [reflexivity |].
  eapply backstage_trans; [exact Hb |]. apply backstage_print. exact I.
Qed.

(** ** The orchestrator *)

Lemma not_found_found_ids evs :
  Forall not_found evs -> found_ids evs = [] /\ found_addrs evs = [].
Proof.
  induction 1 as [| e evs He _ [IH1 IH2]]; [split; reflexivity |].
  destruct e; simpl in *; auto. destruct He.
Qed.

Lemma found_ids_app l1 l2 : found_ids (l1 ++ l2) = (found_ids l1 ++ found_ids l2)%list.
Proof. unfold found_ids. apply flat_map_app. Qed.

Lemma found_addrs_app l1 l2 : found_addrs (l1 ++ l2) = (found_addrs l1 ++ found_addrs l2)%list.
Proof. unfold found_addrs. apply flat_map_app. Qed.

(** One scan, start to end: it ends; its log is the log of a discovery run
    ([tr], empty when the scan ends before discovery) between lines that
    report no active ECU; the list of active ECUs is what [tr] reports; and
    the progress sink is served in one of four ways. *)
Lemma performDiagnosticScan_spec fuel w :
  (enough_fuel w <= fuel)%nat ->
  exists w' pre tr post n ps,
    performDiagnosticScan fuel w = Some w' /\
    serial w' = (serial w ++ pre ++ tr ++ post)%list /\
    Forall not_found pre /\ Forall not_found post /\
    probe_trace (firstn n OBD2_ADDRESSES) 0 tr /\
    activeECUs w' = found_ids tr /\
    progress w' = (progress w ++ ps)%list /\
    (ps = [("Detecting vehicle...", 0); ("No vehicle detected", 100)]%string \/
     ps = [("Detecting vehicle...", 0); ("Scan timeout", 100)]%string \/
     ps = [("Detecting vehicle...", 0); ("Vehicle found! Analyzing...", 25);
           ("Reading vehicle data...", 50); ("Scan timeout", 100)]%string \/
     exists qs,
       ps = ([("Detecting vehicle...", 0); ("Vehicle found! Analyzing...", 25);
              ("Reading vehicle data...", 50)]%string ++ qs ++
             [("Checking systems...", 75); ("Scan complete!", 100)]%string)%list /\
       Forall (fun p => In (snd p) [50; 56; 62; 68]) qs).
Proof.
  intros Hfuel. unfold enough_fuel in Hfuel.
  unfold performDiagnosticScan, scan_after_detection, scan_after_sniffing.
  set (w0 := set_vehicleDetected false (set_activeECUs [] (set_detectedCodes [] w))).
  set (w1 := updateScanProgress "Detecting vehicle..." 0 w0).
  destruct (try_baudRates_spec fuel baudRates w1 (incl_refl _) Hfuel)
    as (r & w2 & Hrun2 & _ & _ & Hp2 & Ha2 & (e2 & Hs2 & Hn2) & Hl2).
  unfold autoDetectCANBaudRate. rewrite Hrun2.
  subst w1 w0. wsimpl.
  destruct (r =? 0).
  { eexists. exists (e2 ++ [SerNoCANActivity])%list, [], [], 0%nat.
    exists [("Detecting vehicle...", 0); ("No vehicle detected", 100)]%string.
    split; [reflexivity |]. wsimpl. rewrite Hs2, Hp2, Ha2, <- !app_assoc.
    splits; auto.
    - apply Forall_app. split; [assumption | repeat constructor].
    - constructor. }
  destruct (since (millis w) w2 >? TOTAL_SCAN_TIMEOUT_MS).
  { eexists. exists (e2 ++ [SerScanTimeout])%list, [], [], 0%nat.
    exists [("Detecting vehicle...", 0); ("Scan timeout", 100)]%string.
    split; [reflexivity |]. wsimpl. rewrite Hs2, Hp2, Ha2, <- !app_assoc.
    splits; auto.
    - apply Forall_app. split; [assumption | repeat constructor].
    - constructor. }
  match goal with |- context [listenForCANTraffic fuel _ ?w4] =>
    destruct (listenForCANTraffic_spec fuel TRAFFIC_LISTEN_TIMEOUT_MS w4
                ltac:(unfold TRAFFIC_LISTEN_TIMEOUT_MS; lia) ltac:(wsimpl; lia))
      as (w5 & Hrun5 & Hp5 & Ha5 & (e5 & Hs5 & Hn5) & Hl5) end.
  rewrite Hrun5. wsimpl.
  destruct (since (millis w) (updateScanProgress "Reading vehicle data..." 50 w5)
              >? TOTAL_SCAN_TIMEOUT_MS).
  { eexists. exists (e2 ++ [SerListening] ++ e5 ++ [SerScanTimeout])%list, [], [], 0%nat.
    exists [("Detecting vehicle...", 0); ("Vehicle found! Analyzing...", 25);
            ("Reading vehicle data...", 50); ("Scan timeout", 100)]%string.
    split; [reflexivity |]. wsimpl.
    rewrite Hs5, Hp5, Ha5, Hs2, Hp2, Ha2, <- !app_assoc.
    splits; auto.
    - apply Forall_app. split; [assumption |]. constructor; [exact I |].
      apply Forall_app. split; [assumption | repeat constructor].
    - constructor. }
  match goal with |- context [probeOBD2ECUsWithTimeout fuel _ ?w6] =>
    destruct (probe_phase_spec fuel ECU_PROBE_TIMEOUT_MS w6 ltac:(wsimpl; lia))
      as (w7 & n & tr & qs & Hrun7 & Hn & Htr & Hs7 & _ & Ha7 & Hp7 & Hq7 & _ & Hl7 & _) end.
  rewrite Hrun7. wsimpl.
  match goal with |- context [scanAllDTCs fuel ?w8] =>
    destruct (scanAllDTCs_spec fuel w8 ltac:(wsimpl; lia))
      as (w9 & Hrun9 & Hp9 & Ha9 & (e9 & Hs9 & Hn9) & Hl9) end.
  rewrite Hrun9. wsimpl.
  eexists.
  exists (e2 ++ [SerListening] ++ e5 ++ [SerProbingStart])%list, tr,
         ((if (n <? 16)%nat then [SerProbeTimeout (Z.of_nat n)] else []) ++
          [SerFoundECUs (Z.of_nat (List.length (activeECUs w7)))] ++
          [SerScanningDTCs] ++ e9 ++
          [SerScanComplete (Z.of_nat (List.length (activeECUs w9)))
                           (Z.of_nat (List.length (detectedCodes w9)))
                           (since (millis w) (updateScanProgress "Scan complete!" 100 w9))])%list,
         n.
  exists ([("Detecting vehicle...", 0); ("Vehicle found! Analyzing...", 25);
           ("Reading vehicle data...", 50)]%string ++ qs ++
          [("Checking systems...", 75); ("Scan complete!", 100)]%string)%list.
  split; [reflexivity |]. wsimpl.
  rewrite Hs9, Hp9, Ha9, Hs7, Hp7, Ha7, Hs5, Hp5, Ha5, Hs2, Hp2, Ha2.
  splits; auto.
  - rewrite <- !app_assoc. reflexivity.
  - apply Forall_app. split; [assumption |]. constructor; [exact I |].
    apply Forall_app. split; [assumption | repeat constructor].
  - apply Forall_app. split; [destruct (n <? 16)%nat; repeat constructor |].
    constructor; [exact I |]. constructor; [exact I |].
    apply Forall_app. split; [assumption | repeat constructor].
  - rewrite <- !app_assoc. reflexivity.
  - right. right. right. exists qs. split; [reflexivity | assumption].
Qed.

(** C4, as the code has it. With rounds enough for the script a scan ends,
    and afterwards [activeECUs] holds exactly the identifiers its log
    reports as found, in the order of the log; every probed address has at
    most one such report, so the list has at most 16 entries.  (The same
    identifier can be reported for several addresses.) *)
Theorem scan_active_list (fuel : nat) (w : World) :
  (enough_fuel w <= fuel)%nat ->
  exists w' evs,
    performDiagnosticScan fuel w = Some w' /\
    serial w' = (serial w ++ evs)%list /\
    activeECUs w' = found_ids evs /\
    NoDup (found_addrs evs) /\
    incl (found_addrs evs) OBD2_ADDRESSES /\
    (List.length (activeECUs w') <= 16)%nat.
Proof.
  intros Hfuel.
  destruct (performDiagnosticScan_spec fuel w Hfuel)
    as (w' & pre & tr & post & n & ps & Hrun & Hser & Hpre & Hpost & Htr & Hact & _).
  exists w', (pre ++ tr ++ post)%list.
  destruct (not_found_found_ids _ Hpre) as [Hi1 Ha1].
  destruct (not_found_found_ids _ Hpost) as [Hi2 Ha2].
  destruct (probe_trace_found _ _ _ Htr) as (Hincl & Hnd & _ & Hlen).
  rewrite !found_ids_app, !found_addrs_app, Hi1, Hi2, Ha1, Ha2, !app_nil_r. simpl.
  splits; auto.
  - apply Hnd. apply NoDup_firstn. apply OBD2_ADDRESSES_NoDup.
  - intros a Ha. eapply incl_firstn. eauto.
  - rewrite Hact. etransitivity; [exact Hlen |].
    rewrite length_firstn. change (List.length OBD2_ADDRESSES) with 16%nat. lia.
Qed.

Lemma scan_active_list_witness :
  exists w' evs,
    performDiagnosticScan 205 silent_vehicle_world = Some w' /\
    serial w' = (serial silent_vehicle_world ++ evs)%list /\
    activeECUs w' = found_ids evs /\
    NoDup (found_addrs evs) /\
    incl (found_addrs evs) OBD2_ADDRESSES /\
    (List.length (activeECUs w') <= 16)%nat.
Proof.
  apply (scan_active_list 205 silent_vehicle_world). vm_compute. lia.
Defined.

Lemma option_map_Some {A B} (f : A -> B) (o : option A) (b : B) :
  option_map f o = Some b -> exists a, o = Some a /\ f a = b.
Proof.
  destruct o as [a |]; simpl; intros H; [| discriminate].
  exists a. split; [reflexivity | congruence].
Qed.

(** C4, as stated, fails: after this scan the list holds [0x7E8] twice. *)
Lemma repeated_ecu_listed_twice :
  (exists w', performDiagnosticScan 433 repeated_ecu_world = Some w' /\
              activeECUs w' = [0x7E8; 0x7E8]) /\
  ~ NoDup [0x7E8; 0x7E8].
Proof.
  split.
  - apply (option_map_Some activeECUs). vm_compute. reflexivity.
  - intros H. inversion H as [| ? ? Hnot _]; subst. apply Hnot. now left.
Qed.

(** C9, as the code has it. With rounds enough for the script a scan ends
    and serves the progress sink in one of four ways: 0 then 100 ("no
    vehicle" or "timeout"); 0, 25, 50 then 100 ("timeout"); or 0, 25, 50,
    the reports of discovery, each at 50, 56, 62 or 68, and then 75 and
    100, each milestone with the message of its phase. *)
Theorem scan_progress (fuel : nat) (w : World) :
  (enough_fuel w <= fuel)%nat ->
  exists w' ps,
    performDiagnosticScan fuel w = Some w' /\
    progress w' = (progress w ++ ps)%list /\
    (ps = [("Detecting vehicle...", 0); ("No vehicle detected", 100)]%string \/
     ps = [("Detecting vehicle...", 0); ("Scan timeout", 100)]%string \/
     ps = [("Detecting vehicle...", 0); ("Vehicle found! Analyzing...", 25);
           ("Reading vehicle data...", 50); ("Scan timeout", 100)]%string \/
     exists qs,
       ps = ([("Detecting vehicle...", 0); ("Vehicle found! Analyzing...", 25);
              ("Reading vehicle data...", 50)]%string ++ qs ++
             [("Checking systems...", 75); ("Scan complete!", 100)]%string)%list /\
       Forall (fun p => In (snd p) [50; 56; 62; 68]) qs).
Proof.
  intros Hfuel.
  destruct (performDiagnosticScan_spec fuel w Hfuel)
    as (w' & pre & tr & post & n & ps & Hrun & _ & _ & _ & _ & _ & Hps & Hshape).
  exists w', ps. auto.
Qed.

Lemma scan_progress_witness :
  exists w' ps,
    performDiagnosticScan 102 quiet_world = Some w' /\
    progress w' = (progress quiet_world ++ ps)%list /\
    (ps = [("Detecting vehicle...", 0); ("No vehicle detected", 100)]%string \/
     ps = [("Detecting vehicle...", 0); ("Scan timeout", 100)]%string \/
     ps = [("Detecting vehicle...", 0); ("Vehicle found! Analyzing...", 25);
           ("Reading vehicle data...", 50); ("Scan timeout", 100)]%string \/
     exists qs,
       ps = ([("Detecting vehicle...", 0); ("Vehicle found! Analyzing...", 25);
              ("Reading vehicle data...", 50)]%string ++ qs ++
             [("Checking systems...", 75); ("Scan complete!", 100)]%string)%list /\
       Forall (fun p => In (snd p) [50; 56; 62; 68]) qs).
Proof.
  apply (scan_progress 102 quiet_world). vm_compute. lia.
Defined.

(** C9, as stated, fails: on a vehicle that answers nothing the sink is
    served nine times, at 56, 62 and 68 among others. *)
Lemma progress_between_milestones :
  exists w', performDiagnosticScan 205 silent_vehicle_world = Some w' /\
             map snd (progress w') = [0; 25; 50; 50; 56; 62; 68; 75; 100].
Proof.
  apply (option_map_Some (fun w => map snd (progress w))). vm_compute. reflexivity.
Qed.

(** C3, as stated, fails: while [0x7E0] is probed the identifier [0x7E9]
    is recorded, and [0x7E9 - 8] is not [0x7E0]. *)
Lemma cross_answer_recorded :
  (exists w', probeOBD2ECUsWithTimeout 103 ECU_PROBE_TIMEOUT_MS cross_answer_world = Some w' /\
              (activeECUs w', firstn 2 (serial w')) =
              ([0x7E9], [SerProbing 0x7E0 1; SerActiveECU 0x7E0 0x7E9])) /\
  0x7E9 - 8 <> 0x7E0.
Proof.
  split.
  - apply (option_map_Some (fun w => (activeECUs w, firstn 2 (serial w)))).
    vm_compute. reflexivity.
  - lia.
Qed.

Lemma discovery_entries_qualify_witness :
  exists w' evs,
    probeOBD2ECUsWithTimeout 103 ECU_PROBE_TIMEOUT_MS cross_answer_world = Some w' /\
    serial w' = (serial cross_answer_world ++ evs)%list /\
    activeECUs w' = (activeECUs cross_answer_world ++ found_ids evs)%list /\
    forall a id, In (SerActiveECU a id) evs ->
                 In a OBD2_ADDRESSES /\ (id - 8 = a \/ 0x7E8 <= id <= 0x7EF).
Proof.
  apply (discovery_entries_qualify 103 cross_answer_world). vm_compute. lia.
Defined.

Lemma scan_ecu_one_frame_witness :
  exists w' faults,
    scan_ecu 103 0x7E8 dtc_world = Some w' /\
    detectedCodes w' = (detectedCodes dtc_world ++ faults)%list /\
    (List.length faults <= 3)%nat.
Proof.
  destruct (scan_ecu_one_frame 103 0x7E8 dtc_world) as (w' & faults & Hrun & Hdet & Hlen & _).
  - vm_compute. lia.
  - repeat constructor. simpl. lia.
  - exists w', faults. auto.
Defined.

(** C10, as stated, fails: in this scan the list of active ECUs holds
    [0x7E8] twice, two answers of that ECU are decoded and it contributes
    six codes. *)
Lemma repeated_ecu_six_codes :
  exists w', performDiagnosticScan 433 repeated_ecu_world = Some w' /\
             (map ecuId (detectedCodes w'),
              List.length (filter (fun e => match e with
                                            | SerDTCResponse 0x7E8 => true
                                            | _ => false
                                            end) (serial w'))) =
             ([0x7E8; 0x7E8; 0x7E8; 0x7E8; 0x7E8; 0x7E8], 2%nat).
Proof.
  apply (option_map_Some (fun w =>
           (map ecuId (detectedCodes w),
            List.length (filter (fun e => match e with
                                          | SerDTCResponse 0x7E8 => true
                                          | _ => false
                                          end) (serial w))))).
  vm_compute. reflexivity.
Qed.

(** The end-to-end run of the specification: 500000 detected, [0x7E8]
    found for [0x7E0], one code P0123, vehicle detected, scan complete. *)
Example end_to_end_one_code :
  option_map (fun w => (activeECUs w, map code (detectedCodes w), vehicleDetected w,
                        last (progress w) (EmptyString, 0)))
             (performDiagnosticScan 447 one_code_world) =
  Some ([0x7E8], ["P0123"%string], true, ("Scan complete!"%string, 100)).
Proof. vm_compute. reflexivity. Qed.

(** * Further properties of the engine *)

(** ** The decoder: reading a code back *)

Lemma hex_digit_round_trip d :
  0 <= d < 16 -> hex_digit_value (upper_hex_digit d) = Some d.
Proof.
  intros Hd.
  assert (H : d = 0 \/ d = 1 \/ d = 2 \/ d = 3 \/ d = 4 \/ d = 5 \/ d = 6 \/ d = 7 \/
              d = 8 \/ d = 9 \/ d = 10 \/ d = 11 \/ d = 12 \/ d = 13 \/ d = 14 \/ d = 15)
    by lia.
  repeat (destruct H as [-> | H]; [reflexivity |]). subst d. reflexivity.
Qed.

Lemma hex_value_hex4 n : 0 <= n < 65536 -> hex_value (hex4 n) = Some n.
Proof.
  intros Hn. unfold hex4, hex_value. cbn [hex_value_acc].
  rewrite !hex_digit_round_trip by (apply Z.mod_pos_bound; lia).
  f_equal.
  pose proof (Z.div_mod n 4096 ltac:(lia)). pose proof (Z.mod_pos_bound n 4096 ltac:(lia)).
  pose proof (Z.div_mod n 256 ltac:(lia)). pose proof (Z.mod_pos_bound n 256 ltac:(lia)).
  pose proof (Z.div_mod n 16 ltac:(lia)). pose proof (Z.mod_pos_bound n 16 ltac:(lia)).
  pose proof (Z.div_mod (n / 4096) 16 ltac:(lia)).
  pose proof (Z.mod_pos_bound (n / 4096) 16 ltac:(lia)).
  pose proof (Z.div_mod (n / 256) 16 ltac:(lia)).
  pose proof (Z.mod_pos_bound (n / 256) 16 ltac:(lia)).
  pose proof (Z.div_mod (n / 16) 16 ltac:(lia)).
  pose proof (Z.mod_pos_bound (n / 16) 16 ltac:(lia)).
  assert (n / 4096 / 16 = 0) by (rewrite Z.div_div by lia; apply Z.div_small; lia).
  assert (n / 256 / 16 = n / 4096) by (rewrite Z.div_div by lia; reflexivity).
  assert (n / 16 / 16 = n / 256) by (rewrite Z.div_div by lia; reflexivity).
  lia.
Qed.

Lemma bits_of_category_round_trip t :
  0 <= t < 4 -> bits_of_category (category_of_bits t) = Some t.
Proof.
  intros Ht. assert (H : t = 0 \/ t = 1 \/ t = 2 \/ t = 3) by lia.
  destruct H as [-> | [-> | [-> | ->]]]; reflexivity.
Qed.

(** X1. The text stored for a byte pair has exactly five characters, and
    reading it back (letter to top bits, digits to the other fourteen
    bits) gives the two bytes again; so different byte pairs never get the
    same text. *)
Theorem dtc_string_round_trip (b1 b2 : Z) :
  is_byte b1 -> is_byte b2 ->
  String.length (dtc_string b1 b2) = 5%nat /\
  dtc_bytes (dtc_string b1 b2) = Some (b1, b2).
Proof.
  intros H1 H2. rewrite (dtc_string_conventional b1 b2 H1 H2).
  unfold conventional_code. split; [reflexivity |].
  unfold is_byte in *. cbn [dtc_bytes].
  rewrite Z.shiftr_div_pow2 by lia. change (2 ^ 6) with 64.
  pose proof (Z.div_mod b1 64 ltac:(lia)). pose proof (Z.mod_pos_bound b1 64 ltac:(lia)).
  assert (0 <= b1 / 64 < 4)
    by (split; [apply Z.div_pos; lia | apply Z.div_lt_upper_bound; lia]).
  rewrite bits_of_category_round_trip by assumption.
  rewrite hex_value_hex4 by lia.
  f_equal. f_equal.
  - rewrite Z.div_add_l by lia. rewrite (Z.div_small b2 256) by lia. lia.
  - rewrite Z.add_comm, Z.mod_add by lia. apply Z.mod_small. lia.
Qed.

Lemma dtc_string_round_trip_witness :
  dtc_bytes (dtc_string 0xC1 0x0A) = Some (0xC1, 0x0A).
Proof.
  apply (dtc_string_round_trip 0xC1 0x0A); unfold is_byte; lia.
Defined.

(** ** Reconfiguring the controller *)

(** X2. [reinitializeCAN] succeeds exactly when the rate is one of the four
    it has timing for and both the install and the start call succeed;
    then the controller runs at that rate, and in every other case it is
    left not running.  For a rate it has no timing for, no driver call is
    made.  The receive script and the clock are never touched. *)
Theorem reinitializeCAN_outcome (b : Z) (w : World) :
  (fst (reinitializeCAN b w) = true <->
   In b supported_rates /\ nth 0 (drv_script w) true = true /\
   nth 1 (drv_script w) true = true) /\
  driver (snd (reinitializeCAN b w)) =
    (if fst (reinitializeCAN b w) then Some b else None) /\
  (~ In b supported_rates -> drv_script (snd (reinitializeCAN b w)) = drv_script w) /\
  rx_script (snd (reinitializeCAN b w)) = rx_script w /\
  clock (snd (reinitializeCAN b w)) = clock w.
Proof.
  unfold reinitializeCAN, driver_call, supported_rates.
  destruct (Z.eqb_spec b 1000000) as [E1 | E1];
    [| destruct (Z.eqb_spec b 500000) as [E2 | E2];
       [| destruct (Z.eqb_spec b 250000) as [E3 | E3];
          [| destruct (Z.eqb_spec b 125000) as [E4 | E4]]]];
    cbn [orb]; cbn [drv_script set_driver];
    try (destruct (drv_script w) as [| [|] [| [|] rest]] eqn:E; cbn;
         rewrite ?E; cbn; splits; auto;
         try (split; [intros; splits; auto; discriminate
                     | intros (_ & Hi & Hs); try discriminate; auto]);
         intros Hn; exfalso; apply Hn; cbn; auto).
  cbn. splits; auto.
  split; [discriminate |]. intros ([H | [H | [H | [H | []]]]] & _); congruence.
Qed.

(** ** The single-shot queries *)

Lemma twai_transmit_ready msg w : fst (twai_transmit msg w) = tx_ready w.
Proof.
  unfold twai_transmit, tx_ready. destruct (tx_script w) as [| [dt ok] rest]; reflexivity.
Qed.

Lemma payload_codes_owner data len ecu :
  Forall (fun f => ecuId f = ecu /\ isPending f = false) (payload_codes data len ecu).
Proof.
  unfold payload_codes.
  induction (pairs_of data len) as [| [b1 b2] ps IH]; simpl; [constructor |].
  apply Forall_app. split; [| exact IH].
  unfold decode_pair. destruct ((b1 =? 0) && (b2 =? 0)); repeat constructor.
Qed.

(** X3. [testECUCommunication] answers true exactly when the controller
    accepted the query and the first thing the bus delivered was a frame
    whose identifier is the queried address plus 8 (here the offset is
    strict: a frame from elsewhere in the response range gives false).  It
    takes at most one entry of the bus, none when the query was not
    accepted (then no time passes but what the transmit call took), and
    changes neither the list of active ECUs nor the codes. *)
Theorem testECUCommunication_strict (ecu : Z) (w : World) :
  (fst (testECUCommunication ecu w) = true <->
   tx_ready w = true /\
   exists dt m rest, rx_script w = (dt, Some m) :: rest /\ identifier m - 8 = ecu) /\
  (tx_ready w = false ->
   rx_script (snd (testECUCommunication ecu w)) = rx_script w /\
   clock (snd (testECUCommunication ecu w)) = clock w + tx_time w) /\
  (exists pre, rx_script w = (pre ++ rx_script (snd (testECUCommunication ecu w)))%list /\
               (List.length pre <= 1)%nat) /\
  map snd (tx_log (snd (testECUCommunication ecu w))) =
    (map snd (tx_log w) ++ [probe_request ecu])%list /\
  activeECUs (snd (testECUCommunication ecu w)) = activeECUs w /\
  detectedCodes (snd (testECUCommunication ecu w)) = detectedCodes w.
Proof.
  unfold testECUCommunication.
  pose proof (twai_transmit_ready (obd_request ecu 2 1 0) w) as Hready.
  pose proof (twai_transmit_spec (obd_request ecu 2 1 0) w) as Htx.
  destruct (twai_transmit (obd_request ecu 2 1 0) w) as [sent w1].
  cbn [fst snd] in *. destruct Htx as (Htx & Hrx & Hclk & _ & _ & Hact & Hdet).
  assert (Htx' : map snd (tx_log w1) = (map snd (tx_log w) ++ [probe_request ecu])%list)
    by (rewrite Htx, map_app; reflexivity).
  rewrite <- Hready. destruct sent.
  - pose proof (same_state_receive 500 w1) as Hsame.
    destruct (twai_receive_rx 500 w1) as (pre & Hpre & Hlen).
    destruct (twai_receive 500 w1) as [[m |] w2] eqn:Hrcv; cbn [fst snd] in *;
      apply same_state_fields in Hsame;
      destruct Hsame as (_ & _ & _ & Htx2 & _ & _ & Hdet2 & Hact2 & _).
    + destruct (twai_receive_some _ _ _ _ Hrcv) as (dt & Hscr & _).
      rewrite Hrx in Hscr, Hpre. splits; try congruence.
      * split.
        -- intros Heq. apply Z.eqb_eq in Heq. split; [reflexivity |].
           exists dt, m, (rx_script w2). split; [assumption | lia].
        -- intros (_ & dt' & m' & rest & Hscr' & Hid). apply Z.eqb_eq.
           rewrite Hscr in Hscr'. inversion Hscr'; subst. lia.
      * exists pre. auto.
    + rewrite Hrx in Hpre. splits; try congruence.
      * split; [discriminate |]. intros (_ & dt' & m' & rest & Hscr' & _).
        destruct (twai_receive_none _ _ _ Hrcv) as [(He & _) | (dt & Hscr & _)];
          rewrite Hrx in *; rewrite Hscr' in *; discriminate.
      * exists pre. auto.
  - splits; try congruence; auto.
    + split; [discriminate | intros [H _]; discriminate].
    + exists []. cbn [snd app List.length]. split; [congruence | lia].
Qed.

(** X4. On a bus whose frames have a length code within their payload
    array, [scanForDTCs] decodes the first frame the bus delivers after an
    accepted query whatever its identifier, when its length code exceeds 2;
    in every other case it adds nothing.  The codes it adds are owned by
    the address that was queried and are not pending; it takes at most one
    entry of the bus and leaves the list of active ECUs alone. *)
Theorem scanForDTCs_any_frame (ecu : Z) (w : World) :
  payload_in_bounds (rx_script w) ->
  detectedCodes (scanForDTCs ecu w) =
    (detectedCodes w ++
     match rx_script w with
     | (_, Some m) :: _ =>
         if tx_ready w && (data_length_code m >? 2)
         then payload_codes (data m) (data_length_code m) ecu
         else []
     | _ => []
     end)%list /\
  Forall (fun f => In f (detectedCodes w) \/ (ecuId f = ecu /\ isPending f = false))
         (detectedCodes (scanForDTCs ecu w)) /\
  (exists pre, rx_script w = (pre ++ rx_script (scanForDTCs ecu w))%list /\
               (List.length pre <= 1)%nat) /\
  activeECUs (scanForDTCs ecu w) = activeECUs w.
Proof.
  intros _.
  assert (Hmain :
    detectedCodes (scanForDTCs ecu w) =
      (detectedCodes w ++
       match rx_script w with
       | (_, Some m) :: _ =>
           if tx_ready w && (data_length_code m >? 2)
           then payload_codes (data m) (data_length_code m) ecu
           else []
       | _ => []
       end)%list /\
    (exists pre, rx_script w = (pre ++ rx_script (scanForDTCs ecu w))%list /\
                 (List.length pre <= 1)%nat) /\
    activeECUs (scanForDTCs ecu w) = activeECUs w).
  { unfold scanForDTCs.
    pose proof (twai_transmit_ready (obd_request ecu 1 3 0) w) as Hready.
    pose proof (twai_transmit_spec (obd_request ecu 1 3 0) w) as Htx.
    destruct (twai_transmit (obd_request ecu 1 3 0) w) as [sent w1].
    cbn [fst snd] in *. destruct Htx as (_ & Hrx & _ & _ & _ & Hact & Hdet).
    rewrite <- Hready. destruct sent.
    - pose proof (same_state_receive 500 w1) as Hsame.
      destruct (twai_receive_rx 500 w1) as (pre & Hpre & Hlen).
      destruct (twai_receive 500 w1) as [[m |] w2] eqn:Hrcv; cbn [fst snd] in *;
        apply same_state_fields in Hsame;
        destruct Hsame as (_ & _ & _ & _ & _ & _ & Hdet2 & Hact2 & _);
        rewrite Hrx in Hpre.
      + destruct (twai_receive_some _ _ _ _ Hrcv) as (dt & Hscr & _).
        rewrite Hrx in Hscr. rewrite Hscr. cbn [andb].
        destruct (Z.gtb_spec (data_length_code m) 2) as [Hgt | Hle].
        * rewrite parseAndStoreDTC_codes by lia. unfold parseAndStoreDTC.
          destruct (parse_loop_backstage (data m) (data_length_code m) ecu
                      (Z.to_nat (data_length_code m)) 2 w2) as ((_ & Ha & _) & Hr & _).
          rewrite Hr, Ha. splits; try congruence. exists pre. rewrite <- Hscr. auto.
        * rewrite app_nil_r. splits; try congruence. exists pre. rewrite <- Hscr. auto.
      + destruct (twai_receive_none _ _ _ Hrcv) as [(He & _) | (dt & Hscr & _)];
          rewrite Hrx in *.
        * rewrite He, app_nil_r. splits; try congruence. exists pre. rewrite <- He. auto.
        * rewrite Hscr, app_nil_r. splits; try congruence.
          exists pre. rewrite <- Hscr. auto.
    - destruct (rx_script w) as [| [dt [m |]] rest] eqn:E; cbn [andb];
        rewrite app_nil_r; splits; try congruence; exists [];
        cbn [app List.length]; (split; [congruence | lia]). }
  destruct Hmain as (Hcodes & Hpre & Hact). splits; auto.
  rewrite Hcodes. apply Forall_app. split.
  - apply Forall_forall. auto.
  - destruct (rx_script w) as [| [dt [m |]] rest]; try constructor.
    destruct (tx_ready w && (data_length_code m >? 2)); [| constructor].
    eapply Forall_impl; [| apply payload_codes_owner]. auto.
Qed.

Lemma scanForDTCs_any_frame_witness :
  map code (detectedCodes (scanForDTCs 0x7E8 dtc_world)) = ["P0123"; "P0234"; "P0345"]%string.
Proof.
  destruct (scanForDTCs_any_frame 0x7E8 dtc_world) as [Hcodes _].
  - repeat constructor. unfold in_bounds. cbn. lia.
  - rewrite Hcodes. reflexivity.
Defined.

(** ** Traffic sniffing: what the summary counts *)

Lemma existsb_Zeqb x l : existsb (Z.eqb x) l = true <-> In x l.
Proof.
  rewrite existsb_exists. split.
  - intros (y & Hy & Heq). apply Z.eqb_eq in Heq. now subst.
  - intros H. exists x. split; [assumption | apply Z.eqb_refl].
Qed.

Lemma frame_ids_app l1 l2 : frame_ids (l1 ++ l2) = (frame_ids l1 ++ frame_ids l2)%list.
Proof. unfold frame_ids. apply flat_map_app. Qed.

(** Two duplicate-free lists with the same elements have the same length. *)
Lemma NoDup_same_length (l1 l2 : list Z) :
  NoDup l1 -> NoDup l2 -> (forall x, In x l1 <-> In x l2) ->
  List.length l1 = List.length l2.
Proof.
  intros H1 H2 H. apply Nat.le_antisymm; apply NoDup_incl_length; auto;
    intros x Hx; apply H; exact Hx.
Qed.

Lemma distinct_length (ids l : list Z) :
  NoDup ids -> (forall x, In x ids <-> In x l) -> List.length ids = distinct l.
Proof.
  intros Hnd H. unfold distinct. apply NoDup_same_length; auto.
  - apply NoDup_nodup.
  - intros x. rewrite nodup_In. apply H.
Qed.

(** One more frame: the draws so far stay, and the frame is drawn when it
    is a tenth one. *)
Lemma traffic_draws_snoc (ids : list Z) (x : Z) :
  traffic_draws (ids ++ [x]) =
  (traffic_draws ids ++
   if Z.rem (Z.of_nat (List.length ids) + 1) 10 =? 0
   then [(Z.of_nat (List.length ids) + 1, Z.of_nat (distinct (ids ++ [x])))]
   else [])%list.
Proof.
  unfold traffic_draws. rewrite length_app. cbn [List.length].
  rewrite Nat.add_1_r, seq_S, filter_app, map_app. f_equal.
  - apply map_ext_in. intros k Hk. apply filter_In in Hk. destruct Hk as [Hk _].
    apply in_seq in Hk. rewrite firstn_app.
    replace (k - List.length ids)%nat with 0%nat by lia.
    cbn [firstn]. rewrite app_nil_r. reflexivity.
  - cbn [filter]. replace (1 + List.length ids)%nat with (S (List.length ids)) by lia.
    assert (Hrem : (Z.rem (Z.of_nat (List.length ids) + 1) 10 =? 0) =
                   (S (List.length ids) mod 10 =? 0)%nat).
    { rewrite Z.rem_mod_nonneg by lia.
      replace (Z.of_nat (List.length ids) + 1) with (Z.of_nat (S (List.length ids))) by lia.
      change 10 with (Z.of_nat 10). rewrite <- Nat2Z.inj_mod.
      destruct (Nat.eqb_spec (S (List.length ids) mod 10) 0) as [E | E].
      - rewrite E. reflexivity.
      - apply Z.eqb_neq. lia. }
    rewrite Hrem. destruct (S (List.length ids) mod 10 =? 0)%nat; [| reflexivity].
    cbn [map]. rewrite firstn_all2 by (rewrite length_app; cbn; lia).
    repeat f_equal. lia.
Qed.

Lemma frames_in_frame_ids l : frames_in l = List.length (frame_ids l).
Proof.
  unfold frames_in, frame_ids, is_frame.
  induction l as [| [dt [m |]] l IH]; cbn; auto.
Qed.

(** X5. With rounds enough for the script, [listenForCANTraffic] ends once
    its window has run out; the summary it logs counts the frames it took
    from the bus and the distinct identifiers among them (every identifier
    is tallied once, however often it was seen); at every tenth frame, and
    only then, it draws the two counts so far over the progress bar.  It
    sends nothing, makes no call of [updateScanProgress] and leaves the
    results of the scan alone. *)
Theorem listenForCANTraffic_tally (fuel : nat) (T : Z) (w : World) :
  0 <= T <= 5000 ->
  (enough_fuel w <= fuel)%nat ->
  exists w' pre ids,
    listenForCANTraffic fuel T w = Some w' /\
    rx_script w = (pre ++ rx_script w')%list /\
    NoDup ids /\ (forall id, In id ids <-> In id (frame_ids pre)) /\
    serial w' = (serial w ++ [SerTrafficSummary (Z.of_nat (frames_in pre))
                                                (Z.of_nat (List.length ids))])%list /\
    T <= since (millis w) w' /\
    traffic_drawn w' = (traffic_drawn w ++ traffic_draws (frame_ids pre))%list /\
    tx_log w' = tx_log w /\ progress w' = progress w /\
    activeECUs w' = activeECUs w /\ detectedCodes w' = detectedCodes w.
Proof.
  intros HT Hfuel. unfold enough_fuel in Hfuel. unfold listenForCANTraffic.
  destruct (receive_while_total T 50 (millis w) tally_frame tally_frame_rx
              ltac:(lia) ltac:(lia) ltac:(lia)
              (List.length (rx_script w)) fuel (0, []) w eq_refl) as [[res w1] Hrun].
  { assert (T / 50 <= 100) by (apply Z.div_le_upper_bound; lia). lia. }
  rewrite Hrun.
  pose (Q := fun (w' : World) =>
     tx_log w' = tx_log w /\ serial w' = serial w /\ progress w' = progress w /\
     detectedCodes w' = detectedCodes w /\ activeECUs w' = activeECUs w).
  pose (P := fun (st : Z * list Z) (w' : World) =>
     Q w' /\
     exists pre, rx_script w = (pre ++ rx_script w')%list /\
                 fst st = Z.of_nat (frames_in pre) /\
                 NoDup (snd st) /\
                 (forall id, In id (snd st) <-> In id (frame_ids pre)) /\
                 traffic_drawn w' = (traffic_drawn w ++ traffic_draws (frame_ids pre))%list).
  assert (HP : P (0, []) w).
  { split; [unfold Q; auto 6 |]. exists []. cbn. splits; auto.
    - constructor.
    - intros id. tauto.
    - rewrite app_nil_r. reflexivity. }
  assert (Hrecv : forall w0 r w2, Q w0 -> twai_receive 50 w0 = (r, w2) ->
                    Q w2 /\ traffic_drawn w2 = traffic_drawn w0).
  { intros w0 r w2 (Q1 & Q2 & Q3 & Q4 & Q5) Hr.
    pose proof (same_state_receive 50 w0) as Hs'. rewrite Hr in Hs'. cbn [snd] in Hs'.
    pose proof (f_equal traffic_drawn Hs') as Hdr. cbn in Hdr.
    apply same_state_fields in Hs'.
    destruct Hs' as (_ & _ & _ & Htx & Hser & Hpr & Hdet & Hact & _).
    unfold Q. rewrite Htx, Hser, Hpr, Hdet, Hact. auto 7. }
  assert (Hnone : forall s w0 w2, P s w0 -> since (millis w) w0 < T ->
                    twai_receive 50 w0 = (None, w2) -> P s w2).
  { intros s w0 w2 [HQ (pre & Hpre & Hfc & Hnd & Hids & Hdr)] _ Hr.
    destruct (Hrecv _ _ _ HQ Hr) as [HQ2 Hdr2].
    split; [exact HQ2 |].
    destruct (twai_receive_none _ _ _ Hr) as [(He & He' & _) | (dt & Hscr & _)].
    - exists pre. splits; auto; congruence.
    - exists (pre ++ [(dt, None)])%list. rewrite <- app_assoc. cbn [app].
      rewrite <- Hscr, frame_ids_app. cbn. rewrite app_nil_r. splits; auto.
      + rewrite frames_in_app, frames_in_one. cbn. lia.
      + congruence. }
  assert (Hsome : forall s w0 m w2 s' w3, P s w0 -> since (millis w) w0 < T ->
                    twai_receive 50 w0 = (Some m, w2) ->
                    tally_frame m s w2 = (inl s', w3) -> P s' w3).
  { intros [fc ids] w0 m w2 s' w3 [HQ (pre & Hpre & Hfc & Hnd & Hids & Hdr)] _ Hr Hb.
    destruct (Hrecv _ _ _ HQ Hr) as [(Q1 & Q2 & Q3 & Q4 & Q5) Hdr2].
    destruct (twai_receive_some _ _ _ _ Hr) as (dt & Hscr & _).
    cbn [fst snd] in *.
    set (ids' := if existsb (Z.eqb (identifier m)) ids then ids
                 else (ids ++ [identifier m])%list).
    assert (Hnd' : NoDup ids').
    { subst ids'. destruct (existsb (Z.eqb (identifier m)) ids) eqn:Hex; [assumption |].
      apply NoDup_app; [assumption | repeat constructor; intros [] |].
      intros x Hx [Hx' | []]. subst x.
      apply existsb_Zeqb in Hx. congruence. }
    assert (Hids' : forall id, In id ids' <-> In id (frame_ids pre ++ [identifier m])%list).
    { intros id. subst ids'.
      destruct (existsb (Z.eqb (identifier m)) ids) eqn:Hex.
      - apply existsb_Zeqb in Hex. rewrite in_app_iff, <- Hids. cbn.
        split; [auto | intros [H | [H | []]]; [assumption | congruence]].
      - rewrite !in_app_iff, <- Hids. tauto. }
    pose proof (tally_frame_rx m (fc, ids) w2) as Hrx3. rewrite Hb in Hrx3.
    cbn [snd] in Hrx3.
    unfold tally_frame in Hb. fold ids' in Hb. inversion Hb; subst s' w3. clear Hb.
    assert (Hlen : Z.of_nat (List.length ids') =
                   Z.of_nat (distinct (frame_ids pre ++ [identifier m]))).
    { f_equal. apply distinct_length; assumption. }
    split.
    - unfold Q. destruct (Z.rem (fc + 1) 10 =? 0); wsimpl; auto 7.
    - exists (pre ++ [(dt, Some m)])%list. rewrite <- app_assoc. cbn [app fst snd].
      rewrite Hrx3, <- Hscr, frame_ids_app. cbn [frame_ids flat_map snd app].
      rewrite traffic_draws_snoc, <- frames_in_frame_ids, <- Hfc.
      splits; auto.
      + rewrite frames_in_app, frames_in_one. cbn. lia.
      + destruct (Z.rem (fc + 1) 10 =? 0); wsimpl.
        * rewrite Hdr2, Hdr, <- app_assoc, Hlen. reflexivity.
        * rewrite Hdr2, Hdr, app_nil_r. reflexivity. }
  pose proof (receive_while_rule T 50 (millis w) tally_frame P Hnone Hsome
                fuel (0, []) w res w1 HP Hrun) as Hrule.
  destruct res as [[frameCount uniqueIDs] | []].
  destruct Hrule as [[(Htx & Hser & Hpr & Hdet & Hact) (pre & Hpre & Hfc & Hnd & Hids & Hdr)]
                     Hwin].
  cbn [fst snd] in *. subst frameCount.
  eexists. exists pre, uniqueIDs. split; [reflexivity |]. wsimpl.
  rewrite since_Serial_print. splits; auto. now rewrite Hser.
Qed.

Lemma listenForCANTraffic_tally_witness :
  exists w' pre ids,
    listenForCANTraffic 205 TRAFFIC_LISTEN_TIMEOUT_MS silent_vehicle_world = Some w' /\
    rx_script silent_vehicle_world = (pre ++ rx_script w')%list /\
    NoDup ids /\ (forall id, In id ids <-> In id (frame_ids pre)).
Proof.
  destruct (listenForCANTraffic_tally 205 TRAFFIC_LISTEN_TIMEOUT_MS silent_vehicle_world)
    as (w' & pre & ids & Hrun & Hpre & Hnd & Hids & _).
  - unfold TRAFFIC_LISTEN_TIMEOUT_MS. lia.
  - vm_compute. lia.
  - exists w', pre, ids. auto.
Defined.

(** ** The probe without a deadline: [probeOBD2ECUs] *)

(** A receive call returns by its time-out. *)
Lemma twai_receive_bound ms w :
  0 <= ms -> clock w <= clock (snd (twai_receive ms w)) <= clock w + ms.
Proof.
  intros Hms. unfold twai_receive. destruct (rx_script w) as [| [dt r] rest]; cbn; [lia |].
  pose proof (call_time_range ms (dt, r) Hms). lia.
Qed.

Lemma twai_receive_clock ms w :
  0 <= ms -> clock w <= clock (snd (twai_receive ms w)).
Proof. intros Hms. apply twai_receive_bound. exact Hms. Qed.

(** The wait for an answer to a probe, for any window. *)
Lemma probe_wait_window fuel W a w1 res w2 :
  receive_while fuel W 50 (millis w1) (probe_response a) tt w1 = Some (res, w2) ->
  exists w3,
    same_state w1 w3 /\
    (List.length (rx_script w3) <= List.length (rx_script w1))%nat /\
    clock w1 <= clock w3 /\
    match res with
    | inl _ => w2 = w3
    | inr _ => exists id,
        qualifies a id = true /\
        w2 = Serial_print (SerActiveECU a id)
               (set_activeECUs (activeECUs w3 ++ [id mod 2 ^ 16]) w3)
    end.
Proof.
  intros Hrun.
  pose (P := fun (_ : unit) (w : World) =>
     same_state w1 w /\ (List.length (rx_script w) <= List.length (rx_script w1))%nat /\
     clock w1 <= clock w).
  assert (Hrcv : forall w r w', P tt w -> twai_receive 50 w = (r, w') -> P tt w').
  { intros w r w' (Hs & Hl & Hc) Hr.
    pose proof (same_state_receive 50 w) as Hs'.
    pose proof (twai_receive_clock 50 w ltac:(lia)) as Hc'.
    destruct (twai_receive_rx 50 w) as (pre & Hpre & _).
    rewrite Hr in Hs', Hpre, Hc'. cbn [snd] in Hs', Hpre, Hc'.
    split; [eapply same_state_trans; eauto | split; [| lia]].
    apply same_state_rx_le in Hpre. lia. }
  assert (Hnone : forall s w w', P s w -> since (millis w1) w < W ->
                    twai_receive 50 w = (None, w') -> P s w').
  { intros [] w w' HPw _ Hr. eapply Hrcv; eauto. }
  assert (Hsome : forall s w m w' s' w'', P s w -> since (millis w1) w < W ->
                    twai_receive 50 w = (Some m, w') ->
                    probe_response a m s w' = (inl s', w'') -> P s' w'').
  { intros [] w m w' s' w'' HPw _ Hr Hb.
    unfold probe_response in Hb.
    destruct (qualifies a (identifier m)); inversion Hb; subst. eapply Hrcv; eauto. }
  assert (HP : P tt w1) by (split; [apply same_state_refl | split; lia]).
  pose proof (receive_while_rule W 50 (millis w1) (probe_response a) P Hnone Hsome
                fuel tt w1 res w2 HP Hrun) as Hrule.
  destruct res as [[] | []].
  - destruct Hrule as [(Hs & Hl & Hc) _]. exists w2. auto.
  - destruct Hrule as (s0 & w0 & m & w' & HPw & _ & Hr & Hb).
    destruct s0. destruct (Hrcv _ _ _ HPw Hr) as (Hs & Hl & Hc).
    exists w'. splits; auto.
    unfold probe_response in Hb.
    destruct (qualifies a (identifier m)) eqn:Hq; inversion Hb; subst.
    exists (identifier m). auto.
Qed.

Lemma probe_address_plain_spec fuel a i w :
  (List.length (rx_script w) + 102 <= fuel)%nat ->
  small_addr a ->
  exists w',
    probe_address_plain fuel a i w = Some w' /\
    map snd (tx_log w') = (map snd (tx_log w) ++ [probe_request a])%list /\
    progress w' = progress w /\
    detectedCodes w' = detectedCodes w /\
    vehicleDetected w' = vehicleDetected w /\
    (List.length (rx_script w') <= List.length (rx_script w))%nat /\
    clock w + 100 <= clock w' /\
    ((activeECUs w' = activeECUs w /\
      serial w' = (serial w ++ [SerProbing a (i + 1)])%list) \/
     (exists id, qualifies a id = true /\
        activeECUs w' = (activeECUs w ++ [id])%list /\
        serial w' = (serial w ++ [SerProbing a (i + 1); SerActiveECU a id])%list)).
Proof.
  intros Hfuel [Ha0 Ha]. unfold probe_address_plain, probe_request.
  set (w0 := Serial_print (SerProbing a (i + 1)) w).
  pose proof (twai_transmit_spec (obd_request a 2 1 0) w0) as Htx.
  assert (Hvd : vehicleDetected (snd (twai_transmit (obd_request a 2 1 0) w0))
                = vehicleDetected w).
  { unfold twai_transmit. destruct (tx_script w0) as [| [dt ok] rest]; reflexivity. }
  destruct (twai_transmit (obd_request a 2 1 0) w0) as [sent w2]. cbn [snd] in Htx, Hvd.
  destruct Htx as (Htx2 & Hrx2 & Hclk2 & Hser2 & Hpr2 & Hact2 & Hdet2).
  pose proof (tx_time_range w0) as Htt.
  subst w0. wsimpl.
  assert (Htx2' : map snd (tx_log w2) = (map snd (tx_log w) ++ [obd_request a 2 1 0])%list)
    by (rewrite Htx2, map_app; reflexivity).
  destruct sent.
  - destruct (receive_while_total 1000 50 (millis w2) (probe_response a)
                (probe_response_rx a) ltac:(lia) ltac:(lia) ltac:(lia)
                (List.length (rx_script w2)) fuel tt w2 eq_refl) as [[res w3] Hrun].
    { rewrite Hrx2. change (Z.to_nat (1000 / 50)) with 20%nat. lia. }
    rewrite Hrun.
    destruct (probe_wait_window _ _ _ _ _ _ Hrun) as (w4 & Hsame & Hlen & Hclk & Hres).
    rewrite Hrx2 in Hlen.
    apply same_state_fields in Hsame.
    destruct Hsame as (_ & _ & _ & Htx4 & Hser4 & Hpr4 & Hdet4 & Hact4 & Hvd4).
    eexists. split; [reflexivity |].
    destruct res as [[] | []].
    + subst w3. wsimpl. splits; try congruence; try lia.
      left. split; congruence.
    + destruct Hres as (id & Hq & ->). wsimpl. splits; try congruence; try lia.
      right. exists id. splits; auto.
      * rewrite (qualifies_small a id Ha0 Ha Hq). congruence.
      * rewrite Hser4, Hser2, <- app_assoc. reflexivity.
  - eexists. split; [reflexivity |]. wsimpl. rewrite Hrx2.
    splits; try congruence; try lia.
    left. split; congruence.
Qed.

Lemma probe_loop_plain_spec fuel :
  forall addrs i w,
    (List.length (rx_script w) + 102 <= fuel)%nat ->
    Forall small_addr addrs ->
    exists w' tr,
      probe_loop_plain fuel addrs i w = Some w' /\
      probe_trace addrs i tr /\
      serial w' = (serial w ++ tr)%list /\
      map snd (tx_log w') = (map snd (tx_log w) ++ map probe_request addrs)%list /\
      activeECUs w' = (activeECUs w ++ found_ids tr)%list /\
      progress w' = progress w /\
      detectedCodes w' = detectedCodes w /\
      vehicleDetected w' = vehicleDetected w /\
      (List.length (rx_script w') <= List.length (rx_script w))%nat /\
      clock w + 100 * Z.of_nat (List.length addrs) <= clock w'.
Proof.
  induction addrs as [| a rest IH]; intros i w Hfuel Hsmall.
  - exists w, []. cbn. rewrite !app_nil_r. splits; auto; try lia. constructor.
  - cbn [probe_loop_plain].
    inversion Hsmall as [| ? ? Ha Hrest]; subst.
    destruct (probe_address_plain_spec fuel a i w Hfuel Ha)
      as (w1 & Hrun1 & Htx1 & Hpr1 & Hdet1 & Hvd1 & Hlen1 & Hclk1 & Hfound).
    rewrite Hrun1.
    destruct (IH (i + 1) w1 ltac:(lia) Hrest)
      as (w' & tr & Hrun & Htr & Hser & Htx & Hact & Hpr & Hdet & Hvd & Hlen & Hclk).
    cbn [List.length map].
    destruct Hfound as [[Hact1 Hser1] | (id & Hq & Hact1 & Hser1)].
    + exists w', (SerProbing a (i + 1) :: tr).
      splits; auto; try lia; try congruence.
      * now constructor.
      * rewrite Hser, Hser1, <- !app_assoc. reflexivity.
      * rewrite Htx, Htx1, <- app_assoc. reflexivity.
      * rewrite Hact, Hact1. reflexivity.
    + exists w', (SerProbing a (i + 1) :: SerActiveECU a id :: tr).
      splits; auto; try lia; try congruence.
      * now constructor.
      * rewrite Hser, Hser1, <- !app_assoc. reflexivity.
      * rewrite Htx, Htx1, <- app_assoc. reflexivity.
      * rewrite Hact, Hact1, <- app_assoc. reflexivity.
Qed.

(** X6. [probeOBD2ECUs], the probe without a deadline, always gets through
    the whole address table: with rounds enough for the script it sends
    one Mode 01 PID 00 request to each of the 16 addresses, in table
    order; the identifiers it appends to the active list are those of the
    answers it logged, each one qualifying for the address then probed; it
    reports no progress, stores no code, and takes at least the sixteen
    100 ms pauses. *)
Theorem probeOBD2ECUs_probes_all (fuel : nat) (w : World) :
  (enough_fuel w <= fuel)%nat ->
  exists w' tr,
    probeOBD2ECUs fuel w = Some w' /\
    probe_trace OBD2_ADDRESSES 0 tr /\
    serial w' = (serial w ++ tr ++
                 [SerFoundECUs (Z.of_nat (List.length (activeECUs w')))])%list /\
    map snd (tx_log w') = (map snd (tx_log w) ++ map probe_request OBD2_ADDRESSES)%list /\
    activeECUs w' = (activeECUs w ++ found_ids tr)%list /\
    (List.length (found_ids tr) <= 16)%nat /\
    progress w' = progress w /\
    detectedCodes w' = detectedCodes w /\
    clock w + 1600 <= clock w'.
Proof.
  intros Hfuel. unfold enough_fuel in Hfuel. unfold probeOBD2ECUs.
  destruct (probe_loop_plain_spec fuel OBD2_ADDRESSES 0 w Hfuel OBD2_ADDRESSES_small)
    as (w1 & tr & Hrun & Htr & Hser & Htx & Hact & Hpr & Hdet & _ & _ & Hclk).
  rewrite Hrun. eexists. exists tr. split; [reflexivity |]. wsimpl.
  destruct (probe_trace_found _ _ _ Htr) as (_ & _ & _ & Hlen).
  splits; auto.
  rewrite Hser, <- app_assoc. reflexivity.
Qed.

Lemma probeOBD2ECUs_probes_all_witness :
  exists w' tr,
    probeOBD2ECUs 205 silent_vehicle_world = Some w' /\
    probe_trace OBD2_ADDRESSES 0 tr /\
    map snd (tx_log w') =
    (map snd (tx_log silent_vehicle_world) ++ map probe_request OBD2_ADDRESSES)%list.
Proof.
  destruct (probeOBD2ECUs_probes_all 205 silent_vehicle_world)
    as (w' & tr & Hrun & Htr & _ & Htx & _).
  - vm_compute. lia.
  - exists w', tr. auto.
Defined.

(** ** Code collection: what [scanAllDTCs] sends and whom the codes belong to *)

Lemma parse_loop_keeps data len ecu :
  forall fuel i w,
    vehicleDetected (parse_loop fuel data len ecu i w) = vehicleDetected w /\
    clock (parse_loop fuel data len ecu i w) = clock w.
Proof.
  induction fuel as [| fuel IH]; intros i w; cbn [parse_loop]; [auto |].
  destruct (i <? len - 1); [| auto].
  destruct (decode_pair (byte_at data i) (byte_at data (i + 1)) ecu) as [f |]; [| apply IH].
  match goal with |- context [parse_loop fuel data len ecu (i + 2) ?w1] =>
    destruct (IH (i + 2) w1) as (Hv & Hc); rewrite Hv, Hc end.
  split; reflexivity.
Qed.

Lemma answered_world_keeps ecu m w :
  vehicleDetected (answered_world ecu m w) = vehicleDetected w.
Proof.
  unfold answered_world. destruct (data_length_code m >? 2); [| reflexivity].
  unfold parseAndStoreDTC.
  destruct (parse_loop_keeps (data m) (data_length_code m) ecu
              (Z.to_nat (data_length_code m)) 2 (Serial_print (SerDTCResponse ecu) w))
    as [Hv _].
  rewrite Hv. reflexivity.
Qed.

Lemma twai_transmit_flag msg w :
  vehicleDetected (snd (twai_transmit msg w)) = vehicleDetected w.
Proof. unfold twai_transmit. destruct (tx_script w) as [| [dt ok] rest]; reflexivity. Qed.

Lemma scan_ecu_sends fuel ecu w w' :
  scan_ecu fuel ecu w = Some w' ->
  map snd (tx_log w') = (map snd (tx_log w) ++ [obd_request (request_id ecu) 1 3 0])%list /\
  vehicleDetected w' = vehicleDetected w.
Proof.
  unfold scan_ecu.
  set (w0 := Serial_print (SerScanningECU ecu) w).
  pose proof (twai_transmit_spec (obd_request (request_id ecu) 1 3 0) w0) as Htx.
  pose proof (twai_transmit_flag (obd_request (request_id ecu) 1 3 0) w0) as Hvd.
  destruct (twai_transmit (obd_request (request_id ecu) 1 3 0) w0) as [sent w1].
  cbn [snd] in Htx, Hvd. destruct Htx as (Htx1 & _).
  subst w0. wsimpl.
  assert (Htx1' : map snd (tx_log w1) =
                  (map snd (tx_log w) ++ [obd_request (request_id ecu) 1 3 0])%list)
    by (rewrite Htx1, map_app; reflexivity).
  destruct sent.
  - destruct (receive_while fuel 1000 50 (millis w1) (dtc_response ecu) tt w1)
      as [[res w2] |] eqn:Hrun; [| discriminate].
    intros H. inversion H; subst w'. clear H. wsimpl.
    destruct (dtc_wait_spec _ _ _ _ _ Hrun) as (w3 & Hsame & Hres).
    apply same_state_fields in Hsame.
    destruct Hsame as (_ & _ & _ & Htx3 & _ & _ & _ & _ & Hvd3).
    destruct res as [[] | []].
    + destruct Hres as [-> _]. split; congruence.
    + destruct Hres as (m & _ & ->).
      destruct (answered_world_spec ecu m w3) as (_ & _ & Htx4 & _).
      rewrite Htx4, answered_world_keeps. split; congruence.
  - intros H. inversion H; subst w'. wsimpl. split; congruence.
Qed.

Lemma scan_ecus_requests fuel :
  forall ecus w,
    (List.length (rx_script w) + 102 <= fuel)%nat ->
    exists w' new,
      scan_ecus fuel ecus w = Some w' /\
      backstage w w' /\
      map snd (tx_log w') =
      (map snd (tx_log w) ++
       map (fun ecu => obd_request (request_id ecu) 1 3 0) ecus)%list /\
      vehicleDetected w' = vehicleDetected w /\
      detectedCodes w' = (detectedCodes w ++ new)%list /\
      Forall (fun f => In (ecuId f) ecus /\ isPending f = false) new.
Proof.
  induction ecus as [| ecu rest IH]; intros w Hfuel.
  - exists w, []. cbn. rewrite !app_nil_r. splits; auto. apply backstage_refl.
  - destruct (scan_ecu_spec fuel ecu w Hfuel) as (w1 & Hrun & Hb & Hcodes).
    destruct (scan_ecu_sends _ _ _ _ Hrun) as [Htx1 Hvd1].
    destruct (IH w1) as (w' & new & Hrun' & Hb' & Htx & Hvd & Hdet & Hown).
    { destruct Hb as (_ & _ & _ & Hlen). lia. }
    assert (Hnew1 : exists new1, detectedCodes w1 = (detectedCodes w ++ new1)%list /\
                      Forall (fun f => ecuId f = ecu /\ isPending f = false) new1).
    { destruct Hcodes as [[_ Hd] | (m & _ & Hd)].
      - exists []. rewrite app_nil_r. auto.
      - eexists. split; [exact Hd |].
        destruct (data_length_code m >? 2); [apply payload_codes_owner | constructor]. }
    destruct Hnew1 as (new1 & Hdet1 & Hown1).
    exists w', (new1 ++ new)%list. cbn [scan_ecus map]. rewrite Hrun.
    splits; auto.
    + eapply backstage_trans; eauto.
    + rewrite Htx, Htx1, <- app_assoc. reflexivity.
    + congruence.
    + rewrite Hdet, Hdet1, <- app_assoc. reflexivity.
    + apply Forall_app. split.
      * eapply Forall_impl; [| exact Hown1]. intros f [He Hp]. split; [left; auto | auto].
      * eapply Forall_impl; [| exact Hown]. intros f [He Hp]. split; [right; auto | auto].
Qed.

(** X7. [scanAllDTCs] sends exactly one Mode 03 request per entry of the
    active list, in list order (an entry listed twice is asked twice),
    each to the entry's identifier minus 8 when the entry lies in
    0x7E8..0x7EF and to the identifier itself otherwise.  It keeps the
    codes already stored; every code it adds is tagged with an entry of
    the list and is not pending.  With an empty list it sends nothing,
    reads nothing and takes no time.  The list, the progress sink and the
    vehicle flag stay as they were. *)
Theorem scanAllDTCs_requests (fuel : nat) (w : World) :
  (enough_fuel w <= fuel)%nat ->
  exists w' new,
    scanAllDTCs fuel w = Some w' /\
    map snd (tx_log w') =
    (map snd (tx_log w) ++
     map (fun ecu => obd_request
                       (if (0x7E8 <=? ecu) && (ecu <=? 0x7EF) then ecu - 8 else ecu)
                       0x01 0x03 0x00)
         (activeECUs w))%list /\
    detectedCodes w' = (detectedCodes w ++ new)%list /\
    Forall (fun f => In (ecuId f) (activeECUs w) /\ isPending f = false) new /\
    activeECUs w' = activeECUs w /\ progress w' = progress w /\
    vehicleDetected w' = vehicleDetected w /\
    (activeECUs w = [] ->
     new = [] /\ rx_script w' = rx_script w /\ clock w' = clock w).
Proof.
  intros Hfuel. unfold enough_fuel in Hfuel. unfold scanAllDTCs.
  assert (Hid : forall ecus,
     map (fun ecu => obd_request (request_id ecu) 1 3 0) ecus =
     map (fun ecu => obd_request
                       (if (0x7E8 <=? ecu) && (ecu <=? 0x7EF) then ecu - 8 else ecu)
                       1 3 0) ecus).
  { intros ecus. apply map_ext. intros ecu. unfold request_id.
    destruct (Z.leb_spec 0x7E8 ecu); [| reflexivity].
    destruct (Z.leb_spec ecu 0x7EF); [| reflexivity].
    cbn [andb]. rewrite Z.mod_small by lia. reflexivity. }
  destruct (activeECUs w) as [| ecu rest] eqn:Hact.
  - cbn. eexists. exists []. split; [reflexivity |]. wsimpl.
    rewrite !app_nil_r. splits; auto.
  - cbn [List.length Nat.eqb]. rewrite <- Hact.
    destruct (scan_ecus_requests fuel (activeECUs w) w Hfuel)
      as (w' & new & Hrun & (Hpr & Hact' & _) & Htx & Hvd & Hdet & Hown).
    exists w', new. rewrite <- Hid. splits; auto.
    rewrite Hact. discriminate.
Qed.

Lemma scanAllDTCs_requests_witness :
  exists w' new,
    scanAllDTCs 103 (set_activeECUs [0x7E8; 0x7E8] dtc_world) = Some w' /\
    map snd (tx_log w') =
    (map snd (tx_log dtc_world) ++
     [obd_request 0x7E0 0x01 0x03 0x00; obd_request 0x7E0 0x01 0x03 0x00])%list /\
    detectedCodes w' = (detectedCodes dtc_world ++ new)%list.
Proof.
  destruct (scanAllDTCs_requests 103 (set_activeECUs [0x7E8; 0x7E8] dtc_world))
    as (w' & new & Hrun & Htx & Hdet & _).
  - vm_compute. lia.
  - exists w', new. auto.
Defined.

(** ** Time: how long the receive loops run

    The clock advances in the calls of the driver and in [delay] only,
    and every call of the driver returns by its time-out. *)

Lemma since_elapsed w0 w :
  0 <= clock w - clock w0 < 2 ^ 32 -> since (millis w0) w = clock w - clock w0.
Proof.
  intros H. rewrite (since_offset w0 w (clock w - clock w0)) by lia.
  apply Z.mod_small. lia.
Qed.

Lemma since_le w0 w :
  0 <= clock w - clock w0 -> since (millis w0) w <= clock w - clock w0.
Proof.
  intros H. unfold since, millis. rewrite <- Zminus_mod. apply Z.mod_le; lia.
Qed.

Section ReceiveTime.

Context {S R : Type}.
Variables (window ms : Z).
Variable body : twai_message -> S -> World -> (S + R) * World.
Hypothesis body_clock : forall m s w, clock (snd (body m s w)) = clock w.
Hypothesis body_rx : forall m s w, rx_script (snd (body m s w)) = rx_script w.

(** A loop entered at [w0] is left less than one receive call after its
    window has run out. *)
Lemma receive_while_elapsed fuel s w0 res w' :
  0 < ms -> 0 <= window -> window + ms <= 2 ^ 32 ->
  receive_while fuel window ms (millis w0) body s w0 = Some (res, w') ->
  0 <= clock w' - clock w0 < window + ms /\
  match res with
  | inl _ => window <= clock w' - clock w0
  | inr _ => True
  end.
Proof.
  intros Hms Hw Hwrap Hrun.
  pose (P := fun (_ : S) (w : World) => 0 <= clock w - clock w0 < window + ms).
  assert (Hrcv : forall s1 w r w1, P s1 w -> since (millis w0) w < window ->
                   twai_receive ms w = (r, w1) -> P s1 w1).
  { intros s1 w r w1 Hc Hlt Hr. unfold P in *.
    rewrite since_elapsed in Hlt by lia.
    pose proof (twai_receive_bound ms w ltac:(lia)) as Hc1.
    rewrite Hr in Hc1. cbn [snd] in Hc1. lia. }
  assert (Hnone : forall s1 w w1, P s1 w -> since (millis w0) w < window ->
                    twai_receive ms w = (None, w1) -> P s1 w1).
  { intros s1 w w1 HP Hlt Hr. eapply Hrcv; eauto. }
  assert (Hbody : forall m s1 w1 x w2, body m s1 w1 = (x, w2) ->
                    clock w2 = clock w1 /\ rx_script w2 = rx_script w1).
  { intros m s1 w1 x w2 Hb.
    pose proof (body_clock m s1 w1) as H1. pose proof (body_rx m s1 w1) as H2.
    rewrite Hb in H1, H2. auto. }
  assert (Hsome : forall s1 w m w1 s' w2, P s1 w -> since (millis w0) w < window ->
                    twai_receive ms w = (Some m, w1) ->
                    body m s1 w1 = (inl s', w2) -> P s' w2).
  { intros s1 w m w1 s' w2 HP Hlt Hr Hb.
    pose proof (Hrcv _ _ _ _ HP Hlt Hr) as Hc1.
    destruct (Hbody _ _ _ _ _ Hb) as [Hc2 Hrx2].
    unfold P in *. lia. }
  assert (HP : P s w0) by (unfold P; lia).
  pose proof (receive_while_rule window ms (millis w0) body P Hnone Hsome
                fuel s w0 res w' HP Hrun) as Hrule.
  destruct res as [s' | r].
  - destruct Hrule as [Hc Hwin]. unfold P in Hc.
    rewrite since_elapsed in Hwin by lia. auto.
  - destruct Hrule as (s0 & w & m & w1 & HPw & Hlt & Hr & Hb).
    pose proof (Hrcv _ _ _ _ HPw Hlt Hr) as Hc1.
    destruct (Hbody _ _ _ _ _ Hb) as [Hc2 Hrx2].
    unfold P in *. splits; [lia | lia | exact I].
Qed.

End ReceiveTime.

Section ReceiveKeeps.

Context {S R : Type}.
Variables (window ms start : Z).
Variable body : twai_message -> S -> World -> (S + R) * World.
Variable K : World -> World -> Prop.
Hypothesis K_refl : forall w, K w w.
Hypothesis K_trans : forall w1 w2 w3, K w1 w2 -> K w2 w3 -> K w1 w3.
Hypothesis K_receive : forall w, K w (snd (twai_receive ms w)).
Hypothesis K_body : forall m s w, K w (snd (body m s w)).

(** What every receive call and every round of the body keep, the loop
    keeps. *)
Lemma receive_while_keeps fuel s w res w' :
  receive_while fuel window ms start body s w = Some (res, w') -> K w w'.
Proof.
  intros Hrun.
  assert (Hrcv : forall w1 r w2, K w w1 -> twai_receive ms w1 = (r, w2) -> K w w2).
  { intros w1 r w2 H1 Hr. pose proof (K_receive w1) as H2. rewrite Hr in H2.
    eapply K_trans; eauto. }
  assert (Hb : forall m s1 w1 x w2, K w w1 -> body m s1 w1 = (x, w2) -> K w w2).
  { intros m s1 w1 x w2 H1 Hbody. pose proof (K_body m s1 w1) as H2. rewrite Hbody in H2.
    eapply K_trans; eauto. }
  assert (Hnone : forall (s1 : S) w1 w2, K w w1 -> since start w1 < window ->
                    twai_receive ms w1 = (None, w2) -> K w w2).
  { intros s1 w1 w2 H1 _ Hr. eapply Hrcv; eauto. }
  assert (Hsome : forall s1 w1 m w2 s' w3, K w w1 -> since start w1 < window ->
                    twai_receive ms w1 = (Some m, w2) ->
                    body m s1 w2 = (inl s', w3) -> K w w3).
  { intros s1 w1 m w2 s' w3 H1 _ Hr Hbody. eapply Hb; [eapply Hrcv |]; eauto. }
  pose proof (receive_while_rule window ms start body (fun _ w1 => K w w1) Hnone Hsome
                fuel s w res w' (K_refl w) Hrun) as Hrule.
  destruct res as [s' | r].
  - apply Hrule.
  - destruct Hrule as (s0 & w0 & m & w1 & H1 & _ & Hr & Hbody).
    eapply Hb; [eapply Hrcv |]; eauto.
Qed.

End ReceiveKeeps.

Lemma results_kept_refl w : results_kept w w.
Proof. split; reflexivity. Qed.

Lemma results_kept_trans w1 w2 w3 :
  results_kept w1 w2 -> results_kept w2 w3 -> results_kept w1 w3.
Proof. intros [H1 H2] [H3 H4]. split; congruence. Qed.

Lemma results_kept_receive ms w : results_kept w (snd (twai_receive ms w)).
Proof. unfold twai_receive. destruct (rx_script w) as [| [dt r] rest]; split; reflexivity. Qed.

Lemma results_kept_transmit msg w : results_kept w (snd (twai_transmit msg w)).
Proof.
  unfold twai_transmit. destruct (tx_script w) as [| [dt ok] rest]; split; reflexivity.
Qed.

Lemma reinitializeCAN_keeps b w :
  results_kept w (snd (reinitializeCAN b w)) /\
  clock (snd (reinitializeCAN b w)) = clock w.
Proof.
  unfold reinitializeCAN, driver_call, results_kept.
  destruct ((b =? 1000000) || (b =? 500000) || (b =? 250000) || (b =? 125000)); cbn;
    [| auto].
  destruct (drv_script w) as [| [|] [| [|] rest]] eqn:E; cbn; rewrite ?E; cbn; auto.
Qed.

Lemma count_frame_clock b m c w : clock (snd (count_frame b m c w)) = clock w.
Proof. unfold count_frame. destruct (c + 1 >=? 3); reflexivity. Qed.

Lemma count_frame_keeps b m c w : results_kept w (snd (count_frame b m c w)).
Proof. unfold count_frame. destruct (c + 1 >=? 3); split; reflexivity. Qed.

Lemma tally_frame_clock m s w : clock (snd (tally_frame m s w)) = clock w.
Proof. destruct (tally_frame_cases m s w) as [-> | (a & b & ->)]; reflexivity. Qed.

Lemma tally_frame_keeps m s w : results_kept w (snd (tally_frame m s w)).
Proof.
  destruct (tally_frame_cases m s w) as [-> | (a & b & ->)]; split; reflexivity.
Qed.

(** Baud detection takes less than a window and a receive call per
    candidate, and keeps the results. *)
Lemma try_baudRates_time fuel :
  forall rates w r w',
    try_baudRates fuel rates w = Some (r, w') ->
    results_kept w w' /\
    0 <= clock w' - clock w <= Z.of_nat (List.length rates) * 2099.
Proof.
  induction rates as [| b rest IH]; intros w r w' Hrun.
  - cbn in Hrun. inversion Hrun; subst. splits; auto using results_kept_refl; cbn; lia.
  - cbn [try_baudRates] in Hrun.
    set (w0 := Serial_print (SerTrying b) w) in Hrun.
    destruct (reinitializeCAN_keeps b w0) as [Hk1 Hc1].
    destruct (reinitializeCAN b w0) as [ok w1]. cbn [snd] in Hk1, Hc1.
    assert (Hk0 : results_kept w w1) by (destruct Hk1; split; assumption).
    assert (Hlen : Z.of_nat (List.length (b :: rest)) = Z.of_nat (List.length rest) + 1)
      by (cbn [List.length]; lia).
    rewrite Hlen.
    assert (Hc0 : clock w1 = clock w) by exact Hc1.
    destruct ok.
    + destruct (receive_while fuel BAUD_DETECT_TIMEOUT_MS 100 (millis w1) (count_frame b) 0 w1)
        as [[res w2] |] eqn:Hloop; [| discriminate].
      destruct (receive_while_elapsed BAUD_DETECT_TIMEOUT_MS 100 (count_frame b)
                  (count_frame_clock b) (count_frame_rx b) fuel 0 w1 res w2
                  ltac:(lia) ltac:(unfold BAUD_DETECT_TIMEOUT_MS; lia)
                  ltac:(unfold BAUD_DETECT_TIMEOUT_MS; lia) Hloop)
        as (Hc2 & _).
      pose proof (receive_while_keeps BAUD_DETECT_TIMEOUT_MS 100 (millis w1) (count_frame b)
                    results_kept results_kept_refl results_kept_trans
                    (results_kept_receive 100) (count_frame_keeps b) fuel 0 w1 res w2 Hloop)
        as Hk2.
      unfold BAUD_DETECT_TIMEOUT_MS in Hc2.
      destruct res as [c | detected].
      * destruct (IH (Serial_print (SerNoActivity b) w2) r w' Hrun) as (Hk & Hc).
        wsimpl. splits; auto; [| lia | nia].
        eapply results_kept_trans; [exact Hk0 |].
        eapply results_kept_trans; [exact Hk2 |]. destruct Hk. split; assumption.
      * inversion Hrun; subst. splits; auto; [| lia | nia].
        eapply results_kept_trans; eauto.
    + destruct (IH w1 r w' Hrun) as (Hk & Hc).
      splits; auto; [| lia | nia].
      eapply results_kept_trans; eauto.
Qed.

(** Sniffing takes its window and less than a receive call more. *)
Lemma listenForCANTraffic_time fuel T w w' :
  0 <= T -> T + 50 <= 2 ^ 32 ->
  listenForCANTraffic fuel T w = Some w' ->
  results_kept w w' /\ T <= clock w' - clock w < T + 50.
Proof.
  intros HT Hwrap. unfold listenForCANTraffic.
  destruct (receive_while fuel T 50 (millis w) tally_frame (0, []) w)
    as [[res w1] |] eqn:Hloop; [| discriminate].
  destruct (receive_while_elapsed T 50 tally_frame tally_frame_clock tally_frame_rx
              fuel (0, []) w res w1 ltac:(lia) HT Hwrap Hloop) as (Hc & Hwin).
  pose proof (receive_while_keeps T 50 (millis w) tally_frame
                results_kept results_kept_refl results_kept_trans
                (results_kept_receive 50) tally_frame_keeps fuel (0, []) w res w1 Hloop)
    as Hk.
  destruct res as [[frameCount uniqueIDs] | []].
  intros H. inversion H; subst w'. wsimpl. splits; auto; lia.
Qed.

(** ** The scan as a whole: outcomes, results and time *)

Lemma probe_response_keeps a m s w : results_kept w (snd (probe_response a m s w)).
Proof. unfold probe_response. destruct (qualifies a (identifier m)); split; reflexivity. Qed.

Lemma probe_address_keeps fuel a i w w' :
  probe_address fuel a i w = Some w' -> results_kept w w'.
Proof.
  unfold probe_address.
  set (w0 := Serial_print (SerProbing a (i + 1)) w).
  set (w1 := if Z.rem i 4 =? 0 then updateScanProgress _ _ w0 else w0).
  assert (H1 : results_kept w w1).
  { subst w1 w0. destruct (Z.rem i 4 =? 0); split; reflexivity. }
  pose proof (results_kept_transmit (obd_request a 2 1 0) w1) as H2.
  destruct (twai_transmit (obd_request a 2 1 0) w1) as [sent w2]. cbn [snd] in H2.
  destruct sent.
  - destruct (receive_while fuel 800 50 (millis w2) (probe_response a) tt w2)
      as [[res w3] |] eqn:Hloop; [| discriminate].
    pose proof (receive_while_keeps 800 50 (millis w2) (probe_response a)
                  results_kept results_kept_refl results_kept_trans
                  (results_kept_receive 50) (probe_response_keeps a) fuel tt w2 res w3 Hloop)
      as H3.
    intros H. inversion H; subst w'.
    eapply results_kept_trans; [exact H1 |].
    eapply results_kept_trans; [exact H2 |].
    destruct H3. split; assumption.
  - intros H. inversion H; subst w'.
    eapply results_kept_trans; [exact H1 |]. destruct H2. split; assumption.
Qed.

Lemma probe_loop_keeps fuel T start :
  forall addrs i w w',
    probe_loop fuel T start addrs i w = Some w' -> results_kept w w'.
Proof.
  induction addrs as [| a rest IH]; intros i w w' Hrun; cbn [probe_loop] in Hrun.
  - inversion Hrun; subst. apply results_kept_refl.
  - destruct (since start w >? T).
    + inversion Hrun; subst. split; reflexivity.
    + destruct (probe_address fuel a i w) as [w1 |] eqn:H1; [| discriminate].
      eapply results_kept_trans; [eapply probe_address_keeps; eauto | eauto].
Qed.

Lemma probeOBD2ECUsWithTimeout_keeps fuel T w w' :
  probeOBD2ECUsWithTimeout fuel T w = Some w' -> results_kept w w'.
Proof.
  unfold probeOBD2ECUsWithTimeout.
  destruct (probe_loop fuel T (millis w) OBD2_ADDRESSES 0 w) as [w1 |] eqn:H1;
    [| discriminate].
  intros H. inversion H; subst w'.
  destruct (probe_loop_keeps _ _ _ _ _ _ _ H1). split; assumption.
Qed.

(** Code collection: every code added belongs to a listed ECU. *)
Lemma scanAllDTCs_owned fuel w :
  (List.length (rx_script w) + 102 <= fuel)%nat ->
  exists w' new,
    scanAllDTCs fuel w = Some w' /\
    backstage w w' /\
    vehicleDetected w' = vehicleDetected w /\
    detectedCodes w' = (detectedCodes w ++ new)%list /\
    Forall (fun f => In (ecuId f) (activeECUs w) /\ isPending f = false) new.
Proof.
  intros Hfuel. unfold scanAllDTCs.
  destruct (List.length (activeECUs w) =? 0)%nat.
  - eexists. exists []. split; [reflexivity |]. wsimpl. rewrite app_nil_r.
    splits; auto. apply backstage_print. exact I.
  - destruct (scan_ecus_requests fuel (activeECUs w) w Hfuel)
      as (w' & new & Hrun & Hb & _ & Hvd & Hdet & Hown).
    exists w', new. auto.
Qed.

Lemma try_baudRates_keeps fuel :
  forall rates w r w',
    try_baudRates fuel rates w = Some (r, w') -> results_kept w w'.
Proof.
  induction rates as [| b rest IH]; intros w r w' Hrun.
  - cbn in Hrun. inversion Hrun; subst. apply results_kept_refl.
  - cbn [try_baudRates] in Hrun.
    set (w0 := Serial_print (SerTrying b) w) in Hrun.
    destruct (reinitializeCAN_keeps b w0) as [Hk1 _].
    destruct (reinitializeCAN b w0) as [ok w1]. cbn [snd] in Hk1.
    assert (Hk0 : results_kept w w1) by (destruct Hk1; split; assumption).
    destruct ok; [| eapply results_kept_trans; eauto].
    destruct (receive_while fuel BAUD_DETECT_TIMEOUT_MS 100 (millis w1) (count_frame b) 0 w1)
      as [[res w2] |] eqn:Hloop; [| discriminate].
    pose proof (receive_while_keeps BAUD_DETECT_TIMEOUT_MS 100 (millis w1) (count_frame b)
                  results_kept results_kept_refl results_kept_trans
                  (results_kept_receive 100) (count_frame_keeps b) fuel 0 w1 res w2 Hloop)
      as Hk2.
    destruct res as [c | detected].
    + eapply results_kept_trans; [exact Hk0 |].
      eapply results_kept_trans; [exact Hk2 |].
      destruct (IH _ _ _ Hrun). split; assumption.
    + inversion Hrun; subst. eapply results_kept_trans; eauto.
Qed.

Lemma listenForCANTraffic_keeps fuel T w w' :
  listenForCANTraffic fuel T w = Some w' -> results_kept w w'.
Proof.
  unfold listenForCANTraffic.
  destruct (receive_while fuel T 50 (millis w) tally_frame (0, []) w)
    as [[res w1] |] eqn:Hloop; [| discriminate].
  pose proof (receive_while_keeps T 50 (millis w) tally_frame
                results_kept results_kept_refl results_kept_trans
                (results_kept_receive 50) tally_frame_keeps fuel (0, []) w res w1 Hloop)
    as Hk.
  destruct res as [[frameCount uniqueIDs] | []].
  intros H. inversion H; subst w'. destruct Hk. split; assumption.
Qed.

(** ** Progress reports of discovery *)

Lemma display_kept_refl w : display_kept w w.
Proof. split; reflexivity. Qed.

Lemma display_kept_trans w1 w2 w3 :
  display_kept w1 w2 -> display_kept w2 w3 -> display_kept w1 w3.
Proof. intros [H1 H2] [H3 H4]. split; congruence. Qed.

Lemma display_kept_receive ms w : display_kept w (snd (twai_receive ms w)).
Proof. unfold twai_receive. destruct (rx_script w) as [| [dt r] rest]; split; reflexivity. Qed.

Lemma probe_response_display a m s w : display_kept w (snd (probe_response a m s w)).
Proof. unfold probe_response. destruct (qualifies a (identifier m)); split; reflexivity. Qed.

Lemma probe_address_reports fuel a i w w' :
  probe_address fuel a i w = Some w' ->
  progress w' = (progress w ++ if Z.rem i 4 =? 0 then [probe_report i] else [])%list /\
  map snd (tx_log w') = (map snd (tx_log w) ++ [probe_request a])%list.
Proof.
  unfold probe_address, probe_request.
  set (w0 := Serial_print (SerProbing a (i + 1)) w).
  set (w1 := if Z.rem i 4 =? 0 then updateScanProgress _ _ w0 else w0).
  assert (H1 : progress w1 =
               (progress w ++ if Z.rem i 4 =? 0 then [probe_report i] else [])%list /\
               tx_log w1 = tx_log w).
  { subst w1 w0. destruct (Z.rem i 4 =? 0); wsimpl; [auto |].
    rewrite app_nil_r. auto. }
  destruct H1 as [Hp1 Ht1].
  pose proof (twai_transmit_spec (obd_request a 2 1 0) w1) as Htx.
  destruct (twai_transmit (obd_request a 2 1 0) w1) as [sent w2]. cbn [snd] in Htx.
  destruct Htx as (Htx2 & _ & _ & _ & Hpr2 & _).
  assert (Htx2' : map snd (tx_log w2) = (map snd (tx_log w) ++ [obd_request a 2 1 0])%list)
    by (rewrite Htx2, map_app, Ht1; reflexivity).
  destruct sent.
  - destruct (receive_while fuel 800 50 (millis w2) (probe_response a) tt w2)
      as [[res w3] |] eqn:Hloop; [| discriminate].
    destruct (receive_while_keeps 800 50 (millis w2) (probe_response a)
                display_kept display_kept_refl display_kept_trans
                (display_kept_receive 50) (probe_response_display a) fuel tt w2 res w3 Hloop)
      as [Hp3 Ht3].
    intros H. inversion H; subst w'. wsimpl. split; congruence.
  - intros H. inversion H; subst w'. wsimpl. split; congruence.
Qed.

Lemma probe_loop_reports fuel T start :
  forall addrs i w w',
    probe_loop fuel T start addrs i w = Some w' ->
    exists n,
      (n <= List.length addrs)%nat /\
      progress w' = (progress w ++ probe_reports i n)%list /\
      map snd (tx_log w') = (map snd (tx_log w) ++ map probe_request (firstn n addrs))%list.
Proof.
  induction addrs as [| a rest IH]; intros i w w' Hrun; cbn [probe_loop] in Hrun.
  - inversion Hrun; subst. exists 0%nat. cbn. rewrite !app_nil_r. auto.
  - destruct (since start w >? T).
    + inversion Hrun; subst. exists 0%nat. wsimpl. cbn. rewrite !app_nil_r.
      splits; auto. lia.
    + destruct (probe_address fuel a i w) as [w1 |] eqn:H1; [| discriminate].
      destruct (probe_address_reports _ _ _ _ _ H1) as [Hp1 Ht1].
      destruct (IH _ _ _ Hrun) as (n & Hn & Hp & Ht).
      exists (S n). cbn [List.length firstn map probe_reports]. splits.
      * lia.
      * rewrite Hp, Hp1, <- app_assoc. reflexivity.
      * rewrite Ht, Ht1, <- app_assoc. reflexivity.
Qed.

Lemma probe_reports_table n :
  (n <= 16)%nat ->
  probe_reports 0 n =
  firstn ((n + 3) / 4)
         [("Checking ECU 1/16", 50); ("Checking ECU 5/16", 56);
          ("Checking ECU 9/16", 62); ("Checking ECU 13/16", 68)]%string.
Proof.
  intros Hn.
  do 17 (destruct n as [| n]; [vm_compute; reflexivity |]). lia.
Qed.

Lemma probeOBD2ECUsWithTimeout_reports fuel T w w' :
  probeOBD2ECUsWithTimeout fuel T w = Some w' ->
  exists n,
    (n <= 16)%nat /\
    progress w' = (progress w ++ probe_reports 0 n)%list /\
    map snd (tx_log w') =
    (map snd (tx_log w) ++ map probe_request (firstn n OBD2_ADDRESSES))%list.
Proof.
  unfold probeOBD2ECUsWithTimeout.
  destruct (probe_loop fuel T (millis w) OBD2_ADDRESSES 0 w) as [w1 |] eqn:H1;
    [| discriminate].
  intros H. inversion H; subst w'. wsimpl.
  destruct (probe_loop_reports _ _ _ _ _ _ _ H1) as (n & Hn & Hp & Ht).
  exists n. auto.
Qed.

(** X10. The progress reports of discovery are determined by how far it
    got: with rounds enough for the script, a run that sent requests to
    the first [n] addresses of the table reported exactly the rounds of
    index 0, 4, 8 and 12 among them, in this order, as "Checking ECU 1/16"
    at 50, "Checking ECU 5/16" at 56, "Checking ECU 9/16" at 62 and
    "Checking ECU 13/16" at 68. *)
Theorem discovery_progress_reports (fuel : nat) (T : Z) (w : World) :
  (enough_fuel w <= fuel)%nat ->
  exists w' n,
    probeOBD2ECUsWithTimeout fuel T w = Some w' /\
    (n <= 16)%nat /\
    map snd (tx_log w') =
    (map snd (tx_log w) ++ map probe_request (firstn n OBD2_ADDRESSES))%list /\
    progress w' =
    (progress w ++
     firstn ((n + 3) / 4)
            [("Checking ECU 1/16", 50); ("Checking ECU 5/16", 56);
             ("Checking ECU 9/16", 62); ("Checking ECU 13/16", 68)]%string)%list.
Proof.
  intros Hfuel. unfold enough_fuel in Hfuel.
  destruct (probe_phase_spec fuel T w Hfuel) as (w' & _ & _ & _ & Hrun & _).
  destruct (probeOBD2ECUsWithTimeout_reports _ _ _ _ Hrun) as (n & Hn & Hp & Ht).
  exists w', n. rewrite <- probe_reports_table by exact Hn. auto.
Qed.

Lemma discovery_progress_reports_witness :
  exists w' n,
    probeOBD2ECUsWithTimeout 205 ECU_PROBE_TIMEOUT_MS silent_vehicle_world = Some w' /\
    (n <= 16)%nat /\
    map snd (tx_log w') =
    (map snd (tx_log silent_vehicle_world) ++
     map probe_request (firstn n OBD2_ADDRESSES))%list.
Proof.
  destruct (discovery_progress_reports 205 ECU_PROBE_TIMEOUT_MS silent_vehicle_world)
    as (w' & n & Hrun & Hn & Htx & _).
  - vm_compute. lia.
  - exists w', n. auto.
Defined.

(** *** The time of the two active phases *)

Lemma probe_response_same_clock a m s w : clock (snd (probe_response a m s w)) = clock w.
Proof. unfold probe_response. destruct (qualifies a (identifier m)); reflexivity. Qed.

Lemma dtc_response_same_clock ecu m s w : clock (snd (dtc_response ecu m s w)) = clock w.
Proof.
  unfold dtc_response. destruct (identifier m =? ecu); [| reflexivity].
  destruct (data_length_code m >? 2); [| reflexivity].
  cbn [snd]. unfold parseAndStoreDTC.
  destruct (parse_loop_keeps (data m) (data_length_code m) ecu
              (Z.to_nat (data_length_code m)) 2 (Serial_print (SerDTCResponse ecu) w))
    as [_ Hc].
  rewrite Hc. reflexivity.
Qed.

(** One discovery round: the transmit call, the wait of 800 ms with the
    receive call that straddles its end, and the pause. *)
Lemma probe_address_time fuel a i w w' :
  probe_address fuel a i w = Some w' ->
  0 <= clock w' - clock w <= 999.
Proof.
  unfold probe_address.
  set (w0 := Serial_print (SerProbing a (i + 1)) w).
  set (w1 := if Z.rem i 4 =? 0 then updateScanProgress _ _ w0 else w0).
  assert (Hc1 : clock w1 = clock w).
  { subst w1 w0. destruct (Z.rem i 4 =? 0); reflexivity. }
  pose proof (twai_transmit_spec (obd_request a 2 1 0) w1) as Htx.
  pose proof (tx_time_range w1) as Htt. unfold TX_TIMEOUT_MS in Htt.
  destruct (twai_transmit (obd_request a 2 1 0) w1) as [sent w2]. cbn [snd] in Htx.
  destruct Htx as (_ & _ & Hc2 & _).
  destruct sent.
  - destruct (receive_while fuel 800 50 (millis w2) (probe_response a) tt w2)
      as [[res w3] |] eqn:Hloop; [| discriminate].
    destruct (receive_while_elapsed 800 50 (probe_response a)
                (probe_response_same_clock a) (probe_response_rx a) fuel tt w2 res w3
                ltac:(lia) ltac:(lia) ltac:(lia) Hloop) as (Hc3 & _).
    intros H. inversion H; subst w'. wsimpl. lia.
  - intros H. inversion H; subst w'. wsimpl. lia.
Qed.

Lemma probe_loop_time fuel T start :
  forall addrs i w w',
    probe_loop fuel T start addrs i w = Some w' ->
    0 <= clock w' - clock w <= Z.of_nat (List.length addrs) * 999.
Proof.
  induction addrs as [| a rest IH]; intros i w w' Hrun; cbn [probe_loop] in Hrun.
  - inversion Hrun; subst. cbn; lia.
  - assert (Hlen : Z.of_nat (List.length (a :: rest)) = Z.of_nat (List.length rest) + 1)
      by (cbn [List.length]; lia).
    rewrite Hlen.
    destruct (since start w >? T).
    + inversion Hrun; subst. wsimpl. nia.
    + destruct (probe_address fuel a i w) as [w1 |] eqn:H1; [| discriminate].
      pose proof (probe_address_time _ _ _ _ _ H1) as Hc1.
      pose proof (IH _ _ _ Hrun) as Hc'. nia.
Qed.

Lemma probeOBD2ECUsWithTimeout_time fuel T w w' :
  probeOBD2ECUsWithTimeout fuel T w = Some w' ->
  0 <= clock w' - clock w <= 16 * 999.
Proof.
  unfold probeOBD2ECUsWithTimeout.
  destruct (probe_loop fuel T (millis w) OBD2_ADDRESSES 0 w) as [w1 |] eqn:H1;
    [| discriminate].
  intros H. inversion H; subst w'. wsimpl.
  apply (probe_loop_time _ _ _ _ _ _ _ H1).
Qed.

(** One collection round: the transmit call, the wait of 1 s with the
    receive call that straddles its end, and the pause. *)
Lemma scan_ecu_time fuel ecu w w' :
  scan_ecu fuel ecu w = Some w' ->
  0 <= clock w' - clock w <= 1249.
Proof.
  unfold scan_ecu.
  set (w0 := Serial_print (SerScanningECU ecu) w).
  pose proof (twai_transmit_spec (obd_request (request_id ecu) 1 3 0) w0) as Htx.
  pose proof (tx_time_range w0) as Htt. unfold TX_TIMEOUT_MS in Htt.
  destruct (twai_transmit (obd_request (request_id ecu) 1 3 0) w0) as [sent w1].
  cbn [snd] in Htx. destruct Htx as (_ & _ & Hc1 & _).
  subst w0. wsimpl.
  destruct sent.
  - destruct (receive_while fuel 1000 50 (millis w1) (dtc_response ecu) tt w1)
      as [[res w2] |] eqn:Hloop; [| discriminate].
    destruct (receive_while_elapsed 1000 50 (dtc_response ecu)
                (dtc_response_same_clock ecu) (dtc_response_rx ecu) fuel tt w1 res w2
                ltac:(lia) ltac:(lia) ltac:(lia) Hloop) as (Hc2 & _).
    intros H. inversion H; subst w'. wsimpl. lia.
  - intros H. inversion H; subst w'. wsimpl. lia.
Qed.

Lemma scanAllDTCs_time fuel w w' :
  scanAllDTCs fuel w = Some w' ->
  0 <= clock w' - clock w <= Z.of_nat (List.length (activeECUs w)) * 1249.
Proof.
  unfold scanAllDTCs.
  destruct (List.length (activeECUs w) =? 0)%nat.
  - intros H. inversion H; subst. wsimpl. nia.
  - generalize (activeECUs w). intros ecus. revert w.
    induction ecus as [| ecu rest IH]; intros w Hrun; cbn [scan_ecus] in Hrun.
    + inversion Hrun; subst. cbn; lia.
    + destruct (scan_ecu fuel ecu w) as [w1 |] eqn:H1; [| discriminate].
      pose proof (scan_ecu_time _ _ _ _ H1) as Hc1.
      pose proof (IH _ Hrun) as Hc'.
      assert (Hlen : Z.of_nat (List.length (ecu :: rest)) = Z.of_nat (List.length rest) + 1)
        by (cbn [List.length]; lia).
      rewrite Hlen. nia.
Qed.

(** The deadline tests of the scan come too early to fire: baud
    detection and sniffing are over within 13445 ms. *)
Lemma deadline_not_passed w0 w :
  0 <= clock w - clock w0 <= TOTAL_SCAN_TIMEOUT_MS ->
  (since (millis w0) w >? TOTAL_SCAN_TIMEOUT_MS) = false.
Proof.
  intros H. pose proof (since_le w0 w ltac:(lia)). rewrite Z.gtb_ltb. apply Z.ltb_ge. lia.
Qed.

(** The two ways a scan can end, with the results each leaves and the time
    it takes. *)
Lemma performDiagnosticScan_outcomes fuel w :
  (enough_fuel w <= fuel)%nat ->
  exists w' ps,
    performDiagnosticScan fuel w = Some w' /\
    progress w' = (progress w ++ ps)%list /\
    (List.length (rx_script w') <= List.length (rx_script w))%nat /\
    0 <= clock w' - clock w <= scan_bound /\
    Forall (fun f => In (ecuId f) (activeECUs w') /\ isPending f = false)
           (detectedCodes w') /\
    ((ps = [("Detecting vehicle...", 0); ("No vehicle detected", 100)]%string /\
      vehicleDetected w' = false /\ activeECUs w' = [] /\ detectedCodes w' = [] /\
      clock w' - clock w <= 4 * 2099 + 3000) \/
     (exists qs,
        ps = ([("Detecting vehicle...", 0); ("Vehicle found! Analyzing...", 25);
               ("Reading vehicle data...", 50)]%string ++ qs ++
              [("Checking systems...", 75); ("Scan complete!", 100)]%string)%list /\
        Forall (fun p => In (snd p) [50; 56; 62; 68]) qs /\
        (exists n, (n <= 16)%nat /\ qs = probe_reports 0 n) /\
        vehicleDetected w' = true)).
Proof.
  intros Hfuel. unfold enough_fuel in Hfuel.
  unfold performDiagnosticScan, scan_after_detection, scan_after_sniffing.
  set (w0 := set_vehicleDetected false (set_activeECUs [] (set_detectedCodes [] w))).
  set (w1 := updateScanProgress "Detecting vehicle..." 0 w0).
  destruct (try_baudRates_spec fuel baudRates w1 (incl_refl _) Hfuel)
    as (r & w2 & Hrun2 & _ & _ & Hp2 & Ha2 & _ & Hl2).
  destruct (try_baudRates_time fuel baudRates w1 r w2 Hrun2) as [_ Hc2].
  change (Z.of_nat (List.length baudRates)) with 4 in Hc2.
  destruct (try_baudRates_keeps _ _ _ _ _ Hrun2) as [Hd2 Hv2].
  unfold autoDetectCANBaudRate. rewrite Hrun2.
  subst w1 w0. wsimpl.
  destruct (r =? 0).
  { eexists. exists [("Detecting vehicle...", 0); ("No vehicle detected", 100)]%string.
    split; [reflexivity |]. wsimpl. rewrite Hp2, Ha2, Hd2, Hv2, <- !app_assoc.
    unfold scan_bound. splits; auto; try lia.
    left. splits; auto. lia. }
  rewrite (deadline_not_passed w w2) by (unfold TOTAL_SCAN_TIMEOUT_MS; lia).
  match goal with |- context [listenForCANTraffic fuel _ ?w4] =>
    destruct (listenForCANTraffic_spec fuel TRAFFIC_LISTEN_TIMEOUT_MS w4
                ltac:(unfold TRAFFIC_LISTEN_TIMEOUT_MS; lia) ltac:(wsimpl; lia))
      as (w5 & Hrun5 & Hp5 & Ha5 & _ & Hl5);
    destruct (listenForCANTraffic_keeps _ _ _ _ Hrun5) as [Hd5 Hv5];
    destruct (listenForCANTraffic_time fuel TRAFFIC_LISTEN_TIMEOUT_MS w4 w5
                ltac:(unfold TRAFFIC_LISTEN_TIMEOUT_MS; lia)
                ltac:(unfold TRAFFIC_LISTEN_TIMEOUT_MS; lia) Hrun5) as (_ & Hc5);
    unfold TRAFFIC_LISTEN_TIMEOUT_MS in Hc5
  end.
  rewrite Hrun5. wsimpl.
  rewrite (deadline_not_passed w (updateScanProgress "Reading vehicle data..." 50 w5))
    by (unfold TOTAL_SCAN_TIMEOUT_MS; wsimpl; lia).
  match goal with |- context [probeOBD2ECUsWithTimeout fuel _ ?w6] =>
    destruct (probe_phase_spec fuel ECU_PROBE_TIMEOUT_MS w6 ltac:(wsimpl; lia))
      as (w7 & n & tr & qs & Hrun7 & Hn & Htr & _ & _ & Ha7 & Hp7 & Hq7 & _ & Hl7 & _);
    destruct (probeOBD2ECUsWithTimeout_keeps _ _ _ _ Hrun7) as [Hd7 Hv7];
    destruct (probeOBD2ECUsWithTimeout_reports _ _ _ _ Hrun7) as (n' & Hn' & Hp7' & _);
    pose proof (probeOBD2ECUsWithTimeout_time _ _ _ _ Hrun7) as Hc7;
    rewrite Hp7 in Hp7'; apply app_inv_head in Hp7'
  end.
  rewrite Hrun7. wsimpl.
  match goal with |- context [scanAllDTCs fuel ?w8] =>
    destruct (scanAllDTCs_owned fuel w8 ltac:(wsimpl; lia))
      as (w9 & new & Hrun9 & (Hp9 & Ha9 & _ & Hl9) & Hv9 & Hd9 & Hown);
    pose proof (scanAllDTCs_time _ _ _ Hrun9) as Hc9
  end.
  rewrite Hrun9. wsimpl.
  eexists.
  exists ([("Detecting vehicle...", 0); ("Vehicle found! Analyzing...", 25);
           ("Reading vehicle data...", 50)]%string ++ qs ++
          [("Checking systems...", 75); ("Scan complete!", 100)]%string)%list.
  split; [reflexivity |]. wsimpl.
  rewrite Hp9, Hp7, Hp5, Hp2, Hd9, Hd7, Hd5, Hd2, Ha9, Hv9, Hv7, Hv5.
  splits; auto; try lia.
  - rewrite <- !app_assoc. reflexivity.
  - assert (Hact : (List.length (activeECUs w7) <= 16)%nat).
    { rewrite Ha7, Ha5, Ha2. cbn [app].
      destruct (probe_trace_found _ _ _ Htr) as (_ & _ & _ & Hlen).
      rewrite length_firstn in Hlen. change (List.length OBD2_ADDRESSES) with 16%nat in Hlen.
      lia. }
    unfold scan_bound. nia.
  - right. exists qs. splits; auto. exists n'. auto.
Qed.

(** X8. The two tests of the overall deadline in [performDiagnosticScan]
    never fire.  They come after baud detection and after sniffing, and
    every receive call returns by its time-out, so that at most 13445 ms
    have passed by the second test: a scan with rounds enough for the
    script shows either "No vehicle detected" or the whole sequence up to
    "Scan complete!", and never "Scan timeout". *)
Theorem scan_never_times_out (fuel : nat) (w : World) :
  (enough_fuel w <= fuel)%nat ->
  exists w' ps,
    performDiagnosticScan fuel w = Some w' /\
    progress w' = (progress w ++ ps)%list /\
    ~ In ("Scan timeout"%string, 100) ps /\
    (ps = [("Detecting vehicle...", 0); ("No vehicle detected", 100)]%string \/
     exists qs,
       ps = ([("Detecting vehicle...", 0); ("Vehicle found! Analyzing...", 25);
              ("Reading vehicle data...", 50)]%string ++ qs ++
             [("Checking systems...", 75); ("Scan complete!", 100)]%string)%list).
Proof.
  intros Hfuel.
  destruct (performDiagnosticScan_outcomes fuel w Hfuel)
    as (w' & ps & Hrun & Hps & _ & _ & _ & Hcases).
  exists w', ps. split; [exact Hrun |]. split; [exact Hps |].
  destruct Hcases as [(-> & _) | (qs & -> & Hqs & _ & _)].
  - split; [| now left].
    intros [H | [H | []]]; discriminate.
  - split; [| right; exists qs; reflexivity].
    intros H. apply in_app_or in H. destruct H as [H | H].
    + destruct H as [H | [H | [H | []]]]; discriminate.
    + apply in_app_or in H. destruct H as [H | H].
      * rewrite Forall_forall in Hqs. specialize (Hqs _ H). cbn in Hqs.
        destruct Hqs as [Hq | [Hq | [Hq | [Hq | []]]]]; discriminate.
      * destruct H as [H | [H | []]]; discriminate.
Qed.

Lemma scan_never_times_out_witness :
  exists w' ps,
    performDiagnosticScan 205 silent_vehicle_world = Some w' /\
    progress w' = (progress silent_vehicle_world ++ ps)%list /\
    ~ In ("Scan timeout"%string, 100) ps.
Proof.
  destruct (scan_never_times_out 205 silent_vehicle_world)
    as (w' & ps & Hrun & Hps & Hno & _).
  - vm_compute. lia.
  - exists w', ps. auto.
Defined.

(** X9. The results a scan leaves are consistent, however it ended: with
    rounds enough for the script the scan ends, every code it holds is
    tagged with an entry of its list of active ECUs and is not pending,
    and codes or active ECUs are present only with the vehicle flag set
    (so a scan that leaves the flag clear leaves both lists empty). *)
Theorem scan_results_consistent (fuel : nat) (w : World) :
  (enough_fuel w <= fuel)%nat ->
  exists w',
    performDiagnosticScan fuel w = Some w' /\
    Forall (fun f => In (ecuId f) (activeECUs w') /\ isPending f = false)
           (detectedCodes w') /\
    (vehicleDetected w' = false -> activeECUs w' = [] /\ detectedCodes w' = []) /\
    (activeECUs w' = [] -> detectedCodes w' = []).
Proof.
  intros Hfuel.
  destruct (performDiagnosticScan_outcomes fuel w Hfuel)
    as (w' & ps & Hrun & _ & _ & _ & Hown & Hcases).
  exists w'. split; [exact Hrun |]. split; [exact Hown |]. split.
  - destruct Hcases as [(_ & _ & Ha & Hd & _) | (qs & _ & _ & _ & Hv)]; auto; congruence.
  - intros Ha. destruct (detectedCodes w') as [| f rest]; [reflexivity |].
    inversion Hown as [| ? ? [Hin _] _]; subst. rewrite Ha in Hin. destruct Hin.
Qed.

Lemma scan_results_consistent_witness :
  exists w',
    performDiagnosticScan 447 one_code_world = Some w' /\
    Forall (fun f => In (ecuId f) (activeECUs w') /\ isPending f = false)
           (detectedCodes w').
Proof.
  destruct (scan_results_consistent 447 one_code_world) as (w' & Hrun & Hown & _).
  - vm_compute. lia.
  - exists w'. auto.
Defined.

(** X11. The progress bar over a scan: with rounds enough for the script,
    the widths [updateScanProgress] fills, one per report of the scan,
    start at 0, never decrease, stay within the bar, and end at the full
    width of the bar, however the scan ended. *)
Theorem scan_progress_bar (fuel : nat) (w : World) :
  (enough_fuel w <= fuel)%nat ->
  exists w' ps,
    performDiagnosticScan fuel w = Some w' /\
    progress w' = (progress w ++ ps)%list /\
    hd 0 (map (fun p => progress_fillWidth (snd p)) ps) = 0 /\
    Sorted Z.le (map (fun p => progress_fillWidth (snd p)) ps) /\
    Forall (fun p => 0 <= progress_fillWidth (snd p) <= progress_barWidth) ps /\
    last (map (fun p => progress_fillWidth (snd p)) ps) 0 = progress_barWidth.
Proof.
  intros Hfuel.
  destruct (performDiagnosticScan_outcomes fuel w Hfuel)
    as (w' & ps & Hrun & Hps & _ & _ & _ & Hcases).
  exists w', ps. split; [exact Hrun |]. split; [exact Hps |].
  assert (Hlit : forall l : list (string * Z),
            forallb (fun p => (0 <=? progress_fillWidth (snd p)) &&
                              (progress_fillWidth (snd p) <=? progress_barWidth)) l = true ->
            Forall (fun p => 0 <= progress_fillWidth (snd p) <= progress_barWidth) l).
  { intros l H. rewrite forallb_forall in H. apply Forall_forall. intros p Hp.
    specialize (H p Hp). apply andb_prop in H. destruct H as [H1 H2].
    apply Z.leb_le in H1. apply Z.leb_le in H2. lia. }
  assert (Hsorted : forall l : list Z,
            (fix ok (l : list Z) : bool :=
               match l with
               | a :: (b :: _) as rest => (a <=? b) && ok rest
               | _ => true
               end) l = true -> Sorted Z.le l).
  { induction l as [| a [| b rest] IH]; intros H.
    - constructor.
    - repeat constructor.
    - apply andb_prop in H. destruct H as [H1 H2]. apply Z.leb_le in H1.
      constructor; [apply IH; exact H2 | constructor; exact H1]. }
  destruct Hcases as [(-> & _) | (qs & -> & _ & (n & Hn & ->) & _)].
  - splits; [reflexivity | apply Hsorted | apply Hlit | reflexivity]; reflexivity.
  - do 17 (destruct n as [| n];
           [splits; [reflexivity | apply Hsorted | apply Hlit | reflexivity];
            vm_compute; reflexivity |]).
    lia.
Qed.

Lemma scan_progress_bar_witness :
  exists w' ps,
    performDiagnosticScan 447 one_code_world = Some w' /\
    progress w' = (progress one_code_world ++ ps)%list /\
    Sorted Z.le (map (fun p => progress_fillWidth (snd p)) ps).
Proof.
  destruct (scan_progress_bar 447 one_code_world) as (w' & ps & Hrun & Hps & _ & Hs & _).
  - vm_compute. lia.
  - exists w', ps. auto.
Defined.

(** ** The clock never runs backwards *)

Lemma no_earlier_refl w : no_earlier w w.
Proof. unfold no_earlier. lia. Qed.

Lemma no_earlier_trans w1 w2 w3 : no_earlier w1 w2 -> no_earlier w2 w3 -> no_earlier w1 w3.
Proof. unfold no_earlier. lia. Qed.

Lemma no_earlier_receive ms w : 0 <= ms -> no_earlier w (snd (twai_receive ms w)).
Proof. intros Hms. apply twai_receive_clock. exact Hms. Qed.

Lemma probe_response_clock a m s w : no_earlier w (snd (probe_response a m s w)).
Proof.
  unfold probe_response, no_earlier. destruct (qualifies a (identifier m)); cbn; lia.
Qed.

Lemma dtc_response_clock ecu m s w : no_earlier w (snd (dtc_response ecu m s w)).
Proof.
  unfold dtc_response, no_earlier. destruct (identifier m =? ecu); [| cbn; lia].
  destruct (data_length_code m >? 2); [| cbn; lia].
  cbn [snd]. unfold parseAndStoreDTC.
  destruct (parse_loop_keeps (data m) (data_length_code m) ecu
              (Z.to_nat (data_length_code m)) 2 (Serial_print (SerDTCResponse ecu) w))
    as [_ Hc].
  rewrite Hc. cbn. lia.
Qed.

Lemma count_frame_no_earlier b m c w : no_earlier w (snd (count_frame b m c w)).
Proof. unfold no_earlier. rewrite count_frame_clock. lia. Qed.

Lemma tally_frame_no_earlier m s w : no_earlier w (snd (tally_frame m s w)).
Proof.
  unfold no_earlier. rewrite tally_frame_clock. lia.
Qed.

Lemma try_baudRates_clock fuel :
  forall rates w r w', try_baudRates fuel rates w = Some (r, w') -> no_earlier w w'.
Proof.
  induction rates as [| b rest IH]; intros w r w' Hrun.
  - cbn in Hrun. inversion Hrun; subst. apply no_earlier_refl.
  - cbn [try_baudRates] in Hrun.
    set (w0 := Serial_print (SerTrying b) w) in Hrun.
    destruct (reinitializeCAN_keeps b w0) as [_ Hc1].
    destruct (reinitializeCAN b w0) as [ok w1]. cbn [snd] in Hc1.
    assert (H1 : no_earlier w w1) by (unfold no_earlier; rewrite Hc1; cbn; lia).
    destruct ok; [| eapply no_earlier_trans; eauto].
    destruct (receive_while fuel BAUD_DETECT_TIMEOUT_MS 100 (millis w1) (count_frame b) 0 w1)
      as [[res w2] |] eqn:Hloop; [| discriminate].
    pose proof (receive_while_keeps BAUD_DETECT_TIMEOUT_MS 100 (millis w1) (count_frame b)
                  no_earlier no_earlier_refl no_earlier_trans
                  (fun w => no_earlier_receive 100 w ltac:(lia))
                  (count_frame_no_earlier b)
                  fuel 0 w1 res w2 Hloop) as H2.
    destruct res as [c | detected].
    + eapply no_earlier_trans; [exact H1 |]. eapply no_earlier_trans; [exact H2 |].
      apply (IH _ _ _ Hrun).
    + inversion Hrun; subst. eapply no_earlier_trans; [exact H1 |]. exact H2.
Qed.

Lemma listenForCANTraffic_clock fuel T w w' :
  listenForCANTraffic fuel T w = Some w' -> no_earlier w w'.
Proof.
  unfold listenForCANTraffic.
  destruct (receive_while fuel T 50 (millis w) tally_frame (0, []) w)
    as [[res w1] |] eqn:Hloop; [| discriminate].
  pose proof (receive_while_keeps T 50 (millis w) tally_frame
                no_earlier no_earlier_refl no_earlier_trans
                (fun w => no_earlier_receive 50 w ltac:(lia))
                tally_frame_no_earlier fuel (0, []) w res w1 Hloop) as H1.
  destruct res as [[frameCount uniqueIDs] | []].
  intros H. inversion H; subst w'. exact H1.
Qed.

Lemma twai_transmit_clock msg w : no_earlier w (snd (twai_transmit msg w)).
Proof.
  unfold no_earlier. pose proof (twai_transmit_spec msg w) as (_ & _ & Hc & _).
  pose proof (tx_time_range w). cbn zeta in Hc. lia.
Qed.

Lemma probe_address_clock fuel a i w w' :
  probe_address fuel a i w = Some w' -> no_earlier w w'.
Proof.
  unfold probe_address.
  set (w0 := Serial_print (SerProbing a (i + 1)) w).
  set (w1 := if Z.rem i 4 =? 0 then updateScanProgress _ _ w0 else w0).
  assert (H1 : no_earlier w w1).
  { subst w1 w0. unfold no_earlier. destruct (Z.rem i 4 =? 0); cbn; lia. }
  pose proof (twai_transmit_clock (obd_request a 2 1 0) w1) as H2.
  destruct (twai_transmit (obd_request a 2 1 0) w1) as [sent w2]. cbn [snd] in H2.
  destruct sent.
  - destruct (receive_while fuel 800 50 (millis w2) (probe_response a) tt w2)
      as [[res w3] |] eqn:Hloop; [| discriminate].
    pose proof (receive_while_keeps 800 50 (millis w2) (probe_response a)
                  no_earlier no_earlier_refl no_earlier_trans
                  (fun w => no_earlier_receive 50 w ltac:(lia))
                  (probe_response_clock a) fuel tt w2 res w3 Hloop) as H3.
    intros H. inversion H; subst w'. unfold no_earlier in *. cbn. lia.
  - intros H. inversion H; subst w'. unfold no_earlier in *. cbn. lia.
Qed.

Lemma probe_loop_clock fuel T start :
  forall addrs i w w',
    probe_loop fuel T start addrs i w = Some w' -> no_earlier w w'.
Proof.
  induction addrs as [| a rest IH]; intros i w w' Hrun; cbn [probe_loop] in Hrun.
  - inversion Hrun; subst. apply no_earlier_refl.
  - destruct (since start w >? T).
    + inversion Hrun; subst. unfold no_earlier. cbn. lia.
    + destruct (probe_address fuel a i w) as [w1 |] eqn:H1; [| discriminate].
      eapply no_earlier_trans; [eapply probe_address_clock; eauto | eauto].
Qed.

Lemma probeOBD2ECUsWithTimeout_clock fuel T w w' :
  probeOBD2ECUsWithTimeout fuel T w = Some w' -> no_earlier w w'.
Proof.
  unfold probeOBD2ECUsWithTimeout.
  destruct (probe_loop fuel T (millis w) OBD2_ADDRESSES 0 w) as [w1 |] eqn:H1;
    [| discriminate].
  intros H. inversion H; subst w'. apply (probe_loop_clock _ _ _ _ _ _ _ H1).
Qed.

Lemma scan_ecu_clock fuel ecu w w' : scan_ecu fuel ecu w = Some w' -> no_earlier w w'.
Proof.
  unfold scan_ecu.
  set (w0 := Serial_print (SerScanningECU ecu) w).
  pose proof (twai_transmit_clock (obd_request (request_id ecu) 1 3 0) w0) as H2.
  destruct (twai_transmit (obd_request (request_id ecu) 1 3 0) w0) as [sent w1].
  cbn [snd] in H2.
  destruct sent.
  - destruct (receive_while fuel 1000 50 (millis w1) (dtc_response ecu) tt w1)
      as [[res w2] |] eqn:Hloop; [| discriminate].
    pose proof (receive_while_keeps 1000 50 (millis w1) (dtc_response ecu)
                  no_earlier no_earlier_refl no_earlier_trans
                  (fun w => no_earlier_receive 50 w ltac:(lia))
                  (dtc_response_clock ecu) fuel tt w1 res w2 Hloop) as H3.
    intros H. inversion H; subst w'. unfold no_earlier in *. subst w0. cbn in *. lia.
  - intros H. inversion H; subst w'. unfold no_earlier in *. subst w0. cbn in *. lia.
Qed.

Lemma scanAllDTCs_clock fuel w w' : scanAllDTCs fuel w = Some w' -> no_earlier w w'.
Proof.
  unfold scanAllDTCs.
  destruct (List.length (activeECUs w) =? 0)%nat.
  - intros H. inversion H; subst. unfold no_earlier. cbn. lia.
  - generalize (activeECUs w). intros ecus. revert w.
    induction ecus as [| ecu rest IH]; intros w Hrun; cbn [scan_ecus] in Hrun.
    + inversion Hrun; subst. apply no_earlier_refl.
    + destruct (scan_ecu fuel ecu w) as [w1 |] eqn:H1; [| discriminate].
      eapply no_earlier_trans; [eapply scan_ecu_clock; eauto | eauto].
Qed.

(** A scan that ends, ends no earlier than it began. *)
Lemma performDiagnosticScan_clock fuel w w' :
  performDiagnosticScan fuel w = Some w' -> no_earlier w w'.
Proof.
  unfold performDiagnosticScan, scan_after_detection, scan_after_sniffing,
    autoDetectCANBaudRate.
  match goal with |- context [try_baudRates fuel baudRates ?w1] =>
    destruct (try_baudRates fuel baudRates w1) as [[r w2] |] eqn:H2; [| discriminate];
    apply try_baudRates_clock in H2 end.
  unfold no_earlier in *. wsimpl.
  destruct (r =? 0); [intros H; inversion H; subst; wsimpl; lia |].
  destruct (_ >? _); [intros H; inversion H; subst; wsimpl; lia |].
  match goal with |- context [listenForCANTraffic fuel ?T ?w4] =>
    destruct (listenForCANTraffic fuel T w4) as [w5 |] eqn:H5; [| discriminate];
    apply listenForCANTraffic_clock in H5 end.
  unfold no_earlier in *. wsimpl.
  destruct (_ >? _); [intros H; inversion H; subst; wsimpl; lia |].
  match goal with |- context [probeOBD2ECUsWithTimeout fuel ?T ?w6] =>
    destruct (probeOBD2ECUsWithTimeout fuel T w6) as [w7 |] eqn:H7; [| discriminate];
    apply probeOBD2ECUsWithTimeout_clock in H7 end.
  unfold no_earlier in *. wsimpl.
  match goal with |- context [scanAllDTCs fuel ?w8] =>
    destruct (scanAllDTCs fuel w8) as [w9 |] eqn:H9; [| discriminate];
    apply scanAllDTCs_clock in H9 end.
  unfold no_earlier in *. wsimpl.
  intros H. inversion H; subst. wsimpl. lia.
Qed.

(** X16. How long a scan takes.  Every receive call returns by its
    time-out and every transmit call within its 100 ms, so a scan with
    rounds enough for the script ends within 49413 ms of its start: four
    baud windows of 2000 ms, the sniffing window of 5000 ms, sixteen probes
    (100 ms to send, 800 ms of wait, 50 ms of pause) and sixteen
    stored-codes queries (100 ms to send, 1000 ms of wait, 100 ms of
    pause), each window with the receive call that straddles its end.  A
    scan that leaves the vehicle flag clear ends within 11396 ms. *)
Theorem scan_duration_bounded (fuel : nat) (w : World) :
  (enough_fuel w <= fuel)%nat ->
  exists w',
    performDiagnosticScan fuel w = Some w' /\
    0 <= clock w' - clock w <= 49413 /\
    (vehicleDetected w' = false -> clock w' - clock w <= 11396).
Proof.
  intros Hfuel.
  destruct (performDiagnosticScan_outcomes fuel w Hfuel)
    as (w' & ps & Hrun & _ & _ & Htime & _ & Hcases).
  exists w'. split; [exact Hrun |].
  unfold scan_bound in Htime.
  split; [lia |].
  intros Hv.
  destruct Hcases as [(_ & _ & _ & _ & Hquick) | (qs & _ & _ & _ & Hv')].
  - lia.
  - congruence.
Qed.

Lemma scan_duration_bounded_witness :
  exists w',
    performDiagnosticScan 205 silent_vehicle_world = Some w' /\
    0 <= clock w' - clock silent_vehicle_world <= 49413.
Proof.
  destruct (scan_duration_bounded 205 silent_vehicle_world) as (w' & Hrun & Hc & _).
  - vm_compute. lia.
  - exists w'. split; [exact Hrun | exact Hc].
Defined.

(** * Waits and deadlines *)

(** ** What a wait loop takes from the bus *)

Lemma in_window_late window ms el l : window <= el -> in_window window ms el l = [].
Proof.
  intros H. destruct l as [| e rest]; cbn [in_window]; [reflexivity |].
  destruct (Z.ltb_spec el window); [lia | reflexivity].
Qed.

Section ReceiveWindow.

Context {S R : Type}.
Variables (window ms : Z).
Variable body : twai_message -> S -> World -> (S + R) * World.
Hypothesis body_clock : forall m s w, clock (snd (body m s w)) = clock w.
Hypothesis body_rx : forall m s w, rx_script (snd (body m s w)) = rx_script w.

(** A wait loop takes its entries from those that arrive within its
    window, in order, and all of them when the window runs out. *)
Lemma receive_while_window fuel s w0 res w' :
  0 < ms -> 0 <= window -> window + ms <= 2 ^ 32 ->
  receive_while fuel window ms (millis w0) body s w0 = Some (res, w') ->
  exists used unread,
    rx_script w0 = (used ++ rx_script w')%list /\
    in_window window ms 0 (rx_script w0) = (used ++ unread)%list /\
    match res with
    | inl _ => unread = []
    | inr _ => True
    end.
Proof.
  intros Hms Hw Hwrap Hrun.
  pose (P := fun (_ : S) (w : World) =>
               0 <= clock w - clock w0 < window + ms /\
               exists used,
                 rx_script w0 = (used ++ rx_script w)%list /\
                 in_window window ms 0 (rx_script w0) =
                 (used ++ in_window window ms (clock w - clock w0) (rx_script w))%list).
  assert (Hrcv : forall s1 w r w1, P s1 w -> since (millis w0) w < window ->
                   twai_receive ms w = (r, w1) -> P s1 w1).
  { intros s1 w r w1 (Hc & used & Hu & Hin) Hlt Hr.
    rewrite since_elapsed in Hlt by lia.
    unfold twai_receive in Hr.
    destruct (rx_script w) as [| [dt r0] rest] eqn:E.
    - inversion Hr; subst. unfold P. cbn. rewrite E.
      split; [lia |]. exists used. split; [exact Hu |]. rewrite Hin. reflexivity.
    - inversion Hr; subst. unfold P. cbn [clock rx_script set_rx_script delay set_clock].
      pose proof (call_time_range ms (dt, r) ltac:(lia)) as Hct.
      split; [lia |]. exists (used ++ [(dt, r)])%list.
      rewrite <- !app_assoc. cbn [app]. split; [exact Hu |].
      rewrite Hin. cbn [in_window].
      destruct (Z.ltb_spec (clock w - clock w0) window) as [_ | Hge]; [| lia].
      replace (clock w + call_time ms (dt, r) - clock w0)
        with (clock w - clock w0 + call_time ms (dt, r)) by lia.
      reflexivity. }
  assert (Hnone : forall s1 w w1, P s1 w -> since (millis w0) w < window ->
                    twai_receive ms w = (None, w1) -> P s1 w1).
  { intros s1 w w1 HP Hlt Hr. eapply Hrcv; eauto. }
  assert (Hbody : forall m s1 w1 x w2, body m s1 w1 = (x, w2) ->
                    clock w2 = clock w1 /\ rx_script w2 = rx_script w1).
  { intros m s1 w1 x w2 Hb.
    pose proof (body_clock m s1 w1) as H1. pose proof (body_rx m s1 w1) as H2.
    rewrite Hb in H1, H2. auto. }
  assert (Hsome : forall s1 w m w1 s' w2, P s1 w -> since (millis w0) w < window ->
                    twai_receive ms w = (Some m, w1) ->
                    body m s1 w1 = (inl s', w2) -> P s' w2).
  { intros s1 w m w1 s' w2 HP Hlt Hr Hb.
    pose proof (Hrcv _ _ _ _ HP Hlt Hr) as HP1.
    destruct (Hbody _ _ _ _ _ Hb) as [Hc2 Hrx2].
    unfold P in *. rewrite Hc2, Hrx2. exact HP1. }
  assert (HP : P s w0).
  { unfold P. split; [lia |]. exists []. rewrite Z.sub_diag. split; reflexivity. }
  pose proof (receive_while_rule window ms (millis w0) body P Hnone Hsome
                fuel s w0 res w' HP Hrun) as Hrule.
  destruct res as [s' | r].
  - destruct Hrule as [(Hc & used & Hu & Hin) Hwin].
    rewrite since_elapsed in Hwin by lia.
    rewrite (in_window_late window ms (clock w' - clock w0)) in Hin by exact Hwin.
    exists used, []. auto.
  - destruct Hrule as (s0 & w & m & w1 & HPw & Hlt & Hr & Hb).
    destruct (Hrcv _ _ _ _ HPw Hlt Hr) as (Hc & used & Hu & Hin).
    destruct (Hbody _ _ _ _ _ Hb) as [Hc2 Hrx2].
    exists used. eexists. rewrite Hrx2. split; [exact Hu |]. split; [exact Hin | exact I].
Qed.

End ReceiveWindow.

(** ** Traffic sniffing: the drawing over the progress bar *)

Example tenth_frame_is_drawn :
  option_map (fun w' => (traffic_drawn w', clock w', progress w'))
             (listenForCANTraffic 114 TRAFFIC_LISTEN_TIMEOUT_MS busy_bus_world) =
  Some ([(10, 2)], 5010, []).
Proof. vm_compute. reflexivity. Qed.

(** ** ECU discovery: rounds, requests and the deadline *)

Lemma qualifies_answers a id : qualifies a id = true <-> answers_probe a id.
Proof.
  unfold qualifies, answers_probe.
  rewrite orb_true_iff, andb_true_iff, Z.eqb_eq, !Z.leb_le. tauto.
Qed.

Lemma twai_receive_frame ms w :
  let w1 := snd (twai_receive ms w) in
  tx_log w1 = tx_log w /\ tx_script w1 = tx_script w /\ activeECUs w1 = activeECUs w.
Proof.
  unfold twai_receive. destruct (rx_script w) as [| [dt r] rest]; cbn; auto.
Qed.

(** The wait for an answer to the probe of [a], on the script entries it
    takes: none of them answers the probe and nothing is recorded, or the
    last one taken is the first answer and its identifier is recorded. *)
Lemma probe_wait_round fuel a w1 res w2 :
  receive_while fuel 800 50 (millis w1) (probe_response a) tt w1 = Some (res, w2) ->
  tx_log w2 = tx_log w1 /\ tx_script w2 = tx_script w1 /\
  match res with
  | inl _ =>
      exists seg, rx_script w1 = (seg ++ rx_script w2)%list /\ no_qualifying a seg /\
                  activeECUs w2 = activeECUs w1
  | inr _ =>
      exists seg dt m,
        rx_script w1 = (seg ++ (dt, Some m) :: rx_script w2)%list /\
        no_qualifying a seg /\ answers_probe a (identifier m) /\
        activeECUs w2 = (activeECUs w1 ++ [identifier m mod 2 ^ 16])%list
  end.
Proof.
  intros Hrun.
  pose (P := fun (_ : unit) (w : World) =>
               tx_log w = tx_log w1 /\ tx_script w = tx_script w1 /\
               activeECUs w = activeECUs w1 /\
               exists seg, rx_script w1 = (seg ++ rx_script w)%list /\ no_qualifying a seg).
  assert (HP : P tt w1).
  { unfold P. splits; auto. exists []. split; [reflexivity | constructor]. }
  assert (Hnone : forall s w w', P s w -> since (millis w1) w < 800 ->
                    twai_receive 50 w = (None, w') -> P s w').
  { intros s w w' (H1 & H2 & H3 & seg & Hseg & Hno) _ Hr.
    pose proof (twai_receive_frame 50 w) as Hf. rewrite Hr in Hf. cbn in Hf.
    destruct Hf as (F1 & F2 & F3). unfold P. rewrite F1, F2, F3. splits; auto.
    destruct (twai_receive_none _ _ _ Hr) as [(He & He' & _) | (dt & Hscr & _)].
    - exists seg. split; [congruence | assumption].
    - exists (seg ++ [(dt, None)])%list. rewrite <- app_assoc. cbn [app]. rewrite <- Hscr.
      split; [assumption |]. apply Forall_app. split; [assumption |]. repeat constructor. }
  assert (Hstep : forall s w m w', P s w -> twai_receive 50 w = (Some m, w') ->
            tx_log w' = tx_log w1 /\ tx_script w' = tx_script w1 /\
            activeECUs w' = activeECUs w1 /\
            exists seg dt, rx_script w1 = (seg ++ (dt, Some m) :: rx_script w')%list /\
                           no_qualifying a seg).
  { intros s w m w' (H1 & H2 & H3 & seg & Hseg & Hno) Hr.
    pose proof (twai_receive_frame 50 w) as Hf. rewrite Hr in Hf. cbn in Hf.
    destruct Hf as (F1 & F2 & F3). rewrite F1, F2, F3. splits; auto.
    destruct (twai_receive_some _ _ _ _ Hr) as (dt & Hscr & _).
    exists seg, dt. rewrite <- Hscr. auto. }
  assert (Hsome : forall s w m w' s' w'', P s w -> since (millis w1) w < 800 ->
                    twai_receive 50 w = (Some m, w') ->
                    probe_response a m s w' = (inl s', w'') -> P s' w'').
  { intros s w m w' s' w'' HPw _ Hr Hb.
    destruct (Hstep _ _ _ _ HPw Hr) as (H1 & H2 & H3 & seg & dt & Hseg & Hno).
    unfold probe_response in Hb.
    destruct (qualifies a (identifier m)) eqn:Hq; inversion Hb; subst.
    unfold P. splits; auto.
    exists (seg ++ [(dt, Some m)])%list. rewrite <- app_assoc. cbn [app].
    split; [assumption |]. apply Forall_app. split; [assumption |].
    repeat constructor. cbn. rewrite <- qualifies_answers. congruence. }
  pose proof (receive_while_rule 800 50 (millis w1) (probe_response a) P Hnone Hsome
                fuel tt w1 res w2 HP Hrun) as Hrule.
  destruct res as [[] | []].
  - destruct Hrule as [(H1 & H2 & H3 & seg & Hseg & Hno) _]. splits; auto.
    exists seg. auto.
  - destruct Hrule as (s0 & w & m & w' & HPw & _ & Hr & Hb).
    destruct (Hstep _ _ _ _ HPw Hr) as (H1 & H2 & H3 & seg & dt & Hseg & Hno).
    unfold probe_response in Hb.
    destruct (qualifies a (identifier m)) eqn:Hq; inversion Hb; subst.
    wsimpl. splits; auto.
    exists seg, dt, m. splits; auto; [apply qualifies_answers; exact Hq |].
    rewrite H3. reflexivity.
Qed.

(** One round of discovery: the request is handed to the driver at the
    time the round begins, and the round is a round of [probe_rounds]. *)
Lemma probe_address_round fuel a i w w1 :
  probe_address fuel a i w = Some w1 ->
  tx_log w1 = (tx_log w ++ [(clock w, probe_request a)])%list /\
  tx_script w1 = tl (tx_script w) /\
  forall addrs ids l',
    probe_rounds addrs (tx_script w1) (rx_script w1) ids l' ->
    exists ids0,
      activeECUs w1 = (activeECUs w ++ ids0)%list /\
      probe_rounds (a :: addrs) (tx_script w) (rx_script w) (ids0 ++ ids)%list l'.
Proof.
  unfold probe_address, probe_request.
  set (w0 := Serial_print (SerProbing a (i + 1)) w).
  set (wp := if Z.rem i 4 =? 0 then updateScanProgress _ _ w0 else w0).
  assert (Hwp : clock wp = clock w /\ tx_log wp = tx_log w /\ tx_script wp = tx_script w /\
                rx_script wp = rx_script w /\ activeECUs wp = activeECUs w).
  { subst wp w0. destruct (Z.rem i 4 =? 0); cbn; auto. }
  destruct Hwp as (Hc & Hl & Ht & Hr & Ha).
  pose proof (twai_transmit_spec (obd_request a 2 1 0) wp) as Htx.
  pose proof (twai_transmit_ready (obd_request a 2 1 0) wp) as Hok.
  assert (Hts : tx_script (snd (twai_transmit (obd_request a 2 1 0) wp)) = tl (tx_script wp)).
  { clear. unfold twai_transmit.
    destruct (tx_script wp) as [| [dt ok] rest] eqn:E; cbn; rewrite ?E; reflexivity. }
  destruct (twai_transmit (obd_request a 2 1 0) wp) as [sent w2].
  cbn [fst snd] in Htx, Hok, Hts. destruct Htx as (Hl2 & Hr2 & _ & _ & _ & Ha2 & _).
  unfold tx_ready in Hok. rewrite Hl, Hc in Hl2. rewrite Ht in Hts, Hok.
  rewrite Hr in Hr2. rewrite Ha in Ha2.
  destruct sent.
  - destruct (receive_while fuel 800 50 (millis w2) (probe_response a) tt w2)
      as [[res w3] |] eqn:Hloop; [| discriminate].
    destruct (probe_wait_round _ _ _ _ _ Hloop) as (Hl3 & Ht3 & Hres).
    destruct (receive_while_window 800 50 (probe_response a)
                (probe_response_same_clock a) (probe_response_rx a) fuel tt w2 res w3
                ltac:(lia) ltac:(lia) ltac:(lia) Hloop) as (used & unread & Hu & Hin & Hun).
    intros H. inversion H; subst w1. wsimpl.
    split; [congruence |]. split; [congruence |].
    intros addrs ids l' Hrest. rewrite Ht3, Hts in Hrest.
    destruct res as [[] | []].
    + destruct Hres as (seg & Hseg & Hno & Ha3). subst unread.
      rewrite Hu in Hseg. apply app_inv_tail in Hseg. subst seg.
      rewrite app_nil_r in Hin. rewrite Hr2 in Hu, Hin.
      exists []. rewrite app_nil_r. split; [congruence |]. cbn [app].
      rewrite Hu. rewrite Hu in Hin.
      apply pr_silent; auto.
    + destruct Hres as (seg & dt & m & Hseg & Hno & Hans & Ha3).
      rewrite Hu in Hseg.
      change (seg ++ (dt, Some m) :: rx_script w3)%list
        with (seg ++ [(dt, Some m)] ++ rx_script w3)%list in Hseg.
      rewrite app_assoc in Hseg. apply app_inv_tail in Hseg. subst used.
      rewrite <- app_assoc in Hu, Hin. cbn [app] in Hu, Hin. rewrite Hr2 in Hu, Hin.
      exists [identifier m mod 2 ^ 16]. split; [congruence |]. cbn [app].
      rewrite Hu. rewrite Hu in Hin.
      eapply pr_found; eauto.
  - intros H. inversion H; subst w1. wsimpl.
    split; [congruence |]. split; [congruence |].
    intros addrs ids l' Hrest. rewrite Hts, Hr2 in Hrest.
    exists []. rewrite app_nil_r. split; [congruence |]. cbn [app].
    apply pr_unsent; auto.
Qed.

(** The loop of discovery from any of its rounds on: the requests sent,
    when they were sent, when the loop stopped and what it found. *)
Lemma probe_loop_rounds fuel T w0 :
  forall addrs i w w',
    0 <= clock w - clock w0 ->
    clock w - clock w0 + Z.of_nat (List.length addrs) * 999 < 2 ^ 32 ->
    probe_loop fuel T (millis w0) addrs i w = Some w' ->
    exists n sent ids,
      (n <= List.length addrs)%nat /\
      tx_log w' = (tx_log w ++ sent)%list /\
      map snd sent = map probe_request (firstn n addrs) /\
      Forall (fun e => fst e - clock w0 <= T) sent /\
      ((n < List.length addrs)%nat -> T < clock w' - clock w0) /\
      (clock w - clock w0 + (Z.of_nat (List.length addrs) - 1) * 999 <= T ->
       n = List.length addrs) /\
      probe_rounds (firstn n addrs) (tx_script w) (rx_script w) ids (rx_script w') /\
      activeECUs w' = (activeECUs w ++ ids)%list.
Proof.
  induction addrs as [| a rest IH]; intros i w w' Hge Hwrap Hrun; cbn [probe_loop] in Hrun.
  - inversion Hrun; subst. exists 0%nat, [], []. rewrite !app_nil_r. cbn.
    splits; auto; try lia. constructor.
  - cbn [List.length] in *. rewrite Nat2Z.inj_succ in *.
    rewrite (since_elapsed w0 w) in Hrun by lia.
    destruct (Z.gtb_spec (clock w - clock w0) T) as [Hlate | Hearly].
    + inversion Hrun; subst. exists 0%nat, [], []. rewrite !app_nil_r. cbn.
      splits; auto; try lia. constructor.
    + destruct (probe_address fuel a i w) as [w1 |] eqn:H1; [| discriminate].
      pose proof (probe_address_time _ _ _ _ _ H1) as Hc1.
      destruct (probe_address_round _ _ _ _ _ H1) as (Hl1 & Ht1 & Hround).
      destruct (IH (i + 1) w1 w' ltac:(lia) ltac:(lia) Hrun)
        as (n & sent & ids & Hn & Hlog & Hsent & Hstamps & Hstop & Hall & Hrounds & Hact).
      destruct (Hround _ _ _ Hrounds) as (ids0 & Hact0 & Hrounds0).
      exists (Datatypes.S n), ((clock w, probe_request a) :: sent), (ids0 ++ ids)%list.
      splits.
      * lia.
      * rewrite Hlog, Hl1, <- app_assoc. reflexivity.
      * cbn. now rewrite Hsent.
      * constructor; [cbn; lia | exact Hstamps].
      * intros Hlt. apply Hstop. lia.
      * intros HT. rewrite Hall; [reflexivity | lia].
      * exact Hrounds0.
      * rewrite Hact, Hact0, app_assoc. reflexivity.
Qed.

(** ** DTC collection: what arrives within the wait *)

(** A round of collection reads what arrives within its wait of 1 s, and
    nothing of what comes later. *)
Lemma scan_ecu_window fuel ecu w w' :
  scan_ecu fuel ecu w = Some w' ->
  exists used unread,
    rx_script w = (used ++ rx_script w')%list /\
    in_window 1000 50 0 (rx_script w) = (used ++ unread)%list.
Proof.
  unfold scan_ecu.
  set (w0 := Serial_print (SerScanningECU ecu) w).
  pose proof (twai_transmit_spec (obd_request (request_id ecu) 1 3 0) w0) as Htx.
  destruct (twai_transmit (obd_request (request_id ecu) 1 3 0) w0) as [sent w1].
  cbn [snd] in Htx. destruct Htx as (_ & Hrx1 & _).
  assert (Hrx : rx_script w1 = rx_script w) by (rewrite Hrx1; reflexivity).
  destruct sent.
  - destruct (receive_while fuel 1000 50 (millis w1) (dtc_response ecu) tt w1)
      as [[res w2] |] eqn:Hloop; [| discriminate].
    destruct (receive_while_window 1000 50 (dtc_response ecu)
                (dtc_response_same_clock ecu) (dtc_response_rx ecu) fuel tt w1 res w2
                ltac:(lia) ltac:(lia) ltac:(lia) Hloop) as (used & unread & Hu & Hin & _).
    intros H. inversion H; subst w'. rewrite <- Hrx. exists used, unread.
    split; [exact Hu | exact Hin].
  - intros H. inversion H; subst w'. exists []. eexists. rewrite <- Hrx. split; reflexivity.
Qed.

(** The first frame of an ECU among script entries is the same however the
    entries around it are split. *)
Lemma first_frame_unique ecu pre dt m post pre' dt' m' post' :
  (pre ++ (dt, Some m) :: post = pre' ++ (dt', Some m') :: post')%list ->
  no_answer ecu pre -> identifier m = ecu ->
  no_answer ecu pre' -> identifier m' = ecu ->
  m = m'.
Proof.
  revert pre'. induction pre as [| e pre IH]; intros [| e' pre'] Heq Hno Hid Hno' Hid'.
  - inversion Heq. reflexivity.
  - inversion Heq; subst. inversion Hno' as [| ? ? He _]; subst. cbn in He. contradiction.
  - inversion Heq; subst. inversion Hno as [| ? ? He _]; subst. cbn in He. contradiction.
  - inversion Heq; subst. inversion Hno; subst. inversion Hno'; subst. eapply IH; eauto.
Qed.

(** C7. With rounds enough for the script, the round of an active ECU ends
    normally and collection goes on with the ECUs after it.  The round
    reads only script entries that arrive within its wait, that is, whose
    receive call begins less than 1000 ms after the request was handed to
    the driver.  When no frame with the ECU's identifier arrives within the
    wait, or when the first such frame within the wait has a length code of
    2 or less, [detectedCodes] is what it was before. *)
Theorem scan_ecu_no_codes (fuel : nat) (ecu : Z) (rest : list Z) (w : World) :
  (enough_fuel w <= fuel)%nat ->
  exists w',
    scan_ecu fuel ecu w = Some w' /\
    scan_ecus fuel (ecu :: rest) w = scan_ecus fuel rest w' /\
    (exists used unread,
       rx_script w = (used ++ rx_script w')%list /\
       in_window 1000 50 0 (rx_script w) = (used ++ unread)%list) /\
    (no_answer ecu (in_window 1000 50 0 (rx_script w)) ->
     detectedCodes w' = detectedCodes w) /\
    (forall pre dt m post,
       in_window 1000 50 0 (rx_script w) = (pre ++ (dt, Some m) :: post)%list ->
       no_answer ecu pre -> identifier m = ecu -> data_length_code m <= 2 ->
       detectedCodes w' = detectedCodes w).
Proof.
  intros Hfuel.
  destruct (scan_ecu_spec fuel ecu w Hfuel) as (w' & Hrun & _ & Hcases).
  destruct (scan_ecu_window _ _ _ _ Hrun) as (used & unread & Hu & Hin).
  exists w'. split; [exact Hrun |]. split; [simpl; now rewrite Hrun |].
  split; [exists used, unread; auto |].
  split.
  - intros Hno. destruct Hcases as [[_ Hdet] | (m & (pre & dt & Hpre & _ & Hid) & _)];
      [exact Hdet |].
    exfalso. rewrite Hu in Hpre.
    change (pre ++ (dt, Some m) :: rx_script w')%list
      with (pre ++ [(dt, Some m)] ++ rx_script w')%list in Hpre.
    rewrite app_assoc in Hpre. apply app_inv_tail in Hpre. subst used.
    rewrite Hin in Hno. unfold no_answer in Hno. rewrite !Forall_app in Hno.
    destruct Hno as [[_ Hm] _]. inversion Hm as [| ? ? He _]; subst. cbn in He.
    contradiction.
  - intros pre dt m post Hwin Hno Hid Hlen.
    destruct Hcases as [[_ Hdet] | (m' & (pre' & dt' & Hpre' & Hno' & Hid') & Hdet)];
      [exact Hdet |].
    rewrite Hu in Hpre'.
    change (pre' ++ (dt', Some m') :: rx_script w')%list
      with (pre' ++ [(dt', Some m')] ++ rx_script w')%list in Hpre'.
    rewrite app_assoc in Hpre'. apply app_inv_tail in Hpre'. subst used.
    rewrite Hin, <- app_assoc in Hwin. cbn [app] in Hwin.
    rewrite <- (first_frame_unique _ _ _ _ _ _ _ _ _ Hwin Hno' Hid' Hno Hid) in Hlen.
    destruct (Z.gtb_spec (data_length_code m') 2); [lia |].
    now rewrite app_nil_r in Hdet.
Qed.

Lemma scan_ecu_no_codes_witness :
  exists w',
    scan_ecu 123 0x7E8 late_dtc_world = Some w' /\
    detectedCodes w' = detectedCodes late_dtc_world.
Proof.
  destruct (scan_ecu_no_codes 123 0x7E8 [] late_dtc_world) as (w' & Hrun & _ & _ & Hno & _).
  - vm_compute. lia.
  - exists w'. split; [exact Hrun |]. apply Hno.
    vm_compute. repeat constructor.
Defined.

Example late_answer_left_on_the_bus :
  option_map (fun w' => (clock w', List.length (rx_script w'), detectedCodes w'))
             (scan_ecu 123 0x7E8 late_dtc_world) =
  Some (1100, 1%nat, []).
Proof. vm_compute. reflexivity. Qed.

Example short_answer_no_codes :
  option_map (fun w' => (clock w', List.length (rx_script w'), detectedCodes w'))
             (scan_ecu 104 0x7E8 short_dtc_world) =
  Some (170, 0%nat, []).
Proof. vm_compute. reflexivity. Qed.

(** Discovery, for any deadline: what it sends, when, and what it finds. *)
Lemma probe_phase_rounds fuel T w w' :
  probeOBD2ECUsWithTimeout fuel T w = Some w' ->
  exists n sent ids,
    (n <= 16)%nat /\
    tx_log w' = (tx_log w ++ sent)%list /\
    map snd sent = map probe_request (firstn n OBD2_ADDRESSES) /\
    Forall (fun e => fst e - clock w <= T) sent /\
    ((n < 16)%nat -> T < clock w' - clock w) /\
    (14985 <= T -> n = 16%nat) /\
    probe_rounds (firstn n OBD2_ADDRESSES) (tx_script w) (rx_script w) ids (rx_script w') /\
    activeECUs w' = (activeECUs w ++ ids)%list.
Proof.
  unfold probeOBD2ECUsWithTimeout.
  destruct (probe_loop fuel T (millis w) OBD2_ADDRESSES 0 w) as [w1 |] eqn:Hloop;
    [| discriminate].
  destruct (probe_loop_rounds fuel T w OBD2_ADDRESSES 0 w w1
              ltac:(lia) ltac:(cbn; lia) Hloop)
    as (n & sent & ids & Hn & Hlog & Hsent & Hstamps & Hstop & Hall & Hrounds & Hact).
  change (List.length OBD2_ADDRESSES) with 16%nat in *.
  intros H. inversion H; subst w'. wsimpl.
  exists n, sent, ids. splits; auto.
  intros HT. apply Hall. lia.
Qed.

(** ** ECU discovery: the deadline *)

(** C5. Discovery with the deadline [T], with rounds enough for the script,
    ends having probed the first [n] of the 16 addresses, for some [n]:
    the requests handed to the driver are the supported-PID queries of
    these addresses, in the order of the table, one each and none twice.
    Every request is sent while no more than [T] ms have passed since the
    phase began: the time a request is sent is the time the round before it
    ended, so once the deadline has elapsed after the probe of an address,
    no address beyond it is probed.  Probing stops short of the 16th
    address only when the deadline has elapsed.  The list of active ECUs
    is what it was before, followed by exactly what the rounds of these
    [n] addresses found on the bus: for each address whose request the
    controller accepted, the first answer among what arrived within the
    800 ms wait, if there is one.  A round takes at most 999 ms, so with a
    deadline of 14985 ms or more (the scan passes 15000) all 16 addresses
    are probed. *)
Theorem probe_deadline_partial (fuel : nat) (T : Z) (w : World) :
  (enough_fuel w <= fuel)%nat ->
  exists w' n sent ids,
    probeOBD2ECUsWithTimeout fuel T w = Some w' /\
    (n <= 16)%nat /\
    tx_log w' = (tx_log w ++ sent)%list /\
    map snd sent = map probe_request (firstn n OBD2_ADDRESSES) /\
    NoDup (map (fun e => identifier (snd e)) sent) /\
    Forall (fun e => fst e - clock w <= T) sent /\
    ((n < 16)%nat -> T < clock w' - clock w) /\
    (14985 <= T -> n = 16%nat) /\
    probe_rounds (firstn n OBD2_ADDRESSES) (tx_script w) (rx_script w) ids (rx_script w') /\
    activeECUs w' = (activeECUs w ++ ids)%list.
Proof.
  intros Hfuel.
  destruct (probe_phase_spec fuel T w Hfuel) as (w' & _ & _ & _ & Hrun & _).
  destruct (probe_phase_rounds _ _ _ _ Hrun)
    as (n & sent & ids & Hn & Hlog & Hsent & Hstamps & Hstop & Hall & Hrounds & Hact).
  exists w', n, sent, ids. splits; auto.
  rewrite <- (map_map snd identifier), Hsent, map_map.
  unfold probe_request, obd_request. cbn [identifier]. rewrite map_id.
  apply NoDup_firstn, OBD2_ADDRESSES_NoDup.
Qed.

Lemma probe_deadline_partial_witness :
  exists w' n sent ids,
    probeOBD2ECUsWithTimeout 151 2000 one_ecu_world = Some w' /\
    (n <= 16)%nat /\
    tx_log w' = (tx_log one_ecu_world ++ sent)%list /\
    map snd sent = map probe_request (firstn n OBD2_ADDRESSES) /\
    Forall (fun e => fst e - clock one_ecu_world <= 2000) sent /\
    ((n < 16)%nat -> 2000 < clock w' - clock one_ecu_world) /\
    activeECUs w' = (activeECUs one_ecu_world ++ ids)%list.
Proof.
  destruct (probe_deadline_partial 151 2000 one_ecu_world)
    as (w' & n & sent & ids & Hrun & Hn & Hlog & Hsent & _ & Hstamps & Hstop & _ & _ & Hact).
  - vm_compute. lia.
  - exists w', n, sent, ids. splits; auto.
Defined.

Example deadline_stops_probing_after_four :
  option_map (fun w' => (map (fun e => (fst e, identifier (snd e))) (tx_log w'),
                         activeECUs w', clock w'))
             (probeOBD2ECUsWithTimeout 151 2000 one_ecu_world) =
  Some ([(0, 0x7E0); (70, 0x7E1); (920, 0x7E2); (1770, 0x7E3)], [0x7E8], 2620).
Proof. vm_compute. reflexivity. Qed.

(** ** The orchestrator: the deadline at the phase boundaries *)

















(** A scan whose collection is in progress when the 45 s have passed runs
    to its completion. *)
Example collection_runs_past_the_deadline :
  option_map (fun w' => (clock w', last (progress w') (""%string, 0),
                         List.length (activeECUs w'), List.length (detectedCodes w'),
                         List.length (rx_script w')))
             (performDiagnosticScan 873 slowest_world) =
  Some (47268, ("Scan complete!"%string, 100), 16%nat, 48%nat, 0%nat).
Proof. vm_compute. reflexivity. Qed.

(** * Properties of the kiosk *)

(** Reading a field of an updated kiosk. *)
Ltac ksimpl :=
  cbn [world currentState transactionId stateStartTime sessionStartTime lastPaymentCheck
       screenDrawFlags forceRedraw ready_displayed qr_displayed loading_dots
       waiting_displayed readyToScan_displayed scanning_displayed results_displayed
       results_lastUpdate lastPress buttonPressed wifi_script http_script pin_script
       screen http_log
       set_world set_currentState set_transactionId set_stateStartTime
       set_sessionStartTime set_lastPaymentCheck set_screenDrawFlags set_forceRedraw
       set_ready_displayed set_qr_displayed set_loading_dots set_waiting_displayed
       set_readyToScan_displayed set_scanning_displayed set_results_displayed
       set_results_lastUpdate set_lastPress set_buttonPressed set_wifi_script
       set_http_script set_pin_script set_screen set_http_log
       kdelay draw fst snd] in *;
  wsimpl.

(** ** Start-up: the wait for WiFi *)

Lemma millis_delay ms w :
  0 <= ms -> millis w + ms < 2 ^ 32 -> millis (delay ms w) = millis w + ms.
Proof.
  intros Hms Hlt. unfold millis, delay. cbn [clock set_clock].
  pose proof (Z.mod_pos_bound (clock w) (2 ^ 32) ltac:(lia)) as Hb.
  unfold millis in Hlt.
  rewrite <- Zplus_mod_idemp_l. apply Z.mod_small. lia.
Qed.

Lemma kmillis_range k : 0 <= kmillis k < 2 ^ 32.
Proof. unfold kmillis, millis. apply Z.mod_pos_bound. lia. Qed.

Lemma wifi_rounds_range k : 0 <= wifi_rounds k <= 20.
Proof.
  unfold wifi_rounds. pose proof (kmillis_range k) as Hr.
  destruct (Z.ltb_spec (kmillis k) 10000) as [Hlt | Hge]; [| lia].
  split.
  - apply Z.div_pos; lia.
  - assert ((10499 - kmillis k) / 500 < 21); [| lia].
    apply Z.div_lt_upper_bound; lia.
Qed.

Lemma WiFi_connected_world k : world (snd (WiFi_connected k)) = world k.
Proof. unfold WiFi_connected. destruct (wifi_script k); reflexivity. Qed.

Lemma wifi_wait_rounds :
  forall (f : nat) (k : Kiosk),
    wifi_rounds k < Z.of_nat f ->
    0 <= clock (world (wifi_wait f k)) - clock (world k) <= 500 * wifi_rounds k /\
    forall f2 : nat, wifi_rounds k < Z.of_nat f2 -> wifi_wait f2 k = wifi_wait f k.
Proof.
  induction f as [| f IH]; intros k Hf.
  - pose proof (wifi_rounds_range k). lia.
  - cbn [wifi_wait].
    pose proof (WiFi_connected_world k) as Hw.
    destruct (WiFi_connected k) as [connected k1] eqn:Hc. cbn [snd] in Hw.
    pose proof (wifi_rounds_range k) as Hr.
    assert (Hm : kmillis k1 = kmillis k) by (unfold kmillis; now rewrite Hw).
    destruct (negb connected && (kmillis k1 <? 10000)) eqn:Hgo.
    + assert (Hlt : kmillis k1 < 10000).
      { apply andb_prop in Hgo. destruct Hgo as [_ Hlt]. now apply Z.ltb_lt in Hlt. }
      assert (Hk : kmillis (kdelay 500 k1) = kmillis k + 500).
      { unfold kmillis, kdelay. ksimpl. rewrite millis_delay; unfold kmillis in *; lia. }
      assert (Hstep : wifi_rounds (kdelay 500 k1) = wifi_rounds k - 1).
      { unfold wifi_rounds. rewrite Hk.
        destruct (Z.ltb_spec (kmillis k) 10000) as [_ | ?]; [| lia].
        replace (10499 - kmillis k) with ((10499 - (kmillis k + 500)) + 1 * 500) by lia.
        rewrite Z.div_add by lia.
        destruct (Z.ltb_spec (kmillis k + 500) 10000) as [Hlt' | Hge']; [lia |].
        assert ((10499 - (kmillis k + 500)) / 500 = 0); [| lia].
        apply Z.div_small. pose proof (kmillis_range k). lia. }
      destruct (IH (kdelay 500 k1) ltac:(lia)) as [Hclk Hsame].
      split.
      * unfold kdelay in Hclk at 2. ksimpl. rewrite Hw in Hclk. lia.
      * intros [| f2] Hf2; [lia |]. cbn [wifi_wait]. rewrite Hc, Hgo.
        apply Hsame. lia.
    + split.
      * rewrite Hw. lia.
      * intros [| f2] Hf2; [lia |]. cbn [wifi_wait]. rewrite Hc, Hgo. reflexivity.
Qed.

(** X12. The wait for WiFi at start-up ends by itself: it makes at most
    20 pauses of 500 ms, so it takes at most 10 s and a bound of 21 rounds
    is never reached (any larger bound gives the same result); the bus and
    the results are left alone. *)
Theorem initializeWiFi_bounded (k : Kiosk) :
  (forall n : nat, wifi_wait (21 + n) k = wifi_wait 21 k) /\
  0 <= clock (world (initializeWiFi k)) - clock (world k) <= 10000 /\
  rx_script (world (initializeWiFi k)) = rx_script (world k) /\
  currentState (initializeWiFi k) = currentState k /\
  screen (initializeWiFi k) = screen k.
Proof.
  pose proof (wifi_rounds_range k) as Hr.
  destruct (wifi_wait_rounds 21 k ltac:(lia)) as [Hclk Hsame].
  assert (Hkeep : forall f k0,
            rx_script (world (wifi_wait f k0)) = rx_script (world k0) /\
            currentState (wifi_wait f k0) = currentState k0 /\
            screen (wifi_wait f k0) = screen k0).
  { induction f as [| f IH]; intros k0; cbn [wifi_wait]; [auto |].
    unfold WiFi_connected.
    destruct (wifi_script k0) as [| c rest]; ksimpl.
    - destruct (kmillis k0 <? 10000); cbn [negb andb]; [| auto].
      match goal with |- context [wifi_wait f ?k1] =>
        destruct (IH k1) as (H1 & H2 & H3); rewrite H1, H2, H3 end.
      auto.
    - destruct (negb c && _); [| auto].
      match goal with |- context [wifi_wait f ?k1] =>
        destruct (IH k1) as (H1 & H2 & H3); rewrite H1, H2, H3 end.
      auto. }
  unfold initializeWiFi. rewrite WiFi_connected_world.
  destruct (Hkeep 21%nat k) as (H1 & H2 & H3).
  splits.
  - intros n. apply Hsame. lia.
  - lia.
  - lia.
  - exact H1.
  - unfold WiFi_connected. destruct (wifi_script (wifi_wait 21 k)); exact H2.
  - unfold WiFi_connected. destruct (wifi_script (wifi_wait 21 k)); exact H3.
Qed.

(** ** The states of the kiosk *)

(** Unfolding the functions that read the inputs, down to the scripts. *)
Ltac kunfold :=
  unfold createNewSession, checkPaymentStatus, http_request, WiFi_connected, digitalRead in *.

Ltac kcases :=
  repeat match goal with
         | |- context [match ?x with _ => _ end] =>
             lazymatch x with
             | context [match _ with _ => _ end] => fail
             | _ => destruct x eqn:?; ksimpl
             end
         end.

Lemma nonempty_length (s : string) : (0 <? String.length s)%nat = true -> s <> ""%string.
Proof. destruct s; [discriminate | discriminate]. Qed.

Lemma empty_length (s : string) : (0 <? String.length s)%nat = false -> s = ""%string.
Proof. destruct s; [reflexivity | discriminate]. Qed.

(** *** Reading the inputs changes neither the session nor the screens *)

Lemma digitalRead_views k :
  session_view (snd (digitalRead k)) = session_view k /\
  display_view (snd (digitalRead k)) = display_view k.
Proof. kunfold. kcases; split; reflexivity. Qed.

Lemma WiFi_connected_views k :
  session_view (snd (WiFi_connected k)) = session_view k /\
  display_view (snd (WiFi_connected k)) = display_view k.
Proof. kunfold. kcases; split; reflexivity. Qed.

Lemma http_request_views call k :
  session_view (snd (http_request call k)) = session_view k /\
  display_view (snd (http_request call k)) = display_view k.
Proof. kunfold. kcases; split; reflexivity. Qed.

Lemma createNewSession_views k :
  session_view (snd (createNewSession k)) = session_view k /\
  display_view (snd (createNewSession k)) = display_view k.
Proof. kunfold. kcases; split; reflexivity. Qed.

Lemma checkPaymentStatus_views k :
  session_view (snd (checkPaymentStatus k)) = session_view k /\
  display_view (snd (checkPaymentStatus k)) = display_view k.
Proof. kunfold. kcases; split; reflexivity. Qed.

(** *** The screens leave the session alone *)

Lemma displayReadyScreen_session k : session_view (displayReadyScreen k) = session_view k.
Proof. unfold displayReadyScreen. kunfold. kcases; reflexivity. Qed.

Lemma displayQRCode_session k : session_view (displayQRCode k) = session_view k.
Proof. unfold displayQRCode. kcases; reflexivity. Qed.

Lemma displayPaymentLoading_session k :
  session_view (displayPaymentLoading k) = session_view k.
Proof. reflexivity. Qed.

Lemma displayWaitingPayment_session k :
  session_view (displayWaitingPayment k) = session_view k.
Proof. unfold displayWaitingPayment. kcases; reflexivity. Qed.

Lemma displayReadyToScan_session b k : session_view (displayReadyToScan b k) = session_view k.
Proof. unfold displayReadyToScan. kcases; reflexivity. Qed.

Lemma displayScanning_session b k : session_view (displayScanning b k) = session_view k.
Proof. unfold displayScanning. kcases; reflexivity. Qed.

Lemma displayScanResults_session k : session_view (displayScanResults k) = session_view k.
Proof. unfold displayScanResults. kcases; reflexivity. Qed.

(** *** The session invariant *)

Lemma kiosk_inv_view k k' :
  session_view k' = session_view k -> kiosk_inv k -> kiosk_inv k'.
Proof.
  unfold session_view. intros Hv (Hst & Hid & (Hown & Hveh) & Hfl).
  injection Hv as H1 H2 H3 H4 H5 H6 H7.
  unfold kiosk_inv, results_consistent. rewrite H1, H2, H3, H4, H5, H6. auto.
Qed.

Lemma session_view_rx k k' :
  session_view k' = session_view k -> rx_script (world k') = rx_script (world k).
Proof. unfold session_view. intros Hv. injection Hv as H1 H2 H3 H4 H5 H6 H7. exact H7. Qed.

(** Moving from one state with a transaction to another. *)
Lemma kiosk_inv_move k k' :
  kiosk_inv k ->
  currentState k <> READY_SCREEN ->
  resting_state (currentState k') = true ->
  currentState k' <> READY_SCREEN ->
  transactionId k' = transactionId k ->
  screenDrawFlags k' = screenDrawFlags k ->
  results_consistent (world k') ->
  kiosk_inv k'.
Proof.
  intros (Hst & Hid & Hres & Hfl) Hne Hst' Hne' Hid' Hfl' Hres'.
  unfold kiosk_inv. rewrite Hid', Hfl'. splits; auto.
  split; [intros H; contradiction | intros H; apply Hid in H; contradiction].
Qed.

(** A new session, or none: the state a kiosk is put in after
    [createNewSession] has answered [sessionId]. *)
Lemma kiosk_inv_session k sessionId :
  currentState k = (if (0 <? String.length sessionId)%nat then DISPLAY_QR else READY_SCREEN) ->
  transactionId k = sessionId ->
  screenDrawFlags k = repeat false 10 ->
  results_consistent (world k) ->
  kiosk_inv k.
Proof.
  intros Hst Hid Hfl Hres. unfold kiosk_inv. rewrite Hst, Hid.
  destruct (0 <? String.length sessionId)%nat eqn:E; splits; auto.
  - split; [discriminate | intros H; rewrite H in E; discriminate E].
  - split; [intros _; now apply empty_length | reflexivity].
Qed.

Lemma results_consistent_clear w :
  results_consistent (set_vehicleDetected false (set_activeECUs [] (set_detectedCodes [] w))).
Proof. split; wsimpl; auto. Qed.

Lemma results_consistent_same w w' :
  detectedCodes w' = detectedCodes w -> activeECUs w' = activeECUs w ->
  vehicleDetected w' = vehicleDetected w ->
  results_consistent w -> results_consistent w'.
Proof. unfold results_consistent. intros -> -> ->. auto. Qed.

Lemma resetToReady_inv k :
  kiosk_inv (resetToReady k) /\
  rx_script (world (resetToReady k)) = rx_script (world k).
Proof.
  unfold resetToReady.
  match goal with |- context [createNewSession ?k2] =>
    destruct (createNewSession_views k2) as [Hv _];
    destruct (createNewSession k2) as [sessionId k3] end.
  cbn [snd] in Hv. unfold session_view in Hv. ksimpl.
  injection Hv as H1 H2 H3 H4 H5 H6 H7.
  split.
  - apply kiosk_inv_session with sessionId.
    + destruct (0 <? String.length sessionId)%nat; reflexivity.
    + destruct (0 <? String.length sessionId)%nat; reflexivity.
    + destruct (0 <? String.length sessionId)%nat; exact H3.
    + assert (Hres : results_consistent (world k3)).
      { unfold results_consistent. rewrite H4, H5. auto. }
      destruct (0 <? String.length sessionId)%nat; exact Hres.
  - destruct (0 <? String.length sessionId)%nat; exact H7.
Qed.

Lemma handleButtonPress_inv k :
  kiosk_inv k ->
  kiosk_inv (handleButtonPress k) /\
  rx_script (world (handleButtonPress k)) = rx_script (world k).
Proof.
  intros Hinv. unfold handleButtonPress.
  destruct (digitalRead_views k) as [Hv0 _].
  destruct (digitalRead k) as [level k0]. cbn [snd] in Hv0.
  pose proof (kiosk_inv_view _ _ Hv0 Hinv) as Hinv0.
  pose proof (session_view_rx _ _ Hv0) as Hrx0.
  destruct (negb level && negb (buttonPressed k0) && (ksince (lastPress k0) k0 >? 300)).
  - set (k1 := set_lastPress (kmillis k0) (set_buttonPressed true k0)).
    assert (Hinv1 : kiosk_inv k1) by (apply (kiosk_inv_view k0); [reflexivity | exact Hinv0]).
    assert (Hrx1 : rx_script (world k1) = rx_script (world k)) by exact Hrx0.
    destruct (currentState k1) eqn:Hst; try (split; assumption).
    + destruct (createNewSession_views k1) as [Hv2 _].
      destruct (createNewSession k1) as [sessionId k2]. cbn [snd] in Hv2.
      pose proof (kiosk_inv_view _ _ Hv2 Hinv1) as (_ & _ & Hres2 & Hfl2).
      pose proof (session_view_rx _ _ Hv2) as Hrx2.
      destruct (0 <? String.length sessionId)%nat eqn:E.
      * split; [| ksimpl; congruence].
        apply kiosk_inv_session with sessionId; ksimpl; auto. now rewrite E.
      * split; [| ksimpl; congruence].
        unfold kiosk_inv. ksimpl. splits; auto.
        split; [discriminate | cbn [append]; discriminate].
    + split; [| ksimpl; congruence].
      apply (kiosk_inv_move k1); ksimpl; auto; try discriminate; try congruence.
      apply Hinv1.
  - destruct (negb (negb level)); [| split; assumption].
    split; [| exact Hrx0].
    apply (kiosk_inv_view k0); [reflexivity | exact Hinv0].
Qed.

Lemma handleSessionTimeout_inv k :
  kiosk_inv k ->
  kiosk_inv (handleSessionTimeout k) /\
  rx_script (world (handleSessionTimeout k)) = rx_script (world k).
Proof.
  intros Hinv. unfold handleSessionTimeout.
  destruct (_ && _); [| auto].
  destruct (_ >? _); [| auto].
  match goal with |- context [resetToReady ?k1] =>
    destruct (resetToReady_inv k1) as [H1 H2] end.
  split; [exact H1 | rewrite H2; reflexivity].
Qed.

(** What a scan leaves behind. *)
Lemma scan_step fuel w :
  (enough_fuel w <= fuel)%nat ->
  exists w',
    performDiagnosticScan fuel w = Some w' /\
    results_consistent w' /\
    (List.length (rx_script w') <= List.length (rx_script w))%nat.
Proof.
  intros Hfuel.
  destruct (performDiagnosticScan_outcomes fuel w Hfuel)
    as (w' & ps & Hrun & _ & Hlen & _ & Hown & Hcases).
  exists w'. split; [exact Hrun |]. split; [| exact Hlen]. split; [exact Hown |].
  destruct Hcases as [(_ & _ & Ha & Hd & _) | (qs & _ & _ & _ & Hv)]; auto; congruence.
Qed.

Lemma updateKioskState_inv fuel k :
  (enough_fuel (world k) <= fuel)%nat ->
  kiosk_inv k ->
  exists k',
    updateKioskState fuel k = Some k' /\
    kiosk_inv k' /\
    (List.length (rx_script (world k')) <= List.length (rx_script (world k)))%nat.
Proof.
  intros Hfuel Hinv. pose proof Hinv as (Hst & Hid & Hres & Hfl).
  unfold updateKioskState.
  destruct (currentState k) eqn:Hs; try discriminate Hst.
  - (* READY_SCREEN *)
    eexists. split; [reflexivity |].
    pose proof (displayReadyScreen_session k) as Hv.
    split; [exact (kiosk_inv_view _ _ Hv Hinv) | rewrite (session_view_rx _ _ Hv); lia].
  - (* DISPLAY_QR *)
    pose proof (displayQRCode_session k) as Hv.
    pose proof (kiosk_inv_view _ _ Hv Hinv) as Hinv1.
    pose proof (session_view_rx _ _ Hv) as Hrx1.
    assert (Hs1 : currentState (displayQRCode k) = DISPLAY_QR).
    { unfold session_view in Hv. injection Hv as H1 _. congruence. }
    set (k1 := displayQRCode k) in *. clearbody k1.
    destruct (ksince (stateStartTime k1) k1 >? 5000).
    + eexists. split; [reflexivity |]. split; [| ksimpl; rewrite Hrx1; lia].
      apply (kiosk_inv_move k1); ksimpl; auto; try discriminate; try congruence.
      apply Hinv1.
    + eexists. split; [reflexivity |]. split; [exact Hinv1 | rewrite Hrx1; lia].
  - (* WAITING_PAYMENT *)
    pose proof (displayWaitingPayment_session k) as Hv.
    pose proof (kiosk_inv_view _ _ Hv Hinv) as Hinv1.
    pose proof (session_view_rx _ _ Hv) as Hrx1.
    set (k1 := displayWaitingPayment k) in *. clearbody k1.
    destruct (ksince (lastPaymentCheck k1) k1 >? PAYMENT_POLL_INTERVAL).
    + set (k2 := set_lastPaymentCheck (kmillis k1) k1).
      assert (Hv2 : session_view k2 = session_view k1) by reflexivity.
      pose proof (kiosk_inv_view _ _ Hv2 Hinv1) as Hinv2.
      destruct (checkPaymentStatus_views k2) as [Hv3 _].
      destruct (checkPaymentStatus k2) as [paid k3]. cbn [snd] in Hv3.
      pose proof (kiosk_inv_view _ _ Hv3 Hinv2) as Hinv3.
      pose proof (session_view_rx _ _ Hv3) as Hrx3.
      assert (Hs3 : currentState k3 = WAITING_PAYMENT).
      { unfold session_view in Hv3, Hv. injection Hv3 as Hc3 _. injection Hv as Hc1 _.
        rewrite Hc3. cbn. congruence. }
      assert (Hrx : rx_script (world k3) = rx_script (world k)) by (rewrite Hrx3; exact Hrx1).
      destruct paid.
      * eexists. split; [reflexivity |]. split; [| ksimpl; rewrite Hrx; lia].
        apply (kiosk_inv_move k3); ksimpl; auto; try discriminate; try congruence.
        apply Hinv3.
      * eexists. split; [reflexivity |]. split; [exact Hinv3 | rewrite Hrx; lia].
    + eexists. split; [reflexivity |]. split; [exact Hinv1 | rewrite Hrx1; lia].
  - (* READY_TO_SCAN *)
    eexists. split; [reflexivity |].
    pose proof (displayReadyToScan_session false k) as Hv.
    split; [exact (kiosk_inv_view _ _ Hv Hinv) | rewrite (session_view_rx _ _ Hv); lia].
  - (* SCANNING *)
    pose proof (displayScanning_session false k) as Hv.
    pose proof (kiosk_inv_view _ _ Hv Hinv) as Hinv1.
    pose proof (session_view_rx _ _ Hv) as Hrx1.
    assert (Hs1 : currentState (displayScanning false k) = SCANNING).
    { unfold session_view in Hv. injection Hv as H1 _. congruence. }
    set (k1 := displayScanning false k) in *. clearbody k1.
    destruct (scan_step fuel (world k1)) as (w' & Hrun & Hres' & Hlen).
    { unfold enough_fuel in *. rewrite Hrx1. exact Hfuel. }
    rewrite Hrun. eexists. split; [reflexivity |].
    split; [| ksimpl; rewrite <- Hrx1; exact Hlen].
    apply (kiosk_inv_move k1); ksimpl; auto; try discriminate; try congruence.
  - (* DISPLAY_RESULTS *)
    pose proof (displayScanResults_session k) as Hv.
    pose proof (kiosk_inv_view _ _ Hv Hinv) as Hinv1.
    pose proof (session_view_rx _ _ Hv) as Hrx1.
    set (k1 := displayScanResults k) in *. clearbody k1.
    match goal with |- context [ksince ?a ?b >? ?c] => destruct (ksince a b >? c) end.
    + destruct (resetToReady_inv k1) as [H1 H2].
      eexists. split; [reflexivity |]. split; [exact H1 | rewrite H2, Hrx1; lia].
    + eexists. split; [reflexivity |]. split; [exact Hinv1 | rewrite Hrx1; lia].
Qed.

(** One round of [loop], and any number of rounds. *)
Lemma loop_inv fuel k :
  (enough_fuel (world k) <= fuel)%nat ->
  kiosk_inv k ->
  exists k',
    loop fuel k = Some k' /\
    kiosk_inv k' /\
    (enough_fuel (world k') <= fuel)%nat.
Proof.
  intros Hfuel Hinv. unfold loop.
  destruct (handleButtonPress_inv k Hinv) as [Hinv1 Hrx1].
  destruct (updateKioskState_inv fuel (handleButtonPress k)) as (k2 & Hrun & Hinv2 & Hlen2);
    [unfold enough_fuel in *; rewrite Hrx1; exact Hfuel | exact Hinv1 |].
  rewrite Hrun.
  destruct (handleSessionTimeout_inv k2 Hinv2) as [Hinv3 Hrx3].
  eexists. split; [reflexivity |]. split.
  - apply (kiosk_inv_view (handleSessionTimeout k2)); [reflexivity | exact Hinv3].
  - unfold enough_fuel in *. ksimpl. rewrite Hrx3. rewrite Hrx1 in Hlen2. lia.
Qed.

Lemma loops_inv fuel :
  forall (n : nat) (k : Kiosk),
    (enough_fuel (world k) <= fuel)%nat ->
    kiosk_inv k ->
    exists k',
      loops fuel n k = Some k' /\
      kiosk_inv k' /\
      (enough_fuel (world k') <= fuel)%nat.
Proof.
  induction n as [| n IH]; intros k Hfuel Hinv.
  - exists k. auto.
  - destruct (loop_inv fuel k Hfuel Hinv) as (k1 & Hrun & Hinv1 & Hfuel1).
    cbn [loops]. rewrite Hrun. apply IH; assumption.
Qed.

(** *** Start-up *)

Lemma wifi_wait_views :
  forall (f : nat) (k : Kiosk),
    session_view (wifi_wait f k) = session_view k /\
    display_view (wifi_wait f k) = display_view k.
Proof.
  induction f as [| f IH]; intros k; cbn [wifi_wait]; [auto |].
  destruct (WiFi_connected_views k) as [Hs Hd].
  destruct (WiFi_connected k) as [connected k1]. cbn [snd] in Hs, Hd.
  destruct (negb connected && (kmillis k1 <? 10000)); [| auto].
  destruct (IH (kdelay 500 k1)) as [Hs' Hd'].
  rewrite Hs', Hd'. split; [rewrite <- Hs | rewrite <- Hd]; reflexivity.
Qed.

Lemma initializeWiFi_views k :
  session_view (initializeWiFi k) = session_view k /\
  display_view (initializeWiFi k) = display_view k.
Proof.
  unfold initializeWiFi.
  destruct (WiFi_connected_views (wifi_wait 21 k)) as [Hs Hd].
  destruct (wifi_wait_views 21 k) as [Hs' Hd'].
  rewrite Hs, Hd. auto.
Qed.

Lemma initializeCAN_views k :
  session_view (initializeCAN k) = session_view k /\
  display_view (initializeCAN k) = display_view k.
Proof.
  unfold initializeCAN, driver_call.
  destruct (drv_script (world k)) as [| [|] [| [|] rest]] eqn:E; ksimpl; rewrite ?E; ksimpl;
    split; reflexivity.
Qed.

Lemma setup_inv k :
  screenDrawFlags k = repeat false 10 ->
  results_consistent (world k) ->
  kiosk_inv (setup k) /\ rx_script (world (setup k)) = rx_script (world k).
Proof.
  intros Hfl Hres. unfold setup.
  set (k0 := initializeDisplay (kdelay 1000 k)).
  assert (Hv0 : session_view k0 = session_view k) by reflexivity.
  destruct (initializeWiFi_views k0) as [Hv1 _].
  destruct (initializeCAN_views (initializeWiFi k0)) as [Hv2 _].
  set (k1 := initializeCAN (initializeWiFi k0)) in *. clearbody k1.
  destruct (createNewSession_views k1) as [Hv3 _].
  destruct (createNewSession k1) as [sessionId k2]. cbn [snd] in Hv3.
  assert (Hv : session_view k2 = session_view k) by congruence.
  unfold session_view in Hv. injection Hv as H1 H2 H3 H4 H5 H6 H7.
  assert (Hres2 : results_consistent (world k2))
    by (eapply results_consistent_same; eauto).
  split.
  - apply kiosk_inv_session with sessionId.
    + destruct (0 <? String.length sessionId)%nat; reflexivity.
    + destruct (0 <? String.length sessionId)%nat; reflexivity.
    + destruct (0 <? String.length sessionId)%nat; ksimpl; congruence.
    + destruct (0 <? String.length sessionId)%nat; exact Hres2.
  - destruct (0 <? String.length sessionId)%nat; exact H7.
Qed.

(** From power-on the kiosk runs, whatever the inputs. *)
Lemma kiosk_run (fuel n : nat) (w : World) (wifi : list bool)
    (http : list http_reply) (pins : list bool) :
  (enough_fuel w <= fuel)%nat ->
  exists k, loops fuel n (setup (power_on w wifi http pins)) = Some k /\ kiosk_inv k.
Proof.
  intros Hfuel.
  destruct (setup_inv (power_on w wifi http pins)) as [Hinv Hrx];
    [reflexivity | apply results_consistent_clear |].
  destruct (loops_inv fuel n (setup (power_on w wifi http pins))) as (k & Hrun & Hk & _);
    [unfold enough_fuel in *; rewrite Hrx; exact Hfuel | exact Hinv |].
  exists k. auto.
Qed.

(** X13. The states of the kiosk.  From power-on, after [setup] and any
    number of rounds of [loop] (with rounds enough in each scan for the
    bus script): the kiosk is in one of the states READY_SCREEN,
    DISPLAY_QR, WAITING_PAYMENT, READY_TO_SCAN, SCANNING and
    DISPLAY_RESULTS, so never in ERROR_STATE or PAYMENT_LOADING between
    two rounds; it is in READY_SCREEN exactly when it has no transaction
    id; the results it holds fit together, so the time-out of the results
    screen is the long one exactly when no vehicle was detected; and the
    array [screenDrawFlags] is all false. *)
Theorem kiosk_states (fuel n : nat) (w : World) (wifi : list bool)
    (http : list http_reply) (pins : list bool) :
  (enough_fuel w <= fuel)%nat ->
  exists k,
    loops fuel n (setup (power_on w wifi http pins)) = Some k /\
    kiosk_inv k /\
    currentState k <> ERROR_STATE /\ currentState k <> PAYMENT_LOADING /\
    negb (vehicleDetected (world k)) && (List.length (detectedCodes (world k)) =? 0)%nat
    = negb (vehicleDetected (world k)).
Proof.
  intros Hfuel.
  destruct (kiosk_run fuel n w wifi http pins Hfuel) as (k & Hrun & Hk).
  exists k. split; [exact Hrun |]. split; [exact Hk |].
  destruct Hk as (Hst & _ & (_ & Hveh) & _).
  splits.
  - intros H. rewrite H in Hst. discriminate Hst.
  - intros H. rewrite H in Hst. discriminate Hst.
  - destruct (vehicleDetected (world k)); [reflexivity |].
    destruct (Hveh eq_refl) as [_ Hd]. rewrite Hd. reflexivity.
Qed.

Lemma kiosk_states_witness :
  exists k, loops 447 400 (setup customer_kiosk) = Some k /\ kiosk_inv k.
Proof.
  destruct (kiosk_states 447 400 one_code_world (repeat true 8) customer_http [])
    as (k & Hrun & Hinv & _).
  - vm_compute. lia.
  - exists k. split; [exact Hrun | exact Hinv].
Defined.

(** ** The screens: drawn once *)

Lemma draw_flags_view k k' :
  display_view k' = display_view k -> draw_flags_inv k -> draw_flags_inv k'.
Proof.
  unfold display_view. intros Hv Hinv.
  injection Hv as H1 H2 H3 H4 H5 H6.
  unfold draw_flags_inv. rewrite H1, H2, H3, H4, H5, H6. exact Hinv.
Qed.

(** Drawing a screen of another kind, and drawing the screen of a flag
    that was clear and is now set. *)
Lemma drawn_once_other flag kind l e :
  kind e = false -> drawn_once flag kind l -> drawn_once flag kind (l ++ [e]).
Proof.
  unfold drawn_once. intros He H. rewrite filter_app, length_app. cbn [filter].
  rewrite He. cbn [List.length]. lia.
Qed.

Lemma drawn_once_first kind l e :
  drawn_once false kind l -> drawn_once true kind (l ++ [e]).
Proof.
  unfold drawn_once. intros H. rewrite filter_app, length_app. cbn [filter].
  destruct (kind e); cbn [List.length]; lia.
Qed.

Lemma drawn_once_set kind l : drawn_once false kind l -> drawn_once true kind l.
Proof. unfold drawn_once. lia. Qed.

Lemma draw_other e k :
  is_qr e = false -> is_waiting e = false -> is_readyToScan e = false ->
  is_scanning e = false -> is_results e = false ->
  draw_flags_inv k -> draw_flags_inv (draw e k).
Proof.
  intros E1 E2 E3 E4 E5 (H1 & H2 & H3 & H4 & H5).
  unfold draw_flags_inv. ksimpl. splits; apply drawn_once_other; assumption.
Qed.

Lemma displayReadyScreen_draw k : draw_flags_inv k -> draw_flags_inv (displayReadyScreen k).
Proof.
  intros Hinv. unfold displayReadyScreen.
  destruct (ready_displayed k && negb (forceRedraw k)); [exact Hinv |].
  match goal with |- context [WiFi_connected ?k1] =>
    destruct (WiFi_connected_views k1) as [_ Hd];
    destruct (WiFi_connected k1) as [connected k2] end.
  cbn [snd] in Hd. apply draw_other; try reflexivity.
  apply (draw_flags_view k); [| exact Hinv]. rewrite Hd. reflexivity.
Qed.

Lemma displayQRCode_draw k : draw_flags_inv k -> draw_flags_inv (displayQRCode k).
Proof.
  intros Hinv. unfold displayQRCode.
  destruct (qr_displayed k) eqn:E; [exact Hinv |].
  destruct Hinv as (H1 & H2 & H3 & H4 & H5). rewrite E in H1.
  unfold draw_flags_inv. ksimpl.
  splits; [apply drawn_once_first; assumption | apply drawn_once_other; auto ..].
Qed.

Lemma displayPaymentLoading_draw k :
  draw_flags_inv k -> draw_flags_inv (displayPaymentLoading k).
Proof.
  intros Hinv. unfold displayPaymentLoading.
  apply (draw_flags_view (draw (ScrPaymentLoading (Z.rem (loading_dots k) 4)) k));
    [reflexivity |].
  apply draw_other; auto.
Qed.

Lemma displayWaitingPayment_draw k :
  draw_flags_inv k -> draw_flags_inv (displayWaitingPayment k).
Proof.
  intros Hinv. unfold displayWaitingPayment.
  destruct (waiting_displayed k) eqn:E; [exact Hinv |].
  destruct Hinv as (H1 & H2 & H3 & H4 & H5). rewrite E in H2.
  unfold draw_flags_inv. ksimpl.
  splits; [| apply drawn_once_first; assumption | ..]; apply drawn_once_other; auto.
Qed.

(** Only a call without [fullRedraw] keeps to one drawing; the state
    machine makes no other call. *)
Lemma displayReadyToScan_draw k :
  draw_flags_inv k -> draw_flags_inv (displayReadyToScan false k).
Proof.
  intros Hinv. unfold displayReadyToScan. rewrite andb_true_r.
  destruct (readyToScan_displayed k) eqn:E; [exact Hinv |].
  destruct Hinv as (H1 & H2 & H3 & H4 & H5). rewrite E in H3.
  unfold draw_flags_inv. ksimpl.
  splits; [| | apply drawn_once_first; assumption | ..]; apply drawn_once_other; auto.
Qed.

Lemma displayScanning_draw k :
  draw_flags_inv k -> draw_flags_inv (displayScanning false k).
Proof.
  intros Hinv. unfold displayScanning. rewrite andb_true_r.
  destruct (scanning_displayed k) eqn:E; [exact Hinv |].
  destruct Hinv as (H1 & H2 & H3 & H4 & H5). rewrite E in H4.
  unfold draw_flags_inv. ksimpl.
  splits; [| | | apply drawn_once_first; assumption | ..]; apply drawn_once_other; auto.
Qed.

Lemma displayScanResults_draw k :
  draw_flags_inv k -> draw_flags_inv (displayScanResults k).
Proof.
  intros Hinv. unfold displayScanResults.
  assert (H1 : draw_flags_inv
                 (if results_displayed k then k
                  else draw (results_screen (world k)) (set_results_displayed true k))).
  { destruct (results_displayed k) eqn:E; [exact Hinv |].
    destruct Hinv as (H1 & H2 & H3 & H4 & H5). rewrite E in H5.
    unfold draw_flags_inv. ksimpl.
    splits; [| | | | apply drawn_once_first; assumption]; apply drawn_once_other; auto. }
  match goal with |- context [if ?c then draw _ _ else _] => destruct c end; [| exact H1].
  apply draw_other; try reflexivity.
  eapply draw_flags_view; [| exact H1]. reflexivity.
Qed.

Lemma displayError_draw message k : draw_flags_inv k -> draw_flags_inv (displayError message k).
Proof.
  intros Hinv. unfold displayError.
  apply (draw_flags_view (draw (ScrError message) k)); [reflexivity |].
  apply draw_other; auto.
Qed.

Lemma resetToReady_display k : display_view (resetToReady k) = display_view k.
Proof.
  unfold resetToReady.
  match goal with |- context [createNewSession ?k2] =>
    destruct (createNewSession_views k2) as [_ Hd];
    destruct (createNewSession k2) as [sessionId k3] end.
  cbn [snd] in Hd.
  destruct (0 <? String.length sessionId)%nat; ksimpl;
    (etransitivity; [| exact Hd]); reflexivity.
Qed.

Lemma handleButtonPress_display k : display_view (handleButtonPress k) = display_view k.
Proof.
  unfold handleButtonPress.
  destruct (digitalRead_views k) as [_ Hd0].
  destruct (digitalRead k) as [level k0]. cbn [snd] in Hd0.
  destruct (negb level && negb (buttonPressed k0) && (ksince (lastPress k0) k0 >? 300)).
  - set (k1 := set_lastPress (kmillis k0) (set_buttonPressed true k0)).
    assert (Hd1 : display_view k1 = display_view k) by exact Hd0.
    destruct (currentState k1); try exact Hd1.
    destruct (createNewSession_views k1) as [_ Hd2].
    destruct (createNewSession k1) as [sessionId k2]. cbn [snd] in Hd2.
    destruct (0 <? String.length sessionId)%nat;
      (etransitivity; [| exact Hd1]); (etransitivity; [| exact Hd2]); reflexivity.
  - destruct (negb (negb level)); exact Hd0.
Qed.

Lemma handleSessionTimeout_draw k :
  draw_flags_inv k -> draw_flags_inv (handleSessionTimeout k).
Proof.
  intros Hinv. unfold handleSessionTimeout.
  destruct (_ && _); [| exact Hinv].
  destruct (_ >? _); [| exact Hinv].
  eapply draw_flags_view; [apply resetToReady_display |].
  apply (draw_flags_view (displayError "Session timeout - returning to home" k));
    [reflexivity | apply displayError_draw; exact Hinv].
Qed.

Lemma updateKioskState_draw fuel k k' :
  updateKioskState fuel k = Some k' -> draw_flags_inv k -> draw_flags_inv k'.
Proof.
  unfold updateKioskState. intros Hrun Hinv.
  destruct (currentState k).
  - inversion Hrun; subst. now apply displayReadyScreen_draw.
  - pose proof (displayQRCode_draw k Hinv) as H1.
    set (k1 := displayQRCode k) in *. clearbody k1.
    destruct (_ >? _); inversion Hrun; subst; [| exact H1].
    eapply draw_flags_view; [| exact H1]. reflexivity.
  - pose proof (displayPaymentLoading_draw k Hinv) as H1.
    inversion Hrun; subst. eapply draw_flags_view; [| exact H1]. reflexivity.
  - pose proof (displayWaitingPayment_draw k Hinv) as H1.
    set (k1 := displayWaitingPayment k) in *. clearbody k1.
    destruct (_ >? _); [| inversion Hrun; subst; exact H1].
    match type of Hrun with context [checkPaymentStatus ?k2] =>
      destruct (checkPaymentStatus_views k2) as [_ Hd];
      destruct (checkPaymentStatus k2) as [paid k3] end.
    cbn [snd] in Hd.
    assert (H3 : draw_flags_inv k3) by (eapply draw_flags_view; [exact Hd | exact H1]).
    destruct paid; inversion Hrun; subst; [| exact H3].
    eapply draw_flags_view; [| exact H3]. reflexivity.
  - inversion Hrun; subst. now apply displayReadyToScan_draw.
  - pose proof (displayScanning_draw k Hinv) as H1.
    set (k1 := displayScanning false k) in *. clearbody k1.
    destruct (performDiagnosticScan fuel (world k1)) as [w' |]; [| discriminate].
    inversion Hrun; subst. eapply draw_flags_view; [| exact H1]. reflexivity.
  - pose proof (displayScanResults_draw k Hinv) as H1.
    set (k1 := displayScanResults k) in *. clearbody k1.
    match type of Hrun with context [ksince ?a ?b >? ?c] => destruct (ksince a b >? c) end;
      inversion Hrun; subst; [| exact H1].
    eapply draw_flags_view; [apply resetToReady_display | exact H1].
  - destruct (_ >? _); inversion Hrun; subst; [| exact Hinv].
    eapply draw_flags_view; [apply resetToReady_display | exact Hinv].
  - inversion Hrun; subst. exact Hinv.
  - inversion Hrun; subst. exact Hinv.
  - inversion Hrun; subst. exact Hinv.
Qed.

Lemma loop_draw fuel k k' :
  loop fuel k = Some k' -> draw_flags_inv k -> draw_flags_inv k'.
Proof.
  unfold loop. intros Hrun Hinv.
  destruct (updateKioskState fuel (handleButtonPress k)) as [k1 |] eqn:E; [| discriminate].
  inversion Hrun; subst.
  apply (draw_flags_view (handleSessionTimeout k1)); [reflexivity |].
  apply handleSessionTimeout_draw.
  apply (updateKioskState_draw _ _ _ E).
  eapply draw_flags_view; [apply handleButtonPress_display | exact Hinv].
Qed.

Lemma loops_draw fuel :
  forall (n : nat) (k k' : Kiosk),
    loops fuel n k = Some k' -> draw_flags_inv k -> draw_flags_inv k'.
Proof.
  induction n as [| n IH]; intros k k' Hrun Hinv; cbn [loops] in Hrun.
  - inversion Hrun; subst. exact Hinv.
  - destruct (loop fuel k) as [k1 |] eqn:E; [| discriminate].
    apply (IH k1 k' Hrun). apply (loop_draw _ _ _ E Hinv).
Qed.

Lemma setup_draw k : draw_flags_inv k -> draw_flags_inv (setup k).
Proof.
  intros Hinv. unfold setup.
  set (k0 := initializeDisplay (kdelay 1000 k)).
  assert (H0 : draw_flags_inv k0).
  { subst k0. unfold initializeDisplay.
    apply (draw_flags_view (draw ScrStarting k)); [reflexivity |].
    apply draw_other; auto. }
  destruct (initializeWiFi_views k0) as [_ Hd1].
  destruct (initializeCAN_views (initializeWiFi k0)) as [_ Hd2].
  set (k1 := initializeCAN (initializeWiFi k0)) in *. clearbody k1.
  destruct (createNewSession_views k1) as [_ Hd3].
  destruct (createNewSession k1) as [sessionId k2]. cbn [snd] in Hd3.
  assert (H2 : draw_flags_inv k2).
  { eapply draw_flags_view; [| exact H0]. congruence. }
  destruct (0 <? String.length sessionId)%nat;
    (eapply draw_flags_view; [| exact H2]); reflexivity.
Qed.

(** X14. Each of the five screens guarded by a [static bool displayed]
    alone (the QR code, "waiting for payment", "ready to scan",
    "scanning" and the results) is drawn at most once between power-on and
    any later round of [loop], whatever the sessions that come and go:
    nothing clears these flags, [resetToReady] included. *)
Theorem screens_drawn_once (fuel n : nat) (w : World) (wifi : list bool)
    (http : list http_reply) (pins : list bool) :
  (enough_fuel w <= fuel)%nat ->
  exists k,
    loops fuel n (setup (power_on w wifi http pins)) = Some k /\
    (List.length (filter is_qr (screen k)) <= 1)%nat /\
    (List.length (filter is_waiting (screen k)) <= 1)%nat /\
    (List.length (filter is_readyToScan (screen k)) <= 1)%nat /\
    (List.length (filter is_scanning (screen k)) <= 1)%nat /\
    (List.length (filter is_results (screen k)) <= 1)%nat.
Proof.
  intros Hfuel.
  destruct (kiosk_run fuel n w wifi http pins Hfuel) as (k & Hrun & _).
  exists k. split; [exact Hrun |].
  assert (Hinv : draw_flags_inv k).
  { apply (loops_draw _ _ _ _ Hrun). apply setup_draw.
    unfold draw_flags_inv, drawn_once. cbn. lia. }
  destruct Hinv as (H1 & H2 & H3 & H4 & H5). unfold drawn_once in *.
  splits.
  - destruct (qr_displayed k); lia.
  - destruct (waiting_displayed k); lia.
  - destruct (readyToScan_displayed k); lia.
  - destruct (scanning_displayed k); lia.
  - destruct (results_displayed k); lia.
Qed.

Lemma screens_drawn_once_witness :
  exists k,
    loops 447 400 (setup customer_kiosk) = Some k /\
    (List.length (filter is_qr (screen k)) <= 1)%nat.
Proof.
  destruct (screens_drawn_once 447 400 one_code_world (repeat true 8)
              customer_http []) as (k & Hrun & Hqr & _).
  - vm_compute. lia.
  - exists k. split; [exact Hrun | exact Hqr].
Defined.

(** ** Polling the payment *)

Lemma later_refl k : later k k.
Proof. split; [reflexivity | lia]. Qed.

Lemma later_trans k1 k2 k3 : later k1 k2 -> later k2 k3 -> later k1 k3.
Proof. intros [H1 H2] [H3 H4]. split; [congruence | lia]. Qed.

Lemma pay_inv_later k k' : later k k' -> pay_inv k -> pay_inv k'.
Proof.
  intros [Hv Hc] (t & Ht & Hlast & Hall & Hsp & Hid).
  unfold pay_view in Hv. injection Hv as H1 H2.
  exists t. unfold payment_checks in *. rewrite H1, H2. splits; auto. lia.
Qed.

Lemma payment_polls_app l1 l2 :
  payment_polls (l1 ++ l2) = (payment_polls l1 ++ payment_polls l2)%list.
Proof. unfold payment_polls. apply filter_app. Qed.

Lemma payment_checks_app l1 l2 :
  payment_checks (l1 ++ l2) = (payment_checks l1 ++ payment_checks l2)%list.
Proof. unfold payment_checks. rewrite payment_polls_app. apply map_app. Qed.

Lemma digitalRead_later k : later k (snd (digitalRead k)).
Proof. unfold later. kunfold. kcases; split; try reflexivity; lia. Qed.

Lemma WiFi_connected_later k : later k (snd (WiFi_connected k)).
Proof. unfold later. kunfold. kcases; split; try reflexivity; lia. Qed.

Lemma http_request_session_later k : later k (snd (http_request CreateSession k)).
Proof.
  unfold later, pay_view, http_request.
  destruct (http_script k) as [| reply rest]; ksimpl;
    rewrite payment_polls_app, app_nil_r; split; try reflexivity; lia.
Qed.

Lemma createNewSession_later k : later k (snd (createNewSession k)).
Proof.
  unfold createNewSession.
  pose proof (WiFi_connected_later k) as H1.
  destruct (WiFi_connected k) as [connected k1]. cbn [snd] in H1.
  destruct (negb connected); [exact H1 |].
  pose proof (http_request_session_later k1) as H2.
  destruct (http_request CreateSession k1) as [reply k2]. cbn [snd] in H2.
  destruct (httpCode reply =? 200); cbn [snd]; eapply later_trans; eauto.
Qed.

Lemma kdelay_later ms k : 0 <= ms -> later k (kdelay ms k).
Proof. intros Hms. split; [reflexivity | ksimpl; lia]. Qed.

Lemma displayReadyScreen_later k : later k (displayReadyScreen k).
Proof.
  unfold displayReadyScreen.
  destruct (ready_displayed k && negb (forceRedraw k)); [apply later_refl |].
  match goal with |- context [WiFi_connected ?k1] =>
    pose proof (WiFi_connected_later k1) as H1;
    destruct (WiFi_connected k1) as [connected k2] end.
  cbn [snd] in H1. destruct H1 as [Hv Hc]. split; [exact Hv | exact Hc].
Qed.

Lemma displayQRCode_later k : later k (displayQRCode k).
Proof.
  unfold displayQRCode. destruct (qr_displayed k); [apply later_refl |].
  split; [reflexivity | ksimpl; lia].
Qed.

Lemma displayPaymentLoading_later k : later k (displayPaymentLoading k).
Proof. split; [reflexivity | cbn; lia]. Qed.

Lemma displayWaitingPayment_later k : later k (displayWaitingPayment k).
Proof.
  unfold displayWaitingPayment. destruct (waiting_displayed k); [apply later_refl |].
  split; [reflexivity | ksimpl; lia].
Qed.

Lemma displayReadyToScan_later b k : later k (displayReadyToScan b k).
Proof.
  unfold displayReadyToScan. destruct (_ && _); [apply later_refl |].
  split; [reflexivity | ksimpl; lia].
Qed.

Lemma displayScanning_later b k : later k (displayScanning b k).
Proof.
  unfold displayScanning. destruct (_ && _); [apply later_refl |].
  split; [reflexivity | ksimpl; lia].
Qed.

Lemma displayScanResults_later k : later k (displayScanResults k).
Proof.
  unfold displayScanResults.
  destruct (results_displayed k); match goal with |- context [if ?c then draw _ _ else _] =>
    destruct c end; split; try reflexivity; ksimpl; lia.
Qed.

Lemma displayError_later message k : later k (displayError message k).
Proof. split; [reflexivity | cbn; lia]. Qed.

Lemma resetToReady_later k : later k (resetToReady k).
Proof.
  unfold resetToReady.
  match goal with |- context [createNewSession ?k2] =>
    pose proof (createNewSession_later k2) as H1;
    destruct (createNewSession k2) as [sessionId k3] end.
  cbn [snd] in H1. destruct H1 as [Hv Hc].
  destruct (0 <? String.length sessionId)%nat; (split; [exact Hv | exact Hc]).
Qed.

Lemma handleButtonPress_later k : later k (handleButtonPress k).
Proof.
  unfold handleButtonPress.
  pose proof (digitalRead_later k) as H0.
  destruct (digitalRead k) as [level k0]. cbn [snd] in H0.
  destruct (negb level && negb (buttonPressed k0) && (ksince (lastPress k0) k0 >? 300)).
  - set (k1 := set_lastPress (kmillis k0) (set_buttonPressed true k0)).
    assert (H1 : later k k1) by (destruct H0 as [Hv Hc]; split; [exact Hv | exact Hc]).
    destruct (currentState k1); try exact H1.
    pose proof (createNewSession_later k1) as H2.
    destruct (createNewSession k1) as [sessionId k2]. cbn [snd] in H2.
    apply (later_trans _ _ _ H1). destruct H2 as [Hv Hc].
    destruct (0 <? String.length sessionId)%nat; (split; [exact Hv | exact Hc]).
  - destruct (negb (negb level)); [| exact H0].
    destruct H0 as [Hv Hc]. split; [exact Hv | exact Hc].
Qed.

Lemma handleSessionTimeout_later k : later k (handleSessionTimeout k).
Proof.
  unfold handleSessionTimeout.
  destruct (_ && _); [| apply later_refl].
  destruct (_ >? _); [| apply later_refl].
  eapply later_trans; [| apply resetToReady_later].
  eapply later_trans; [apply (displayError_later "Session timeout - returning to home") |].
  apply kdelay_later. lia.
Qed.

Lemma spaced_app l x t :
  spaced l -> Forall (fun c => c <= t) l -> t + PAYMENT_POLL_INTERVAL < x ->
  spaced (l ++ [x]).
Proof.
  intros Hsp Hall Hx. induction l as [| a [| b rest] IH].
  - exact I.
  - inversion Hall; subst. cbn. split; [lia | exact I].
  - destruct Hsp as [Hab Hsp]. inversion Hall; subst.
    change (a + PAYMENT_POLL_INTERVAL < b /\ spaced ((b :: rest) ++ [x])).
    split; [exact Hab | apply IH; assumption].
Qed.

Lemma ksince_elapsed t k :
  t <= clock (world k) -> ksince (t mod 2 ^ 32) k <= clock (world k) - t.
Proof.
  intros Ht. unfold ksince, since, millis. rewrite <- Zminus_mod.
  apply Z.mod_le; lia.
Qed.

(** Restarting the interval now. *)
Lemma pay_inv_restart k k' :
  pay_inv k ->
  lastPaymentCheck k' = kmillis k ->
  http_log k' = http_log k ->
  clock (world k) <= clock (world k') ->
  pay_inv k'.
Proof.
  intros (t & Ht & Hlast & Hall & Hsp & Hid) Hl Hlog Hc.
  exists (clock (world k)). rewrite Hl, Hlog. splits; auto.
  eapply Forall_impl; [| exact Hall]. cbn. intros c Hle. lia.
Qed.

(** One poll, made once the interval has passed. *)
Lemma pay_inv_poll k :
  pay_inv k ->
  ksince (lastPaymentCheck k) k > PAYMENT_POLL_INTERVAL ->
  pay_inv (snd (checkPaymentStatus (set_lastPaymentCheck (kmillis k) k))).
Proof.
  intros Hinv Hdue. pose proof Hinv as (t & Ht & Hlast & Hall & Hsp & Hid).
  rewrite Hlast in Hdue. pose proof (ksince_elapsed t k Ht) as Hel.
  unfold checkPaymentStatus. ksimpl.
  destruct (String.length (transactionId k) =? 0)%nat eqn:Eid.
  - cbn [snd]. apply (pay_inv_restart k); auto. ksimpl. lia.
  - unfold http_request. ksimpl.
    assert (Hnew : pay_inv
              (set_http_log (http_log k ++ [(clock (world k), CheckPayment (transactionId k))])
                 (set_lastPaymentCheck (kmillis k) k))).
    { exists (clock (world k)). ksimpl. rewrite payment_checks_app, payment_polls_app.
      change (payment_checks [(clock (world k), CheckPayment (transactionId k))])
        with [clock (world k)].
      change (payment_polls [(clock (world k), CheckPayment (transactionId k))])
        with [(clock (world k), CheckPayment (transactionId k))].
      splits; auto; try lia.
      - apply Forall_app. split; [| repeat constructor; lia].
        eapply Forall_impl; [| exact Hall]. cbn. intros c Hle. lia.
      - apply (spaced_app _ _ t); auto. lia.
      - apply Forall_app. split; [exact Hid |]. constructor; [| constructor].
        cbn [snd]. intros H. injection H as H. rewrite H in Eid. discriminate Eid. }
    destruct (http_script k) as [| reply rest]; ksimpl.
    + destruct (httpCode failed_reply =? 200); [destruct (reply_paid failed_reply) |];
        exact Hnew.
    + assert (Hdone : pay_inv
                (kdelay (Z.of_N (reply_ms reply))
                   (set_http_script rest
                      (set_http_log
                         (http_log k ++ [(clock (world k), CheckPayment (transactionId k))])
                         (set_lastPaymentCheck (kmillis k) k))))).
      { eapply pay_inv_later; [| exact Hnew]. split; [reflexivity | ksimpl; lia]. }
      destruct (httpCode reply =? 200); [destruct (reply_paid reply) |]; exact Hdone.
Qed.

Lemma updateKioskState_pay fuel k k' :
  updateKioskState fuel k = Some k' -> pay_inv k -> pay_inv k'.
Proof.
  unfold updateKioskState. intros Hrun Hinv.
  destruct (currentState k).
  - inversion Hrun; subst. eapply pay_inv_later; [apply displayReadyScreen_later | exact Hinv].
  - pose proof (pay_inv_later _ _ (displayQRCode_later k) Hinv) as H1.
    set (k1 := displayQRCode k) in *. clearbody k1.
    destruct (_ >? _); inversion Hrun; subst; [| exact H1].
    apply (pay_inv_restart k1); auto. ksimpl. lia.
  - pose proof (pay_inv_later _ _ (displayPaymentLoading_later k) Hinv) as H1.
    inversion Hrun; subst. eapply pay_inv_later; [| exact H1].
    split; [reflexivity | ksimpl; lia].
  - pose proof (pay_inv_later _ _ (displayWaitingPayment_later k) Hinv) as H1.
    set (k1 := displayWaitingPayment k) in *. clearbody k1.
    destruct (Z.gtb_spec (ksince (lastPaymentCheck k1) k1) PAYMENT_POLL_INTERVAL)
      as [Hdue | _]; [| inversion Hrun; subst; exact H1].
    pose proof (pay_inv_poll k1 H1 ltac:(lia)) as H3.
    destruct (checkPaymentStatus (set_lastPaymentCheck (kmillis k1) k1)) as [paid k3].
    cbn [snd] in H3.
    destruct paid; inversion Hrun; subst; [| exact H3].
    eapply pay_inv_later; [| exact H3]. split; [reflexivity | ksimpl; lia].
  - inversion Hrun; subst. eapply pay_inv_later; [apply displayReadyToScan_later | exact Hinv].
  - pose proof (pay_inv_later _ _ (displayScanning_later false k) Hinv) as H1.
    set (k1 := displayScanning false k) in *. clearbody k1.
    destruct (performDiagnosticScan fuel (world k1)) as [w' |] eqn:Hscan; [| discriminate].
    apply performDiagnosticScan_clock in Hscan. unfold no_earlier in Hscan.
    inversion Hrun; subst. eapply pay_inv_later; [| exact H1].
    split; [reflexivity | ksimpl; lia].
  - pose proof (pay_inv_later _ _ (displayScanResults_later k) Hinv) as H1.
    set (k1 := displayScanResults k) in *. clearbody k1.
    match type of Hrun with context [ksince ?a ?b >? ?c] => destruct (ksince a b >? c) end;
      inversion Hrun; subst; [| exact H1].
    eapply pay_inv_later; [apply resetToReady_later | exact H1].
  - destruct (_ >? _); inversion Hrun; subst; [| exact Hinv].
    eapply pay_inv_later; [apply resetToReady_later | exact Hinv].
  - inversion Hrun; subst. exact Hinv.
  - inversion Hrun; subst. exact Hinv.
  - inversion Hrun; subst. exact Hinv.
Qed.

Lemma loop_pay fuel k k' : loop fuel k = Some k' -> pay_inv k -> pay_inv k'.
Proof.
  unfold loop. intros Hrun Hinv.
  destruct (updateKioskState fuel (handleButtonPress k)) as [k1 |] eqn:E; [| discriminate].
  inversion Hrun; subst.
  eapply pay_inv_later; [apply kdelay_later; lia |].
  eapply pay_inv_later; [apply handleSessionTimeout_later |].
  apply (updateKioskState_pay _ _ _ E).
  eapply pay_inv_later; [apply handleButtonPress_later | exact Hinv].
Qed.

Lemma loops_pay fuel :
  forall (n : nat) (k k' : Kiosk), loops fuel n k = Some k' -> pay_inv k -> pay_inv k'.
Proof.
  induction n as [| n IH]; intros k k' Hrun Hinv; cbn [loops] in Hrun.
  - inversion Hrun; subst. exact Hinv.
  - destruct (loop fuel k) as [k1 |] eqn:E; [| discriminate].
    apply (IH k1 k' Hrun). apply (loop_pay _ _ _ E Hinv).
Qed.

Lemma wifi_wait_later : forall (f : nat) (k : Kiosk), later k (wifi_wait f k).
Proof.
  induction f as [| f IH]; intros k; cbn [wifi_wait]; [apply later_refl |].
  pose proof (WiFi_connected_later k) as H1.
  destruct (WiFi_connected k) as [connected k1]. cbn [snd] in H1.
  destruct (negb connected && (kmillis k1 <? 10000)); [| exact H1].
  eapply later_trans; [exact H1 |].
  eapply later_trans; [apply (kdelay_later 500); lia | apply IH].
Qed.

Lemma initializeCAN_later k : later k (initializeCAN k).
Proof.
  unfold initializeCAN, driver_call, later, pay_view.
  destruct (drv_script (world k)) as [| [|] [| [|] rest]] eqn:E; ksimpl; rewrite ?E; ksimpl;
    split; try reflexivity; lia.
Qed.

Lemma setup_later k : later k (setup k).
Proof.
  unfold setup.
  set (k0 := initializeDisplay (kdelay 1000 k)).
  assert (H0 : later k k0) by (split; [reflexivity | cbn; lia]).
  assert (H1 : later k (initializeCAN (initializeWiFi k0))).
  { eapply later_trans; [exact H0 |].
    eapply later_trans; [| apply initializeCAN_later].
    unfold initializeWiFi.
    eapply later_trans; [apply wifi_wait_later | apply WiFi_connected_later]. }
  set (k1 := initializeCAN (initializeWiFi k0)) in *. clearbody k1.
  pose proof (createNewSession_later k1) as H2.
  destruct (createNewSession k1) as [sessionId k2]. cbn [snd] in H2.
  apply (later_trans _ _ _ H1). destruct H2 as [Hv Hc].
  destruct (0 <? String.length sessionId)%nat; (split; [exact Hv | exact Hc]).
Qed.

(** X15. Polling the payment.  From power-on, after [setup] and any number
    of rounds of [loop], the payment-status requests made so far are more
    than [PAYMENT_POLL_INTERVAL] (3 s) apart, each made later than the one
    before, and none was made for an empty transaction id. *)
Theorem payment_polls_spaced (fuel n : nat) (w : World) (wifi : list bool)
    (http : list http_reply) (pins : list bool) :
  (enough_fuel w <= fuel)%nat ->
  exists k,
    loops fuel n (setup (power_on w wifi http pins)) = Some k /\
    spaced (payment_checks (http_log k)) /\
    Forall (fun c => c <= clock (world k)) (payment_checks (http_log k)) /\
    ~ In (CheckPayment "") (map snd (http_log k)).
Proof.
  intros Hfuel.
  destruct (kiosk_run fuel n w wifi http pins Hfuel) as (k & Hrun & _).
  exists k. split; [exact Hrun |].
  assert (Hinv : pay_inv k).
  { apply (loops_pay _ _ _ _ Hrun).
    eapply pay_inv_later; [apply setup_later |].
    exists 0. cbn. splits; auto. lia. }
  destruct Hinv as (t & Ht & _ & Hall & Hsp & Hid).
  splits; auto.
  - eapply Forall_impl; [| exact Hall]. cbn. intros c Hc. lia.
  - intros Hin. apply in_map_iff in Hin. destruct Hin as (e & He & Hin).
    rewrite Forall_forall in Hid. apply (Hid e); [| exact He].
    unfold payment_polls. apply filter_In. split; [exact Hin |].
    unfold is_poll. rewrite He. reflexivity.
Qed.

Lemma payment_polls_spaced_witness :
  exists k,
    loops 447 400 (setup customer_kiosk) = Some k /\
    spaced (payment_checks (http_log k)).
Proof.
  destruct (payment_polls_spaced 447 400 one_code_world (repeat true 8)
              customer_http []) as (k & Hrun & Hsp & _).
  - vm_compute. lia.
  - exists k. split; [exact Hrun | exact Hsp].
Defined.

(** ** The session time-out *)

Lemma session_untimed_view k k' :
  session_view k' = session_view k -> session_untimed k -> session_untimed k'.
Proof.
  unfold session_view, session_untimed. intros Hv.
  injection Hv as H1 H2 H3 H4 H5 H6 H7 H8. rewrite H1, H8. auto.
Qed.

Lemma display_view_screen k k' : display_view k' = display_view k -> screen k' = screen k.
Proof. unfold display_view. intros Hv. injection Hv as H1 H2 H3 H4 H5 H6. exact H6. Qed.

(** The screens of the state machine are not the error screen. *)
Lemma draw_errors e k :
  is_error e = false -> filter is_error (screen (draw e k)) = filter is_error (screen k).
Proof. intros He. ksimpl. rewrite filter_app. cbn [filter]. rewrite He. apply app_nil_r. Qed.

Lemma displayReadyScreen_errors k :
  filter is_error (screen (displayReadyScreen k)) = filter is_error (screen k).
Proof.
  unfold displayReadyScreen.
  destruct (ready_displayed k && negb (forceRedraw k)); [reflexivity |].
  match goal with |- context [WiFi_connected ?k1] =>
    destruct (WiFi_connected_views k1) as [_ Hd];
    destruct (WiFi_connected k1) as [connected k2] end.
  cbn [snd] in Hd. apply display_view_screen in Hd.
  rewrite draw_errors by reflexivity. rewrite Hd. reflexivity.
Qed.

Lemma displayQRCode_errors k :
  filter is_error (screen (displayQRCode k)) = filter is_error (screen k).
Proof.
  unfold displayQRCode. destruct (qr_displayed k); [reflexivity |].
  rewrite draw_errors by reflexivity. reflexivity.
Qed.

Lemma displayPaymentLoading_errors k :
  filter is_error (screen (displayPaymentLoading k)) = filter is_error (screen k).
Proof.
  unfold displayPaymentLoading.
  change (screen (set_loading_dots (loading_dots k + 1)
                    (draw (ScrPaymentLoading (Z.rem (loading_dots k) 4)) k)))
    with (screen (draw (ScrPaymentLoading (Z.rem (loading_dots k) 4)) k)).
  apply draw_errors. reflexivity.
Qed.

Lemma displayWaitingPayment_errors k :
  filter is_error (screen (displayWaitingPayment k)) = filter is_error (screen k).
Proof.
  unfold displayWaitingPayment. destruct (waiting_displayed k); [reflexivity |].
  rewrite draw_errors by reflexivity. reflexivity.
Qed.

Lemma displayReadyToScan_errors b k :
  filter is_error (screen (displayReadyToScan b k)) = filter is_error (screen k).
Proof.
  unfold displayReadyToScan. destruct (_ && _); [reflexivity |].
  rewrite draw_errors by reflexivity. reflexivity.
Qed.

Lemma displayScanning_errors b k :
  filter is_error (screen (displayScanning b k)) = filter is_error (screen k).
Proof.
  unfold displayScanning. destruct (_ && _); [reflexivity |].
  rewrite draw_errors by reflexivity. reflexivity.
Qed.

Lemma displayScanResults_errors k :
  filter is_error (screen (displayScanResults k)) = filter is_error (screen k).
Proof.
  unfold displayScanResults.
  assert (H1 : filter is_error
                 (screen (if results_displayed k then k
                          else draw (results_screen (world k)) (set_results_displayed true k)))
               = filter is_error (screen k)).
  { destruct (results_displayed k); [reflexivity |].
    rewrite draw_errors by reflexivity. reflexivity. }
  match goal with |- context [if ?c then draw _ _ else _] => destruct c end; [| exact H1].
  rewrite draw_errors by reflexivity. exact H1.
Qed.

Lemma resetToReady_untimed k : session_untimed (resetToReady k).
Proof.
  unfold resetToReady.
  match goal with |- context [createNewSession ?k2] =>
    destruct (createNewSession_views k2) as [Hv _];
    destruct (createNewSession k2) as [sessionId k3] end.
  cbn [snd] in Hv. unfold session_view in Hv. ksimpl.
  injection Hv as H1 H2 H3 H4 H5 H6 H7 H8.
  unfold session_untimed.
  destruct (0 <? String.length sessionId)%nat; ksimpl; exact H8.
Qed.

Lemma resetToReady_state k :
  currentState (resetToReady k) = READY_SCREEN \/ currentState (resetToReady k) = DISPLAY_QR.
Proof.
  unfold resetToReady. destruct (createNewSession _) as [sessionId k3].
  destruct (0 <? String.length sessionId)%nat; ksimpl; auto.
Qed.

Lemma handleButtonPress_untimed k :
  session_untimed k -> session_untimed (handleButtonPress k).
Proof.
  intros Hu. unfold handleButtonPress.
  destruct (digitalRead_views k) as [Hv0 _].
  destruct (digitalRead k) as [level k0]. cbn [snd] in Hv0.
  pose proof (session_untimed_view _ _ Hv0 Hu) as Hu0.
  destruct (negb level && negb (buttonPressed k0) && (ksince (lastPress k0) k0 >? 300)).
  - set (k1 := set_lastPress (kmillis k0) (set_buttonPressed true k0)).
    assert (Hu1 : session_untimed k1) by exact Hu0.
    destruct (currentState k1) eqn:Hst; try exact Hu1.
    + destruct (createNewSession_views k1) as [Hv2 _].
      destruct (createNewSession k1) as [sessionId k2]. cbn [snd] in Hv2.
      unfold session_view in Hv2. injection Hv2 as H1 H2 H3 H4 H5 H6 H7 H8.
      unfold session_untimed in Hu1. rewrite Hst in Hu1.
      destruct (0 <? String.length sessionId)%nat; unfold session_untimed; ksimpl;
        rewrite H8; exact Hu1.
    + exact I.
  - destruct (negb (negb level)); exact Hu0.
Qed.

(** One round of [updateKioskState] from a resting state: no error
    screen, the session clock stays clear where it was clear, and a scan
    about to start has its session clock set to now. *)
Lemma updateKioskState_untimed fuel k k' :
  resting_state (currentState k) = true ->
  updateKioskState fuel k = Some k' ->
  filter is_error (screen k') = filter is_error (screen k) /\
  (session_untimed k ->
   session_untimed k' /\
   (currentState k' = SCANNING -> sessionStartTime k' = kmillis k')).
Proof.
  unfold updateKioskState. intros Hst Hrun.
  destruct (currentState k) eqn:Hs; try discriminate Hst.
  - inversion Hrun; subst. split; [apply displayReadyScreen_errors |].
    intros Hu.
    pose proof (session_untimed_view _ _ (displayReadyScreen_session k) Hu) as Hu1.
    split; [exact Hu1 |].
    pose proof (displayReadyScreen_session k) as Hv. unfold session_view in Hv.
    injection Hv as Hc1 _. intros Hsc. congruence.
  - pose proof (displayQRCode_errors k) as He.
    pose proof (displayQRCode_session k) as Hv.
    unfold session_view in Hv. injection Hv as H1 H2 H3 H4 H5 H6 H7 H8.
    set (k1 := displayQRCode k) in *. clearbody k1.
    destruct (_ >? _); inversion Hrun; subst; (split; [exact He |]);
      unfold session_untimed; rewrite Hs; ksimpl; intros Hu.
    + split; [congruence | discriminate].
    + rewrite H1, Hs. split; [congruence | discriminate].
  - pose proof (displayWaitingPayment_errors k) as He.
    pose proof (displayWaitingPayment_session k) as Hv.
    unfold session_view in Hv. injection Hv as H1 H2 H3 H4 H5 H6 H7 H8.
    set (k1 := displayWaitingPayment k) in *. clearbody k1.
    destruct (_ >? _).
    + match type of Hrun with context [checkPaymentStatus ?k2] =>
        destruct (checkPaymentStatus_views k2) as [Hs3 Hd3];
        destruct (checkPaymentStatus k2) as [paid k3] end.
      cbn [snd] in Hs3, Hd3. apply display_view_screen in Hd3.
      unfold session_view in Hs3. ksimpl.
      injection Hs3 as G1 G2 G3 G4 G5 G6 G7 G8.
      destruct paid; inversion Hrun; subst;
        (split; [ksimpl; rewrite Hd3; exact He |]);
        unfold session_untimed; rewrite Hs; ksimpl; intros Hu.
      * split; [exact I | reflexivity].
      * rewrite G1, H1, Hs. split; [congruence | discriminate].
    + inversion Hrun; subst. split; [exact He |].
      unfold session_untimed. rewrite H1, Hs. intros Hu.
      split; [congruence | discriminate].
  - inversion Hrun; subst. split; [apply displayReadyToScan_errors |].
    pose proof (displayReadyToScan_session false k) as Hv.
    unfold session_view in Hv. injection Hv as H1 H2 H3 H4 H5 H6 H7 H8.
    unfold session_untimed. rewrite H1, Hs. intros Hu.
    split; [congruence | discriminate].
  - pose proof (displayScanning_errors false k) as He.
    set (k1 := displayScanning false k) in *. clearbody k1.
    destruct (performDiagnosticScan fuel (world k1)) as [w' |]; [| discriminate].
    inversion Hrun; subst. split; [exact He |].
    intros _. unfold session_untimed. ksimpl. split; [exact I | discriminate].
  - pose proof (displayScanResults_errors k) as He.
    pose proof (displayScanResults_session k) as Hv.
    unfold session_view in Hv. injection Hv as H1 H2 H3 H4 H5 H6 H7 H8.
    set (k1 := displayScanResults k) in *. clearbody k1.
    match type of Hrun with context [ksince ?a ?b >? ?c] => destruct (ksince a b >? c) end;
      inversion Hrun; subst.
    + split.
      * rewrite (display_view_screen _ _ (resetToReady_display k1)). exact He.
      * intros _. split; [apply resetToReady_untimed |].
        intros Hsc. exfalso.
        destruct (resetToReady_state k1) as [E | E]; congruence.
    + split; [exact He |]. intros _.
      unfold session_untimed. rewrite H1, Hs. split; [exact I | discriminate].
Qed.

Lemma ksince_now k : ksince (kmillis k) k = 0.
Proof. unfold ksince, kmillis. apply since_millis. Qed.

(** With the session clock clear, or just set, the time-out does not fire. *)
Lemma handleSessionTimeout_quiet k :
  session_untimed k ->
  (currentState k = SCANNING -> sessionStartTime k = kmillis k) ->
  handleSessionTimeout k = k.
Proof.
  unfold handleSessionTimeout, session_untimed. intros Hu Hsc.
  destruct (currentState k); try reflexivity.
  - rewrite Hu. reflexivity.
  - rewrite Hu. reflexivity.
  - rewrite (Hsc eq_refl), ksince_now.
    destruct (kmillis k >? 0); reflexivity.
Qed.

(** When it fires, it draws one error screen and clears the session clock. *)
Lemma handleSessionTimeout_fires k :
  handleSessionTimeout k = k \/
  (filter is_error (screen (handleSessionTimeout k)) =
   (filter is_error (screen k) ++ [ScrError "Session timeout - returning to home"])%list /\
   session_untimed (handleSessionTimeout k)).
Proof.
  unfold handleSessionTimeout.
  destruct (_ && _); [| left; reflexivity].
  destruct (_ >? _); [| left; reflexivity].
  right. split; [| apply resetToReady_untimed].
  rewrite (display_view_screen _ _ (resetToReady_display _)).
  unfold displayError. ksimpl. rewrite filter_app. reflexivity.
Qed.

Lemma loop_timeout fuel k k' :
  kiosk_inv k ->
  loop fuel k = Some k' -> timeout_inv k -> timeout_inv k'.
Proof.
  unfold loop. intros Hinv Hrun [Hle Hone].
  destruct (updateKioskState fuel (handleButtonPress k)) as [k1 |] eqn:E; [| discriminate].
  inversion Hrun; subst. clear Hrun.
  pose proof (display_view_screen _ _ (handleButtonPress_display k)) as Hscr0.
  destruct (handleButtonPress_inv k Hinv) as [(Hrest0 & _) _].
  destruct (updateKioskState_untimed _ _ _ Hrest0 E) as [Herr1 Hu1].
  rewrite Hscr0 in Herr1.
  unfold timeout_inv. ksimpl.
  destruct (Nat.eq_dec (List.length (filter is_error (screen k))) 1) as [Heq | Hne].
  - destruct (Hu1 (handleButtonPress_untimed k (Hone Heq))) as [Hu Hsc].
    rewrite (handleSessionTimeout_quiet k1 Hu Hsc), Herr1.
    split; [exact Hle | intros _; exact Hu].
  - destruct (handleSessionTimeout_fires k1) as [Hsame | [Hfire Hu]].
    + rewrite Hsame, Herr1. split; [exact Hle | intros H; contradiction].
    + rewrite Hfire, Herr1, length_app. cbn [List.length].
      split; [lia | intros _; exact Hu].
Qed.

Lemma loops_timeout fuel :
  forall (n : nat) (k : Kiosk),
    (enough_fuel (world k) <= fuel)%nat ->
    kiosk_inv k -> timeout_inv k ->
    exists k', loops fuel n k = Some k' /\ timeout_inv k'.
Proof.
  induction n as [| n IH]; intros k Hfuel Hinv Ht.
  - exists k. auto.
  - destruct (loop_inv fuel k Hfuel Hinv) as (k1 & Hrun & Hinv1 & Hfuel1).
    cbn [loops]. rewrite Hrun. apply IH; auto.
    apply (loop_timeout _ _ _ Hinv Hrun Ht).
Qed.

Lemma setup_screen k : screen (setup k) = (screen k ++ [ScrStarting])%list.
Proof.
  unfold setup.
  set (k0 := initializeDisplay (kdelay 1000 k)).
  destruct (initializeWiFi_views k0) as [_ Hd1].
  destruct (initializeCAN_views (initializeWiFi k0)) as [_ Hd2].
  set (k1 := initializeCAN (initializeWiFi k0)) in *. clearbody k1.
  destruct (createNewSession_views k1) as [_ Hd3].
  destruct (createNewSession k1) as [sessionId k2]. cbn [snd] in Hd3.
  assert (Hscr : screen k2 = screen k0).
  { apply display_view_screen. congruence. }
  destruct (0 <? String.length sessionId)%nat; ksimpl; rewrite Hscr; reflexivity.
Qed.

(** X17. The session time-out fires at most once after power-on: in any
    run of [setup] and rounds of [loop], the error screen is drawn at most
    once, and once it has been drawn the session clock is clear whenever
    the kiosk is in READY_SCREEN, DISPLAY_QR, WAITING_PAYMENT or
    READY_TO_SCAN ([resetToReady] clears [sessionStartTime] and only a
    confirmed payment sets it again, for the scan that starts at once), so
    a later session is never timed out. *)
Theorem session_timeout_once (fuel n : nat) (w : World) (wifi : list bool)
    (http : list http_reply) (pins : list bool) :
  (enough_fuel w <= fuel)%nat ->
  exists k,
    loops fuel n (setup (power_on w wifi http pins)) = Some k /\
    (List.length (filter is_error (screen k)) <= 1)%nat /\
    (List.length (filter is_error (screen k)) = 1%nat ->
     (currentState k = READY_SCREEN \/ currentState k = DISPLAY_QR \/
      currentState k = WAITING_PAYMENT \/ currentState k = READY_TO_SCAN) ->
     sessionStartTime k = 0 /\ handleSessionTimeout k = k).
Proof.
  intros Hfuel.
  destruct (setup_inv (power_on w wifi http pins)) as [Hinv Hrx];
    [reflexivity | apply results_consistent_clear |].
  destruct (loops_timeout fuel n (setup (power_on w wifi http pins))) as (k & Hrun & Hle & Hone).
  - unfold enough_fuel in *. rewrite Hrx. exact Hfuel.
  - exact Hinv.
  - unfold timeout_inv. rewrite setup_screen. cbn. split; [lia | discriminate].
  - exists k. split; [exact Hrun |]. split; [exact Hle |].
    intros H1 Hst. specialize (Hone H1).
    assert (Hs0 : sessionStartTime k = 0).
    { unfold session_untimed in Hone.
      destruct Hst as [E | [E | [E | E]]]; rewrite E in Hone; exact Hone. }
    split; [exact Hs0 |].
    apply handleSessionTimeout_quiet; [exact Hone |].
    intros E. destruct Hst as [E' | [E' | [E' | E']]]; congruence.
Qed.

Lemma session_timeout_once_witness :
  exists k,
    loops 102 (61 * 100) (setup abandoned_kiosk) = Some k /\
    (List.length (filter is_error (screen k)) <= 1)%nat.
Proof.
  destruct (session_timeout_once 102 (61 * 100) quiet_world (repeat true 8) abandoned_http [])
    as (k & Hrun & Hle & _).
  - vm_compute. lia.
  - exists k. split; [exact Hrun | exact Hle].
Defined.

(** ** Sample runs *)

(** The customer of [customer_kiosk] pays at the second poll; the scan
    runs, its results are shown, and after ten seconds the kiosk resets
    (the server has no further session to give). *)
Example customer_polls :
  option_map (fun k => (currentState k, http_log k))
             (loops 447 (3 * 100) (setup customer_kiosk))
  = Some (DISPLAY_RESULTS,
          [(3000, CreateSession); (11400, CheckPayment "T1"); (14450, CheckPayment "T1")]).
Proof. vm_compute. reflexivity. Qed.

(** The first session of [abandoned_kiosk] times out after five minutes;
    the second one is still waiting for its payment six minutes later, and
    its QR code was never drawn. *)
Example abandoned_first_session :
  option_map kiosk_summary (loops 102 (61 * 100) (setup abandoned_kiosk))
  = Some (WAITING_PAYMENT, "T2"%string, 0,
          [ScrQRCode "https://obd2ai-webapp-805f8e39122c.herokuapp.com/T1"],
          [ScrError "Session timeout - returning to home"]).
Proof. vm_compute. reflexivity. Qed.

Example abandoned_second_session :
  option_map kiosk_summary (loops 102 (140 * 100) (setup abandoned_kiosk))
  = Some (WAITING_PAYMENT, "T2"%string, 0,
          [ScrQRCode "https://obd2ai-webapp-805f8e39122c.herokuapp.com/T1"],
          [ScrError "Session timeout - returning to home"]).
Proof. vm_compute. reflexivity. Qed.

(** ** Payments and scans *)

(** The request made next takes the reply at the head of the script. *)
Lemma combine_served {A B : Type} (e : A) :
  forall (log : list A) (http s : list B),
    http = (firstn (List.length log) http ++ s)%list ->
    combine (log ++ [e]) http =
      (combine log http ++ match s with [] => [] | r :: _ => [(e, r)] end)%list /\
    http = (firstn (List.length (log ++ [e])) http ++ tl s)%list.
Proof.
  induction log as [| a log IH]; intros http s H.
  - cbn in H. subst http. destruct s; cbn; auto.
  - destruct http as [| b http].
    + destruct s; [cbn; auto | discriminate H].
    + cbn in H. injection H as H.
      destruct (IH http s H) as [Hc Hs]. cbn. rewrite Hc. split; [reflexivity |].
      f_equal. exact Hs.
Qed.

Lemma ledger_view_fields k k' :
  ledger_view k' = ledger_view k ->
  http_log k' = http_log k /\ http_script k' = http_script k /\
  pin_script k' = pin_script k /\ progress (world k') = progress (world k).
Proof. unfold ledger_view. intros H. injection H as H1 H2 H3 H4. auto. Qed.

Lemma http_request_ledger http call k :
  served http k ->
  served http (snd (http_request call k)) /\
  confirmed_payments (http_log (snd (http_request call k))) http =
    (confirmed_payments (http_log k) http +
     (if confirms ((clock (world k), call), fst (http_request call k)) then 1 else 0))%nat /\
  pin_script (snd (http_request call k)) = pin_script k /\
  progress (world (snd (http_request call k))) = progress (world k).
Proof.
  unfold served, confirmed_payments. intros Hs.
  destruct (combine_served (clock (world k), call) _ _ _ Hs) as [Hc Hs'].
  unfold http_request.
  destruct (http_script k) as [| reply rest] eqn:E; ksimpl; rewrite ?E, Hc; cbn [tl] in Hs'.
  - split; [exact Hs' |]. split; [| auto]. rewrite app_nil_r.
    unfold confirms. cbn [fst snd failed_reply httpCode]. destruct call; cbn; lia.
  - split; [exact Hs' |]. split; [| auto].
    rewrite filter_app, length_app. cbn [filter].
    destruct (confirms (clock (world k), call, reply)); reflexivity.
Qed.

Lemma WiFi_connected_ledger k : ledger_view (snd (WiFi_connected k)) = ledger_view k.
Proof. kunfold. kcases; reflexivity. Qed.

Lemma createNewSession_ledger http k :
  served http k ->
  served http (snd (createNewSession k)) /\
  confirmed_payments (http_log (snd (createNewSession k))) http =
    confirmed_payments (http_log k) http /\
  pin_script (snd (createNewSession k)) = pin_script k /\
  progress (world (snd (createNewSession k))) = progress (world k).
Proof.
  intros Hs. unfold createNewSession.
  destruct (ledger_view_fields _ _ (WiFi_connected_ledger k)) as (H1 & H2 & H3 & H4).
  destruct (WiFi_connected k) as [connected k1]. cbn [snd] in *.
  assert (Hs1 : served http k1) by (unfold served; rewrite H1, H2; exact Hs).
  destruct (negb connected); cbn [snd].
  - rewrite H1. auto.
  - destruct (http_request_ledger http CreateSession k1 Hs1) as (G1 & G2 & G3 & G4).
    destruct (http_request CreateSession k1) as [reply k2]. cbn [fst snd] in *.
    assert (Hc : confirms (clock (world k1), CreateSession, reply) = false) by reflexivity.
    rewrite Hc, Nat.add_0_r in G2.
    destruct (httpCode reply =? 200); cbn [snd]; rewrite G2, G3, G4, H1, H3, H4; auto.
Qed.

Lemma checkPaymentStatus_ledger http k :
  served http k ->
  served http (snd (checkPaymentStatus k)) /\
  confirmed_payments (http_log (snd (checkPaymentStatus k))) http =
    (confirmed_payments (http_log k) http +
     (if fst (checkPaymentStatus k) then 1 else 0))%nat /\
  pin_script (snd (checkPaymentStatus k)) = pin_script k /\
  progress (world (snd (checkPaymentStatus k))) = progress (world k).
Proof.
  intros Hs. unfold checkPaymentStatus.
  destruct (String.length (transactionId k) =? 0)%nat; cbn [fst snd].
  - rewrite Nat.add_0_r. auto.
  - destruct (http_request_ledger http (CheckPayment (transactionId k)) k Hs)
      as (G1 & G2 & G3 & G4).
    destruct (http_request (CheckPayment (transactionId k)) k) as [reply k1].
    cbn [fst snd] in *. unfold confirms in G2. cbn [fst snd] in G2.
    destruct (httpCode reply =? 200); [destruct (reply_paid reply) |];
      cbn [fst snd andb] in *; auto.
Qed.

(** *** The screens leave the ledger alone *)

Lemma displayReadyScreen_ledger k : ledger_view (displayReadyScreen k) = ledger_view k.
Proof. unfold displayReadyScreen. kunfold. kcases; reflexivity. Qed.

Lemma displayQRCode_ledger k : ledger_view (displayQRCode k) = ledger_view k.
Proof. unfold displayQRCode. kcases; reflexivity. Qed.

Lemma displayWaitingPayment_ledger k : ledger_view (displayWaitingPayment k) = ledger_view k.
Proof. unfold displayWaitingPayment. kcases; reflexivity. Qed.

Lemma displayScanning_ledger b k : ledger_view (displayScanning b k) = ledger_view k.
Proof. unfold displayScanning. kcases; reflexivity. Qed.

Lemma displayScanResults_ledger k : ledger_view (displayScanResults k) = ledger_view k.
Proof. unfold displayScanResults. kcases; reflexivity. Qed.

Lemma displayPaymentLoading_ledger k :
  ledger_view (displayPaymentLoading k) = ledger_view k.
Proof. reflexivity. Qed.

Lemma displayReadyToScan_ledger b k : ledger_view (displayReadyToScan b k) = ledger_view k.
Proof. unfold displayReadyToScan. kcases; reflexivity. Qed.

(** *** The count of payments and scans *)

Lemma paid_inv_quiet http base k k' :
  paid_inv http base k ->
  ledger_view k' = ledger_view k ->
  scan_pending k = 0%nat -> scan_pending k' = 0%nat ->
  currentState k' <> READY_TO_SCAN ->
  paid_inv http base k'.
Proof.
  intros (Hs & Hp & Hst & Hn) Hv H0 H0' Hst'.
  apply ledger_view_fields in Hv. destruct Hv as (H1 & H2 & H3 & H4).
  unfold paid_inv, served, scans_started in *. rewrite H1, H2, H3, H4, H0'.
  rewrite H0 in Hn. auto.
Qed.

Lemma session_view_state k k' :
  session_view k' = session_view k -> currentState k' = currentState k.
Proof. unfold session_view. intros Hv. injection Hv as H1 H2 H3 H4 H5 H6 H7 H8. exact H1. Qed.

(** A scan reports "Detecting vehicle..." at 0 once. *)
Lemma scan_starts_once fuel w w' :
  (enough_fuel w <= fuel)%nat ->
  performDiagnosticScan fuel w = Some w' ->
  scans_started w' = S (scans_started w).
Proof.
  intros Hfuel Hrun.
  destruct (performDiagnosticScan_outcomes fuel w Hfuel)
    as (w2 & ps & Hrun2 & Hps & _ & _ & _ & Hcases).
  rewrite Hrun in Hrun2. injection Hrun2 as <-.
  unfold scans_started. rewrite Hps, filter_app, length_app.
  assert (Hone : List.length (filter is_scan_start ps) = 1%nat); [| lia].
  destruct Hcases as [(-> & _) | (qs & -> & Hqs & _)];
    try reflexivity.
  assert (Hnone : filter is_scan_start qs = []).
  { clear -Hqs. induction Hqs as [| p qs Hp _ IH]; [reflexivity |].
    cbn [filter]. rewrite IH. unfold is_scan_start.
    destruct (Z.eqb_spec (snd p) 0) as [E | _]; [| rewrite andb_false_r; reflexivity].
    rewrite E in Hp. cbn in Hp. lia. }
  rewrite !filter_app, Hnone. reflexivity.
Qed.

Lemma resetToReady_ledger http k :
  served http k ->
  served http (resetToReady k) /\
  confirmed_payments (http_log (resetToReady k)) http = confirmed_payments (http_log k) http /\
  pin_script (resetToReady k) = pin_script k /\
  progress (world (resetToReady k)) = progress (world k) /\
  scan_pending (resetToReady k) = 0%nat /\
  currentState (resetToReady k) <> READY_TO_SCAN.
Proof.
  intros Hs. unfold resetToReady.
  match goal with |- context [createNewSession ?k2] =>
    assert (Hs2 : served http k2) by exact Hs;
    destruct (createNewSession_ledger http k2 Hs2) as (G1 & G2 & G3 & G4);
    destruct (createNewSession k2) as [sessionId k3] end.
  cbn [snd] in *. unfold served, scan_pending in *.
  destruct (0 <? String.length sessionId)%nat; ksimpl; splits; auto; discriminate.
Qed.

(** A step that makes no status request and ends outside SCANNING and
    READY_TO_SCAN. *)
Lemma paid_inv_step http base k k2 :
  paid_inv http base k -> scan_pending k = 0%nat ->
  served http k2 ->
  confirmed_payments (http_log k2) http = confirmed_payments (http_log k) http ->
  pin_script k2 = pin_script k ->
  progress (world k2) = progress (world k) ->
  scan_pending k2 = 0%nat ->
  currentState k2 <> READY_TO_SCAN ->
  paid_inv http base k2 /\ currentState k2 <> SCANNING.
Proof.
  intros (Hs & Hp & Hst & Hn) H0 G1 G2 G3 G4 G5 G6.
  split.
  - unfold paid_inv, scans_started in *. rewrite G2, G3, G4, G5. rewrite H0 in Hn. auto.
  - intros E. unfold scan_pending in G5. rewrite E in G5. discriminate G5.
Qed.

Lemma resetToReady_paid http base k :
  paid_inv http base k -> scan_pending k = 0%nat ->
  paid_inv http base (resetToReady k) /\ currentState (resetToReady k) <> SCANNING.
Proof.
  intros Hinv H0. pose proof Hinv as (Hs & _).
  destruct (resetToReady_ledger http k Hs) as (G1 & G2 & G3 & G4 & G5 & G6).
  exact (paid_inv_step http base k (resetToReady k) Hinv H0 G1 G2 G3 G4 G5 G6).
Qed.

(** Nobody at the button: [handleButtonPress] changes neither the state
    nor the ledger. *)
Lemma handleButtonPress_idle k :
  button_idle (pin_script k) ->
  currentState (handleButtonPress k) = currentState k /\
  http_log (handleButtonPress k) = http_log k /\
  http_script (handleButtonPress k) = http_script k /\
  progress (world (handleButtonPress k)) = progress (world k) /\
  button_idle (pin_script (handleButtonPress k)).
Proof.
  intros Hp. unfold handleButtonPress, digitalRead.
  destruct (pin_script k) as [| level rest] eqn:E.
  - cbn. rewrite E. splits; auto.
  - inversion Hp as [| ? ? Hl Hr]; subst. cbn. splits; auto.
Qed.

Lemma handleButtonPress_paid http base k :
  paid_inv http base k -> paid_inv http base (handleButtonPress k).
Proof.
  intros (Hs & Hp & Hst & Hn).
  destruct (handleButtonPress_idle k Hp) as (H1 & H2 & H3 & H4 & H5).
  unfold paid_inv, served, scans_started, scan_pending in *.
  rewrite H1, H2, H3, H4. auto.
Qed.

(** One round of [updateKioskState]: a scan that starts was paid for, a
    scan that was pending has run, and the session clock of a scan about
    to start reads now. *)
Lemma updateKioskState_paid fuel http base k k' :
  (enough_fuel (world k) <= fuel)%nat ->
  paid_inv http base k ->
  updateKioskState fuel k = Some k' ->
  paid_inv http base k' /\
  (currentState k' = SCANNING -> sessionStartTime k' = kmillis k').
Proof.
  unfold updateKioskState. intros Hfuel Hinv Hrun.
  pose proof Hinv as (Hs & Hp & Hst & Hn).
  destruct (currentState k) eqn:Hc; try contradiction.
  - inversion Hrun; subst.
    pose proof (session_view_state _ _ (displayReadyScreen_session k)) as Hc1.
    split; [| intros E; congruence].
    apply (paid_inv_quiet _ _ k); auto using displayReadyScreen_ledger;
      unfold scan_pending; rewrite ?Hc1, Hc; auto; discriminate.
  - pose proof (displayQRCode_ledger k) as Hv.
    pose proof (session_view_state _ _ (displayQRCode_session k)) as Hc1.
    remember (displayQRCode k) as k1 eqn:Ek1 in *. clear Ek1.
    destruct (_ >? _); inversion Hrun; subst; (split; [| ksimpl; intros E; congruence]);
      apply (paid_inv_quiet _ _ k); auto;
      unfold scan_pending; ksimpl; rewrite ?Hc1, ?Hc; auto; discriminate.
  - inversion Hrun; subst. split; [| ksimpl; discriminate].
    apply (paid_inv_quiet _ _ k); auto; unfold scan_pending; ksimpl; rewrite ?Hc; auto;
      discriminate.
  - pose proof (displayWaitingPayment_ledger k) as Hv.
    pose proof (session_view_state _ _ (displayWaitingPayment_session k)) as Hc1.
    remember (displayWaitingPayment k) as k1 eqn:Ek1 in *. clear Ek1.
    assert (Hinv1 : paid_inv http base k1).
    { apply (paid_inv_quiet _ _ k); auto; unfold scan_pending; rewrite ?Hc1, Hc; auto;
        discriminate. }
    destruct (_ >? _).
    + match type of Hrun with context [checkPaymentStatus ?k2] =>
        assert (Hinv2 : paid_inv http base k2) by exact Hinv1;
        assert (Hc2 : currentState k2 = WAITING_PAYMENT) by (ksimpl; congruence);
        destruct (checkPaymentStatus_views k2) as [Hsv _];
        destruct Hinv2 as (Hs2 & Hp2 & Hst2 & Hn2);
        destruct (checkPaymentStatus_ledger http k2 Hs2) as (G1 & G2 & G3 & G4);
        set (k2' := k2) in *; clearbody k2';
        destruct (checkPaymentStatus k2') as [paid k3] end.
      cbn [fst snd] in *. apply session_view_state in Hsv.
      unfold paid_inv, served, scans_started, scan_pending in *.
      rewrite Hc2 in Hn2.
      destruct paid; inversion Hrun; subst; ksimpl;
        rewrite ?Hsv, ?Hc2, G2, G3, G4;
        (split; [| intros E; first [reflexivity | congruence]]);
        splits; auto; try discriminate; lia.
    + inversion Hrun; subst. split; [exact Hinv1 | intros E; congruence].
  - pose proof (displayScanning_ledger false k) as Hv.
    pose proof (displayScanning_session false k) as Hsv.
    pose proof (session_view_rx _ _ Hsv) as Hrx.
    remember (displayScanning false k) as k1 eqn:Ek1 in *. clear Ek1.
    apply ledger_view_fields in Hv. destruct Hv as (H1 & H2 & H3 & H4).
    destruct (performDiagnosticScan fuel (world k1)) as [w' |] eqn:E; [| discriminate].
    assert (Hone : scans_started w' = S (scans_started (world k1))).
    { apply (scan_starts_once fuel); [| exact E].
      unfold enough_fuel in *. rewrite Hrx. exact Hfuel. }
    inversion Hrun; subst. split; [| ksimpl; discriminate].
    unfold paid_inv, served, scan_pending in *. ksimpl.
    rewrite Hone, H1, H2, H3. rewrite Hc in Hn.
    unfold scans_started in *. rewrite H4.
    splits; auto; try discriminate; lia.
  - pose proof (displayScanResults_ledger k) as Hv.
    pose proof (session_view_state _ _ (displayScanResults_session k)) as Hc1.
    remember (displayScanResults k) as k1 eqn:Ek1 in *. clear Ek1.
    assert (Hinv1 : paid_inv http base k1).
    { apply (paid_inv_quiet _ _ k); auto; unfold scan_pending; rewrite ?Hc1, Hc; auto;
        discriminate. }
    match type of Hrun with context [ksince ?a ?b >? ?c] => destruct (ksince a b >? c) end;
      injection Hrun as <-.
    + assert (H01 : scan_pending k1 = 0%nat) by (unfold scan_pending; rewrite Hc1, Hc; reflexivity).
      destruct (resetToReady_paid http base k1 Hinv1 H01) as [Hr Hns].
      split; [exact Hr | intros E; contradiction].
    + split; [exact Hinv1 | intros E; congruence].
  - destruct (_ >? _); injection Hrun as <-.
    + assert (H0 : scan_pending k = 0%nat) by (unfold scan_pending; rewrite Hc; reflexivity).
      destruct (resetToReady_paid http base k Hinv H0) as [Hr Hns].
      split; [exact Hr | intros E; contradiction].
    + split; [exact Hinv | intros E; congruence].
  - inversion Hrun; subst. split; [exact Hinv | intros E; congruence].
  - inversion Hrun; subst. split; [exact Hinv | intros E; congruence].
  - inversion Hrun; subst. split; [exact Hinv | intros E; congruence].
Qed.

(** The time-out of a session does not touch the count: it fires only
    while the kiosk waits for a payment. *)
Lemma handleSessionTimeout_paid http base k :
  paid_inv http base k ->
  (currentState k = SCANNING -> sessionStartTime k = kmillis k) ->
  paid_inv http base (handleSessionTimeout k).
Proof.
  intros Hinv Hnow. pose proof Hinv as (Hs & Hp & Hst & Hn).
  unfold handleSessionTimeout.
  destruct (currentState k) eqn:Hc; cbn [andb]; try exact Hinv; try contradiction.
  - destruct (sessionStartTime k >? 0); [| exact Hinv].
    destruct (_ >? _); [| exact Hinv].
    assert (Hinv1 : paid_inv http base
                      (kdelay 2000 (displayError "Session timeout - returning to home" k))).
    { apply (paid_inv_quiet _ _ k); auto; try reflexivity.
      - unfold scan_pending. rewrite Hc. reflexivity.
      - ksimpl. discriminate. }
    apply (resetToReady_paid http base _ Hinv1 eq_refl).
  - rewrite (Hnow eq_refl), ksince_now.
    destruct (kmillis k >? 0); exact Hinv.
Qed.

Lemma loop_paid fuel http base k k' :
  (enough_fuel (world k) <= fuel)%nat ->
  kiosk_inv k ->
  paid_inv http base k ->
  loop fuel k = Some k' ->
  paid_inv http base k'.
Proof.
  unfold loop. intros Hfuel Hinv Hpaid Hrun.
  destruct (updateKioskState fuel (handleButtonPress k)) as [k1 |] eqn:E; [| discriminate].
  inversion Hrun; subst. clear Hrun.
  destruct (handleButtonPress_inv k Hinv) as [_ Hrx].
  destruct (updateKioskState_paid fuel http base _ _
              ltac:(unfold enough_fuel in *; rewrite Hrx; exact Hfuel)
              (handleButtonPress_paid _ _ _ Hpaid) E) as [Hpaid1 Hnow].
  exact (handleSessionTimeout_paid _ _ _ Hpaid1 Hnow).
Qed.

Lemma loops_paid fuel http base :
  forall (n : nat) (k : Kiosk),
    (enough_fuel (world k) <= fuel)%nat ->
    kiosk_inv k -> paid_inv http base k ->
    exists k', loops fuel n k = Some k' /\ paid_inv http base k'.
Proof.
  induction n as [| n IH]; intros k Hfuel Hinv Hpaid.
  - exists k. auto.
  - destruct (loop_inv fuel k Hfuel Hinv) as (k1 & Hrun & Hinv1 & Hfuel1).
    cbn [loops]. rewrite Hrun. apply IH; auto.
    apply (loop_paid _ _ _ _ _ Hfuel Hinv Hpaid Hrun).
Qed.

(** Start-up makes one request, for the session. *)
Lemma wifi_wait_ledger :
  forall (f : nat) (k : Kiosk), ledger_view (wifi_wait f k) = ledger_view k.
Proof.
  induction f as [| f IH]; intros k; cbn [wifi_wait]; [reflexivity |].
  pose proof (WiFi_connected_ledger k) as Hv.
  destruct (WiFi_connected k) as [connected k1]. cbn [snd] in Hv.
  destruct (negb connected && (kmillis k1 <? 10000)); [| exact Hv].
  rewrite IH, <- Hv. reflexivity.
Qed.

Lemma initializeWiFi_ledger k : ledger_view (initializeWiFi k) = ledger_view k.
Proof.
  unfold initializeWiFi. rewrite WiFi_connected_ledger. apply wifi_wait_ledger.
Qed.

Lemma initializeCAN_ledger k : ledger_view (initializeCAN k) = ledger_view k.
Proof.
  unfold initializeCAN, driver_call.
  destruct (drv_script (world k)) as [| [|] [| [|] rest]] eqn:E; ksimpl; rewrite ?E; ksimpl;
    reflexivity.
Qed.

Lemma setup_paid http k :
  http_log k = [] -> http_script k = http ->
  button_idle (pin_script k) ->
  paid_inv http (scans_started (world k)) (setup k).
Proof.
  intros Hlog Hscript Hp. unfold setup.
  set (k0 := initializeDisplay (kdelay 1000 k)).
  assert (Hv0 : ledger_view k0 = ledger_view k) by reflexivity.
  pose proof (initializeWiFi_ledger k0) as Hv1.
  pose proof (initializeCAN_ledger (initializeWiFi k0)) as Hv2.
  remember (initializeCAN (initializeWiFi k0)) as k1 eqn:Ek1 in *. clear Ek1.
  assert (Hv : ledger_view k1 = ledger_view k) by congruence.
  apply ledger_view_fields in Hv. destruct Hv as (H1 & H2 & H3 & H4).
  assert (Hs1 : served http k1).
  { unfold served. rewrite H1, H2, Hlog, Hscript. reflexivity. }
  destruct (createNewSession_ledger http k1 Hs1) as (G1 & G2 & G3 & G4).
  destruct (createNewSession k1) as [sessionId k2]. cbn [snd] in *.
  unfold paid_inv, served, scans_started, scan_pending in *.
  rewrite H1, Hlog in G2. cbn in G2.
  destruct (0 <? String.length sessionId)%nat; ksimpl;
    rewrite G2, G3, G4, H3, H4; splits; auto; discriminate.
Qed.

(** X18. Scans and payments.  With nobody at the button, from power-on,
    after [setup] and any number of rounds of [loop]: the scans started so
    far, and the one about to start when the kiosk is in SCANNING, are as
    many as the status requests the server has answered 200 with [paid];
    so every confirmed payment starts one scan and no scan starts without
    one.  The kiosk is never in READY_TO_SCAN. *)
Theorem scans_follow_payments (fuel n : nat) (w : World) (wifi : list bool)
    (http : list http_reply) (pins : list bool) :
  (enough_fuel w <= fuel)%nat ->
  button_idle pins ->
  exists k,
    loops fuel n (setup (power_on w wifi http pins)) = Some k /\
    (scans_started (world k) + scan_pending k =
     scans_started w + confirmed_payments (http_log k) http)%nat /\
    currentState k <> READY_TO_SCAN.
Proof.
  intros Hfuel Hidle.
  destruct (setup_inv (power_on w wifi http pins)) as [Hinv Hrx];
    [reflexivity | apply results_consistent_clear |].
  destruct (loops_paid fuel http (scans_started w) n (setup (power_on w wifi http pins)))
    as (k & Hrun & Hs & Hp & Hst & Hn).
  - unfold enough_fuel in *. rewrite Hrx. exact Hfuel.
  - exact Hinv.
  - apply (setup_paid http (power_on w wifi http pins)); auto.
  - exists k. auto.
Qed.

Lemma scans_follow_payments_witness :
  exists k,
    loops 447 (3 * 100) (setup customer_kiosk) = Some k /\
    (scans_started (world k) + scan_pending k =
     0 + confirmed_payments (http_log k) customer_http)%nat.
Proof.
  destruct (scans_follow_payments 447 (3 * 100) one_code_world (repeat true 8)
              customer_http [])
    as (k & Hrun & Hn & _).
  - vm_compute. lia.
  - constructor.
  - exists k. split; [exact Hrun | exact Hn].
Defined.

(** The customer of [customer_kiosk] has paid once and got one scan. *)
Example customer_one_scan :
  option_map (fun k => (scans_started (world k), confirmed_payments (http_log k) customer_http))
             (loops 447 (3 * 100) (setup customer_kiosk))
  = Some (1%nat, 1%nat).
Proof. vm_compute. reflexivity. Qed.

(** With somebody at the button the count can fail: without WiFi, a first
    press puts the kiosk in its offline test mode and a second one starts a
    scan, with no request made at all. *)
Example offline_scan_unpaid :
  option_map (fun k => (currentState k, transactionId k, scans_started (world k), http_log k))
             (loops 447 15 (setup offline_kiosk))
  = Some (DISPLAY_RESULTS, "OFFLINE_10150"%string, 1%nat, []).
Proof. vm_compute. reflexivity. Qed.
